(** * OpenFlow reference switch: flow matching, header extraction, action
      execution, checksum fix-up, packet buffering and control dispatch.

    The development embeds the two datapaths of the repository side by side,
    one module per source file and datapath:
    - the in-kernel datapath: [Kernel_flow] and [Kernel_extract]
      ([datapath/flow.c]), [Kernel_actions], [Kernel_buffers],
      [Kernel_control] and [Kernel_dp] ([datapath/forward.c],
      [datapath/table-hash.c]);
    - the user-space switch: [Switch_flow] ([switch/switch-flow.c]),
      [Lib_flow] ([lib/flow.c]), [Switch_actions], [Switch_buffers],
      [Switch_dp] and [Switch_control] ([switch/datapath.c],
      [switch/chain.c]).
    The definitions come first, the properties after them.

    Conventions.  A C integer of width [w] is a [Z] in [[0, 2^w)]; wrap-around
    is written out with [u8], [u16], [u32].  A field kept in network byte
    order is represented by the number it denotes on the wire, so [ntohs],
    [htons], [ntohl] and [htonl] are the identity on the model; where the C
    code works on the raw machine word instead, the model says so with
    [raw16] and [raw32].  A C truth value is a [bool]. *)

From Stdlib Require Import ZArith List Bool Lia.
From stdpp Require Import base list numbers.
Import ListNotations.
Local Open Scope Z_scope.

(** ** Machine integers *)

Definition u8  (x : Z) : Z := x mod 2^8.
Definition u16 (x : Z) : Z := x mod 2^16.
Definition u32 (x : Z) : Z := x mod 2^32.

(** [~x] at width 16 and 32. *)
Definition not16 (x : Z) : Z := Z.lxor (u16 x) 0xffff.
Definition not32 (x : Z) : Z := Z.lxor (u32 x) 0xffffffff.

(** [x & m] as a C condition. *)
Definition tst (x m : Z) : bool := negb (Z.land x m =? 0).

Definition UINT32_MAX : Z := 0xffffffff.

(** ** Constants of [openflow.h]

    The protocol header is not among the sources; the functions below take
    its constants as parameters. *)

Class openflow_h := {
  OFP_VERSION : Z;
  (* enum ofp_type *)
  OFPT_HELLO : Z;
  OFPT_ERROR : Z;
  OFPT_ECHO_REQUEST : Z;
  OFPT_ECHO_REPLY : Z;
  OFPT_VENDOR : Z;
  OFPT_FEATURES_REQUEST : Z;
  OFPT_GET_CONFIG_REQUEST : Z;
  OFPT_SET_CONFIG : Z;
  OFPT_PACKET_IN : Z;
  OFPT_PACKET_OUT : Z;
  OFPT_FLOW_MOD : Z;
  OFPT_PORT_MOD : Z;
  OFPT_FLOW_STAT_REQUEST : Z;
  OFPT_PORT_STAT_REQUEST : Z;
  OFPT_TABLE_STAT_REQUEST : Z;
  (* enum ofp_action_type *)
  OFPAT_OUTPUT : Z;
  OFPAT_SET_DL_VLAN : Z;
  OFPAT_SET_DL_SRC : Z;
  OFPAT_SET_DL_DST : Z;
  OFPAT_SET_NW_SRC : Z;
  OFPAT_SET_NW_DST : Z;
  OFPAT_SET_TP_SRC : Z;
  OFPAT_SET_TP_DST : Z;
  (* enum ofp_flow_wildcards *)
  OFPFW_IN_PORT : Z;
  OFPFW_DL_VLAN : Z;
  OFPFW_DL_SRC : Z;
  OFPFW_DL_DST : Z;
  OFPFW_DL_TYPE : Z;
  OFPFW_NW_PROTO : Z;
  OFPFW_TP_SRC : Z;
  OFPFW_TP_DST : Z;
  OFPFW_NW_SRC_SHIFT : Z;
  OFPFW_NW_SRC_BITS : Z;
  OFPFW_NW_SRC_MASK : Z;
  OFPFW_NW_DST_SHIFT : Z;
  OFPFW_NW_DST_MASK : Z;
  OFPFW_ALL : Z;
  (* enum ofp_port *)
  OFPP_TABLE : Z;
  OFPP_CONTROLLER : Z;
  OFPP_NONE : Z;
  (* flow expiry *)
  OFP_CHELLO_SEND_FLOW_EXP : Z;
  OFP_FLOW_PERMANENT : Z;
  OFPER_IDLE_TIMEOUT : Z;
  OFPER_HARD_TIMEOUT : Z;
  (* enum ofp_reason, error types and codes *)
  OFPR_NO_MATCH : Z;
  OFPR_ACTION : Z;
  OFPET_BAD_REQUEST : Z;
  OFPBRC_BAD_VERSION : Z;
  OFPBRC_BAD_TYPE : Z;
  (* data-link sentinels *)
  OFP_DL_TYPE_ETH2_CUTOFF : Z;
  OFP_DL_TYPE_NOT_ETH_TYPE : Z;
  OFP_VLAN_NONE : Z;
  (* structure sizes: sizeof (struct ofp_header), offsetof (struct
     ofp_packet_in, data) and the minimum sizes of the dispatch tables *)
  sizeof_ofp_header : Z;
  offsetof_ofp_packet_in_data : Z;
  sizeof_ofp_switch_config : Z;
  sizeof_ofp_packet_out : Z;
  sizeof_ofp_flow_mod : Z;
  sizeof_ofp_port_mod : Z;
  sizeof_ofp_flow_stat_request : Z;
  sizeof_ofp_port_stat_request : Z;
  sizeof_ofp_table_stat_request : Z
}.

(** Constants of the C library and of the Linux and packet headers. *)
Definition EINVAL : Z := 22.
Definition ENOMEM : Z := 12.
Definition ESRCH : Z := 3.
Definition EFAULT : Z := 14.
Definition ENOSYS : Z := 38.
Definition ENOBUFS : Z := 105.
Definition E2BIG : Z := 7.

Definition ETH_P_IP : Z := 0x0800.
Definition ETH_P_8021Q : Z := 0x8100.
Definition ETH_TYPE_ARP : Z := 0x0806.
Definition IPPROTO_TCP : Z := 6.
Definition IPPROTO_UDP : Z := 17.
Definition IP_MF : Z := 0x2000.
Definition IP_OFFSET : Z := 0x1fff.
Definition VLAN_VID_MASK : Z := 0x0fff.

(** ** The flow key *)

(** [struct flow] of the user-space library / the field part of the
    kernel's [struct sw_flow_key].  Ethernet addresses are 48-bit numbers. *)
Record flow := {
  nw_src : Z;
  nw_dst : Z;
  in_port : Z;
  dl_vlan : Z;
  dl_type : Z;
  tp_src : Z;
  tp_dst : Z;
  dl_src : Z;
  dl_dst : Z;
  nw_proto : Z;
  reserved : Z
}.

Record sw_flow_key := {
  key_flow : flow;
  wildcards : Z;
  nw_src_mask : Z;
  nw_dst_mask : Z
}.

Definition flow_zero : flow :=
  {| nw_src := 0; nw_dst := 0; in_port := 0; dl_vlan := 0; dl_type := 0;
     tp_src := 0; tp_dst := 0; dl_src := 0; dl_dst := 0; nw_proto := 0;
     reserved := 0 |}.

(** ** Flow matching *)

Module Kernel_flow.
Section Match.
Context `{openflow_h}.

(* datapath/flow.c: flow_fields_match, [w] is a uint32_t *)
Definition flow_fields_match (a b : flow) (w src_mask dst_mask : Z) : bool :=
  (tst w OFPFW_IN_PORT || (in_port a =? in_port b))
  && (tst w OFPFW_DL_VLAN || (dl_vlan a =? dl_vlan b))
  && (tst w OFPFW_DL_SRC || (dl_src a =? dl_src b))
  && (tst w OFPFW_DL_DST || (dl_dst a =? dl_dst b))
  && (tst w OFPFW_DL_TYPE || (dl_type a =? dl_type b))
  && negb (tst (Z.lxor (nw_src a) (nw_src b)) src_mask)
  && negb (tst (Z.lxor (nw_dst a) (nw_dst b)) dst_mask)
  && (tst w OFPFW_NW_PROTO || (nw_proto a =? nw_proto b))
  && (tst w OFPFW_TP_SRC || (tp_src a =? tp_src b))
  && (tst w OFPFW_TP_DST || (tp_dst a =? tp_dst b)).

Definition flow_matches_1wild (a b : sw_flow_key) : bool :=
  flow_fields_match (key_flow a) (key_flow b) (wildcards b)
    (nw_src_mask b) (nw_dst_mask b).

Definition flow_matches_2wild (a b : sw_flow_key) : bool :=
  flow_fields_match (key_flow a) (key_flow b)
    (Z.lor (wildcards a) (wildcards b))
    (Z.land (nw_src_mask a) (nw_src_mask b))
    (Z.land (nw_dst_mask a) (nw_dst_mask b)).

Definition flow_del_matches (t d : sw_flow_key) (strict : bool) : bool :=
  if strict && negb (wildcards d =? wildcards t) then false
  else flow_matches_1wild t d.

End Match.
End Kernel_flow.

Module Switch_flow.
Section Match.
Context `{openflow_h}.

(* switch/switch-flow.c: flow_fields_match, whose [w] is a uint16_t: the
   caller's 32-bit wildcard word is truncated on entry. *)
Definition flow_fields_match (a b : flow) (w src_mask dst_mask : Z) : bool :=
  let w := u16 w in
  (tst w OFPFW_IN_PORT || (in_port a =? in_port b))
  && (tst w OFPFW_DL_VLAN || (dl_vlan a =? dl_vlan b))
  && (tst w OFPFW_DL_SRC || (dl_src a =? dl_src b))
  && (tst w OFPFW_DL_DST || (dl_dst a =? dl_dst b))
  && (tst w OFPFW_DL_TYPE || (dl_type a =? dl_type b))
  && negb (tst (Z.lxor (nw_src a) (nw_src b)) src_mask)
  && negb (tst (Z.lxor (nw_dst a) (nw_dst b)) dst_mask)
  && (tst w OFPFW_NW_PROTO || (nw_proto a =? nw_proto b))
  && (tst w OFPFW_TP_SRC || (tp_src a =? tp_src b))
  && (tst w OFPFW_TP_DST || (tp_dst a =? tp_dst b)).

Definition flow_matches_1wild (a b : sw_flow_key) : bool :=
  flow_fields_match (key_flow a) (key_flow b) (wildcards b)
    (nw_src_mask b) (nw_dst_mask b).

Definition flow_matches_2wild (a b : sw_flow_key) : bool :=
  flow_fields_match (key_flow a) (key_flow b)
    (Z.lor (wildcards a) (wildcards b))
    (Z.land (nw_src_mask a) (nw_src_mask b))
    (Z.land (nw_dst_mask a) (nw_dst_mask b)).

End Match.
End Switch_flow.

(** ** Packet bytes

    A packet is the list of its bytes, first byte first.  A read past the end
    of the data (which the C code never guards against inside a header it has
    already located) yields zero in the model. *)

Definition bytes := list Z.

Definition byte_at (bs : bytes) (off : Z) : Z :=
  if off <? 0 then 0 else nth (Z.to_nat off) bs 0.

(** Multi-byte fields, as the number they denote on the wire. *)
Definition get16 (bs : bytes) (off : Z) : Z :=
  byte_at bs off * 2^8 + byte_at bs (off + 1).

Definition get32 (bs : bytes) (off : Z) : Z :=
  get16 bs off * 2^16 + get16 bs (off + 2).

Definition get48 (bs : bytes) (off : Z) : Z :=
  get16 bs off * 2^32 + get32 bs (off + 2).

Definition put8 (bs : bytes) (off v : Z) : bytes :=
  if off <? 0 then bs else <[Z.to_nat off := u8 v]> bs.

Definition put16 (bs : bytes) (off v : Z) : bytes :=
  put8 (put8 bs off (Z.shiftr v 8)) (off + 1) v.

Definition put32 (bs : bytes) (off v : Z) : bytes :=
  put16 (put16 bs off (Z.shiftr v 16)) (off + 2) v.

Definition put48 (bs : bytes) (off v : Z) : bytes :=
  put32 (put16 bs off (Z.shiftr v 32)) (off + 2) v.

Definition buf_len (bs : bytes) : Z := Z.of_nat (length bs).

(** Host view of a network-order field.  The checksum code works on the raw
    machine words "without htons() or ntohs()"; [host_le] tells whether the
    host is little-endian, in which case the raw word is the byte swap of the
    wire value. *)
Definition bswap16 (x : Z) : Z := (x mod 2^8) * 2^8 + (x / 2^8) mod 2^8.
Definition bswap32 (x : Z) : Z :=
  bswap16 (x mod 2^16) * 2^16 + bswap16 ((x / 2^16) mod 2^16).
Definition raw16 (host_le : bool) (x : Z) : Z := if host_le then bswap16 x else x.
Definition raw32 (host_le : bool) (x : Z) : Z := if host_le then bswap32 x else x.

(** ** Incremental checksum update (switch/datapath.c) *)

Definition recalc_csum16 (old_csum old_u16 new_u16 : Z) : Z :=
  let hc_complement := not16 old_csum in
  let m_complement := not16 old_u16 in
  let m_prime := u16 new_u16 in
  let sum := u32 (hc_complement + m_complement + m_prime) in
  let hc_prime_complement := u16 (sum + Z.shiftr sum 16) in
  not16 hc_prime_complement.

Definition recalc_csum32 (old_csum old_u32 new_u32 : Z) : Z :=
  recalc_csum16 (recalc_csum16 old_csum old_u32 new_u32)
                (Z.shiftr old_u32 16) (Z.shiftr new_u32 16).

(** Modelled from the spec: the checksum "recomputed from scratch" that the
    incremental update is compared with.  No checksum routine is among the
    sources; this is the Internet checksum of RFC 1071, the one's-complement
    sum of the 16-bit words with end-around carry, complemented. *)
Definition onec_add (a b : Z) : Z :=
  let s := a + b in s mod 2^16 + s / 2^16.

Definition onec_sum (ws : list Z) : Z := fold_left onec_add ws 0.

Definition recompute_csum (ws : list Z) : Z := not16 (onec_sum ws).

(** The 16-bit words of [n] bytes starting at [off], as wire values. *)
Fixpoint words_from (bs : bytes) (off : Z) (n : nat) : list Z :=
  match n with
  | O => []
  | S n' => get16 bs off :: words_from bs (off + 2) n'
  end.

(** ** Header extraction *)

(** Layout constants of the packet headers ([packets.h] and the Linux
    headers are not among the sources; these are the sizes and tags of the
    standard Ethernet, LLC/SNAP, 802.1Q, IPv4, TCP, UDP and ARP headers). *)
Definition ETH_HEADER_LEN : Z := 14.
Definition LLC_HEADER_LEN : Z := 3.
Definition LLC_SNAP_HEADER_LEN : Z := 8.
Definition VLAN_HEADER_LEN : Z := 4.
Definition IP_HEADER_LEN : Z := 20.
Definition TCP_HEADER_LEN : Z := 20.
Definition UDP_HEADER_LEN : Z := 8.
Definition ARP_ETH_HEADER_LEN : Z := 28.
Definition LLC_DSAP_SNAP : Z := 0xaa.
Definition LLC_SSAP_SNAP : Z := 0xaa.
Definition LLC_CNTL_SNAP : Z := 3.
Definition ARP_HRD_ETHERNET : Z := 1.
Definition ARP_PRO_IP : Z := 0x0800.
Definition ETH_ADDR_LEN : Z := 6.

(** The frame's LLC/SNAP header at [off] is a SNAP header of the Ethernet
    organisation (OUI 00:00:00). *)
Definition is_snap (bs : bytes) (off : Z) : bool :=
  (byte_at bs off =? LLC_DSAP_SNAP) && (byte_at bs (off + 1) =? LLC_SSAP_SNAP)
  && (byte_at bs (off + 2) =? LLC_CNTL_SNAP)
  && (byte_at bs (off + 3) =? 0) && (byte_at bs (off + 4) =? 0)
  && (byte_at bs (off + 5) =? 0).

Definition set_dl_type (f : flow) (v : Z) : flow :=
  {| nw_src := nw_src f; nw_dst := nw_dst f; in_port := in_port f;
     dl_vlan := dl_vlan f; dl_type := v; tp_src := tp_src f;
     tp_dst := tp_dst f; dl_src := dl_src f; dl_dst := dl_dst f;
     nw_proto := nw_proto f; reserved := reserved f |}.

Definition set_dl_vlan (f : flow) (v : Z) : flow :=
  {| nw_src := nw_src f; nw_dst := nw_dst f; in_port := in_port f;
     dl_vlan := v; dl_type := dl_type f; tp_src := tp_src f;
     tp_dst := tp_dst f; dl_src := dl_src f; dl_dst := dl_dst f;
     nw_proto := nw_proto f; reserved := reserved f |}.

Definition set_dl_addrs (f : flow) (src dst : Z) : flow :=
  {| nw_src := nw_src f; nw_dst := nw_dst f; in_port := in_port f;
     dl_vlan := dl_vlan f; dl_type := dl_type f; tp_src := tp_src f;
     tp_dst := tp_dst f; dl_src := src; dl_dst := dst;
     nw_proto := nw_proto f; reserved := reserved f |}.

Definition set_nw (f : flow) (src dst : Z) : flow :=
  {| nw_src := src; nw_dst := dst; in_port := in_port f;
     dl_vlan := dl_vlan f; dl_type := dl_type f; tp_src := tp_src f;
     tp_dst := tp_dst f; dl_src := dl_src f; dl_dst := dl_dst f;
     nw_proto := nw_proto f; reserved := reserved f |}.

Definition set_nw_proto (f : flow) (p : Z) : flow :=
  {| nw_src := nw_src f; nw_dst := nw_dst f; in_port := in_port f;
     dl_vlan := dl_vlan f; dl_type := dl_type f; tp_src := tp_src f;
     tp_dst := tp_dst f; dl_src := dl_src f; dl_dst := dl_dst f;
     nw_proto := p; reserved := reserved f |}.

Definition set_tp (f : flow) (src dst : Z) : flow :=
  {| nw_src := nw_src f; nw_dst := nw_dst f; in_port := in_port f;
     dl_vlan := dl_vlan f; dl_type := dl_type f; tp_src := src;
     tp_dst := dst; dl_src := dl_src f; dl_dst := dl_dst f;
     nw_proto := nw_proto f; reserved := reserved f |}.

(** [struct buffer] of the user-space library, reduced to the bytes in use
    ([data], [size] is their number) and the three layer cursors, kept as
    offsets from the first byte in use ([None] is the null pointer). *)
Record buffer := {
  data : bytes;
  l2 : option Z;
  l3 : option Z;
  l4 : option Z
}.

(* lib/buffer.c: buffer_at on a buffer whose first [pulled] bytes were
   removed by buffer_pull; the result is an offset into the original data. *)
Definition buffer_at (bs : bytes) (pulled offset sz : Z) : option Z :=
  if offset + sz <=? buf_len bs - pulled then Some (pulled + offset) else None.

Module Lib_flow.
Section Extract.
Context `{openflow_h}.
Variable host_le : bool.

(* lib/flow.c: the IPv4 and ARP part of flow_extract; [b] is the offset of
   the local cursor [b.data]. *)
Definition extract_l3 (bs : bytes) (b : Z) (fl : flow) : flow * option Z :=
  if dl_type fl =? ETH_P_IP then
    match buffer_at bs b 0 IP_HEADER_LEN with
    | Some nh =>
        let fl := set_nw_proto (set_nw fl (get32 bs (nh + 12)) (get32 bs (nh + 16)))
                               (byte_at bs (nh + 9)) in
        let l4 := Some (b + IP_HEADER_LEN) in
        if (nw_proto fl =? IPPROTO_TCP) || (nw_proto fl =? IPPROTO_UDP) then
          let udp_ofs := Z.land (byte_at bs nh) 15 * 4 in
          match buffer_at bs b udp_ofs UDP_HEADER_LEN with
          | Some th => (set_tp fl (get16 bs th) (get16 bs (th + 2)), l4)
          | None => (fl, l4)
          end
        else (fl, l4)
    | None => (fl, None)
    end
  else if dl_type fl =? ETH_TYPE_ARP then
    match buffer_at bs b 0 ARP_ETH_HEADER_LEN with
    | Some ah =>
        if (get16 bs ah =? ARP_HRD_ETHERNET) && (get16 bs (ah + 2) =? ARP_PRO_IP)
           && (byte_at bs (ah + 4) =? ETH_ADDR_LEN) && (byte_at bs (ah + 5) =? 4)
        then (set_nw fl (get32 bs (ah + 14)) (get32 bs (ah + 24)), None)
        else (fl, None)
    | None => (fl, None)
    end
  else (fl, None).

(* lib/flow.c: flow_extract.  The result is the flow and the packet with its
   cursors set; [None] stands for the run that dereferences the null pointer
   returned by buffer_at for a VLAN header that is not there. *)
Definition flow_extract (packet : buffer) (in_port : Z) : option (flow * buffer) :=
  let bs := data packet in
  let fl := {| nw_src := 0; nw_dst := 0; in_port := u16 in_port; dl_vlan := 0;
               dl_type := 0; tp_src := 0; tp_dst := 0; dl_src := 0; dl_dst := 0;
               nw_proto := 0; reserved := 0 |} in
  let pk l3 l4 := {| data := bs; l2 := Some 0; l3 := l3; l4 := l4 |} in
  match buffer_at bs 0 0 ETH_HEADER_LEN with
  | None => Some (fl, pk None None)
  | Some eth =>
      let b := ETH_HEADER_LEN in
      let after_llc : option (flow * Z) :=
        if OFP_DL_TYPE_ETH2_CUTOFF <=? get16 bs (eth + 12) then
          Some (set_dl_type fl (get16 bs (eth + 12)), b)
        else
          match buffer_at bs b 0 LLC_SNAP_HEADER_LEN with
          | None => None
          | Some h =>
              if is_snap bs h
              then Some (set_dl_type fl (get16 bs (h + 6)), b + LLC_SNAP_HEADER_LEN)
              else Some (set_dl_type fl (raw16 host_le OFP_DL_TYPE_NOT_ETH_TYPE),
                         b + LLC_HEADER_LEN)
          end in
      match after_llc with
      | None => Some (fl, pk None None)
      | Some (fl, b) =>
          let after_vlan : option (flow * Z) :=
            if negb (dl_type fl =? ETH_P_8021Q) then
              Some (set_dl_vlan fl OFP_VLAN_NONE, b)
            else
              match buffer_at bs b 0 VLAN_HEADER_LEN with
              | None => None
              | Some vh =>
                  Some (set_dl_vlan (set_dl_type fl (get16 bs (vh + 2)))
                                    (Z.land (get16 bs vh) VLAN_VID_MASK),
                        b + VLAN_HEADER_LEN)
              end in
          match after_vlan with
          | None => None
          | Some (fl, b) =>
              let fl := set_dl_addrs fl (get48 bs (eth + 6)) (get48 bs eth) in
              let '(fl, l4) := extract_l3 bs b fl in
              Some (fl, pk (Some b) l4)
          end
      end
  end.

End Extract.
End Lib_flow.

Module Kernel_extract.
Section Extract.
Context `{openflow_h}.

(** Modelled from the spec: [snap_get_ethertype] of [snap.h], which is not
    among the sources: "a SNAP header with OUI 00:00:00 exposes the
    encapsulated EtherType"; any other LLC header is refused. *)
Definition snap_get_ethertype (bs : bytes) : option Z :=
  if is_snap bs ETH_HEADER_LEN then Some (get16 bs (ETH_HEADER_LEN + 6)) else None.

(* datapath/flow.c: tcphdr_ok and udphdr_ok; the frame starts at the MAC
   header, so skb_transport_offset is [th_ofs] and skb->len the frame length. *)
Definition tcphdr_ok (bs : bytes) (th_ofs : Z) : bool :=
  if th_ofs + TCP_HEADER_LEN <=? buf_len bs then
    let tcp_len := Z.shiftr (byte_at bs (th_ofs + 12)) 4 * 4 in
    (TCP_HEADER_LEN <=? tcp_len) && (th_ofs + tcp_len <=? buf_len bs)
  else false.

Definition udphdr_ok (bs : bytes) (th_ofs : Z) : bool :=
  th_ofs + UDP_HEADER_LEN <=? buf_len bs.

(** What the Ethernet, LLC/SNAP and 802.1Q part of flow_extract finds: the
    key so far and the offset [nh_ofs] of the network header. *)
Definition extract_l2 (bs : bytes) (in_port : Z) : flow * Z :=
  let fl := {| nw_src := 0; nw_dst := 0; in_port := u16 in_port; dl_vlan := 0;
               dl_type := 0; tp_src := 0; tp_dst := 0; dl_src := 0; dl_dst := 0;
               nw_proto := 0; reserved := 0 |} in
  let nh_ofs := ETH_HEADER_LEN in
  let '(fl, nh_ofs) :=
    if OFP_DL_TYPE_ETH2_CUTOFF <=? get16 bs 12 then
      (set_dl_type fl (get16 bs 12), nh_ofs)
    else
      match snap_get_ethertype bs with
      | Some t => (set_dl_type fl t, nh_ofs + LLC_SNAP_HEADER_LEN)
      | None => (set_dl_type fl OFP_DL_TYPE_NOT_ETH_TYPE, nh_ofs + LLC_HEADER_LEN)
      end in
  let '(fl, nh_ofs) :=
    if negb (dl_type fl =? ETH_P_8021Q) then (set_dl_vlan fl OFP_VLAN_NONE, nh_ofs)
    else (set_dl_vlan (set_dl_type fl (get16 bs (nh_ofs + 2)))
                      (Z.land (get16 bs nh_ofs) VLAN_VID_MASK),
          nh_ofs + VLAN_HEADER_LEN) in
  (set_dl_addrs fl (get48 bs 6) (get48 bs 0), nh_ofs).

(* datapath/flow.c: flow_extract.  Returns the return value (1 for an IP
   fragment) and the key, whose wildcards and masks are zero. *)
Definition flow_extract (bs : bytes) (in_port : Z) : Z * sw_flow_key :=
  let '(fl, nh_ofs) := extract_l2 bs in_port in
  let key fl := {| key_flow := fl; wildcards := 0; nw_src_mask := 0;
                   nw_dst_mask := 0 |} in
  let no_th retval fl := (retval, key (set_tp fl 0 0)) in
  let no_proto retval fl := no_th retval (set_nw_proto fl 0) in
  if dl_type fl =? ETH_P_IP then
    let fl := set_nw_proto (set_nw fl (get32 bs (nh_ofs + 12)) (get32 bs (nh_ofs + 16)))
                           (byte_at bs (nh_ofs + 9)) in
    let th_ofs := nh_ofs + Z.land (byte_at bs nh_ofs) 15 * 4 in
    if negb (tst (get16 bs (nh_ofs + 6)) (Z.lor IP_MF IP_OFFSET)) then
      if nw_proto fl =? IPPROTO_TCP then
        if tcphdr_ok bs th_ofs
        then (0, key (set_tp fl (get16 bs th_ofs) (get16 bs (th_ofs + 2))))
        else no_proto 0 fl
      else if nw_proto fl =? IPPROTO_UDP then
        if udphdr_ok bs th_ofs
        then (0, key (set_tp fl (get16 bs th_ofs) (get16 bs (th_ofs + 2))))
        else no_proto 0 fl
      else no_th 0 fl
    else no_th 1 fl
  else no_proto 0 (set_nw fl 0 0).

End Extract.
End Kernel_extract.

(** ** Actions *)

(** [struct ofp_action]: the type tag and the members of the [arg] union,
    each kept as a field of its own; a function reads only the member that
    belongs to the type it handles. *)
Record ofp_action := {
  a_type : Z;
  output_port : Z;
  output_max_len : Z;
  vlan_id : Z;
  vlan_pcp : Z;
  dl_addr : Z;
  nw_addr : Z;
  tp : Z
}.

Definition with_data (b : buffer) (d : bytes) : buffer :=
  {| data := d; l2 := l2 b; l3 := l3 b; l4 := l4 b |}.

Fixpoint write_bytes (bs : bytes) (off : Z) (src : bytes) : bytes :=
  match src with
  | [] => bs
  | x :: r => write_bytes (put8 bs off x) (off + 1) r
  end.

Definition shift_cursor (c : option Z) (d : Z) : option Z :=
  match c with Some o => Some (o + d) | None => None end.

Module Switch_actions.
Section Actions.
Context `{openflow_h}.
Variable host_le : bool.

(* switch/datapath.c: modify_nh.  [None] is a run through a null cursor. *)
Definition modify_nh (b : buffer) (eth_proto nw_proto : Z) (a : ofp_action)
  : option buffer :=
  if eth_proto =? ETH_P_IP then
    match l3 b with
    | None => None
    | Some nh =>
        let new := nw_addr a in
        let field :=
          if raw16 host_le (a_type a) =? OFPAT_SET_NW_SRC then nh + 12 else nh + 16 in
        let fix_csum (d : bytes) (at_ : Z) : Z :=
          raw16 host_le
            (recalc_csum32 (raw16 host_le (get16 d at_))
                           (raw32 host_le (get32 d field)) (raw32 host_le new)) in
        let after_l4 : option bytes :=
          if nw_proto =? IPPROTO_TCP then
            match l4 b with
            | None => None
            | Some th => Some (put16 (data b) (th + 16) (fix_csum (data b) (th + 16)))
            end
          else if nw_proto =? IPPROTO_UDP then
            match l4 b with
            | None => None
            | Some th =>
                if negb (get16 (data b) (th + 6) =? 0) then
                  let c := fix_csum (data b) (th + 6) in
                  Some (put16 (data b) (th + 6) (if c =? 0 then 0xffff else c))
                else Some (data b)
            end
          else Some (data b) in
        match after_l4 with
        | None => None
        | Some d =>
            let d := put16 d (nh + 10) (fix_csum d (nh + 10)) in
            Some (with_data b (put32 d field new))
        end
    end
  else Some b.

(* switch/datapath.c: modify_th *)
Definition modify_th (b : buffer) (eth_proto nw_proto : Z) (a : ofp_action)
  : option buffer :=
  if eth_proto =? ETH_P_IP then
    let new := tp a in
    let upd (csum_ofs : Z) : option buffer :=
      match l4 b with
      | None => None
      | Some th =>
          let field :=
            if raw16 host_le (a_type a) =? OFPAT_SET_TP_SRC then th else th + 2 in
          let d := data b in
          let c := raw16 host_le
                     (recalc_csum16 (raw16 host_le (get16 d (th + csum_ofs)))
                                    (raw16 host_le (get16 d field))
                                    (raw16 host_le new)) in
          Some (with_data b (put16 (put16 d (th + csum_ofs) c) field new))
      end in
    if nw_proto =? IPPROTO_TCP then upd 16
    else if nw_proto =? IPPROTO_UDP then upd 6
    else Some b
  else Some b.

(* switch/datapath.c: modify_vlan.  The TCI values are wire values: the byte
   swap of [htons] and the one of storing the word cancel, so that the raw
   word [new_id] is what appears on the wire in the modify branch, and its
   swap in the insert branch. *)
Definition modify_vlan (b : buffer) (key : sw_flow_key) (a : ofp_action)
  : option buffer :=
  let new_id := raw16 host_le (vlan_id a) in
  match l2 b with
  | None => None
  | Some o =>
      let d := data b in
      if negb (new_id =? OFP_VLAN_NONE) then
        if negb (dl_vlan (key_flow key) =? OFP_VLAN_NONE) then
          let tci := Z.lor (Z.land (get16 d (o + 14)) (not16 VLAN_VID_MASK)) new_id in
          Some (with_data b (put16 d (o + 14) tci))
        else
          let tmp := put16 (put16 (put16 (put48 (put48 (repeat 0 18) 0 (get48 d o))
                                                6 (get48 d (o + 6)))
                                         12 ETH_P_8021Q)
                                  14 (raw16 host_le new_id))
                           16 (get16 d (o + 12)) in
          Some {| data := write_bytes (repeat 0 4 ++ d) 0 tmp;
                  l2 := Some o;
                  l3 := shift_cursor (l3 b) VLAN_HEADER_LEN;
                  l4 := shift_cursor (l4 b) VLAN_HEADER_LEN |}
      else if get16 d (o + 12) =? ETH_P_8021Q then
        let tmp := put16 (put48 (put48 (repeat 0 14) 0 (get48 d o)) 6 (get48 d (o + 6)))
                         12 (get16 d (o + 16)) in
        Some {| data := write_bytes (skipn 4 d) 0 tmp;
                l2 := Some o;
                l3 := shift_cursor (l3 b) (- VLAN_HEADER_LEN);
                l4 := shift_cursor (l4 b) (- VLAN_HEADER_LEN) |}
      else Some b
  end.

Inductive event :=
| Ev_clone (b : buffer)          (* buffer_clone (b) *)
| Ev_do_output (b : buffer) (in_port max_len out_port : Z) (is_clone : bool)
| Ev_delete (b : buffer)         (* buffer_delete (b) *)
| Ev_abort.                      (* NOT_REACHED (), or a null cursor *)

(* switch/datapath.c: the non-OUTPUT cases of the switch in execute_actions *)
Definition apply_setter (b : buffer) (key : sw_flow_key) (eth_proto : Z)
  (a : ofp_action) : option buffer :=
  if a_type a =? OFPAT_SET_DL_VLAN then modify_vlan b key a
  else if a_type a =? OFPAT_SET_DL_SRC then
    match l2 b with
    | Some eh => Some (with_data b (put48 (data b) (eh + 6) (dl_addr a)))
    | None => None
    end
  else if a_type a =? OFPAT_SET_DL_DST then
    match l2 b with
    | Some eh => Some (with_data b (put48 (data b) eh (dl_addr a)))
    | None => None
    end
  else if (a_type a =? OFPAT_SET_NW_SRC) || (a_type a =? OFPAT_SET_NW_DST) then
    modify_nh b eth_proto (nw_proto (key_flow key)) a
  else if (a_type a =? OFPAT_SET_TP_SRC) || (a_type a =? OFPAT_SET_TP_DST) then
    modify_th b eth_proto (nw_proto (key_flow key)) a
  else None.

(* switch/datapath.c: the loop of execute_actions and what follows it *)
Fixpoint execute_loop (in_port : Z) (key : sw_flow_key) (eth_proto : Z)
  (actions : list ofp_action) (b : buffer) (prev_port max_len : Z) : list event :=
  match actions with
  | [] =>
      if negb (prev_port =? -1)
      then [Ev_do_output b in_port max_len prev_port false]
      else [Ev_delete b]
  | a :: rest =>
      let flush :=
        if negb (prev_port =? -1)
        then [Ev_clone b; Ev_do_output b in_port max_len prev_port true]
        else [] in
      if a_type a =? OFPAT_OUTPUT then
        flush ++ execute_loop in_port key eth_proto rest b
                   (u16 (output_port a)) (u16 (output_max_len a))
      else
        match apply_setter b key eth_proto a with
        | Some b' => flush ++ execute_loop in_port key eth_proto rest b' (-1) max_len
        | None => flush ++ [Ev_abort]
        end
  end.

Definition execute_actions (b : buffer) (in_port : Z) (key : sw_flow_key)
  (actions : list ofp_action) : list event :=
  execute_loop in_port key (dl_type (key_flow key)) actions b (-1) 0.

Definition is_clone_ev (e : event) : bool :=
  match e with Ev_clone _ => true | _ => false end.

Definition is_output_ev (e : event) : bool :=
  match e with Ev_do_output _ _ _ _ _ => true | _ => false end.

Definition is_abort_ev (e : event) : bool :=
  match e with Ev_abort => true | _ => false end.

Definition clones (tr : list event) : nat := length (List.filter is_clone_ev tr).
Definition outputs (tr : list event) : nat := length (List.filter is_output_ev tr).
Definition aborted (tr : list event) : bool := existsb is_abort_ev tr.

End Actions.
End Switch_actions.

(** An action is an OUTPUT action. *)
Definition is_output `{openflow_h} (a : ofp_action) : bool :=
  a_type a =? OFPAT_OUTPUT.

(** The number of OUTPUT actions of a list that are followed by another
    action. *)
Fixpoint outputs_followed `{openflow_h} (actions : list ofp_action) : nat :=
  match actions with
  | [] => 0%nat
  | a :: rest =>
      ((if is_output a then match rest with [] => 0 | _ => 1 end else 0)
       + outputs_followed rest)%nat
  end.

Module Kernel_actions.
Section Actions.
Context `{openflow_h}.

(** The socket-buffer operations of the Linux kernel that the interpreter
    calls are outside the repository; the interpreter is modelled for any
    behaviour of theirs.  [skb_clone] returns [None] for a null pointer,
    [make_writable] returns [None] when it reports failure, and
    [execute_setter] returns the buffer it hands back ([None] when it lost
    it) and the key it may have updated. *)
Variable sk_buff : Type.
Variable skb_clone : sk_buff -> option sk_buff.
Variable make_writable : sk_buff -> option sk_buff.
Variable execute_setter :
  sk_buff -> Z -> sw_flow_key -> ofp_action -> option sk_buff * sw_flow_key.

Inductive event :=
| Kev_clone (skb : sk_buff)                (* skb_clone (skb, GFP_ATOMIC) *)
| Kev_do_output (skb : option sk_buff) (max_len out_port : Z)
                (ignore_no_fwd is_clone : bool)
| Kev_kfree (skb : sk_buff).               (* kfree_skb (skb) *)

(* datapath/forward.c: the two statements after the loop of execute_actions *)
Definition finish (skb : sk_buff) (prev_port max_len : Z) (ignore_no_fwd : bool)
  : list event :=
  if negb (prev_port =? -1)
  then [Kev_do_output (Some skb) max_len prev_port ignore_no_fwd false]
  else [Kev_kfree skb].

(* datapath/forward.c: the loop of execute_actions *)
Fixpoint execute_loop (eth_proto : Z) (ignore_no_fwd : bool) (key : sw_flow_key)
  (actions : list ofp_action) (skb : sk_buff) (prev_port max_len : Z) : list event :=
  match actions with
  | [] => finish skb prev_port max_len ignore_no_fwd
  | a :: rest =>
      let flush :=
        if negb (prev_port =? -1)
        then [Kev_clone skb;
              Kev_do_output (skb_clone skb) max_len prev_port ignore_no_fwd true]
        else [] in
      if a_type a =? OFPAT_OUTPUT then
        flush ++ execute_loop eth_proto ignore_no_fwd key rest skb
                   (u16 (output_port a)) (u16 (output_max_len a))
      else
        match make_writable skb with
        | None => flush ++ finish skb (-1) max_len ignore_no_fwd
        | Some skb =>
            match execute_setter skb eth_proto key a with
            | (None, _) => flush
            | (Some skb, key) =>
                flush ++ execute_loop eth_proto ignore_no_fwd key rest skb (-1) max_len
            end
        end
  end.

Definition execute_actions (skb : sk_buff) (key : sw_flow_key)
  (actions : list ofp_action) (ignore_no_fwd : bool) : list event :=
  execute_loop (dl_type (key_flow key)) ignore_no_fwd key actions skb (-1) 0.

Definition is_clone_ev (e : event) : bool :=
  match e with Kev_clone _ => true | _ => false end.

Definition is_output_ev (e : event) : bool :=
  match e with Kev_do_output _ _ _ _ _ => true | _ => false end.

Definition clones (tr : list event) : nat := length (List.filter is_clone_ev tr).
Definition outputs (tr : list event) : nat := length (List.filter is_output_ev tr).

End Actions.
End Kernel_actions.

(** ** The packet buffer cache *)

Definition PKT_BUFFER_BITS : Z := 8.
Definition N_PKT_BUFFERS : Z := Z.shiftl 1 PKT_BUFFER_BITS.
Definition PKT_BUFFER_MASK : Z := N_PKT_BUFFERS - 1.
Definition PKT_COOKIE_BITS : Z := 32 - PKT_BUFFER_BITS.
Definition OVERWRITE_SECS : Z := 1.

Module Switch_buffers.

(* switch/datapath.c: struct packet_buffer *)
Record packet_buffer := {
  pb_buffer : option buffer;
  cookie : Z;
  timeout : Z
}.

(** The static array [buffers] and the static [buffer_idx]. *)
Record buffer_cache := {
  buffers : list packet_buffer;
  buffer_idx : Z
}.

Definition empty_slot : packet_buffer :=
  {| pb_buffer := None; cookie := 0; timeout := 0 |}.

(** The cache of a freshly started switch (zero-initialised statics). *)
Definition initial_cache : buffer_cache :=
  {| buffers := repeat empty_slot (Z.to_nat N_PKT_BUFFERS); buffer_idx := 0 |}.

Definition slot (c : buffer_cache) (i : Z) : packet_buffer :=
  default empty_slot (buffers c !! Z.to_nat i).

Definition set_slot (c : buffer_cache) (i : Z) (p : packet_buffer) (idx : Z)
  : buffer_cache :=
  {| buffers := <[Z.to_nat i := p]> (buffers c); buffer_idx := idx |}.

(* switch/datapath.c: save_buffer; [now] is time (0).  The stored packet is
   buffer_clone (buffer), a copy with the same contents. *)
Definition save_buffer (now : Z) (c : buffer_cache) (b : buffer)
  : Z * buffer_cache :=
  let idx := Z.land (u32 (buffer_idx c + 1)) PKT_BUFFER_MASK in
  let p := slot c idx in
  let full :=
    match pb_buffer p with
    | Some _ => now <? timeout p
    | None => false
    end in
  if full then (u32 (-1), set_slot c idx p idx)
  else
    let ck := u32 (cookie p + 1) in
    let ck := if Z.shiftl 1 PKT_COOKIE_BITS - 1 <=? ck then 0 else ck in
    let id := u32 (Z.lor idx (Z.shiftl ck PKT_BUFFER_BITS)) in
    (id, set_slot c idx
           {| pb_buffer := Some b; cookie := ck; timeout := now + OVERWRITE_SECS |}
           idx).

(* switch/datapath.c: retrieve_buffer *)
Definition retrieve_buffer (c : buffer_cache) (id : Z)
  : option buffer * buffer_cache :=
  let i := Z.land id PKT_BUFFER_MASK in
  let p := slot c i in
  if cookie p =? Z.shiftr id PKT_BUFFER_BITS then
    (pb_buffer p,
     set_slot c i {| pb_buffer := None; cookie := cookie p; timeout := timeout p |}
              (buffer_idx c))
  else (None, c).

(* switch/datapath.c: discard_buffer *)
Definition discard_buffer (c : buffer_cache) (id : Z) : buffer_cache :=
  let i := Z.land id PKT_BUFFER_MASK in
  let p := slot c i in
  if cookie p =? Z.shiftr id PKT_BUFFER_BITS then
    set_slot c i {| pb_buffer := None; cookie := cookie p; timeout := timeout p |}
             (buffer_idx c)
  else c.

End Switch_buffers.

Module Kernel_buffers.
Section Buffers.
Variable sk_buff : Type.

(** Width of [unsigned long], and [time_before] of [linux/jiffies.h]: the
    signed difference of two wrapping tick counts is negative. *)
Variable BITS_PER_LONG : Z.
Variable HZ : Z.

Definition ulong (x : Z) : Z := x mod 2 ^ BITS_PER_LONG.
Definition time_before (a b : Z) : bool :=
  2 ^ (BITS_PER_LONG - 1) <=? ulong (a - b).

Definition OVERWRITE_JIFFIES : Z := OVERWRITE_SECS * HZ.

(* datapath/forward.c: struct packet_buffer *)
Record packet_buffer := {
  skb : option sk_buff;
  cookie : Z;
  exp_jiffies : Z
}.

Record buffer_cache := {
  buffers : list packet_buffer;
  buffer_idx : Z
}.

Definition empty_slot : packet_buffer :=
  {| skb := None; cookie := 0; exp_jiffies := 0 |}.

Definition initial_cache : buffer_cache :=
  {| buffers := repeat empty_slot (Z.to_nat N_PKT_BUFFERS); buffer_idx := 0 |}.

Definition slot (c : buffer_cache) (i : Z) : packet_buffer :=
  default empty_slot (buffers c !! Z.to_nat i).

Definition set_slot (c : buffer_cache) (i : Z) (p : packet_buffer) (idx : Z)
  : buffer_cache :=
  {| buffers := <[Z.to_nat i := p]> (buffers c); buffer_idx := idx |}.

(* datapath/forward.c: fwd_save_skb.  Besides the id and the cache, the
   packet displaced from the slot, which is freed after the lock is dropped. *)
Definition fwd_save_skb (jiffies : Z) (c : buffer_cache) (s : sk_buff)
  : Z * buffer_cache * option sk_buff :=
  let idx := Z.land (u32 (buffer_idx c + 1)) PKT_BUFFER_MASK in
  let p := slot c idx in
  let full :=
    match skb p with
    | Some _ => time_before jiffies (exp_jiffies p)
    | None => false
    end in
  if full then (u32 (-1), set_slot c idx p idx, None)
  else
    let ck := u32 (cookie p + 1) in
    let ck := if Z.shiftl 1 PKT_COOKIE_BITS - 1 <=? ck then 0 else ck in
    let id := u32 (Z.lor idx (Z.shiftl ck PKT_BUFFER_BITS)) in
    (id,
     set_slot c idx
       {| skb := Some s; cookie := ck;
          exp_jiffies := ulong (jiffies + OVERWRITE_JIFFIES) |} idx,
     skb p).

(* datapath/forward.c: retrieve_skb *)
Definition retrieve_skb (c : buffer_cache) (id : Z)
  : option sk_buff * buffer_cache :=
  let i := Z.land id PKT_BUFFER_MASK in
  let p := slot c i in
  if cookie p =? Z.shiftr id PKT_BUFFER_BITS then
    (skb p,
     set_slot c i {| skb := None; cookie := cookie p; exp_jiffies := exp_jiffies p |}
              (buffer_idx c))
  else (None, c).

(* datapath/forward.c: discard_skb *)
Definition discard_skb (c : buffer_cache) (id : Z) : buffer_cache :=
  let i := Z.land id PKT_BUFFER_MASK in
  let p := slot c i in
  if cookie p =? Z.shiftr id PKT_BUFFER_BITS then
    set_slot c i {| skb := None; cookie := cookie p; exp_jiffies := exp_jiffies p |}
             (buffer_idx c)
  else c.

(* datapath/forward.c: fwd_discard_all, [n] slots from slot [i] on; the cache
   and the arguments of the calls of kfree_skb, in order *)
Fixpoint discard_slots (n : nat) (i : Z) (c : buffer_cache)
  : buffer_cache * list (option sk_buff) :=
  match n with
  | O => (c, [])
  | S n' =>
      let p := slot c i in
      let c' := set_slot c i {| skb := None; cookie := cookie p;
                                exp_jiffies := exp_jiffies p |} (buffer_idx c) in
      let '(c'', freed) := discard_slots n' (i + 1) c' in
      (c'', skb p :: freed)
  end.

Definition fwd_discard_all (c : buffer_cache) : buffer_cache * list (option sk_buff) :=
  discard_slots (Z.to_nat N_PKT_BUFFERS) 0 c.

End Buffers.
End Kernel_buffers.

(** ** Flow-mod messages and rule keys *)

(* struct ofp_match *)
Record ofp_match := {
  m_wildcards : Z;
  m_in_port : Z;
  m_dl_src : Z;
  m_dl_dst : Z;
  m_dl_vlan : Z;
  m_dl_type : Z;
  m_nw_src : Z;
  m_nw_dst : Z;
  m_nw_proto : Z;
  m_tp_src : Z;
  m_tp_dst : Z
}.

(** [struct ofp_flow_mod], with the fields of both protocol revisions.  The
    trailing action array is the list [ofm_actions]; its length is the
    [n_actions] that the handlers compute from the header length. *)
Record ofp_flow_mod := {
  ofm_match : ofp_match;
  ofm_command : Z;
  ofm_max_idle : Z;
  ofm_idle_timeout : Z;
  ofm_hard_timeout : Z;
  ofm_priority : Z;
  ofm_buffer_id : Z;
  ofm_group_id : Z;
  ofm_actions : list ofp_action
}.

Section Extract_match.
Context `{openflow_h}.

(* datapath/flow.c and switch/switch-flow.c: make_nw_mask *)
Definition make_nw_mask (n_wild_bits : Z) : Z :=
  let n := Z.land n_wild_bits (Z.shiftl 1 OFPFW_NW_SRC_BITS - 1) in
  if n <? 32 then not32 (Z.shiftl 1 n - 1) else 0.

Definition OFPFW_TP : Z := Z.lor OFPFW_TP_SRC OFPFW_TP_DST.
Definition OFPFW_NW : Z :=
  Z.lor (Z.lor OFPFW_NW_SRC_MASK OFPFW_NW_DST_MASK) OFPFW_NW_PROTO.

(* datapath/flow.c and switch/switch-flow.c: flow_extract_match *)
Definition flow_extract_match (from : ofp_match) : sw_flow_key :=
  let w := Z.land (m_wildcards from) OFPFW_ALL in
  let fl := {| nw_src := 0; nw_dst := 0; in_port := m_in_port from;
               dl_vlan := m_dl_vlan from; dl_type := m_dl_type from;
               tp_src := 0; tp_dst := 0; dl_src := m_dl_src from;
               dl_dst := m_dl_dst from; nw_proto := 0; reserved := 0 |} in
  let '(w, fl) :=
    if tst w OFPFW_DL_TYPE then (Z.lor w (Z.lor OFPFW_NW OFPFW_TP), fl)
    else if m_dl_type from =? ETH_P_IP then
      let fl := set_nw_proto (set_nw fl (m_nw_src from) (m_nw_dst from))
                             (m_nw_proto from) in
      if tst w OFPFW_NW_PROTO then (Z.lor w OFPFW_TP, fl)
      else if (m_nw_proto from =? IPPROTO_TCP) || (m_nw_proto from =? IPPROTO_UDP)
      then (w, set_tp fl (m_tp_src from) (m_tp_dst from))
      else (Z.land w (not32 OFPFW_TP), fl)
    else (Z.land w (not32 (Z.lor OFPFW_NW OFPFW_TP)), fl) in
  {| key_flow := fl; wildcards := w;
     nw_src_mask := make_nw_mask (Z.shiftr w OFPFW_NW_SRC_SHIFT);
     nw_dst_mask := make_nw_mask (Z.shiftr w OFPFW_NW_DST_SHIFT) |}.

End Extract_match.

(* datapath/flow.c and switch/switch-flow.c: flow_fill_match *)
Definition flow_fill_match (from : sw_flow_key) : ofp_match :=
  {| m_wildcards := wildcards from;
     m_in_port := in_port (key_flow from);
     m_dl_src := dl_src (key_flow from);
     m_dl_dst := dl_dst (key_flow from);
     m_dl_vlan := dl_vlan (key_flow from);
     m_dl_type := dl_type (key_flow from);
     m_nw_src := nw_src (key_flow from);
     m_nw_dst := nw_dst (key_flow from);
     m_nw_proto := nw_proto (key_flow from);
     m_tp_src := tp_src (key_flow from);
     m_tp_dst := tp_dst (key_flow from) |}.

(** ** The user-space datapath *)

Module Switch_dp.
Import Switch_buffers Switch_actions.

Definition MAX_ACTIONS : Z := 16.
Definition CHAIN_MAX_TABLES : Z := 4.

(* switch/switch-flow.h: struct sw_flow, with the fields [used] of
   flow_used in switch-flow.c *)
Record sw_flow := {
  key : sw_flow_key;
  group_id : Z;
  max_idle : Z;
  created : Z;
  flow_timeout_at : Z;       (* the field [timeout] *)
  used : Z;
  packet_count : Z;
  byte_count : Z;
  actions : list ofp_action
}.

(* switch/switch-flow.c: flow_used *)
Definition flow_used (now : Z) (f : sw_flow) (b : buffer) : sw_flow :=
  {| key := key f; group_id := group_id f; max_idle := max_idle f;
     created := created f; flow_timeout_at := flow_timeout_at f;
     used := now;
     packet_count := packet_count f + 1;
     byte_count := byte_count f + buf_len (data b);
     actions := actions f |}.

(** The operations of [struct sw_table] (the function pointers of [table.h],
    which is not among the sources, as the chain calls them) on a table state
    [T].  The flow objects are shared between the table and its caller:
    [tbl_lookup] yields the flow found together with the table as a function
    of what the caller leaves in that flow object, and [tbl_insert], when the
    table accepts the flow ([None] when it refuses), the table as a function
    of what the caller leaves in the inserted object.  [tbl_timeout] yields
    the flows it moved to the [deleted] list. *)
Class sw_table (T : Type) := {
  tbl_lookup : T -> sw_flow_key -> option (sw_flow * (sw_flow -> T));
  tbl_insert : T -> sw_flow -> option (sw_flow -> T);
  tbl_delete : T -> sw_flow_key -> bool -> Z * T;
  tbl_timeout : T -> Z -> list sw_flow * T
}.

Section Datapath.
Context `{openflow_h}.
Context {T : Type} `{sw_table T}.
Variable host_le : bool.

(* switch/chain.c: the loop of chain_lookup *)
Fixpoint chain_lookup_tables (chain : list T) (k : sw_flow_key)
  : option (sw_flow * (sw_flow -> list T)) :=
  match chain with
  | [] => None
  | t :: rest =>
      match tbl_lookup t k with
      | Some (f, store) => Some (f, fun f' => store f' :: rest)
      | None =>
          match chain_lookup_tables rest k with
          | Some (f, store) => Some (f, fun f' => t :: store f')
          | None => None
          end
      end
  end.

(* switch/chain.c: chain_lookup.  [None] is the failing assertion
   [assert (!key->wildcards)] that opens the function, [Some None] the null
   pointer it returns when no table has a flow for the key. *)
Definition chain_lookup (chain : list T) (k : sw_flow_key)
  : option (option (sw_flow * (sw_flow -> list T))) :=
  if negb (wildcards k =? 0) then None
  else Some (chain_lookup_tables chain k).

(* switch/chain.c: chain_insert; [None] is -ENOBUFS *)
Fixpoint chain_insert (chain : list T) (f : sw_flow)
  : option (sw_flow -> list T) :=
  match chain with
  | [] => None
  | t :: rest =>
      match tbl_insert t f with
      | Some store => Some (fun f' => store f' :: rest)
      | None =>
          match chain_insert rest f with
          | Some store => Some (fun f' => t :: store f')
          | None => None
          end
      end
  end.

(* switch/chain.c: chain_delete *)
Fixpoint chain_delete (chain : list T) (k : sw_flow_key) (strict : bool)
  : Z * list T :=
  match chain with
  | [] => (0, [])
  | t :: rest =>
      let '(n, t') := tbl_delete t k strict in
      let '(m, rest') := chain_delete rest k strict in
      (n + m, t' :: rest')
  end.

(* switch/chain.c: chain_timeout *)
Fixpoint chain_timeout (chain : list T) (now : Z) : list sw_flow * list T :=
  match chain with
  | [] => ([], [])
  | t :: rest =>
      let '(d, t') := tbl_timeout t now in
      let '(ds, rest') := chain_timeout rest now in
      (d ++ ds, t' :: rest')
  end.

(* switch/datapath.c: struct datapath, with the static buffer cache *)
Record datapath := {
  chain : list T;
  config_flags : Z;
  config_miss_send_len : Z;
  last_timeout : Z;
  cache : buffer_cache
}.

(* struct ofp_packet_in as dp_output_control fills it *)
Record ofp_packet_in := {
  pi_version : Z;
  pi_type : Z;
  pi_length : Z;
  pi_xid : Z;
  pi_buffer_id : Z;
  pi_total_len : Z;
  pi_in_port : Z;
  pi_reason : Z;
  pi_pad : Z;
  pi_data : bytes
}.

(* switch/datapath.c: dp_output_control.  The result is the cache and the
   message handed to send_openflow_buffer. *)
Definition dp_output_control (now : Z) (c : buffer_cache) (b : buffer)
  (in_port max_len reason : Z) : buffer_cache * ofp_packet_in :=
  let '(buffer_id, c') := save_buffer now c b in
  let total_len := buf_len (data b) in
  let d :=
    if negb (buffer_id =? UINT32_MAX) && (max_len <? buf_len (data b))
    then firstn (Z.to_nat max_len) (data b)
    else data b in
  (c', {| pi_version := OFP_VERSION;
          pi_type := OFPT_PACKET_IN;
          pi_length := u16 (offsetof_ofp_packet_in_data + buf_len d);
          pi_xid := 0;
          pi_buffer_id := buffer_id;
          pi_total_len := u16 total_len;
          pi_in_port := u16 in_port;
          pi_reason := u8 reason;
          pi_pad := 0;
          pi_data := d |}).

(** What processing one frame or one message hands to the layers below: the
    do_output calls of the action interpreter (not expanded further) and the
    messages for the controller. *)
Record effects := {
  fx_trace : list event;
  fx_packet_in : list ofp_packet_in
}.

(** What a do_output call of the interpreter comes to: a call of
    dp_output_port, or a PACKET_IN with reason ACTION. *)
Inductive output_call :=
| To_port (b : buffer) (in_port out_port : Z)   (* dp_output_port (dp, b, in_port, out_port) *)
| To_controller (m : ofp_packet_in).

(* switch/datapath.c: do_output *)
Definition do_output (now : Z) (c : buffer_cache) (b : buffer)
  (in_port max_len out_port : Z) : buffer_cache * output_call :=
  if negb (out_port =? OFPP_CONTROLLER) then (c, To_port b in_port out_port)
  else
    let '(c', m) := dp_output_control now c b in_port max_len OFPR_ACTION in
    (c', To_controller m).

(** The do_output calls of a trace, carried out in order. *)
Fixpoint run_outputs (now : Z) (c : buffer_cache) (tr : list event)
  : buffer_cache * list output_call :=
  match tr with
  | [] => (c, [])
  | Ev_do_output b in_port max_len out_port _ :: rest =>
      let '(c1, o) := do_output now c b in_port max_len out_port in
      let '(c2, os) := run_outputs now c1 rest in
      (c2, o :: os)
  | _ :: rest => run_outputs now c rest
  end.

Definition with_chain (dp : datapath) (ch : list T) : datapath :=
  {| chain := ch; config_flags := config_flags dp;
     config_miss_send_len := config_miss_send_len dp;
     last_timeout := last_timeout dp; cache := cache dp |}.

Definition with_cache (dp : datapath) (c : buffer_cache) : datapath :=
  {| chain := chain dp; config_flags := config_flags dp;
     config_miss_send_len := config_miss_send_len dp;
     last_timeout := last_timeout dp; cache := c |}.

(* switch/datapath.c: fwd_port_input.  [None] is the faulting run of
   flow_extract, or the failing assertion of chain_lookup. *)
Definition fwd_port_input (now : Z) (dp : datapath) (b : buffer) (in_port : Z)
  : option (datapath * effects) :=
  match Lib_flow.flow_extract host_le b in_port with
  | None => None
  | Some (fl, b) =>
      let k := {| key_flow := fl; wildcards := 0; nw_src_mask := 0;
                  nw_dst_mask := 0 |} in
      match chain_lookup (chain dp) k with
      | None => None
      | Some (Some (f, store)) =>
          Some (with_chain dp (store (flow_used now f b)),
                {| fx_trace := execute_actions host_le b in_port k (actions f);
                   fx_packet_in := [] |})
      | Some None =>
          let '(c, m) := dp_output_control now (cache dp) b in_port
                           (u16 (config_miss_send_len dp)) OFPR_NO_MATCH in
          Some (with_cache dp c, {| fx_trace := []; fx_packet_in := [m] |})
      end
  end.

(* switch/datapath.c: add_flow.  [mem] is what flow_alloc returns: [None]
   for a null pointer, otherwise the uninitialised flow.  The result is the
   return value, the datapath, and the trace of the actions run on the
   buffered packet. *)
Definition add_flow (now : Z) (mem : option sw_flow) (dp : datapath)
  (ofm : ofp_flow_mod) : Z * datapath * list event :=
  let n_acts := Z.of_nat (length (ofm_actions ofm)) in
  let error_exit (error : Z) :=
    (error,
     if negb (ofm_buffer_id ofm =? u32 (-1))
     then with_cache dp (discard_buffer (cache dp) (ofm_buffer_id ofm))
     else dp,
     []) in
  if MAX_ACTIONS <? n_acts then error_exit (- E2BIG)
  else
    match mem with
    | None => error_exit (- ENOMEM)
    | Some m =>
        let f := {| key := flow_extract_match (ofm_match ofm);
                    group_id := ofm_group_id ofm;
                    max_idle := ofm_max_idle ofm;
                    created := now;
                    flow_timeout_at := now + ofm_max_idle ofm;
                    used := used m;
                    packet_count := 0;
                    byte_count := 0;
                    actions := ofm_actions ofm |} in
        match chain_insert (chain dp) f with
        | None => error_exit (- ENOBUFS)
        | Some store =>
            if negb (ofm_buffer_id ofm =? UINT32_MAX) then
              match retrieve_buffer (cache dp) (ofm_buffer_id ofm) with
              | (Some b, c) =>
                  let in_port := m_in_port (ofm_match ofm) in
                  let dp := with_cache (with_chain dp (store (flow_used now f b))) c in
                  match Lib_flow.flow_extract host_le b in_port with
                  | Some (fl, b) =>
                      let k := {| key_flow := fl; wildcards := 0;
                                  nw_src_mask := 0; nw_dst_mask := 0 |} in
                      (0, dp, execute_actions host_le b in_port k (ofm_actions ofm))
                  | None => (0, dp, [Ev_abort])
                  end
              | (None, c) => (- ESRCH, with_cache (with_chain dp (store f)) c, [])
              end
            else (0, with_chain dp (store f), [])
        end
    end.

(* switch/datapath.c: send_flow_expired hands one message per flow to
   send_openflow_buffer. *)
Record ofp_flow_expired := {
  ofe_match : sw_flow_key;
  ofe_duration : Z;
  ofe_packet_count : Z;
  ofe_byte_count : Z
}.

Definition send_flow_expired (dp : datapath) (f : sw_flow) : ofp_flow_expired :=
  {| ofe_match := key f;
     ofe_duration := u32 (flow_timeout_at f - max_idle f - created f);
     ofe_packet_count := packet_count f;
     ofe_byte_count := byte_count f |}.

(* switch/datapath.c: the timeout part of dp_run *)
Definition dp_run_timeout (now : Z) (dp : datapath)
  : datapath * list ofp_flow_expired :=
  if negb (now =? last_timeout dp) then
    let '(deleted, ch) := chain_timeout (chain dp) now in
    ({| chain := ch; config_flags := config_flags dp;
        config_miss_send_len := config_miss_send_len dp;
        last_timeout := now; cache := cache dp |},
     map (send_flow_expired dp) deleted)
  else (dp, []).

End Datapath.
End Switch_dp.

(** ** A table for the user-space chain *)

Module Switch_tables.
Import Switch_dp.
Section Linear.
Context `{openflow_h}.

Definition TABLE_LINEAR_MAX_FLOWS : Z := 100.

(* the linear table's lookup: the first entry that matches, and the table
   with that entry replaced *)
Fixpoint linear_lookup (t : list sw_flow) (k : sw_flow_key)
  : option (sw_flow * (sw_flow -> list sw_flow)) :=
  match t with
  | [] => None
  | f :: rest =>
      if Switch_flow.flow_matches_1wild k (key f)
      then Some (f, fun f' => f' :: rest)
      else match linear_lookup rest k with
           | Some (g, store) => Some (g, fun f' => f :: store f')
           | None => None
           end
  end.

(* expiry of an entry, on the idle deadline that add_flow stores in the
   field [timeout]; a zero [max_idle] is permanent *)
Definition linear_expired (now : Z) (f : sw_flow) : bool :=
  negb (max_idle f =? OFP_FLOW_PERMANENT) && (flow_timeout_at f <? now).

(** Modelled from the spec: the linear table of the user-space switch, whose
    source ([table-linear.c]) is not among the sources: "Ordered list, accepts
    any entry (including wildcarded).  Lookup scans [...] and returns the first
    match (one-sided rule) [...].  Delete and sweep scan the whole list."  The
    flows of this revision carry no priority, so the order is the order of
    insertion; the table refuses a flow when it holds
    [TABLE_LINEAR_MAX_FLOWS]. *)
#[export] Instance linear_table : sw_table (list sw_flow) := {|
  tbl_lookup := linear_lookup;
  tbl_insert := fun t f =>
    if Z.of_nat (length t) <? TABLE_LINEAR_MAX_FLOWS
    then Some (fun f' => t ++ [f']) else None;
  tbl_delete := fun t k strict =>
    let hit f :=
      (if strict && negb (wildcards k =? wildcards (key f)) then false
       else Switch_flow.flow_matches_1wild (key f) k) in
    (Z.of_nat (length (List.filter hit t)),
     List.filter (fun f => negb (hit f)) t);
  tbl_timeout := fun t now =>
    (List.filter (linear_expired now) t,
     List.filter (fun f => negb (linear_expired now f)) t)
|}.

End Linear.
End Switch_tables.

(** ** Control-message dispatch *)

(** A C array given by designated initialisers [[i] = v]: its size is one
    more than the largest designator, an element that has no initialiser is
    zero (here [None]), and the last initialiser of an index is the one that
    counts. *)
Definition array_size {A} (tbl : list (Z * A)) : Z :=
  fold_right (fun e m => Z.max (fst e + 1) m) 0 tbl.

Definition array_at {A} (tbl : list (Z * A)) (i : Z) : option A :=
  match List.find (fun e => fst e =? i) (List.rev tbl) with
  | Some e => Some (snd e)
  | None => None
  end.

(** What fwd_control_input does with a message: it calls a handler, or it
    returns an error code by itself, after the ERROR messages (type, code) it
    sent. *)
Inductive control_result (H : Type) :=
| Dispatched (h : H)
| Rejected (retval : Z) (errors : list (Z * Z)).
Arguments Dispatched {H} h.
Arguments Rejected {H} retval errors.

(* struct ofp_header *)
Record ofp_header := {
  oh_version : Z;
  oh_type : Z;
  oh_length : Z;
  oh_xid : Z
}.

Module Switch_control.
Section Control.
Context `{openflow_h}.

Inductive handler :=
| recv_features_request
| recv_get_config_request
| recv_set_config
| recv_packet_out
| recv_flow
| recv_port_mod
| recv_flow_status_request
| recv_port_status_request
| recv_table_status_request.

(* switch/datapath.c: the table [packets] of fwd_control_input *)
Definition packets : list (Z * (Z * handler)) :=
  [ (OFPT_FEATURES_REQUEST, (sizeof_ofp_header, recv_features_request));
    (OFPT_GET_CONFIG_REQUEST, (sizeof_ofp_header, recv_get_config_request));
    (OFPT_SET_CONFIG, (sizeof_ofp_switch_config, recv_set_config));
    (OFPT_PACKET_OUT, (sizeof_ofp_packet_out, recv_packet_out));
    (OFPT_FLOW_MOD, (sizeof_ofp_flow_mod, recv_flow));
    (OFPT_PORT_MOD, (sizeof_ofp_port_mod, recv_port_mod));
    (OFPT_FLOW_STAT_REQUEST, (sizeof_ofp_flow_stat_request, recv_flow_status_request));
    (OFPT_PORT_STAT_REQUEST, (sizeof_ofp_port_stat_request, recv_port_status_request));
    (OFPT_TABLE_STAT_REQUEST, (sizeof_ofp_table_stat_request, recv_table_status_request)) ].

(* switch/datapath.c: fwd_control_input, up to the call of the handler *)
Definition fwd_control_input (oh : ofp_header) (length : Z)
  : control_result handler :=
  if negb (oh_version oh =? OFP_VERSION) || (array_size packets <=? oh_type oh)
     || (length <? oh_length oh)
  then Rejected (- EINVAL) []
  else
    match array_at packets (oh_type oh) with
    | None => Rejected (- ENOSYS) []
    | Some (min_size, h) =>
        if length <? min_size then Rejected (- EFAULT) [] else Dispatched h
    end.

End Control.
End Switch_control.

Module Kernel_control.
Section Control.
Context `{openflow_h}.

Inductive handler :=
| recv_hello
| recv_features_request
| recv_get_config_request
| recv_set_config
| recv_packet_out
| recv_port_mod
| recv_echo_request
| recv_echo_reply
| recv_flow.

(* datapath/forward.c: the table [packets] of fwd_control_input *)
Definition packets : list (Z * (Z * handler)) :=
  [ (OFPT_HELLO, (sizeof_ofp_header, recv_hello));
    (OFPT_FEATURES_REQUEST, (sizeof_ofp_header, recv_features_request));
    (OFPT_GET_CONFIG_REQUEST, (sizeof_ofp_header, recv_get_config_request));
    (OFPT_SET_CONFIG, (sizeof_ofp_switch_config, recv_set_config));
    (OFPT_PACKET_OUT, (sizeof_ofp_packet_out, recv_packet_out));
    (OFPT_FLOW_MOD, (sizeof_ofp_flow_mod, recv_flow));
    (OFPT_PORT_MOD, (sizeof_ofp_port_mod, recv_port_mod));
    (OFPT_ECHO_REQUEST, (sizeof_ofp_header, recv_echo_request));
    (OFPT_ECHO_REPLY, (sizeof_ofp_header, recv_echo_reply)) ].

(** The test that lets a message through whatever its version. *)
Definition any_version_type (t : Z) : bool :=
  (t =? OFPT_HELLO) || (t =? OFPT_ERROR) || (t =? OFPT_ECHO_REQUEST)
  || (t =? OFPT_ECHO_REPLY) || (t =? OFPT_VENDOR).

(* datapath/forward.c: fwd_control_input, up to the call of the handler *)
Definition fwd_control_input (oh : ofp_header) (length : Z)
  : control_result handler :=
  if negb (oh_version oh =? OFP_VERSION)
     && negb (oh_type oh =? OFPT_HELLO)
     && negb (oh_type oh =? OFPT_ERROR)
     && negb (oh_type oh =? OFPT_ECHO_REQUEST)
     && negb (oh_type oh =? OFPT_ECHO_REPLY)
     && negb (oh_type oh =? OFPT_VENDOR)
  then Rejected (- EINVAL) [(OFPET_BAD_REQUEST, OFPBRC_BAD_VERSION)]
  else if length <? oh_length oh then Rejected (- EINVAL) []
  else
    match (if oh_type oh <? array_size packets
           then array_at packets (oh_type oh) else None) with
    | Some (min_size, h) =>
        if length <? min_size then Rejected (- EFAULT) [] else Dispatched h
    | None => Rejected (- EINVAL) [(OFPET_BAD_REQUEST, OFPBRC_BAD_TYPE)]
    end.

End Control.
End Kernel_control.

(** ** The kernel datapath: flows, flow installation, the hash-table sweep *)

Module Kernel_dp.

(* struct sw_flow, by the fields that forward.c, flow.c and table-hash.c use *)
Record sw_flow := {
  key : sw_flow_key;
  priority : Z;
  idle_timeout : Z;
  hard_timeout : Z;
  used : Z;
  init_time : Z;
  byte_count : Z;
  packet_count : Z;
  actions : list ofp_action
}.

Section Datapath.
Context `{openflow_h}.

(** The Linux socket buffer and its operations (see [Kernel_actions]);
    [skb_bytes] is the frame from its MAC header on. *)
Variable sk_buff : Type.
Variable skb_bytes : sk_buff -> bytes.
Variable skb_clone : sk_buff -> option sk_buff.
Variable make_writable : sk_buff -> option sk_buff.
Variable execute_setter :
  sk_buff -> Z -> sw_flow_key -> ofp_action -> option sk_buff * sw_flow_key.
Variable BITS_PER_LONG : Z.
Variable HZ : Z.

(** The chain of the kernel datapath ([chain.c] and [flow.h] of [datapath/]
    are not among the sources).  [chain_insert] yields [None] for an error
    (-ENOBUFS, as the chain of the user-space switch) and otherwise the chain
    as a function of what the caller leaves in the inserted flow object;
    [flow_used] is the update of a flow by a packet; [flow_del] marks a flow
    deleted and tells whether this call was the one that did. *)
Variable sw_chain : Type.
Variable chain_insert : sw_chain -> sw_flow -> option (sw_flow -> sw_chain).
Variable flow_used : sw_flow -> sk_buff -> sw_flow.
Variable flow_del : sw_flow -> bool.

Local Abbreviation buffer_cache := (Kernel_buffers.buffer_cache sk_buff).
Local Abbreviation event := (Kernel_actions.event sk_buff).

(** The test of the loop that opens add_flow and mod_flow. *)
Definition loops_back (ofm : ofp_flow_mod) (a : ofp_action) : bool :=
  (a_type a =? OFPAT_OUTPUT)
  && ((output_port a =? OFPP_TABLE) || (output_port a =? OFPP_NONE)
      || (output_port a =? m_in_port (ofm_match ofm))).

(* datapath/forward.c: add_flow.  [mem] is what flow_alloc returns.  The
   result is the return value, the chain, the buffer cache and the trace of
   the actions run on the buffered packet. *)
Definition add_flow (jiffies : Z) (mem : option sw_flow) (ch : sw_chain)
  (c : buffer_cache) (ofm : ofp_flow_mod)
  : Z * sw_chain * buffer_cache * list event :=
  let error_exit (error : Z) :=
    (error, ch,
     if negb (ofm_buffer_id ofm =? u32 (-1))
     then Kernel_buffers.discard_skb sk_buff c (ofm_buffer_id ofm) else c,
     []) in
  if existsb (loops_back ofm) (ofm_actions ofm) then error_exit (- ENOMEM)
  else
    match mem with
    | None => error_exit (- ENOMEM)
    | Some _ =>
        let k := flow_extract_match (ofm_match ofm) in
        let f := {| key := k;
                    priority := if negb (wildcards k =? 0)
                                then ofm_priority ofm else u16 (-1);
                    idle_timeout := ofm_idle_timeout ofm;
                    hard_timeout := ofm_hard_timeout ofm;
                    used := jiffies;
                    init_time := jiffies;
                    byte_count := 0;
                    packet_count := 0;
                    actions := ofm_actions ofm |} in
        match chain_insert ch f with
        | None => error_exit (- ENOBUFS)
        | Some store =>
            if negb (ofm_buffer_id ofm =? u32 (-1)) then
              match Kernel_buffers.retrieve_skb sk_buff c (ofm_buffer_id ofm) with
              | (Some skb, c) =>
                  let '(_, skb_key) :=
                    Kernel_extract.flow_extract (skb_bytes skb)
                      (m_in_port (ofm_match ofm)) in
                  (0, store (flow_used f skb), c,
                   Kernel_actions.execute_actions sk_buff skb_clone make_writable
                     execute_setter skb skb_key (ofm_actions ofm) false)
              | (None, c) => (- ESRCH, store f, c, [])
              end
            else (0, store f, c, [])
        end
    end.

(* linux/jiffies.h: time_after (a, b) is time_before (b, a) *)
Definition time_after (a b : Z) : bool :=
  Kernel_buffers.time_before BITS_PER_LONG b a.

(* datapath/flow.c: flow_timeout *)
Definition flow_timeout (jiffies : Z) (f : sw_flow) : Z :=
  if negb (idle_timeout f =? OFP_FLOW_PERMANENT)
     && time_after jiffies (used f + idle_timeout f * HZ)
  then OFPER_IDLE_TIMEOUT
  else if negb (hard_timeout f =? OFP_FLOW_PERMANENT)
          && time_after jiffies (init_time f + hard_timeout f * HZ)
  then OFPER_HARD_TIMEOUT
  else -1.

(* datapath/table-hash.c: do_delete, the bucket and the count it returns *)
Definition do_delete (f : sw_flow) : option sw_flow * Z :=
  if flow_del f then (None, 1) else (Some f, 0).

(** One turn of the loop of table_hash_timeout: the bucket afterwards, what
    is added to [count], and the flow handed to dp_send_flow_expired, if
    any.  The result of flow_timeout is used as a C truth value. *)
Definition timeout_bucket (hello_flags jiffies : Z) (bucket : option sw_flow)
  : option sw_flow * Z * option sw_flow :=
  match bucket with
  | Some f =>
      if negb (flow_timeout jiffies f =? 0) then
        let '(b', n) := do_delete f in
        (b', n, if tst hello_flags OFP_CHELLO_SEND_FLOW_EXP then Some f else None)
      else (bucket, 0, None)
  | None => (None, 0, None)
  end.

(* datapath/table-hash.c: table_hash_timeout.  The result is the count, the
   buckets, and the flows handed to dp_send_flow_expired, in order. *)
Fixpoint table_hash_timeout (hello_flags jiffies : Z)
  (buckets : list (option sw_flow)) : Z * list (option sw_flow) * list sw_flow :=
  match buckets with
  | [] => (0, [], [])
  | b :: rest =>
      let '(b', n, sent) := timeout_bucket hello_flags jiffies b in
      let '(count, rest', sents) := table_hash_timeout hello_flags jiffies rest in
      (n + count, b' :: rest',
       match sent with Some f => f :: sents | None => sents end)
  end.

(* datapath/table-hash.c: table_hash2_timeout *)
Definition table_hash2_timeout (hello_flags jiffies : Z)
  (t0 t1 : list (option sw_flow))
  : Z * (list (option sw_flow) * list (option sw_flow)) * list sw_flow :=
  let '(n0, t0', s0) := table_hash_timeout hello_flags jiffies t0 in
  let '(n1, t1', s1) := table_hash_timeout hello_flags jiffies t1 in
  (n0 + n1, (t0', t1'), s0 ++ s1).

(** The flows that a sweep takes out of the buckets. *)
Fixpoint reaped (jiffies : Z) (buckets : list (option sw_flow)) : list sw_flow :=
  match buckets with
  | [] => []
  | Some f :: rest =>
      if negb (flow_timeout jiffies f =? 0) && flow_del f
      then f :: reaped jiffies rest else reaped jiffies rest
  | None :: rest => reaped jiffies rest
  end.

End Datapath.
End Kernel_dp.

(** ** The hash tables of the kernel datapath (datapath/table-hash.c) *)

Module Kernel_table_hash.

(** [memcmp] of two keys: the members of [struct sw_flow_key], the explicit
    [pad] among them, fill the structure, so two keys compare equal exactly
    when all their members are equal. *)
Definition flow_eqb (a b : flow) : bool :=
  (nw_src a =? nw_src b) && (nw_dst a =? nw_dst b) && (in_port a =? in_port b)
  && (dl_vlan a =? dl_vlan b) && (dl_type a =? dl_type b)
  && (tp_src a =? tp_src b) && (tp_dst a =? tp_dst b)
  && (dl_src a =? dl_src b) && (dl_dst a =? dl_dst b)
  && (nw_proto a =? nw_proto b) && (reserved a =? reserved b).

Definition key_eqb (a b : sw_flow_key) : bool :=
  flow_eqb (key_flow a) (key_flow b) && (wildcards a =? wildcards b)
  && (nw_src_mask a =? nw_src_mask b) && (nw_dst_mask a =? nw_dst_mask b).

(** An [atomic_t] holds a 32-bit signed integer. *)
Definition s32 (x : Z) : Z := (x + 2^31) mod 2^32 - 2^31.

(* struct sw_table_hash; [crc32] stands for the polynomial that crc32_init
   stored, and the array [buckets] has bucket_mask + 1 elements *)
Record sw_table_hash := {
  crc32 : Z;
  n_flows : Z;
  bucket_mask : Z;
  buckets : list (option Kernel_dp.sw_flow)
}.

(* struct sw_table_hash2 *)
Record sw_table_hash2 := {
  subtable0 : sw_table_hash;
  subtable1 : sw_table_hash
}.

(* struct sw_table_stats *)
Record sw_table_stats := {
  st_n_flows : Z;
  st_max_flows : Z
}.

Section Table.
Context `{openflow_h}.

(** [crc32_calculate] of [crc32.h] and [flow_del] of [flow.h] are not among
    the sources: the table is modelled for any checksum function, and for any
    outcome of flow_del, which marks a flow as deleted and tells whether this
    call was the one that did. *)
Variable crc32_calculate : Z -> sw_flow_key -> Z.
Variable flow_del : Kernel_dp.sw_flow -> bool.
Variables (BITS_PER_LONG HZ : Z).

(* find_bucket, as the index of the bucket *)
Definition find_bucket (th : sw_table_hash) (k : sw_flow_key) : Z :=
  Z.land (u32 (crc32_calculate (crc32 th) k)) (bucket_mask th).

Definition bucket_at (th : sw_table_hash) (i : Z) : option Kernel_dp.sw_flow :=
  default None (buckets th !! Z.to_nat i).

Definition with_buckets (th : sw_table_hash) (n : Z)
  (bs : list (option Kernel_dp.sw_flow)) : sw_table_hash :=
  {| crc32 := crc32 th; n_flows := n; bucket_mask := bucket_mask th;
     buckets := bs |}.

(* table_hash_lookup *)
Definition table_hash_lookup (th : sw_table_hash) (k : sw_flow_key)
  : option Kernel_dp.sw_flow :=
  match bucket_at th (find_bucket th k) with
  | Some flow => if key_eqb (Kernel_dp.key flow) k then Some flow else None
  | None => None
  end.

(* table_hash_insert: the return value and the table *)
Definition table_hash_insert (th : sw_table_hash) (flow : Kernel_dp.sw_flow)
  : Z * sw_table_hash :=
  if negb (wildcards (Kernel_dp.key flow) =? 0) then (0, th)
  else
    let i := find_bucket th (Kernel_dp.key flow) in
    match bucket_at th i with
    | None =>
        (1, with_buckets th (s32 (n_flows th + 1))
              (<[Z.to_nat i := Some flow]> (buckets th)))
    | Some old_flow =>
        if key_eqb (Kernel_dp.key old_flow) (Kernel_dp.key flow)
           && flow_del old_flow
        then (1, with_buckets th (n_flows th)
                   (<[Z.to_nat i := Some flow]> (buckets th)))
        else (0, th)
    end.

(* the loop of table_hash_delete for a key with wildcards *)
Fixpoint delete_loop (k : sw_flow_key) (strict : bool)
  (bs : list (option Kernel_dp.sw_flow)) (count : Z)
  : Z * list (option Kernel_dp.sw_flow) :=
  match bs with
  | [] => (count, [])
  | b :: rest =>
      let '(b', count) :=
        match b with
        | Some flow =>
            if Kernel_flow.flow_del_matches (Kernel_dp.key flow) k strict
            then let '(b', n) := Kernel_dp.do_delete flow_del flow in
                 (b', u32 (count + n))
            else (b, count)
        | None => (b, count)
        end in
      let '(count, rest') := delete_loop k strict rest count in
      (count, b' :: rest')
  end.

(** The adjustment of [n_flows] that ends table_hash_delete and
    table_hash_timeout. *)
Definition sub_flows (th : sw_table_hash) (count : Z)
  (bs : list (option Kernel_dp.sw_flow)) : sw_table_hash :=
  with_buckets th
    (if negb (count =? 0) then s32 (n_flows th - count) else n_flows th) bs.

(* table_hash_delete *)
Definition table_hash_delete (th : sw_table_hash) (k : sw_flow_key)
  (strict : bool) : Z * sw_table_hash :=
  let '(count, bs) :=
    if wildcards k =? 0 then
      let i := find_bucket th k in
      match bucket_at th i with
      | Some flow =>
          if key_eqb (Kernel_dp.key flow) k
          then let '(b', n) := Kernel_dp.do_delete flow_del flow in
               (n, <[Z.to_nat i := b']> (buckets th))
          else (0, buckets th)
      | None => (0, buckets th)
      end
    else delete_loop k strict (buckets th) 0 in
  (count, sub_flows th count bs).

(* table_hash_timeout on the table structure: the loop is
   Kernel_dp.table_hash_timeout, after which the counter is adjusted.  The
   result is the count, the table and the flows handed to
   dp_send_flow_expired. *)
Definition table_hash_timeout (hello_flags jiffies : Z) (th : sw_table_hash)
  : Z * sw_table_hash * list Kernel_dp.sw_flow :=
  let '(count, bs, sent) :=
    Kernel_dp.table_hash_timeout BITS_PER_LONG HZ flow_del hello_flags jiffies
      (buckets th) in
  (count, sub_flows th count bs, sent).

(* table_hash_stats *)
Definition table_hash_stats (th : sw_table_hash) : sw_table_stats :=
  {| st_n_flows := n_flows th; st_max_flows := u32 (bucket_mask th + 1) |}.

(* next_flow: the flow found and the value that is left in [bucket_i].  The
   loop runs at most once for each of the bucket_mask + 1 buckets. *)
Fixpoint next_flow_loop (fuel : nat) (th : sw_table_hash) (bucket_i : Z)
  : option Kernel_dp.sw_flow * Z :=
  match fuel with
  | O => (None, bucket_i)
  | S fuel' =>
      if bucket_i <=? bucket_mask th then
        match bucket_at th bucket_i with
        | Some f => (Some f, bucket_i)
        | None => next_flow_loop fuel' th (u32 (bucket_i + 1))
        end
      else (None, bucket_i)
  end.

Definition next_flow (th : sw_table_hash) (bucket_i : Z)
  : option Kernel_dp.sw_flow * Z :=
  next_flow_loop (Z.to_nat (bucket_mask th + 2 - bucket_i)) th bucket_i.

(* table_hash_iterator: [swt_iter->flow] and [ih->bucket_i], or [None] when
   kmalloc returned a null pointer and the function returns 0 *)
Definition table_hash_iterator (kmalloc_ok : bool) (th : sw_table_hash)
  : option (option Kernel_dp.sw_flow * Z) :=
  if kmalloc_ok then Some (next_flow th 0) else None.

(* table_hash_next *)
Definition table_hash_next (th : sw_table_hash)
  (it : option Kernel_dp.sw_flow * Z) : option Kernel_dp.sw_flow * Z :=
  match fst it with
  | None => it
  | Some _ => next_flow th (u32 (snd it + 1))
  end.

(* table_hash2_lookup *)
Definition table_hash2_lookup (t2 : sw_table_hash2) (k : sw_flow_key)
  : option Kernel_dp.sw_flow :=
  match table_hash_lookup (subtable0 t2) k with
  | Some flow => Some flow
  | None => table_hash_lookup (subtable1 t2) k
  end.

(* table_hash2_insert *)
Definition table_hash2_insert (t2 : sw_table_hash2) (flow : Kernel_dp.sw_flow)
  : Z * sw_table_hash2 :=
  let '(r0, t0) := table_hash_insert (subtable0 t2) flow in
  if negb (r0 =? 0) then (1, {| subtable0 := t0; subtable1 := subtable1 t2 |})
  else
    let '(r1, t1) := table_hash_insert (subtable1 t2) flow in
    (r1, {| subtable0 := t0; subtable1 := t1 |}).

(* table_hash2_delete *)
Definition table_hash2_delete (t2 : sw_table_hash2) (k : sw_flow_key)
  (strict : bool) : Z * sw_table_hash2 :=
  let '(n0, t0) := table_hash_delete (subtable0 t2) k strict in
  let '(n1, t1) := table_hash_delete (subtable1 t2) k strict in
  (s32 (n0 + n1), {| subtable0 := t0; subtable1 := t1 |}).

(* table_hash2_stats *)
Definition table_hash2_stats (t2 : sw_table_hash2) : sw_table_stats :=
  {| st_n_flows := st_n_flows (table_hash_stats (subtable0 t2))
                   + st_n_flows (table_hash_stats (subtable1 t2));
     st_max_flows := st_max_flows (table_hash_stats (subtable0 t2))
                     + st_max_flows (table_hash_stats (subtable1 t2)) |}.

End Table.
End Kernel_table_hash.

(** ** Further constants of [openflow.h] *)

Class openflow_h_ext := {
  (* enum ofp_port *)
  OFPP_MAX : Z;
  OFPP_FLOOD : Z;
  (* enum ofp_flow_mod_command *)
  OFPFC_ADD : Z;
  OFPFC_MODIFY : Z;
  OFPFC_MODIFY_STRICT : Z;
  OFPFC_DELETE : Z;
  OFPFC_DELETE_STRICT : Z;
  (* enum ofp_config_flags *)
  OFPC_SEND_FLOW_EXP : Z;
  OFPC_FRAG_NORMAL : Z;
  OFPC_FRAG_DROP : Z;
  OFPC_FRAG_MASK : Z;
  (* enum ofp_port_config *)
  OFPPC_NO_RECV : Z;
  OFPPC_NO_RECV_STP : Z
}.

Definition ENODEV : Z := 19.
Definition ENOTSUPP : Z := 524.

(** ** Ports of the user-space datapath: flooding and output
       (switch/datapath.c) *)

Module Switch_ports.

Definition BRIDGE_PORT_NO_FLOOD : Z := 1.

Definition u64 (x : Z) : Z := x mod 2^64.

Section Ports.
Context `{openflow_h} `{openflow_h_ext}.

(** A network device of [netdev.h], which is not among the sources, and
    its send operation, which returns 0 or an error number. *)
Variable netdev : Type.
Variable netdev_send : netdev -> buffer -> Z.

(* struct sw_port; [sp_netdev] is [None] for a null pointer *)
Record sw_port := {
  sp_flags : Z;
  sp_netdev : option netdev;
  rx_count : Z;
  tx_count : Z;
  drop_count : Z
}.

Definition null_port : sw_port :=
  {| sp_flags := 0; sp_netdev := None; rx_count := 0; tx_count := 0;
     drop_count := 0 |}.

(** The array [dp->ports], of OFPP_MAX elements, and the list
    [dp->port_list], whose nodes are elements of the array: a node is given
    by its index in the array, which is what port_no computes. *)
Definition port_at (ports : list sw_port) (no : Z) : sw_port :=
  default null_port (ports !! Z.to_nat no).

(** A call of dp_output_port made by flood, or its call of buffer_delete. *)
Inductive flood_call :=
| Fl_output (b : buffer) (is_clone : bool) (in_port out_port : Z)
| Fl_delete (b : buffer).

(* flood: the loop over dp->port_list and what follows it *)
Fixpoint flood_loop (ports : list sw_port) (port_list : list Z) (b : buffer)
  (in_port prev_port : Z) : list flood_call :=
  match port_list with
  | [] =>
      if negb (prev_port =? -1) then [Fl_output b false in_port prev_port]
      else [Fl_delete b]
  | p :: rest =>
      if (p =? in_port) || tst (sp_flags (port_at ports p)) BRIDGE_PORT_NO_FLOOD
      then flood_loop ports rest b in_port prev_port
      else
        (if negb (prev_port =? -1) then [Fl_output b true in_port prev_port] else [])
        ++ flood_loop ports rest b in_port p
  end.

Definition flood (ports : list sw_port) (port_list : list Z) (b : buffer)
  (in_port : Z) : list flood_call :=
  flood_loop ports port_list b in_port (-1).

(** What output_packet does with the buffer. *)
Inductive packet_fate :=
| Pf_sent (dev : netdev) (b : buffer) (error : Z)   (* netdev_send (dev, b) *)
| Pf_deleted (b : buffer).                          (* buffer_delete (b) *)

(* output_packet: the ports afterwards and the fate of the buffer *)
Definition output_packet (ports : list sw_port) (b : buffer) (out_port : Z)
  : list sw_port * packet_fate :=
  if (0 <=? out_port) && (out_port <? OFPP_MAX) then
    let p := port_at ports out_port in
    match sp_netdev p with
    | Some dev =>
        let error := netdev_send dev b in
        let p' :=
          if error =? 0
          then {| sp_flags := sp_flags p; sp_netdev := sp_netdev p;
                  rx_count := rx_count p; tx_count := u64 (tx_count p + 1);
                  drop_count := drop_count p |}
          else {| sp_flags := sp_flags p; sp_netdev := sp_netdev p;
                  rx_count := rx_count p; tx_count := tx_count p;
                  drop_count := u64 (drop_count p + 1) |} in
        (<[Z.to_nat out_port := p']> ports, Pf_sent dev b error)
    | None => (ports, Pf_deleted b)
    end
  else (ports, Pf_deleted b).

(** What a call of dp_output_port comes to: the calls that flood makes
    (themselves calls of dp_output_port, not expanded further), a PACKET_IN
    message, or output_packet. *)
Inductive port_output :=
| Po_flood (calls : list flood_call)
| Po_controller (c : Switch_buffers.buffer_cache) (m : Switch_dp.ofp_packet_in)
| Po_packet (ports : list sw_port) (fate : packet_fate).

(* dp_output_port *)
Definition dp_output_port (now : Z) (ports : list sw_port) (port_list : list Z)
  (c : Switch_buffers.buffer_cache) (b : buffer) (in_port out_port : Z)
  : port_output :=
  if out_port =? OFPP_FLOOD then Po_flood (flood ports port_list b in_port)
  else if out_port =? OFPP_CONTROLLER then
    let '(c', m) := Switch_dp.dp_output_control now c b in_port 0 OFPR_ACTION in
    Po_controller c' m
  else
    let '(ports', fate) := output_packet ports b out_port in
    Po_packet ports' fate.

End Ports.
End Switch_ports.

(** ** Packet input and flow modification in the kernel datapath
       (datapath/forward.c) *)

Module Kernel_forward.

(* struct net_bridge_port, by the members that forward.c reads *)
Record net_bridge_port := {
  port_no : Z;
  config : Z
}.

(** Ethernet address used as the destination for STP frames. *)
Definition stp_eth_addr : Z := 0x0180C2000001.

Section Forward.
Context `{openflow_h} `{openflow_h_ext}.

(** The Linux socket buffer and its operations, as in [Kernel_actions]. *)
Variable sk_buff : Type.
Variable skb_bytes : sk_buff -> bytes.
Variable skb_clone : sk_buff -> option sk_buff.
Variable make_writable : sk_buff -> option sk_buff.
Variable execute_setter :
  sk_buff -> Z -> sw_flow_key -> ofp_action -> option sk_buff * sw_flow_key.
Variables (BITS_PER_LONG HZ : Z).

(** The chain of the kernel datapath ([chain.c] of [datapath/] is not among
    the sources).  [chain_lookup] yields the flow found together with the
    chain as a function of what the caller leaves in that flow object;
    [chain_modify] and [chain_delete] yield their count and the chain. *)
Variable sw_chain : Type.
Variable chain_lookup :
  sw_chain -> sw_flow_key -> option (Kernel_dp.sw_flow * (Kernel_dp.sw_flow -> sw_chain)).
Variable chain_modify :
  sw_chain -> sw_flow_key -> Z -> bool -> list ofp_action -> Z * sw_chain.
Variable chain_delete : sw_chain -> sw_flow_key -> Z -> bool -> Z * sw_chain.
Variable flow_used : Kernel_dp.sw_flow -> sk_buff -> Kernel_dp.sw_flow.

Local Abbreviation buffer_cache := (Kernel_buffers.buffer_cache sk_buff).
Local Abbreviation event := (Kernel_actions.event sk_buff).

(** The port filter of run_flow_through_tables: the frame came in on a port
    that is configured not to receive it. *)
Definition port_refuses (p : option net_bridge_port) (key : sw_flow_key) : bool :=
  match p with
  | Some p =>
      tst (config p) (Z.lor OFPPC_NO_RECV OFPPC_NO_RECV_STP)
      && tst (config p)
             (if negb (dl_dst (key_flow key) =? stp_eth_addr)
              then OFPPC_NO_RECV else OFPPC_NO_RECV_STP)
  | None => false
  end.

(* run_flow_through_tables: the return value, the chain, and the calls of
   kfree_skb, skb_clone and do_output; [dp_flags] is chain->dp->flags *)
Definition run_flow_through_tables (dp_flags : Z) (chain : sw_chain)
  (skb : sk_buff) (p : option net_bridge_port) : Z * sw_chain * list event :=
  let '(frag, key) :=
    Kernel_extract.flow_extract (skb_bytes skb)
      (match p with Some p => port_no p | None => OFPP_NONE end) in
  if negb (frag =? 0) && (Z.land dp_flags OFPC_FRAG_MASK =? OFPC_FRAG_DROP)
  then (0, chain, [Kernel_actions.Kev_kfree sk_buff skb])
  else if port_refuses p key
  then (0, chain, [Kernel_actions.Kev_kfree sk_buff skb])
  else
    match chain_lookup chain key with
    | Some (flow, store) =>
        (0, store (flow_used flow skb),
         Kernel_actions.execute_actions sk_buff skb_clone make_writable
           execute_setter skb key (Kernel_dp.actions flow) false)
    | None => (- ESRCH, chain, [])
    end.

(** The call of dp_output_control that fwd_port_input makes. *)
Record output_control := {
  oc_skb : sk_buff;
  oc_buffer_id : Z;
  oc_max_len : Z;
  oc_reason : Z
}.

(* fwd_port_input: the chain, the buffer cache, the calls made on the
   packet, and the call of dp_output_control, if any *)
Definition fwd_port_input (jiffies dp_flags miss_send_len : Z) (chain : sw_chain)
  (c : buffer_cache) (skb : sk_buff) (p : option net_bridge_port)
  : sw_chain * buffer_cache * list event * option output_control :=
  let '(retval, chain', tr) := run_flow_through_tables dp_flags chain skb p in
  if negb (retval =? 0) then
    let '(id, c', _) :=
      Kernel_buffers.fwd_save_skb sk_buff BITS_PER_LONG HZ jiffies c skb in
    (chain', c', tr,
     Some {| oc_skb := skb; oc_buffer_id := id; oc_max_len := miss_send_len;
             oc_reason := OFPR_NO_MATCH |})
  else (chain', c, tr, None).

(* recv_set_config: the new chain->dp->flags and chain->dp->miss_send_len;
   the computation is in [int] *)
Definition recv_set_config (osc_flags osc_miss_send_len : Z) : Z * Z :=
  let flags := Z.land osc_flags (Z.lor OFPC_SEND_FLOW_EXP OFPC_FRAG_MASK) in
  let flags :=
    if negb (Z.land flags OFPC_FRAG_MASK =? OFPC_FRAG_NORMAL)
       && negb (Z.land flags OFPC_FRAG_MASK =? OFPC_FRAG_DROP)
    then Z.lor (Z.land flags (Z.lnot OFPC_FRAG_MASK)) OFPC_FRAG_DROP
    else flags in
  (flags, osc_miss_send_len).

(* mod_flow: the return value, the chain, the buffer cache and the trace of
   the actions run on the buffered packet *)
Definition mod_flow (chain : sw_chain) (c : buffer_cache) (ofm : ofp_flow_mod)
  : Z * sw_chain * buffer_cache * list event :=
  let error := - ENOMEM in
  if existsb (Kernel_dp.loops_back ofm) (ofm_actions ofm) then
    (error, chain,
     if negb (ofm_buffer_id ofm =? u32 (-1))
     then Kernel_buffers.discard_skb sk_buff c (ofm_buffer_id ofm) else c,
     [])
  else
    let key := flow_extract_match (ofm_match ofm) in
    let priority := if negb (wildcards key =? 0) then ofm_priority ofm else u16 (-1) in
    let strict := ofm_command ofm =? OFPFC_MODIFY_STRICT in
    let '(_, chain') := chain_modify chain key priority strict (ofm_actions ofm) in
    if negb (ofm_buffer_id ofm =? u32 (-1)) then
      match Kernel_buffers.retrieve_skb sk_buff c (ofm_buffer_id ofm) with
      | (Some skb, c') =>
          let '(_, skb_key) :=
            Kernel_extract.flow_extract (skb_bytes skb) (m_in_port (ofm_match ofm)) in
          (error, chain', c',
           Kernel_actions.execute_actions sk_buff skb_clone make_writable
             execute_setter skb skb_key (ofm_actions ofm) false)
      | (None, c') => (- ESRCH, chain', c', [])
      end
    else (error, chain', c, []).

End Forward.
End Kernel_forward.

(** ** The byte buffer of the user-space library (lib/buffer.c)

    The allocated region of a buffer is the list of its bytes; the pointers
    [data], [buffer_tail] and [buffer_end] are offsets from [base].  [size_t]
    is [SIZE_BITS] wide; the parameter that the C functions call [size] is
    [n] here, beside the field [size].  [xmalloc n] is the region of [n] bytes that the
    allocator returns (it does not return when it fails); what the region
    holds is arbitrary. *)

Module Lib_buffer.
Section Buffer.
Variable SIZE_BITS : Z.
Variable xmalloc : Z -> bytes.

Definition size_t (x : Z) : Z := x mod 2^SIZE_BITS.

Record buffer := {
  base : bytes;
  allocated : Z;
  data : Z;
  size : Z
}.

(** memcpy (mem + off, src, n) on the region [mem]; [None] when the copy
    would leave the region or read beyond [src]. *)
Definition memcpy (mem : bytes) (off : Z) (src : bytes) (n : Z) : option bytes :=
  if (0 <=? off) && (0 <=? n) && (off + n <=? buf_len mem) && (n <=? buf_len src)
  then Some (take (Z.to_nat off) mem ++ take (Z.to_nat n) src
             ++ drop (Z.to_nat (off + n)) mem)
  else None.

(* lib/buffer.c: buffer_use *)
Definition buffer_use (base : bytes) (allocated : Z) : buffer :=
  {| base := base; allocated := allocated; data := 0; size := 0 |}.

(* lib/buffer.c: buffer_init; the null pointer is the empty region *)
Definition buffer_init (n : Z) : buffer :=
  buffer_use (if negb (n =? 0) then xmalloc n else []) n.

(* lib/buffer.c: buffer_headroom *)
Definition buffer_headroom (b : buffer) : Z := size_t (data b).

(* lib/buffer.c: buffer_tail and buffer_end *)
Definition buffer_tail (b : buffer) : Z := data b + size b.
Definition buffer_end (b : buffer) : Z := allocated b.

(* lib/buffer.c: buffer_tailroom *)
Definition buffer_tailroom (b : buffer) : Z := size_t (buffer_end b - buffer_tail b).

(* lib/buffer.c: buffer_reserve_tailroom *)
Definition buffer_reserve_tailroom (b : buffer) (n : Z) : option buffer :=
  if buffer_tailroom b <? n then
    let headroom := buffer_headroom b in
    let new_allocated := size_t (allocated b + Z.max n 64) in
    match memcpy (xmalloc new_allocated) 0 (base b) (allocated b) with
    | Some new_base =>
        Some {| base := new_base; allocated := new_allocated;
                data := headroom; size := size b |}
    | None => None
    end
  else Some b.

(* lib/buffer.c: buffer_put_uninit; the pointer returned and the buffer *)
Definition buffer_put_uninit (b : buffer) (n : Z) : option (Z * buffer) :=
  match buffer_reserve_tailroom b n with
  | Some b =>
      Some (buffer_tail b,
            {| base := base b; allocated := allocated b; data := data b;
               size := size_t (size b + n) |})
  | None => None
  end.

(* lib/buffer.c: buffer_put *)
Definition buffer_put (b : buffer) (p : bytes) (n : Z) : option buffer :=
  match buffer_put_uninit b n with
  | Some (q, b) =>
      match memcpy (base b) q p n with
      | Some mem =>
          Some {| base := mem; allocated := allocated b; data := data b;
                  size := size b |}
      | None => None
      end
  | None => None
  end.

(* lib/buffer.c: buffer_at; [None] is the null pointer.  The sum
   [offset + size] and the pointer [b->data + offset] are computed in
   [SIZE_BITS] bits. *)
Definition buffer_at (b : buffer) (offset n : Z) : option Z :=
  if size_t (offset + n) <=? size b then Some (size_t (data b + offset))
  else None.

(* lib/buffer.c: buffer_clear *)
Definition buffer_clear (b : buffer) : buffer :=
  {| base := base b; allocated := allocated b; data := 0; size := 0 |}.

(* lib/buffer.c: buffer_pull; [None] is the failing assertion *)
Definition buffer_pull (b : buffer) (n : Z) : option buffer :=
  if n <=? size b then
    Some {| base := base b; allocated := allocated b; data := data b + n;
            size := size b - n |}
  else None.

End Buffer.
End Lib_buffer.

(** The designators of a table are pairwise different, as the enumerators of
    a C enumeration are. *)
Fixpoint distinct (l : list Z) : bool :=
  match l with
  | [] => true
  | x :: r => negb (existsb (Z.eqb x) r) && distinct r
  end.

(** ** Helpers for stating the properties *)

(** The rewrite actions of a list applied in order by the user-space
    interpreter; [None] when one of them aborts the run. *)
Fixpoint apply_setters `{openflow_h} (host_le : bool) (b : buffer)
  (k : sw_flow_key) (eth_proto : Z) (acts : list ofp_action) : option buffer :=
  match acts with
  | [] => Some b
  | a :: rest =>
      match Switch_actions.apply_setter host_le b k eth_proto a with
      | Some b' => apply_setters host_le b' k eth_proto rest
      | None => None
      end
  end.

(** What the kernel interpreter holds after a list of rewrite actions: the
    buffer and the key as rewritten, or the buffer that make_writable refused
    to make writable, or nothing when execute_setter handed back no buffer. *)
Inductive kernel_rewritten (sk_buff : Type) :=
| Kr_done (skb : sk_buff) (key : sw_flow_key)
| Kr_unwritable (skb : sk_buff)
| Kr_lost.

Arguments Kr_done {sk_buff} skb key.
Arguments Kr_unwritable {sk_buff} skb.
Arguments Kr_lost {sk_buff}.

(** The rewrite actions of a list applied in order as the kernel interpreter
    applies them: make_writable, then execute_setter, for each action. *)
Fixpoint kernel_apply_setters `{openflow_h} {sk_buff : Type}
  (make_writable : sk_buff -> option sk_buff)
  (execute_setter :
     sk_buff -> Z -> sw_flow_key -> ofp_action -> option sk_buff * sw_flow_key)
  (eth_proto : Z) (skb : sk_buff) (key : sw_flow_key) (acts : list ofp_action)
  : kernel_rewritten sk_buff :=
  match acts with
  | [] => Kr_done skb key
  | a :: rest =>
      match make_writable skb with
      | None => Kr_unwritable skb
      | Some skb1 =>
          match execute_setter skb1 eth_proto key a with
          | (None, _) => Kr_lost
          | (Some skb2, key') =>
              kernel_apply_setters make_writable execute_setter eth_proto
                skb2 key' rest
          end
      end
  end.

(** An event of the user-space interpreter that belongs to an output sent as
    a clone: the call of buffer_clone, or the call of do_output on the
    clone. *)
Definition sent_as_clone (e : Switch_actions.event) : bool :=
  match e with
  | Switch_actions.Ev_clone _ => true
  | Switch_actions.Ev_do_output _ _ _ _ is_clone => is_clone
  | _ => false
  end.

(** The ports that a trace of the user-space interpreter hands to do_output,
    in order. *)
Definition output_ports (tr : list Switch_actions.event) : list Z :=
  flat_map (fun e => match e with
                     | Switch_actions.Ev_do_output _ _ _ out_port _ => [out_port]
                     | _ => []
                     end) tr.

(** A sequence of steps of a relation. *)
Inductive cache_steps {C : Type} (step : C -> C -> Prop) : C -> C -> Prop :=
| Steps_nil (c : C) : cache_steps step c c
| Steps_cons (c c' c'' : C) :
    step c c' -> cache_steps step c' c'' -> cache_steps step c c''.

(** One operation on the user-space buffer cache that leaves the packet
    saved under [id] alone: a call of save_buffer that is refused or that
    stores its packet in another slot, or a call of retrieve_buffer or of
    discard_buffer with another id.  Once the packet is [taken], calls of
    retrieve_buffer and discard_buffer with [id] itself are steps as well. *)
Inductive switch_cache_step (id : Z) (taken : bool)
  : Switch_buffers.buffer_cache -> Switch_buffers.buffer_cache -> Prop :=
| Sw_save (now : Z) (c : Switch_buffers.buffer_cache) (b : buffer) :
    fst (Switch_buffers.save_buffer now c b) = UINT32_MAX
    \/ Z.land (fst (Switch_buffers.save_buffer now c b)) PKT_BUFFER_MASK
       <> Z.land id PKT_BUFFER_MASK ->
    switch_cache_step id taken c (snd (Switch_buffers.save_buffer now c b))
| Sw_retrieve (c : Switch_buffers.buffer_cache) (id' : Z) :
    taken = true \/ id' <> id ->
    switch_cache_step id taken c (snd (Switch_buffers.retrieve_buffer c id'))
| Sw_discard (c : Switch_buffers.buffer_cache) (id' : Z) :
    taken = true \/ id' <> id ->
    switch_cache_step id taken c (Switch_buffers.discard_buffer c id').

(** The same for the cache of the kernel datapath, where fwd_discard_all is
    one more operation, a step once the packet is [taken]. *)
Inductive kernel_cache_step (S : Type) (BITS_PER_LONG HZ : Z) (id : Z)
  (taken : bool)
  : Kernel_buffers.buffer_cache S -> Kernel_buffers.buffer_cache S -> Prop :=
| Kc_save (jiffies : Z) (c : Kernel_buffers.buffer_cache S) (s : S) :
    let r := Kernel_buffers.fwd_save_skb S BITS_PER_LONG HZ jiffies c s in
    fst (fst r) = UINT32_MAX
    \/ Z.land (fst (fst r)) PKT_BUFFER_MASK <> Z.land id PKT_BUFFER_MASK ->
    kernel_cache_step S BITS_PER_LONG HZ id taken c (snd (fst r))
| Kc_retrieve (c : Kernel_buffers.buffer_cache S) (id' : Z) :
    taken = true \/ id' <> id ->
    kernel_cache_step S BITS_PER_LONG HZ id taken c
      (snd (Kernel_buffers.retrieve_skb S c id'))
| Kc_discard (c : Kernel_buffers.buffer_cache S) (id' : Z) :
    taken = true \/ id' <> id ->
    kernel_cache_step S BITS_PER_LONG HZ id taken c
      (Kernel_buffers.discard_skb S c id')
| Kc_discard_all (c : Kernel_buffers.buffer_cache S) :
    taken = true ->
    kernel_cache_step S BITS_PER_LONG HZ id taken c
      (fst (Kernel_buffers.fwd_discard_all S c)).

(** An assignment of the constants of [openflow.h], for evaluating the model
    on concrete inputs: the version, the reserved ports and the data-link
    sentinels are those of the wire-protocol section of the specification;
    the enumerations are numbered in the order of the protocol header. *)
Definition openflow_example : openflow_h := {|
  OFP_VERSION := 0x83;
  OFPT_HELLO := 0; OFPT_ERROR := 1; OFPT_ECHO_REQUEST := 2;
  OFPT_ECHO_REPLY := 3; OFPT_VENDOR := 4; OFPT_FEATURES_REQUEST := 5;
  OFPT_GET_CONFIG_REQUEST := 7; OFPT_SET_CONFIG := 9; OFPT_PACKET_IN := 10;
  OFPT_PACKET_OUT := 13; OFPT_FLOW_MOD := 14; OFPT_PORT_MOD := 15;
  OFPT_FLOW_STAT_REQUEST := 18;
  OFPT_PORT_STAT_REQUEST := 19; OFPT_TABLE_STAT_REQUEST := 20;
  OFPAT_OUTPUT := 0; OFPAT_SET_DL_VLAN := 10; OFPAT_SET_DL_SRC := 4;
  OFPAT_SET_DL_DST := 5; OFPAT_SET_NW_SRC := 6; OFPAT_SET_NW_DST := 7;
  OFPAT_SET_TP_SRC := 8; OFPAT_SET_TP_DST := 9;
  OFPFW_IN_PORT := 1; OFPFW_DL_VLAN := 2; OFPFW_DL_SRC := 4;
  OFPFW_DL_DST := 8; OFPFW_DL_TYPE := 16; OFPFW_NW_PROTO := 32;
  OFPFW_TP_SRC := 64; OFPFW_TP_DST := 128;
  OFPFW_NW_SRC_SHIFT := 8; OFPFW_NW_SRC_BITS := 6; OFPFW_NW_SRC_MASK := 0x3f00;
  OFPFW_NW_DST_SHIFT := 14; OFPFW_NW_DST_MASK := 0xfc000; OFPFW_ALL := 0xfffff;
  OFPP_TABLE := 0xfff9; OFPP_CONTROLLER := 0xfffd; OFPP_NONE := 0xffff;
  OFP_CHELLO_SEND_FLOW_EXP := 1;
  OFP_FLOW_PERMANENT := 0; OFPER_IDLE_TIMEOUT := 0; OFPER_HARD_TIMEOUT := 1;
  OFPR_NO_MATCH := 0; OFPR_ACTION := 1;
  OFPET_BAD_REQUEST := 1; OFPBRC_BAD_VERSION := 0; OFPBRC_BAD_TYPE := 1;
  OFP_DL_TYPE_ETH2_CUTOFF := 0x0600; OFP_DL_TYPE_NOT_ETH_TYPE := 0x05ff;
  OFP_VLAN_NONE := 0xffff;
  sizeof_ofp_header := 8; offsetof_ofp_packet_in_data := 18;
  sizeof_ofp_switch_config := 12; sizeof_ofp_packet_out := 16;
  sizeof_ofp_flow_mod := 60; sizeof_ofp_port_mod := 44;
  sizeof_ofp_flow_stat_request := 48; sizeof_ofp_port_stat_request := 8;
  sizeof_ofp_table_stat_request := 8
|}.

Definition output_action `{openflow_h} (port max_len : Z) : ofp_action :=
  {| a_type := OFPAT_OUTPUT; output_port := port; output_max_len := max_len;
     vlan_id := 0; vlan_pcp := 0; dl_addr := 0; nw_addr := 0; tp := 0 |}.

Definition set_dl_src_action `{openflow_h} (addr : Z) : ofp_action :=
  {| a_type := OFPAT_SET_DL_SRC; output_port := 0; output_max_len := 0;
     vlan_id := 0; vlan_pcp := 0; dl_addr := addr; nw_addr := 0; tp := 0 |}.

Definition set_nw_action (t addr : Z) : ofp_action :=
  {| a_type := t; output_port := 0; output_max_len := 0; vlan_id := 0;
     vlan_pcp := 0; dl_addr := 0; nw_addr := addr; tp := 0 |}.

(** The IPv4 header checksum recomputed from scratch: the Internet checksum
    of the ten header words at [nh], the checksum field taken as zero. *)
Definition ip_header_csum (bs : bytes) (nh : Z) : Z :=
  recompute_csum (words_from (put16 bs (nh + 10) 0) nh 10).

(** A buffer holding the given frame, as flow_extract leaves its cursors
    for an untagged Ethernet II frame with a 20-byte IPv4 header. *)
Definition frame_buffer (d : bytes) : buffer :=
  {| data := d; l2 := Some 0; l3 := Some 14; l4 := Some 34 |}.

Definition zero_key : sw_flow_key :=
  {| key_flow := flow_zero; wildcards := 0; nw_src_mask := 0; nw_dst_mask := 0 |}.

(** The representative of a non-negative number in one's-complement
    arithmetic on 16 bits: 0 for 0, otherwise the number in [1, 0xffff] that
    is congruent to it modulo 0xffff; and the plain sum of a list of words. *)
Definition onec_norm (n : Z) : Z :=
  if n =? 0 then 0 else (n - 1) mod 65535 + 1.

Definition word_sum (ws : list Z) : Z := fold_right Z.add 0 ws.

Definition is_word (w : Z) : Prop := 0 <= w <= 65535.

(** The ten fields that flow_fields_match compares are equal. *)
Definition same_fields (a b : flow) : Prop :=
  in_port a = in_port b /\ dl_vlan a = dl_vlan b /\ dl_src a = dl_src b
  /\ dl_dst a = dl_dst b /\ dl_type a = dl_type b /\ nw_src a = nw_src b
  /\ nw_dst a = nw_dst b /\ nw_proto a = nw_proto b /\ tp_src a = tp_src b
  /\ tp_dst a = tp_dst b.

(** A hash table as table_hash_create leaves its fields related: the bucket
    array has bucket_mask + 1 elements, fewer than 2^31. *)
Definition table_hash_wf (th : Kernel_table_hash.sw_table_hash) : Prop :=
  0 <= Kernel_table_hash.bucket_mask th < 2^31 - 1
  /\ Z.of_nat (length (Kernel_table_hash.buckets th))
     = Kernel_table_hash.bucket_mask th + 1.

(** The flows held by an array of buckets, in the order of the buckets. *)
Definition bucket_flows (bs : list (option Kernel_dp.sw_flow))
  : list Kernel_dp.sw_flow := omap id bs.

(** The counter [n_flows] of a hash table is the number of flows in its
    buckets. *)
Definition counts_flows (th : Kernel_table_hash.sw_table_hash) : Prop :=
  Kernel_table_hash.n_flows th
  = Z.of_nat (length (bucket_flows (Kernel_table_hash.buckets th))).

(** The flows that the loop [for (; iter.flow; iterator_next (&iter))] of a
    user of the iterator visits, in at most [fuel] turns. *)
Fixpoint iterator_flows (fuel : nat) (th : Kernel_table_hash.sw_table_hash)
  (it : option Kernel_dp.sw_flow * Z) : list Kernel_dp.sw_flow :=
  match fuel with
  | O => []
  | S fuel' =>
      match fst it with
      | None => []
      | Some f => f :: iterator_flows fuel' th (Kernel_table_hash.table_hash_next th it)
      end
  end.

(** The ports of [dp->port_list] that flood sends to: all but the ingress
    port and the ports flagged BRIDGE_PORT_NO_FLOOD. *)
Definition flood_targets {netdev : Type} (ports : list (Switch_ports.sw_port netdev))
  (port_list : list Z) (in_port : Z) : list Z :=
  List.filter
    (fun p => negb ((p =? in_port)
                    || tst (Switch_ports.sp_flags netdev (Switch_ports.port_at netdev ports p))
                           Switch_ports.BRIDGE_PORT_NO_FLOOD))
    port_list.

(** The bytes in use of a library buffer, and the relation that buffer_use
    establishes between its fields: the data in use lie within the allocated
    region, whose size fits a [size_t]. *)
Definition in_use (b : Lib_buffer.buffer) : bytes :=
  take (Z.to_nat (Lib_buffer.size b))
       (drop (Z.to_nat (Lib_buffer.data b)) (Lib_buffer.base b)).

Definition buffer_wf (SIZE_BITS : Z) (b : Lib_buffer.buffer) : Prop :=
  0 <= Lib_buffer.data b /\ 0 <= Lib_buffer.size b
  /\ Lib_buffer.data b + Lib_buffer.size b <= Lib_buffer.allocated b
  /\ buf_len (Lib_buffer.base b) = Lib_buffer.allocated b
  /\ Lib_buffer.allocated b < 2^SIZE_BITS.

(** A byte, and a SET_DL_VLAN action. *)
Definition is_byte (x : Z) : Prop := 0 <= x < 256.

Definition set_dl_vlan_action `{openflow_h} (id : Z) : ofp_action :=
  {| a_type := OFPAT_SET_DL_VLAN; output_port := 0; output_max_len := 0;
     vlan_id := id; vlan_pcp := 0; dl_addr := 0; nw_addr := 0; tp := 0 |}.

(** ** Concrete inputs *)

Definition example_frame : bytes := repeat 0 60.

Definition example_actions_out_then_set : list ofp_action :=
  [ @output_action openflow_example 2 0;
    @set_dl_src_action openflow_example 0x0a0b0c0d0e0f ].

Definition example_actions_set_then_out : list ofp_action :=
  [ @set_dl_src_action openflow_example 0x0a0b0c0d0e0f;
    @output_action openflow_example 2 0 ].

(** The kernel interpreter on frames as byte lists, every kernel call
    succeeding and the rewrite left out. *)
Definition example_kernel_run (acts : list ofp_action)
  : list (Kernel_actions.event bytes) :=
  @Kernel_actions.execute_actions openflow_example bytes
    (fun s => Some s) (fun s => Some s) (fun s _ k _ => (Some s, k))
    example_frame zero_key acts false.

(** An Ethernet II frame with a 20-byte IPv4 header and no payload: ICMP
    from 192.168.48.66 to 10.0.0.0, header checksum 0x7fff. *)
Definition example_ip_frame_be : bytes :=
  [ 0x00; 0x00; 0x00; 0x00; 0x00; 0x02;  0x00; 0x00; 0x00; 0x00; 0x00; 0x01;
    0x08; 0x00;
    0x45; 0x00; 0x00; 0x14;  0x00; 0x00; 0x00; 0x00;  0x40; 0x01; 0x7f; 0xff;
    0xc0; 0xa8; 0x30; 0x42;  0x0a; 0x00; 0x00; 0x00 ].

(** The same from 10.1.103.105, header checksum 0xff7f. *)
Definition example_ip_frame_le : bytes :=
  [ 0x00; 0x00; 0x00; 0x00; 0x00; 0x02;  0x00; 0x00; 0x00; 0x00; 0x00; 0x01;
    0x08; 0x00;
    0x45; 0x00; 0x00; 0x14;  0x00; 0x00; 0x00; 0x00;  0x40; 0x01; 0xff; 0x7f;
    0x0a; 0x01; 0x67; 0x69;  0x0a; 0x00; 0x00; 0x00 ].

Definition IPPROTO_ICMP : Z := 1.

(** The frame that modify_nh leaves for SET_NW_DST(addr) on a host of the
    given byte order (the empty frame if the run faults). *)
Definition example_set_nw_dst (host_le : bool) (frame : bytes) (addr : Z) : bytes :=
  match @Switch_actions.modify_nh openflow_example host_le (frame_buffer frame)
          ETH_P_IP IPPROTO_ICMP
          (set_nw_action (@OFPAT_SET_NW_DST openflow_example) addr) with
  | Some b => data b
  | None => []
  end.

(** A 100-byte Ethernet II frame of an experimental EtherType, as a port
    delivers it. *)
Definition example_long_frame : bytes :=
  repeat 0 12 ++ [0x88; 0xb5] ++ repeat 0 86.

Definition received (d : bytes) : buffer :=
  {| data := d; l2 := None; l3 := None; l4 := None |}.

(** The buffer cache after 256 packets were saved within one second: every
    slot holds a packet that is less than OVERWRITE_SECS old. *)
Definition example_full_cache : Switch_buffers.buffer_cache :=
  Nat.iter 256
    (fun c => snd (Switch_buffers.save_buffer 100 c (received example_frame)))
    Switch_buffers.initial_cache.

(** A first packet saved in the cache of a freshly started switch, at time
    100: the id that save_buffer returns, and the cache it leaves. *)
Definition example_saved : Z * Switch_buffers.buffer_cache :=
  Switch_buffers.save_buffer 100 Switch_buffers.initial_cache
    (received example_frame).

(** The cache after three more operations: a second packet is saved (it
    goes into the next slot, under the id 258) and retrieved, and an id of
    a slot that was never filled is discarded. *)
Definition example_cache_before_retrieve : Switch_buffers.buffer_cache :=
  Switch_buffers.discard_buffer
    (snd (Switch_buffers.retrieve_buffer
            (snd (Switch_buffers.save_buffer 100 (snd example_saved)
                    (received example_long_frame)))
            258))
    5.

(** The buffer cache in which the first packet was saved at time 100 and 256
    more packets a hundred seconds later: the last of them went into the slot
    of the first packet, which was more than OVERWRITE_SECS old by then. *)
Definition example_reused_cache : Switch_buffers.buffer_cache :=
  Nat.iter 256
    (fun c => snd (Switch_buffers.save_buffer 200 c (received example_long_frame)))
    (snd example_saved).

(** The same in the kernel datapath, on a machine with 64-bit longs and a
    tick of 10 ms, the packets being byte lists: a first packet saved at
    tick 1000, then a second one saved and retrieved. *)
Definition example_kernel_saved
  : Z * Kernel_buffers.buffer_cache bytes * option bytes :=
  Kernel_buffers.fwd_save_skb bytes 64 100 1000
    (Kernel_buffers.initial_cache bytes) example_frame.

Definition example_kernel_cache_before_retrieve
  : Kernel_buffers.buffer_cache bytes :=
  snd (Kernel_buffers.retrieve_skb bytes
         (snd (fst (Kernel_buffers.fwd_save_skb bytes 64 100 1000
                      (snd (fst example_kernel_saved)) example_long_frame)))
         258).

(** A user-space datapath whose chain is one empty linear table. *)
Definition example_dp (c : Switch_buffers.buffer_cache) (flags miss_send_len : Z)
  : Switch_dp.datapath (T := list Switch_dp.sw_flow) :=
  {| Switch_dp.chain := [[]];
     Switch_dp.config_flags := flags;
     Switch_dp.config_miss_send_len := miss_send_len;
     Switch_dp.last_timeout := 0;
     Switch_dp.cache := c |}.

(** A FLOW_MOD(ADD) for the fully wildcarded match on ingress port 1 with
    the given actions and no buffered packet. *)
Definition example_flow_mod (acts : list ofp_action) : ofp_flow_mod :=
  {| ofm_match := {| m_wildcards := 0xffffe; m_in_port := 1; m_dl_src := 0;
                     m_dl_dst := 0; m_dl_vlan := 0; m_dl_type := 0;
                     m_nw_src := 0; m_nw_dst := 0; m_nw_proto := 0;
                     m_tp_src := 0; m_tp_dst := 0 |};
     ofm_command := 0; ofm_max_idle := 60; ofm_idle_timeout := 60;
     ofm_hard_timeout := 0; ofm_priority := 100;
     ofm_buffer_id := 0xffffffff; ofm_group_id := 0;
     ofm_actions := acts |}.

(** The memory that flow_alloc hands out. *)
Definition example_blank_flow : Switch_dp.sw_flow :=
  {| Switch_dp.key := zero_key; Switch_dp.group_id := 0; Switch_dp.max_idle := 0;
     Switch_dp.created := 0; Switch_dp.flow_timeout_at := 0; Switch_dp.used := 0;
     Switch_dp.packet_count := 0; Switch_dp.byte_count := 0;
     Switch_dp.actions := [] |}.

(** The three action lists that the kernel datapath refuses for a rule on
    ingress port 1. *)
Definition example_loop_actions : list (list ofp_action) :=
  [ [@output_action openflow_example (@OFPP_TABLE openflow_example) 0];
    [@output_action openflow_example (@OFPP_NONE openflow_example) 0];
    [@output_action openflow_example 1 0] ].

(** The chain of the user-space datapath after add_flow, and its return
    value. *)
Definition example_add_flow (acts : list ofp_action)
  : Z * list (list Switch_dp.sw_flow) :=
  let '(ret, dp, _) :=
    @Switch_dp.add_flow openflow_example _ (@Switch_tables.linear_table openflow_example)
      false 100 (Some example_blank_flow)
      (example_dp Switch_buffers.initial_cache 0 128) (example_flow_mod acts) in
  (ret, Switch_dp.chain dp).

(** A flow of the kernel datapath whose hard timeout of 5 seconds has
    passed at tick 1000 (HZ = 100), and one of the user-space switch whose idle
    deadline, second 50, has passed at second 100. *)
Definition example_kernel_flow : Kernel_dp.sw_flow :=
  {| Kernel_dp.key := zero_key; Kernel_dp.priority := 0xffff;
     Kernel_dp.idle_timeout := 0; Kernel_dp.hard_timeout := 5;
     Kernel_dp.used := 0; Kernel_dp.init_time := 0; Kernel_dp.byte_count := 0;
     Kernel_dp.packet_count := 0; Kernel_dp.actions := [] |}.

Definition example_idle_flow : Switch_dp.sw_flow :=
  {| Switch_dp.key := zero_key; Switch_dp.group_id := 0; Switch_dp.max_idle := 10;
     Switch_dp.created := 40; Switch_dp.flow_timeout_at := 50; Switch_dp.used := 40;
     Switch_dp.packet_count := 0; Switch_dp.byte_count := 0;
     Switch_dp.actions := [] |}.

(** The user-space datapath with that flow in its linear table and all
    configuration flags clear. *)
Definition example_dp_idle : Switch_dp.datapath (T := list Switch_dp.sw_flow) :=
  {| Switch_dp.chain := [[example_idle_flow]];
     Switch_dp.config_flags := 0;
     Switch_dp.config_miss_send_len := 128;
     Switch_dp.last_timeout := 99;
     Switch_dp.cache := Switch_buffers.initial_cache |}.

(** An Ethernet II frame with the first fragment (more-fragments set) of a
    UDP datagram from port 53 to port 1234, and one with an IPv4 header that
    announces TCP and is followed by four bytes only. *)
Definition example_fragment_frame : bytes :=
  [ 0x00; 0x00; 0x00; 0x00; 0x00; 0x02;  0x00; 0x00; 0x00; 0x00; 0x00; 0x01;
    0x08; 0x00;
    0x45; 0x00; 0x00; 0x1c;  0x00; 0x01; 0x20; 0x00;  0x40; 0x11; 0x00; 0x00;
    0x0a; 0x00; 0x00; 0x01;  0x0a; 0x00; 0x00; 0x02;
    0x00; 0x35; 0x04; 0xd2;  0x00; 0x08; 0x00; 0x00 ].


(** The same as the first with the fragment bits clear. *)
Definition example_udp_frame : bytes :=
  [ 0x00; 0x00; 0x00; 0x00; 0x00; 0x02;  0x00; 0x00; 0x00; 0x00; 0x00; 0x01;
    0x08; 0x00;
    0x45; 0x00; 0x00; 0x1c;  0x00; 0x01; 0x00; 0x00;  0x40; 0x11; 0x00; 0x00;
    0x0a; 0x00; 0x00; 0x01;  0x0a; 0x00; 0x00; 0x02;
    0x00; 0x35; 0x04; 0xd2;  0x00; 0x08; 0x00; 0x00 ].



(** A packet key and two rule keys: the exact rule for TCP port 80 of
    10.0.0.2, and the rule for the whole of 10.0.0.0/24, any protocol. *)
Definition example_packet_key : sw_flow_key :=
  {| key_flow := {| nw_src := 0x0a000001; nw_dst := 0x0a000002; in_port := 1;
                    dl_vlan := 0xffff; dl_type := 0x0800; tp_src := 1234;
                    tp_dst := 80; dl_src := 1; dl_dst := 2; nw_proto := 6;
                    reserved := 0 |};
     wildcards := 0; nw_src_mask := 0; nw_dst_mask := 0 |}.

Definition example_exact_match : ofp_match :=
  {| m_wildcards := 0; m_in_port := 1; m_dl_src := 1; m_dl_dst := 2;
     m_dl_vlan := 0xffff; m_dl_type := 0x0800; m_nw_src := 0x0a000001;
     m_nw_dst := 0x0a000002; m_nw_proto := 6; m_tp_src := 1234; m_tp_dst := 80 |}.

Definition example_subnet_match : ofp_match :=
  {| m_wildcards := 0x220ef; m_in_port := 0; m_dl_src := 0; m_dl_dst := 0;
     m_dl_vlan := 0; m_dl_type := 0x0800; m_nw_src := 0;
     m_nw_dst := 0x0a000063; m_nw_proto := 0; m_tp_src := 0; m_tp_dst := 0 |}.

(** Two flows of the kernel datapath: one with neither timeout, and one
    whose idle timeout of 5 seconds has passed at tick 1000 (HZ = 100). *)
Definition example_permanent_flow : Kernel_dp.sw_flow :=
  {| Kernel_dp.key := zero_key; Kernel_dp.priority := 0xffff;
     Kernel_dp.idle_timeout := 0; Kernel_dp.hard_timeout := 0;
     Kernel_dp.used := 0; Kernel_dp.init_time := 0; Kernel_dp.byte_count := 0;
     Kernel_dp.packet_count := 0; Kernel_dp.actions := [] |}.

Definition example_idle_kernel_flow : Kernel_dp.sw_flow :=
  {| Kernel_dp.key := zero_key; Kernel_dp.priority := 0xffff;
     Kernel_dp.idle_timeout := 5; Kernel_dp.hard_timeout := 0;
     Kernel_dp.used := 0; Kernel_dp.init_time := 0; Kernel_dp.byte_count := 0;
     Kernel_dp.packet_count := 0; Kernel_dp.actions := [] |}.

(** A checksum function for evaluating the hash tables: the polynomial plus
    the ingress port of the key; and flows with exact keys on ingress ports 1
    and 5, which it sends to the same bucket of a table of four. *)
Definition example_crc (polynomial : Z) (k : sw_flow_key) : Z :=
  polynomial + in_port (key_flow k).

Definition example_port_flow (port : Z) : Kernel_dp.sw_flow :=
  {| Kernel_dp.key := {| key_flow := set_dl_type
                                       {| nw_src := 0; nw_dst := 0; in_port := port;
                                          dl_vlan := 0xffff; dl_type := 0; tp_src := 0;
                                          tp_dst := 0; dl_src := 0; dl_dst := 0;
                                          nw_proto := 0; reserved := 0 |} 0x0806;
                         wildcards := 0; nw_src_mask := 0xffffffff;
                         nw_dst_mask := 0xffffffff |};
     Kernel_dp.priority := 0xffff; Kernel_dp.idle_timeout := 60;
     Kernel_dp.hard_timeout := 0; Kernel_dp.used := 0; Kernel_dp.init_time := 0;
     Kernel_dp.byte_count := 0; Kernel_dp.packet_count := 0;
     Kernel_dp.actions := [] |}.

(** A table of four buckets that holds the flow of port 1, and the
    double-hashing table made of it and of an empty table with another
    polynomial. *)
Definition example_hash_table : Kernel_table_hash.sw_table_hash :=
  {| Kernel_table_hash.crc32 := 0; Kernel_table_hash.n_flows := 1;
     Kernel_table_hash.bucket_mask := 3;
     Kernel_table_hash.buckets := [None; Some (example_port_flow 1); None; None] |}.

Definition example_hash2_table : Kernel_table_hash.sw_table_hash2 :=
  {| Kernel_table_hash.subtable0 := example_hash_table;
     Kernel_table_hash.subtable1 :=
       {| Kernel_table_hash.crc32 := 1; Kernel_table_hash.n_flows := 0;
          Kernel_table_hash.bucket_mask := 3;
          Kernel_table_hash.buckets := [None; None; None; None] |} |}.

(** The user-space cache after one packet was saved at second 100 (in slot
    1, under the id 0x101), and the same with the round-robin index set back,
    so that the next save comes to slot 1 again. *)
Definition example_cache_one : Switch_buffers.buffer_cache :=
  snd (Switch_buffers.save_buffer 100 Switch_buffers.initial_cache
         (received example_frame)).

Definition example_cache_rewound : Switch_buffers.buffer_cache :=
  {| Switch_buffers.buffers := Switch_buffers.buffers example_cache_one;
     Switch_buffers.buffer_idx := 0 |}.

(** The kernel cache, of frames as byte lists, after one frame was saved at
    tick 1000 (64-bit ticks, HZ = 100). *)
Definition example_kernel_cache : Kernel_buffers.buffer_cache bytes :=
  snd (fst (Kernel_buffers.fwd_save_skb bytes 64 100 1000
              (Kernel_buffers.initial_cache bytes) example_frame)).

(** An assignment of the further constants, numbered as the enumerations of
    the protocol header. *)
Definition openflow_ext_example : openflow_h_ext := {|
  OFPP_MAX := 0x100; OFPP_FLOOD := 0xfffb;
  OFPFC_ADD := 0; OFPFC_MODIFY := 1; OFPFC_MODIFY_STRICT := 2;
  OFPFC_DELETE := 3; OFPFC_DELETE_STRICT := 4;
  OFPC_SEND_FLOW_EXP := 1; OFPC_FRAG_NORMAL := 0; OFPC_FRAG_DROP := 2;
  OFPC_FRAG_MASK := 6;
  OFPPC_NO_RECV := 4; OFPPC_NO_RECV_STP := 8
|}.

(** Four ports with a device each, port 2 flagged BRIDGE_PORT_NO_FLOOD. *)
Definition example_ports : list (Switch_ports.sw_port unit) :=
  map (fun f => {| Switch_ports.sp_flags := f; Switch_ports.sp_netdev := Some tt;
                   Switch_ports.rx_count := 0; Switch_ports.tx_count := 0;
                   Switch_ports.drop_count := 0 |})
      [0; 0; 1; 0].

(** A FLOW_MOD(MODIFY) for the rule on ingress port 1, with an OUTPUT to
    port 2 and no buffered packet. *)
Definition example_modify : ofp_flow_mod :=
  {| ofm_match := ofm_match (example_flow_mod []);
     ofm_command := 1; ofm_max_idle := 60; ofm_idle_timeout := 60;
     ofm_hard_timeout := 0; ofm_priority := 100;
     ofm_buffer_id := 0xffffffff; ofm_group_id := 0;
     ofm_actions := [@output_action openflow_example 2 0] |}.

(** A key as the parser leaves it for an untagged frame, and the first
    example frame after SET_DL_VLAN (5) on a big-endian host (the frame
    itself if the action faults). *)
Definition example_untagged_key : sw_flow_key :=
  {| key_flow := set_dl_vlan flow_zero 0xffff; wildcards := 0;
     nw_src_mask := 0; nw_dst_mask := 0 |}.

Definition example_tagged_buffer : buffer :=
  default (frame_buffer example_ip_frame_be)
    (@Switch_actions.apply_setter openflow_example false
       (frame_buffer example_ip_frame_be) example_untagged_key ETH_P_IP
       (@set_dl_vlan_action openflow_example 5)).

(** An Ethernet II frame that announces an 802.1Q tag and ends two bytes
    after the Ethernet header. *)
Definition example_cut_vlan_frame : bytes :=
  [ 0x00; 0x00; 0x00; 0x00; 0x00; 0x02;  0x00; 0x00; 0x00; 0x00; 0x00; 0x01;
    0x81; 0x00;  0x00; 0x05 ].

(** An allocator that returns zeroed memory, and a library buffer of eight
    allocated bytes that holds six. *)
Definition example_xmalloc (n : Z) : bytes := repeat 0 (Z.to_nat n).

Definition example_lib_buffer : Lib_buffer.buffer :=
  {| Lib_buffer.base := [1; 2; 3; 4; 5; 6; 0; 0]; Lib_buffer.allocated := 8;
     Lib_buffer.data := 0; Lib_buffer.size := 6 |}.

(** * Properties *)

Section MatchProps.
Context `{openflow_h}.

Lemma kernel_fields_match_sym a b w sm dm :
  Kernel_flow.flow_fields_match a b w sm dm
  = Kernel_flow.flow_fields_match b a w sm dm.
Proof.
  unfold Kernel_flow.flow_fields_match.
  rewrite (Z.lxor_comm (nw_src a)), (Z.lxor_comm (nw_dst a)).
  rewrite (Z.eqb_sym (in_port a)), (Z.eqb_sym (dl_vlan a)),
    (Z.eqb_sym (dl_src a)), (Z.eqb_sym (dl_dst a)), (Z.eqb_sym (dl_type a)),
    (Z.eqb_sym (nw_proto a)), (Z.eqb_sym (tp_src a)), (Z.eqb_sym (tp_dst a)).
  reflexivity.
Qed.

Lemma switch_fields_match_sym a b w sm dm :
  Switch_flow.flow_fields_match a b w sm dm
  = Switch_flow.flow_fields_match b a w sm dm.
Proof.
  unfold Switch_flow.flow_fields_match.
  rewrite (Z.lxor_comm (nw_src a)), (Z.lxor_comm (nw_dst a)).
  rewrite (Z.eqb_sym (in_port a)), (Z.eqb_sym (dl_vlan a)),
    (Z.eqb_sym (dl_src a)), (Z.eqb_sym (dl_dst a)), (Z.eqb_sym (dl_type a)),
    (Z.eqb_sym (nw_proto a)), (Z.eqb_sym (tp_src a)), (Z.eqb_sym (tp_dst a)).
  reflexivity.
Qed.

(** C9.  The two-sided match [flow_matches_2wild] is symmetric in its two
    keys, in the kernel datapath and in the user-space switch alike. *)
Theorem flow_matches_2wild_symmetric (a b : sw_flow_key) :
  Kernel_flow.flow_matches_2wild a b = Kernel_flow.flow_matches_2wild b a
  /\ Switch_flow.flow_matches_2wild a b = Switch_flow.flow_matches_2wild b a.
Proof.
  unfold Kernel_flow.flow_matches_2wild, Switch_flow.flow_matches_2wild.
  rewrite (Z.lor_comm (wildcards a)), (Z.land_comm (nw_src_mask a)),
    (Z.land_comm (nw_dst_mask a)).
  split; [apply kernel_fields_match_sym | apply switch_fields_match_sym].
Qed.

End MatchProps.

(** ** The action interpreters *)

Section ActionProps.
Context `{openflow_h}.

Lemma no_output_followed (pre : list ofp_action) (out : ofp_action) :
  forallb (fun a => negb (is_output a)) pre = true ->
  outputs_followed (pre ++ [out]) = 0%nat.
Proof.
  induction pre as [|a pre IH]; simpl; intros Hpre.
  - destruct (is_output out); reflexivity.
  - apply andb_prop in Hpre as [Ha Hpre].
    apply negb_true_iff in Ha. rewrite Ha. simpl. auto.
Qed.

Lemma u16_not_minus1 (x : Z) : (u16 x =? -1) = false.
Proof.
  apply Z.eqb_neq. unfold u16.
  pose proof (Z.mod_pos_bound x (2^16) ltac:(lia)). lia.
Qed.

Section Switch.
Variable host_le : bool.
Variables (in_port : Z) (key : sw_flow_key) (eth_proto : Z).

Local Abbreviation loop :=
  (Switch_actions.execute_loop host_le in_port key eth_proto).

Lemma switch_clones_app (t1 t2 : list Switch_actions.event) :
  Switch_actions.clones (t1 ++ t2)
  = (Switch_actions.clones t1 + Switch_actions.clones t2)%nat.
Proof.
  unfold Switch_actions.clones. rewrite List.filter_app, length_app. reflexivity.
Qed.

Lemma switch_outputs_app (t1 t2 : list Switch_actions.event) :
  Switch_actions.outputs (t1 ++ t2)
  = (Switch_actions.outputs t1 + Switch_actions.outputs t2)%nat.
Proof.
  unfold Switch_actions.outputs. rewrite List.filter_app, length_app. reflexivity.
Qed.

Lemma switch_aborted_app (t1 t2 : list Switch_actions.event) :
  Switch_actions.aborted (t1 ++ t2)
  = Switch_actions.aborted t1 || Switch_actions.aborted t2.
Proof. unfold Switch_actions.aborted. apply existsb_app. Qed.

(** The clones of a run that is not aborted: one for the output pending on
    entry if any action is left, one for every OUTPUT action that is followed
    by another action. *)
Lemma switch_loop_clones (acts : list ofp_action) :
  forall (b : buffer) (prev_port max_len : Z),
    Switch_actions.aborted (loop acts b prev_port max_len) = false ->
    Switch_actions.clones (loop acts b prev_port max_len)
    = ((if negb (prev_port =? -1)%Z
        then match acts with [] => 0 | _ => 1 end else 0)
       + outputs_followed acts)%nat.
Proof.
  induction acts as [|a rest IH]; intros b prev_port max_len Hab.
  - simpl. destruct (negb (prev_port =? -1)); reflexivity.
  - simpl in *. unfold is_output.
    destruct (a_type a =? OFPAT_OUTPUT).
    + rewrite switch_aborted_app in Hab. apply orb_false_elim in Hab as [_ Hab].
      rewrite switch_clones_app, (IH _ _ _ Hab), u16_not_minus1. simpl.
      destruct (negb (prev_port =? -1)); destruct rest; simpl; lia.
    + destruct (Switch_actions.apply_setter host_le b key eth_proto a) as [b'|].
      * rewrite switch_aborted_app in Hab. apply orb_false_elim in Hab as [_ Hab].
        rewrite switch_clones_app, (IH _ _ _ Hab). simpl.
        destruct (negb (prev_port =? -1)); simpl; lia.
      * rewrite switch_aborted_app in Hab. apply orb_false_elim in Hab as [_ Hab].
        discriminate Hab.
Qed.

(** A prefix without OUTPUT actions, entered with no output pending, only
    rewrites the buffer. *)
Lemma switch_loop_setters (pre rest : list ofp_action) :
  forallb (fun a => negb (is_output a)) pre = true ->
  forall (b : buffer) (max_len : Z),
    loop (pre ++ rest) b (-1) max_len
    = match apply_setters host_le b key eth_proto pre with
      | Some b' => loop rest b' (-1) max_len
      | None => [Switch_actions.Ev_abort]
      end.
Proof.
  induction pre as [|a pre IH]; intros Hpre b max_len; [reflexivity|].
  simpl in Hpre. apply andb_prop in Hpre as [Ha Hpre].
  apply negb_true_iff in Ha. unfold is_output in Ha.
  change ((a :: pre) ++ rest) with (a :: (pre ++ rest)).
  cbn [Switch_actions.execute_loop apply_setters]. rewrite Ha.
  destruct (Switch_actions.apply_setter host_le b key eth_proto a) as [b'|].
  - rewrite (IH Hpre). reflexivity.
  - reflexivity.
Qed.

End Switch.

Section Kernel.
Variable sk_buff : Type.
Variable skb_clone : sk_buff -> option sk_buff.
Variable make_writable : sk_buff -> option sk_buff.
Variable execute_setter :
  sk_buff -> Z -> sw_flow_key -> ofp_action -> option sk_buff * sw_flow_key.
Variables (eth_proto : Z) (ignore_no_fwd : bool).

Local Abbreviation kloop :=
  (Kernel_actions.execute_loop sk_buff skb_clone make_writable execute_setter
     eth_proto ignore_no_fwd).
Local Abbreviation kclones := (Kernel_actions.clones sk_buff).
Local Abbreviation koutputs := (Kernel_actions.outputs sk_buff).

Lemma kernel_clones_app (t1 t2 : list (Kernel_actions.event sk_buff)) :
  kclones (t1 ++ t2) = (kclones t1 + kclones t2)%nat.
Proof.
  unfold Kernel_actions.clones. rewrite List.filter_app, length_app. reflexivity.
Qed.

Lemma kernel_outputs_app (t1 t2 : list (Kernel_actions.event sk_buff)) :
  koutputs (t1 ++ t2) = (koutputs t1 + koutputs t2)%nat.
Proof.
  unfold Kernel_actions.outputs. rewrite List.filter_app, length_app. reflexivity.
Qed.

Lemma kernel_finish_clones skb prev_port max_len :
  kclones (Kernel_actions.finish sk_buff skb prev_port max_len ignore_no_fwd) = 0%nat.
Proof.
  unfold Kernel_actions.finish. destruct (negb (prev_port =? -1)); reflexivity.
Qed.

(** The kernel interpreter never clones more often than the user-space one:
    a failed make_writable or a lost buffer ends the walk early. *)
Lemma kernel_loop_clones (acts : list ofp_action) :
  forall (key : sw_flow_key) (skb : sk_buff) (prev_port max_len : Z),
    (kclones (kloop key acts skb prev_port max_len)
     <= (if negb (prev_port =? -1)%Z
         then match acts with [] => 0 | _ => 1 end else 0)
        + outputs_followed acts)%nat.
Proof.
  induction acts as [|a rest IH]; intros key skb prev_port max_len.
  - simpl. rewrite kernel_finish_clones. lia.
  - simpl. unfold is_output.
    destruct (a_type a =? OFPAT_OUTPUT).
    + rewrite kernel_clones_app.
      specialize (IH key skb (u16 (output_port a)) (u16 (output_max_len a))).
      rewrite u16_not_minus1 in IH. simpl in IH.
      destruct (negb (prev_port =? -1)); destruct rest; simpl in *; lia.
    + destruct (make_writable skb) as [skb'|].
      * destruct (execute_setter skb' eth_proto key a) as [[skb''|] key'].
        -- rewrite kernel_clones_app.
           specialize (IH key' skb'' (-1) max_len). simpl in IH.
           destruct (negb (prev_port =? -1)); simpl; lia.
        -- destruct (negb (prev_port =? -1)); unfold Kernel_actions.clones; simpl; lia.
      * rewrite kernel_clones_app, kernel_finish_clones.
        destruct (negb (prev_port =? -1)); simpl; lia.
Qed.

(** Without OUTPUT actions and with no output pending, the kernel
    interpreter calls neither skb_clone nor do_output. *)
Lemma kernel_loop_no_output (acts : list ofp_action) :
  forallb (fun a => negb (is_output a)) acts = true ->
  forall (key : sw_flow_key) (skb : sk_buff) (max_len : Z),
    koutputs (kloop key acts skb (-1) max_len) = 0%nat
    /\ kclones (kloop key acts skb (-1) max_len) = 0%nat.
Proof.
  induction acts as [|a rest IH]; intros Hacts key skb max_len.
  - split; reflexivity.
  - simpl in Hacts. apply andb_prop in Hacts as [Ha Hacts].
    apply negb_true_iff in Ha. unfold is_output in Ha.
    cbn [Kernel_actions.execute_loop]. rewrite Ha.
    change (negb (-1 =? -1)) with false. cbn iota.
    destruct (make_writable skb) as [skb'|].
    + destruct (execute_setter skb' eth_proto key a) as [[skb''|] key'].
      * apply (IH Hacts).
      * split; reflexivity.
    + split; reflexivity.
Qed.

(** A prefix without OUTPUT actions, entered with no output pending, only
    rewrites the buffer, or ends the walk where make_writable fails or
    execute_setter hands back no buffer. *)
Lemma kernel_loop_setters (pre rest : list ofp_action) :
  forallb (fun a => negb (is_output a)) pre = true ->
  forall (key : sw_flow_key) (skb : sk_buff) (max_len : Z),
    kloop key (pre ++ rest) skb (-1) max_len
    = match kernel_apply_setters make_writable execute_setter eth_proto
              skb key pre with
      | Kr_done skb' key' => kloop key' rest skb' (-1) max_len
      | Kr_unwritable skb' => [Kernel_actions.Kev_kfree sk_buff skb']
      | Kr_lost => []
      end.
Proof.
  induction pre as [|a pre IH]; intros Hpre key skb max_len; [reflexivity|].
  simpl in Hpre. apply andb_prop in Hpre as [Ha Hpre].
  apply negb_true_iff in Ha. unfold is_output in Ha.
  change ((a :: pre) ++ rest) with (a :: (pre ++ rest)).
  cbn [Kernel_actions.execute_loop kernel_apply_setters]. rewrite Ha.
  change (negb (-1 =? -1)) with false. cbn iota.
  destruct (make_writable skb) as [skb1|]; [|reflexivity].
  destruct (execute_setter skb1 eth_proto key a) as [[skb2|] key']; [|reflexivity].
  apply (IH Hpre).
Qed.

End Kernel.

Lemma output_ports_app (t1 t2 : list Switch_actions.event) :
  output_ports (t1 ++ t2) = output_ports t1 ++ output_ports t2.
Proof. unfold output_ports. apply flat_map_app. Qed.

(** A run whose last action is not an OUTPUT, and that is not aborted, ends
    by deleting the buffer as the rewrite actions of the list leave it; what
    comes before are the pending output, if any, and the OUTPUT actions of
    the list, each sent as a clone. *)
Lemma switch_loop_ends_in_delete host_le in_port key eth_proto
  (a : ofp_action) (acts : list ofp_action) :
  is_output a = false ->
  forall (b : buffer) (prev_port max_len : Z),
    Switch_actions.aborted
      (Switch_actions.execute_loop host_le in_port key eth_proto
         (acts ++ [a]) b prev_port max_len) = false ->
    exists tr b',
      Switch_actions.execute_loop host_le in_port key eth_proto
        (acts ++ [a]) b prev_port max_len
      = tr ++ [Switch_actions.Ev_delete b']
      /\ apply_setters host_le b key eth_proto
           (List.filter (fun x => negb (is_output x)) (acts ++ [a])) = Some b'
      /\ forallb sent_as_clone tr = true
      /\ output_ports tr
         = (if negb (prev_port =? -1) then [prev_port] else [])
           ++ map (fun x => u16 (output_port x)) (List.filter is_output acts).
Proof.
  intros Ha.
  induction acts as [|x rest IH]; intros b prev_port max_len Hab.
  - cbn [app Switch_actions.execute_loop List.filter map] in *.
    rewrite Ha. unfold is_output in Ha. rewrite Ha in *.
    cbn [negb apply_setters].
    destruct (Switch_actions.apply_setter host_le b key eth_proto a) as [b'|].
    + change (negb (-1 =? -1)) with false. cbn iota.
      eexists _, b'. split; [reflexivity|]. split; [reflexivity|].
      destruct (negb (prev_port =? -1)); split; reflexivity.
    + rewrite switch_aborted_app in Hab.
      apply orb_false_elim in Hab as [_ Hab]. discriminate Hab.
  - change ((x :: rest) ++ [a]) with (x :: (rest ++ [a])) in *.
    cbn [Switch_actions.execute_loop List.filter] in *.
    assert (Eo : is_output x = (a_type x =? OFPAT_OUTPUT)) by reflexivity.
    destruct (a_type x =? OFPAT_OUTPUT) eqn:Ex; rewrite !Eo.
    + rewrite switch_aborted_app in Hab. apply orb_false_elim in Hab as [_ Hab].
      destruct (IH _ _ _ Hab) as (tr & b' & -> & Hset & Hcl & Hports).
      rewrite u16_not_minus1 in Hports. cbn [negb] in *.
      eexists (_ ++ tr), b'. split; [rewrite app_assoc; reflexivity|].
      split; [exact Hset|].
      rewrite forallb_app, output_ports_app, Hcl, Hports.
      destruct (negb (prev_port =? -1)); split; reflexivity.
    + cbn [negb apply_setters].
      destruct (Switch_actions.apply_setter host_le b key eth_proto x) as [b1|].
      * rewrite switch_aborted_app in Hab. apply orb_false_elim in Hab as [_ Hab].
        destruct (IH _ _ _ Hab) as (tr & b' & -> & Hset & Hcl & Hports).
        change (negb (-1 =? -1)) with false in Hports. cbn iota in Hports.
        eexists (_ ++ tr), b'. split; [rewrite app_assoc; reflexivity|].
        split; [exact Hset|].
        rewrite forallb_app, output_ports_app, Hcl, Hports.
        destruct (negb (prev_port =? -1)); split; reflexivity.
      * rewrite switch_aborted_app in Hab.
        apply orb_false_elim in Hab as [_ Hab]. discriminate Hab.
Qed.

(** C7 (as amended).  When the only OUTPUT action of a list is its last
    action, neither interpreter clones the packet.  The user-space
    interpreter then does one thing: it hands the original packet, as
    rewritten by the actions before, to do_output for the port of that
    action, not as a clone; if one of the rewrites aborts the program,
    nothing is output.  The kernel interpreter does the same with the
    socket buffer as make_writable and execute_setter leave it, except that
    it frees the packet unsent when make_writable fails at one of the rewrite
    actions, and returns at once when execute_setter hands back no buffer.
    In general a pending output is sent as a clone as soon as any further
    action follows it: a run of the user-space interpreter that is not
    aborted makes one clone for every OUTPUT action that is followed by
    another action, and the kernel interpreter at most that many. *)
Theorem output_clone_rule (pre : list ofp_action) (out : ofp_action) :
  forallb (fun a => negb (is_output a)) pre = true ->
  is_output out = true ->
  (forall host_le b in_port key,
      Switch_actions.clones
        (Switch_actions.execute_actions host_le b in_port key (pre ++ [out])) = 0%nat
      /\ Switch_actions.execute_actions host_le b in_port key (pre ++ [out])
         = match apply_setters host_le b key (dl_type (key_flow key)) pre with
           | Some b' =>
               [Switch_actions.Ev_do_output b' in_port (u16 (output_max_len out))
                  (u16 (output_port out)) false]
           | None => [Switch_actions.Ev_abort]
           end)
  /\ (forall sk_buff skb_clone make_writable execute_setter skb key ignore_no_fwd,
      Kernel_actions.clones sk_buff
        (Kernel_actions.execute_actions sk_buff skb_clone make_writable
           execute_setter skb key (pre ++ [out]) ignore_no_fwd) = 0%nat
      /\ Kernel_actions.execute_actions sk_buff skb_clone make_writable
           execute_setter skb key (pre ++ [out]) ignore_no_fwd
         = match kernel_apply_setters make_writable execute_setter
                   (dl_type (key_flow key)) skb key pre with
           | Kr_done skb' _ =>
               [Kernel_actions.Kev_do_output sk_buff (Some skb')
                  (u16 (output_max_len out)) (u16 (output_port out))
                  ignore_no_fwd false]
           | Kr_unwritable skb' => [Kernel_actions.Kev_kfree sk_buff skb']
           | Kr_lost => []
           end)
  /\ (forall host_le b in_port key acts,
      Switch_actions.aborted
        (Switch_actions.execute_actions host_le b in_port key acts) = false ->
      Switch_actions.clones
        (Switch_actions.execute_actions host_le b in_port key acts)
      = outputs_followed acts)
  /\ (forall sk_buff skb_clone make_writable execute_setter skb key acts
             ignore_no_fwd,
      (Kernel_actions.clones sk_buff
         (Kernel_actions.execute_actions sk_buff skb_clone make_writable
            execute_setter skb key acts ignore_no_fwd)
       <= outputs_followed acts)%nat).
Proof.
  intros Hpre Hout.
  assert (Hloop : forall host_le b in_port key,
    Switch_actions.execute_actions host_le b in_port key (pre ++ [out])
    = match apply_setters host_le b key (dl_type (key_flow key)) pre with
      | Some b' => [Switch_actions.Ev_do_output b' in_port
                      (u16 (output_max_len out)) (u16 (output_port out)) false]
      | None => [Switch_actions.Ev_abort]
      end).
  { intros. unfold Switch_actions.execute_actions.
    rewrite switch_loop_setters by exact Hpre.
    destruct (apply_setters _ _ _ _ pre) as [b'|]; [|reflexivity].
    unfold is_output in Hout. cbn [Switch_actions.execute_loop].
    rewrite Hout, u16_not_minus1. reflexivity. }
  assert (Hkloop : forall sk_buff skb_clone make_writable execute_setter skb key
                          ignore_no_fwd,
    Kernel_actions.execute_actions sk_buff skb_clone make_writable
      execute_setter skb key (pre ++ [out]) ignore_no_fwd
    = match kernel_apply_setters make_writable execute_setter
              (dl_type (key_flow key)) skb key pre with
      | Kr_done skb' _ =>
          [Kernel_actions.Kev_do_output sk_buff (Some skb')
             (u16 (output_max_len out)) (u16 (output_port out))
             ignore_no_fwd false]
      | Kr_unwritable skb' => [Kernel_actions.Kev_kfree sk_buff skb']
      | Kr_lost => []
      end).
  { intros. unfold Kernel_actions.execute_actions.
    rewrite kernel_loop_setters by exact Hpre.
    destruct (kernel_apply_setters _ _ _ _ _ pre) as [skb' key'| |];
      [|reflexivity|reflexivity].
    unfold is_output in Hout.
    cbn [Kernel_actions.execute_loop].
    rewrite Hout. cbn [Kernel_actions.execute_loop].
    unfold Kernel_actions.finish. rewrite u16_not_minus1. reflexivity. }
  split; [|split; [|split]].
  - intros. rewrite Hloop. split; [|reflexivity].
    destruct (apply_setters _ _ _ _ pre); reflexivity.
  - intros. rewrite Hkloop. split; [|reflexivity].
    destruct (kernel_apply_setters _ _ _ _ _ pre); reflexivity.
  - intros host_le b in_port key acts Hab.
    unfold Switch_actions.execute_actions in *.
    rewrite switch_loop_clones by exact Hab. reflexivity.
  - intros. unfold Kernel_actions.execute_actions.
    apply (kernel_loop_clones sk_buff skb_clone make_writable execute_setter
             (dl_type (key_flow key)) ignore_no_fwd acts key skb (-1) 0).
Qed.

(** C10 (as amended).  When the action list holds no OUTPUT action (it is
    empty, or holds rewrite actions only), neither interpreter calls
    do_output or clones the packet, so that nothing goes to dp_output_port or
    to the controller.  The user-space interpreter then does one thing: it
    deletes the packet, as rewritten; if a rewrite aborts the program, the
    packet is not deleted.  The kernel interpreter frees the packet with
    kfree_skb, as rewritten up to there, also when make_writable fails; only
    when execute_setter hands back no buffer does it return without freeing
    anything.  More generally a run of the user-space interpreter whose last
    action is not an OUTPUT, and that is not aborted, ends by deleting the
    packet as the rewrite actions of the list leave it, and every event
    before belongs to an output sent as a clone: do_output has been called
    once for every OUTPUT action of the list, in order, for its port, each
    time on a clone. *)
Theorem no_output_action_frees_packet (acts : list ofp_action) :
  forallb (fun a => negb (is_output a)) acts = true ->
  (forall host_le b in_port key,
      Switch_actions.outputs
        (Switch_actions.execute_actions host_le b in_port key acts) = 0%nat
      /\ Switch_actions.clones
           (Switch_actions.execute_actions host_le b in_port key acts) = 0%nat
      /\ (forall now c,
            Switch_dp.run_outputs now c
              (Switch_actions.execute_actions host_le b in_port key acts)
            = (c, []))
      /\ Switch_actions.execute_actions host_le b in_port key acts
         = match apply_setters host_le b key (dl_type (key_flow key)) acts with
           | Some b' => [Switch_actions.Ev_delete b']
           | None => [Switch_actions.Ev_abort]
           end)
  /\ (forall sk_buff skb_clone make_writable execute_setter skb key ignore_no_fwd,
      Kernel_actions.outputs sk_buff
        (Kernel_actions.execute_actions sk_buff skb_clone make_writable
           execute_setter skb key acts ignore_no_fwd) = 0%nat
      /\ Kernel_actions.clones sk_buff
           (Kernel_actions.execute_actions sk_buff skb_clone make_writable
              execute_setter skb key acts ignore_no_fwd) = 0%nat
      /\ Kernel_actions.execute_actions sk_buff skb_clone make_writable
           execute_setter skb key acts ignore_no_fwd
         = match kernel_apply_setters make_writable execute_setter
                   (dl_type (key_flow key)) skb key acts with
           | Kr_done skb' _ => [Kernel_actions.Kev_kfree sk_buff skb']
           | Kr_unwritable skb' => [Kernel_actions.Kev_kfree sk_buff skb']
           | Kr_lost => []
           end)
  /\ (forall host_le b in_port key front a,
      is_output a = false ->
      Switch_actions.aborted
        (Switch_actions.execute_actions host_le b in_port key (front ++ [a]))
      = false ->
      exists tr b',
        Switch_actions.execute_actions host_le b in_port key (front ++ [a])
        = tr ++ [Switch_actions.Ev_delete b']
        /\ apply_setters host_le b key (dl_type (key_flow key))
             (List.filter (fun x => negb (is_output x)) (front ++ [a])) = Some b'
        /\ forallb sent_as_clone tr = true
        /\ output_ports tr
           = map (fun x => u16 (output_port x)) (List.filter is_output front)).
Proof.
  intros Hacts.
  assert (Hloop : forall host_le b in_port key,
    Switch_actions.execute_actions host_le b in_port key acts
    = match apply_setters host_le b key (dl_type (key_flow key)) acts with
      | Some b' => [Switch_actions.Ev_delete b']
      | None => [Switch_actions.Ev_abort]
      end).
  { intros. unfold Switch_actions.execute_actions.
    rewrite <- (app_nil_r acts) at 1.
    rewrite switch_loop_setters by exact Hacts.
    destruct (apply_setters _ _ _ _ acts); reflexivity. }
  split; [|split].
  - intros. rewrite Hloop.
    destruct (apply_setters _ _ _ _ acts); repeat split; reflexivity.
  - intros.
    pose proof (kernel_loop_no_output sk_buff skb_clone make_writable
      execute_setter (dl_type (key_flow key)) ignore_no_fwd acts Hacts key skb 0)
      as [Ho Hc].
    split; [exact Ho|]. split; [exact Hc|].
    unfold Kernel_actions.execute_actions.
    rewrite <- (app_nil_r acts) at 1.
    rewrite kernel_loop_setters by exact Hacts.
    destruct (kernel_apply_setters _ _ _ _ _ acts); reflexivity.
  - intros host_le b in_port key front a Ha Hab.
    destruct (switch_loop_ends_in_delete host_le in_port key
                (dl_type (key_flow key)) a front Ha b (-1) 0 Hab)
      as (tr & b' & Htr & Hset & Hcl & Hports).
    exists tr, b'. split; [exact Htr|]. split; [exact Hset|].
    split; [exact Hcl|exact Hports].
Qed.

End ActionProps.

(** *** Concrete runs of the interpreters *)

(** C7, counterexample.  The list [OUTPUT(2); SET_DL_SRC] holds exactly one
    OUTPUT action, yet both interpreters clone the packet once: the output
    pending when SET_DL_SRC is reached is sent as a clone. *)
Lemma single_output_not_last_is_cloned :
  length (List.filter (@is_output openflow_example) example_actions_out_then_set)
  = 1%nat
  /\ Switch_actions.clones
       (@Switch_actions.execute_actions openflow_example false
          (frame_buffer example_frame) 1 zero_key example_actions_out_then_set)
     = 1%nat
  /\ Kernel_actions.clones bytes
       (example_kernel_run example_actions_out_then_set) = 1%nat.
Proof. vm_compute. repeat split. Qed.

Lemma output_clone_rule_witness :
  (exists b',
      @Switch_actions.execute_actions openflow_example false
        (frame_buffer example_frame) 1 zero_key example_actions_set_then_out
      = [Switch_actions.Ev_do_output b' 1 0 2 false])
  /\ example_kernel_run example_actions_set_then_out
     = [Kernel_actions.Kev_do_output bytes (Some example_frame) 0 2 false false].
Proof.
  pose proof (@output_clone_rule openflow_example
                [@set_dl_src_action openflow_example 0x0a0b0c0d0e0f]
                (@output_action openflow_example 2 0) eq_refl eq_refl)
    as [Hu [Hk _]].
  split.
  - destruct (Hu false (frame_buffer example_frame) 1 zero_key) as [_ Htr].
    eexists. etransitivity; [exact Htr|]. vm_compute. reflexivity.
  - destruct (Hk bytes (fun s => Some s) (fun s => Some s)
                (fun s _ k _ => (Some s, k)) example_frame zero_key false)
      as [_ Htr].
    etransitivity; [exact Htr|]. vm_compute. reflexivity.
Defined.

(** C10, counterexample.  The run of [OUTPUT(2); SET_DL_SRC] ends with no
    output pending, the packet being deleted, and yet do_output was called
    (with a clone, for port 2), which comes to a call of dp_output_port. *)
Lemma freed_packet_was_output_before :
  exists b0 b1,
    @Switch_actions.execute_actions openflow_example false
      (frame_buffer example_frame) 1 zero_key example_actions_out_then_set
    = [ Switch_actions.Ev_clone b0;
        Switch_actions.Ev_do_output b0 1 0 2 true;
        Switch_actions.Ev_delete b1 ]
    /\ Switch_actions.outputs
         (@Switch_actions.execute_actions openflow_example false
            (frame_buffer example_frame) 1 zero_key example_actions_out_then_set)
       = 1%nat
    /\ snd (@Switch_dp.run_outputs openflow_example 100
              Switch_buffers.initial_cache
              (@Switch_actions.execute_actions openflow_example false
                 (frame_buffer example_frame) 1 zero_key
                 example_actions_out_then_set))
       = [Switch_dp.To_port b0 1 2].
Proof. eexists _, _. vm_compute. repeat split. Qed.

Lemma no_output_action_frees_packet_witness :
  (exists b',
      @Switch_actions.execute_actions openflow_example false
        (frame_buffer example_frame) 1 zero_key
        [@set_dl_src_action openflow_example 0x0a0b0c0d0e0f]
      = [Switch_actions.Ev_delete b'])
  /\ example_kernel_run [@set_dl_src_action openflow_example 0x0a0b0c0d0e0f]
     = [Kernel_actions.Kev_kfree bytes example_frame]
  /\ (exists tr b',
        @Switch_actions.execute_actions openflow_example false
          (frame_buffer example_frame) 1 zero_key example_actions_out_then_set
        = tr ++ [Switch_actions.Ev_delete b']
        /\ forallb sent_as_clone tr = true
        /\ output_ports tr = [2]).
Proof.
  pose proof (@no_output_action_frees_packet openflow_example
                [@set_dl_src_action openflow_example 0x0a0b0c0d0e0f] eq_refl)
    as [Hu [Hk Hg]].
  split; [|split].
  - destruct (Hu false (frame_buffer example_frame) 1 zero_key)
      as (_ & _ & _ & Htr).
    eexists. etransitivity; [exact Htr|]. vm_compute. reflexivity.
  - destruct (Hk bytes (fun s => Some s) (fun s => Some s)
                (fun s _ k _ => (Some s, k)) example_frame zero_key false)
      as (_ & _ & Htr).
    etransitivity; [exact Htr|]. vm_compute. reflexivity.
  - destruct (Hg false (frame_buffer example_frame) 1 zero_key
                [@output_action openflow_example 2 0]
                (@set_dl_src_action openflow_example 0x0a0b0c0d0e0f)
                eq_refl eq_refl)
      as (tr & b' & Htr & _ & Hcl & Hports).
    exists tr, b'. split; [exact Htr|]. split; [exact Hcl|exact Hports].
Defined.

(** ** The incremental checksum update *)

Lemma not16_word (x : Z) : is_word x -> not16 x = 65535 - x.
Proof.
  intros Hx. unfold is_word in Hx. unfold not16, u16.
  rewrite Z.mod_small by lia.
  assert (Hland : Z.land x (Z.lxor x 65535) = 0).
  { apply Z.bits_inj'; intros n Hn.
    rewrite Z.land_spec, Z.lxor_spec, Z.bits_0.
    destruct (Z.lt_ge_cases n 16) as [Hlt|Hge].
    - change 65535 with (Z.ones 16). rewrite Z.ones_spec_low by lia.
      destruct (Z.testbit x n); reflexivity.
    - rewrite <- (Z.mod_small x (2^16)) by lia.
      rewrite Z.mod_pow2_bits_high by lia. reflexivity. }
  pose proof (Z.add_nocarry_lxor _ _ Hland) as Hadd.
  rewrite <- Z.lxor_assoc in Hadd.
  rewrite Z.lxor_nilpotent, Z.lxor_0_l in Hadd. lia.
Qed.

Lemma onec_norm_bound (n : Z) : 0 <= n -> is_word (onec_norm n).
Proof.
  intros Hn. unfold is_word, onec_norm. destruct (n =? 0); [lia|].
  pose proof (Z.mod_pos_bound (n - 1) 65535 ltac:(lia)). lia.
Qed.

Lemma onec_norm_pos (n : Z) : 0 < n -> 0 < onec_norm n.
Proof.
  intros Hn. unfold onec_norm. destruct (n =? 0) eqn:E; [apply Z.eqb_eq in E; lia|].
  pose proof (Z.mod_pos_bound (n - 1) 65535 ltac:(lia)). lia.
Qed.

Lemma onec_add_norm (a b : Z) :
  is_word a -> is_word b -> onec_add a b = onec_norm (a + b).
Proof.
  unfold is_word, onec_add, onec_norm. intros Ha Hb. cbv zeta.
  change (2^16) with 65536.
  destruct (a + b =? 0) eqn:E.
  - apply Z.eqb_eq in E. rewrite E. reflexivity.
  - apply Z.eqb_neq in E.
    destruct (Z.lt_ge_cases (a + b) 65536) as [Hlt|Hge].
    + rewrite (Z.mod_small (a + b)), (Z.div_small (a + b)) by lia.
      rewrite Z.mod_small by lia. lia.
    + replace (a + b) with ((a + b - 65536) + 1 * 65536) at 1 2 by lia.
      rewrite Z.mod_add, Z.div_add by lia.
      rewrite Z.mod_small, Z.div_small by lia.
      replace (a + b - 1) with ((a + b - 65536) + 1 * 65535) by lia.
      rewrite Z.mod_add by lia. rewrite Z.mod_small by lia. lia.
Qed.

Lemma onec_norm_add (n b : Z) :
  0 <= n -> 0 <= b -> onec_norm (onec_norm n + b) = onec_norm (n + b).
Proof.
  intros Hn Hb. unfold onec_norm at 2.
  destruct (n =? 0) eqn:E; [apply Z.eqb_eq in E; subst n; reflexivity|].
  apply Z.eqb_neq in E.
  pose proof (Z.mod_pos_bound (n - 1) 65535 ltac:(lia)) as Hm.
  unfold onec_norm.
  destruct ((n - 1) mod 65535 + 1 + b =? 0) eqn:E1; [apply Z.eqb_eq in E1; lia|].
  destruct (n + b =? 0) eqn:E2; [apply Z.eqb_eq in E2; lia|].
  f_equal.
  replace ((n - 1) mod 65535 + 1 + b - 1) with ((n - 1) mod 65535 + b) by lia.
  replace (n + b - 1) with ((n - 1) + b) by lia.
  rewrite Z.add_mod_idemp_l by lia. reflexivity.
Qed.

Lemma word_sum_nonneg (ws : list Z) : Forall is_word ws -> 0 <= word_sum ws.
Proof.
  induction 1 as [|w ws Hw _ IH]; simpl; unfold is_word in *; lia.
Qed.

Lemma onec_fold_norm (ws : list Z) :
  Forall is_word ws ->
  forall acc, 0 <= acc ->
    fold_left onec_add ws (onec_norm acc) = onec_norm (acc + word_sum ws).
Proof.
  induction 1 as [|w ws Hw Hws IH]; intros acc Hacc; simpl.
  - rewrite Z.add_0_r. reflexivity.
  - rewrite onec_add_norm by (auto using onec_norm_bound).
    unfold is_word in Hw. rewrite onec_norm_add by lia.
    rewrite IH by lia. f_equal. lia.
Qed.

(** The one's-complement sum of a list of words is the representative of
    their plain sum. *)
Lemma onec_sum_norm (ws : list Z) :
  Forall is_word ws -> onec_sum ws = onec_norm (word_sum ws).
Proof.
  intros Hws. unfold onec_sum. change 0 with (onec_norm 0) at 1.
  rewrite onec_fold_norm by (auto; lia). reflexivity.
Qed.

Lemma word_sum_insert (ws : list Z) (i : nat) (m' : Z) :
  (i < length ws)%nat ->
  word_sum (<[i := m']> ws) = word_sum ws - nth i ws 0 + m'.
Proof.
  revert i. induction ws as [|w ws IH]; intros i Hi; simpl in Hi; [lia|].
  destruct i as [|i]; simpl.
  - lia.
  - rewrite IH by lia. lia.
Qed.

Lemma Forall_is_word_insert (ws : list Z) (i : nat) (m' : Z) :
  Forall is_word ws -> is_word m' -> Forall is_word (<[i := m']> ws).
Proof.
  intros Hws Hm. revert i. induction Hws as [|w ws Hw Hws IH]; intros i.
  - constructor.
  - destruct i; simpl; constructor; auto.
Qed.

Lemma Forall_is_word_nth (ws : list Z) (i : nat) :
  Forall is_word ws -> is_word (nth i ws 0).
Proof.
  intros Hws. revert i. induction Hws as [|w ws Hw Hws IH]; intros i.
  - destruct i; simpl; unfold is_word; lia.
  - destruct i; simpl; auto.
Qed.

(** What recalc_csum16 computes: the complement of the representative of
    [~HC + ~m + m'], unless that sum is 0x1ffff, where the single fold
    overflows and the result is 0xffff. *)
Lemma recalc_csum16_value (hc m m' : Z) :
  is_word hc -> is_word m -> is_word m' ->
  recalc_csum16 hc m m'
  = if (65535 - hc) + (65535 - m) + m' =? 131071 then 65535
    else 65535 - onec_norm ((65535 - hc) + (65535 - m) + m').
Proof.
  intros Hhc Hm Hm'. unfold recalc_csum16. cbv zeta.
  rewrite (not16_word hc), (not16_word m) by assumption.
  unfold is_word in *.
  replace (u16 m') with m' by (unfold u16; rewrite Z.mod_small; lia).
  set (S := 65535 - hc + (65535 - m) + m').
  assert (HS : 0 <= S <= 196605) by (unfold S; lia).
  unfold u32. rewrite (Z.mod_small S) by lia.
  rewrite Z.shiftr_div_pow2 by lia. change (2^16) with 65536.
  assert (Hfold : is_word (u16 (S + S / 65536))).
  { unfold is_word, u16. change (2^16) with 65536.
    pose proof (Z.mod_pos_bound (S + S / 65536) 65536 ltac:(lia)). lia. }
  rewrite not16_word by exact Hfold. unfold u16. change (2^16) with 65536.
  destruct (S =? 131071) eqn:E.
  - apply Z.eqb_eq in E. rewrite E. reflexivity.
  - apply Z.eqb_neq in E. f_equal. unfold onec_norm.
    destruct (S =? 0) eqn:E0.
    + apply Z.eqb_eq in E0. rewrite E0. reflexivity.
    + apply Z.eqb_neq in E0.
      destruct (Z.lt_ge_cases S 65536) as [H1|H1].
      * rewrite (Z.div_small S) by lia.
        rewrite Z.mod_small by lia. rewrite Z.mod_small by lia. lia.
      * destruct (Z.lt_ge_cases S 131072) as [H2|H2].
        -- replace (S / 65536) with 1
             by (apply Z.div_unique with (r := S - 65536); lia).
           replace (S + 1) with ((S - 65535) + 1 * 65536) by lia.
           rewrite Z.mod_add by lia. rewrite Z.mod_small by lia.
           replace (S - 1) with ((S - 65536) + 1 * 65535) by lia.
           rewrite Z.mod_add by lia. rewrite Z.mod_small by lia. lia.
        -- replace (S / 65536) with 2
             by (apply Z.div_unique with (r := S - 131072); lia).
           replace (S + 2) with ((S - 131070) + 2 * 65536) by lia.
           rewrite Z.mod_add by lia. rewrite Z.mod_small by lia.
           replace (S - 1) with ((S - 131071) + 2 * 65535) by lia.
           rewrite Z.mod_add by lia. rewrite Z.mod_small by lia. lia.
Qed.

(** The extent of the slip.  For a list of 16-bit words (the checksummed
    data, the checksum field taken as zero) whose word [i] is rewritten to
    [m'], the data not being all zero afterwards: the value that
    recalc_csum16 makes of the old checksum is the checksum recomputed over
    the new words exactly when [~HC + ~m + m'] is not 0x1ffff. *)
Lemma recalc_csum16_agrees_iff (ws : list Z) (i : nat) (m' : Z) :
  Forall is_word ws -> (i < length ws)%nat -> is_word m' ->
  0 < word_sum (<[i := m']> ws) ->
  (recalc_csum16 (recompute_csum ws) (nth i ws 0) m'
   = recompute_csum (<[i := m']> ws)
   <-> not16 (recompute_csum ws) + not16 (nth i ws 0) + m' <> 131071).
Proof.
  intros Hws Hi Hm' Hpos.
  pose proof (Forall_is_word_nth ws i Hws) as Hm.
  pose proof (word_sum_nonneg ws Hws) as Hsum.
  pose proof (onec_norm_bound _ Hsum) as Hn.
  assert (Hhc : is_word (recompute_csum ws)).
  { unfold recompute_csum. rewrite onec_sum_norm, not16_word by assumption.
    unfold is_word in *. lia. }
  rewrite recalc_csum16_value by assumption.
  rewrite (not16_word (recompute_csum ws)), (not16_word (nth i ws 0)) by assumption.
  unfold recompute_csum at 3.
  rewrite onec_sum_norm by (apply Forall_is_word_insert; assumption).
  rewrite not16_word by (apply onec_norm_bound; lia).
  assert (Hrep : 65535 - recompute_csum ws = onec_norm (word_sum ws)).
  { unfold recompute_csum. rewrite onec_sum_norm, not16_word by assumption. lia. }
  rewrite Hrep. rewrite word_sum_insert in * by assumption.
  unfold is_word in Hm, Hm'.
  assert (Hnorm : onec_norm (onec_norm (word_sum ws) + (65535 - nth i ws 0) + m')
                  = onec_norm (word_sum ws - nth i ws 0 + m')).
  { rewrite <- Z.add_assoc. rewrite onec_norm_add by lia.
    unfold onec_norm.
    destruct (word_sum ws + (65535 - nth i ws 0 + m') =? 0) eqn:E1;
      [apply Z.eqb_eq in E1; lia|].
    destruct (word_sum ws - nth i ws 0 + m' =? 0) eqn:E2;
      [apply Z.eqb_eq in E2; lia|].
    f_equal.
    replace (word_sum ws + (65535 - nth i ws 0 + m') - 1)
      with ((word_sum ws - nth i ws 0 + m' - 1) + 1 * 65535) by lia.
    apply Z.mod_add. lia. }
  destruct (onec_norm (word_sum ws) + (65535 - nth i ws 0) + m' =? 131071) eqn:E.
  - apply Z.eqb_eq in E. split; [|intros Hne; contradiction].
    intros Heq. exfalso.
    pose proof (onec_norm_pos _ Hpos) as Hp. lia.
  - apply Z.eqb_neq in E. split; [intros _; exact E|].
    intros _. rewrite Hnorm. reflexivity.
Qed.

(** C8, the code at a failing input.  recalc_csum16 folds the carry of its
    32-bit sum once, and the fold itself can carry: for the old checksum
    0x7fff and a word changed from 0x0000 to 0x8000 the sum is 0x1ffff, the
    folded word overflows to 0 and the function returns 0xffff, while the
    checksum recomputed over the changed words is 0xfffe.  On a big-endian
    host SET_NW_DST(10.0.128.0) on the first example frame, whose header
    checksum is valid, leaves the header checksum 0x0000 where recomputation
    gives 0xfffe; on a little-endian host SET_NW_DST(10.0.0.128) on the second
    frame leaves 0xffff where recomputation gives 0xfeff. *)
Theorem recalc_csum_diverges_from_recomputation :
  recalc_csum16 0x7fff 0x0000 0x8000 = 0xffff
  /\ recompute_csum [0x8000; 0x0000] = 0x7fff
  /\ recompute_csum [0x8000; 0x8000] = 0xfffe
  /\ (get16 example_ip_frame_be 24 = ip_header_csum example_ip_frame_be 14
      /\ get32 (example_set_nw_dst false example_ip_frame_be 0x0a008000) 30
         = 0x0a008000
      /\ get16 (example_set_nw_dst false example_ip_frame_be 0x0a008000) 24 = 0x0000
      /\ ip_header_csum (example_set_nw_dst false example_ip_frame_be 0x0a008000) 14
         = 0xfffe)
  /\ (get16 example_ip_frame_le 24 = ip_header_csum example_ip_frame_le 14
      /\ get32 (example_set_nw_dst true example_ip_frame_le 0x0a000080) 30
         = 0x0a000080
      /\ get16 (example_set_nw_dst true example_ip_frame_le 0x0a000080) 24 = 0xffff
      /\ ip_header_csum (example_set_nw_dst true example_ip_frame_le 0x0a000080) 14
         = 0xfeff).
Proof. vm_compute. repeat split. Qed.

(** ** The packet buffer cache *)

Lemma lor_shiftl_low (idx ck : Z) :
  0 <= idx < 2^8 -> 0 <= ck ->
  Z.lor idx (Z.shiftl ck 8) = idx + ck * 2^8.
Proof.
  intros Hidx Hck.
  rewrite <- Z.shiftl_mul_pow2 by lia.
  rewrite <- Z.lxor_lor, <- Z.add_nocarry_lxor; try reflexivity.
  all: apply Z.bits_inj'; intros n Hn; rewrite Z.land_spec, Z.bits_0.
  all: destruct (Z.lt_ge_cases n 8) as [Hlt|Hge].
  all: try (rewrite (Z.shiftl_spec_low ck 8 n Hlt); apply andb_false_r).
  all: rewrite <- (Z.mod_small idx (2^8)) by lia.
  all: rewrite Z.mod_pow2_bits_high by lia; reflexivity.
Qed.

(** The id that a save composes splits back into the slot index and the
    cookie it was made of. *)
Lemma buffer_id_fields (i ck0 : Z) :
  let idx := Z.land i PKT_BUFFER_MASK in
  let ck := if Z.shiftl 1 PKT_COOKIE_BITS - 1 <=? u32 ck0 then 0 else u32 ck0 in
  let id := u32 (Z.lor idx (Z.shiftl ck PKT_BUFFER_BITS)) in
  Z.land id PKT_BUFFER_MASK = idx
  /\ Z.shiftr id PKT_BUFFER_BITS = ck
  /\ 0 <= idx < N_PKT_BUFFERS
  /\ id <> UINT32_MAX.
Proof.
  intros idx ck id.
  assert (Hidx : 0 <= idx < 2^8).
  { unfold idx. change PKT_BUFFER_MASK with (Z.ones 8).
    rewrite Z.land_ones by lia. apply Z.mod_pos_bound. lia. }
  assert (Hck : 0 <= ck <= 2^24 - 2).
  { unfold ck. change (Z.shiftl 1 PKT_COOKIE_BITS - 1) with (2^24 - 1).
    pose proof (Z.mod_pos_bound ck0 (2^32) ltac:(lia)) as Hb. unfold u32.
    destruct (2^24 - 1 <=? ck0 mod 2^32) eqn:E.
    - lia.
    - apply Z.leb_gt in E. lia. }
  assert (Hid : id = idx + ck * 2^8).
  { unfold id. change PKT_BUFFER_BITS with 8.
    rewrite lor_shiftl_low by lia. unfold u32. apply Z.mod_small. lia. }
  change PKT_BUFFER_MASK with (Z.ones 8). change PKT_BUFFER_BITS with 8.
  change N_PKT_BUFFERS with (2^8). change UINT32_MAX with (2^32 - 1).
  rewrite Z.land_ones, Z.shiftr_div_pow2 by lia. rewrite Hid.
  repeat split; try lia.
  - rewrite Z.mod_add by lia. apply Z.mod_small. lia.
  - rewrite Z.div_add by lia. rewrite Z.div_small by lia. lia.
Qed.

Lemma switch_slot_set_slot (c : Switch_buffers.buffer_cache) (i idx : Z)
  (p : Switch_buffers.packet_buffer) :
  0 <= i < Z.of_nat (length (Switch_buffers.buffers c)) ->
  Switch_buffers.slot (Switch_buffers.set_slot c i p idx) i = p.
Proof.
  intros Hi. unfold Switch_buffers.slot, Switch_buffers.set_slot. simpl.
  rewrite list_lookup_insert_eq by lia. reflexivity.
Qed.

Lemma kernel_slot_set_slot (S : Type) (c : Kernel_buffers.buffer_cache S)
  (i idx : Z) (p : Kernel_buffers.packet_buffer S) :
  0 <= i < Z.of_nat (length (Kernel_buffers.buffers S c)) ->
  Kernel_buffers.slot S (Kernel_buffers.set_slot S c i p idx) i = p.
Proof.
  intros Hi. unfold Kernel_buffers.slot, Kernel_buffers.set_slot. simpl.
  rewrite list_lookup_insert_eq by lia. reflexivity.
Qed.

(** ** PACKET_IN for a frame that matches no flow *)

Lemma lib_flow_extract_data `{openflow_h} host_le (b b' : buffer) in_port fl :
  Lib_flow.flow_extract host_le b in_port = Some (fl, b') -> data b' = data b.
Proof.
  unfold Lib_flow.flow_extract. intros Hx.
  repeat match type of Hx with
         | context [match ?x with _ => _ end] => destruct x
         end;
    try discriminate; injection Hx as _ <-; reflexivity.
Qed.

(** C5 (as amended).  When flow_extract succeeds on a frame and the chain
    has no flow for its key, fwd_port_input runs no action and hands exactly
    one PACKET_IN to the controller connection: its reason is NO_MATCH, it
    carries the ingress port and the length of the whole frame (as 16-bit
    fields), and, when the frame could be saved in the buffer cache (the
    buffer id is not 0xffffffff), its payload is the first miss_send_len
    bytes of the frame at most; when the cache refused the frame the payload
    is the whole frame. *)
Theorem packet_in_on_miss `{openflow_h} {T : Type} `{Switch_dp.sw_table T}
  (host_le : bool) (now : Z) (dp : Switch_dp.datapath (T := T))
  (b b' : buffer) (in_port : Z) (fl : flow) :
  Lib_flow.flow_extract host_le b in_port = Some (fl, b') ->
  Switch_dp.chain_lookup (Switch_dp.chain dp)
    {| key_flow := fl; wildcards := 0; nw_src_mask := 0; nw_dst_mask := 0 |}
  = Some None ->
  exists dp' m,
    Switch_dp.fwd_port_input host_le now dp b in_port
    = Some (dp', {| Switch_dp.fx_trace := []; Switch_dp.fx_packet_in := [m] |})
    /\ Switch_dp.pi_type m = OFPT_PACKET_IN
    /\ Switch_dp.pi_reason m = u8 OFPR_NO_MATCH
    /\ Switch_dp.pi_in_port m = u16 in_port
    /\ Switch_dp.pi_total_len m = u16 (buf_len (data b))
    /\ (Switch_dp.pi_buffer_id m <> UINT32_MAX ->
        Switch_dp.pi_data m
        = firstn (Z.to_nat (u16 (Switch_dp.config_miss_send_len dp))) (data b)
        /\ buf_len (Switch_dp.pi_data m) <= u16 (Switch_dp.config_miss_send_len dp))
    /\ (Switch_dp.pi_buffer_id m = UINT32_MAX -> Switch_dp.pi_data m = data b).
Proof.
  intros Hx Hmiss. pose proof (lib_flow_extract_data _ _ _ _ _ Hx) as Hd.
  unfold Switch_dp.fwd_port_input. rewrite Hx, Hmiss.
  unfold Switch_dp.dp_output_control.
  destruct (Switch_buffers.save_buffer now (Switch_dp.cache dp) b') as [id c'].
  rewrite Hd.
  set (ml := u16 (Switch_dp.config_miss_send_len dp)).
  assert (Hml : 0 <= ml).
  { unfold ml, u16. apply Z.mod_pos_bound. lia. }
  eexists _, _. split; [reflexivity|]. cbn.
  repeat split.
  - destruct (negb (id =? UINT32_MAX) && (ml <? buf_len (data b))) eqn:E;
      [reflexivity|].
    apply andb_false_iff in E as [E|E].
    + apply negb_false_iff, Z.eqb_eq in E. contradiction.
    + apply Z.ltb_ge in E. unfold buf_len in E.
      symmetry. apply firstn_all2. lia.
  - destruct (negb (id =? UINT32_MAX) && (ml <? buf_len (data b))) eqn:E.
    + unfold buf_len. rewrite length_firstn. lia.
    + apply andb_false_iff in E as [E|E].
      * apply negb_false_iff, Z.eqb_eq in E. contradiction.
      * apply Z.ltb_ge in E. exact E.
  - intros ->. reflexivity.
Qed.

(** C5, counterexample.  With miss_send_len 64 and a buffer cache whose
    slots were all filled within the last second, a 100-byte frame that
    matches no flow goes to the controller whole: the PACKET_IN carries no
    buffer id and a payload of 100 bytes. *)
Lemma packet_in_not_truncated_when_cache_full :
  exists dp' m,
    @Switch_dp.fwd_port_input openflow_example _ (@Switch_tables.linear_table openflow_example)
      false 100 (example_dp example_full_cache 0 64)
      (received example_long_frame) 1
    = Some (dp', {| Switch_dp.fx_trace := []; Switch_dp.fx_packet_in := [m] |})
    /\ Switch_dp.pi_buffer_id m = UINT32_MAX
    /\ buf_len (Switch_dp.pi_data m) = 100
    /\ Switch_dp.pi_total_len m = 100.
Proof. eexists _, _. vm_compute. repeat split. Qed.

Lemma packet_in_on_miss_witness :
  exists dp' m,
    @Switch_dp.fwd_port_input openflow_example _ (@Switch_tables.linear_table openflow_example)
      false 100 (example_dp Switch_buffers.initial_cache 0 64)
      (received example_long_frame) 1
    = Some (dp', {| Switch_dp.fx_trace := []; Switch_dp.fx_packet_in := [m] |})
    /\ Switch_dp.pi_buffer_id m <> UINT32_MAX
    /\ buf_len (Switch_dp.pi_data m) <= 64.
Proof.
  destruct (@packet_in_on_miss openflow_example _ (@Switch_tables.linear_table openflow_example)
              false 100 (example_dp Switch_buffers.initial_cache 0 64)
              (received example_long_frame)
              {| data := example_long_frame; l2 := Some 0; l3 := Some 14;
                 l4 := None |}
              1
              {| nw_src := 0; nw_dst := 0; in_port := 1; dl_vlan := 0xffff;
                 dl_type := 0x88b5; tp_src := 0; tp_dst := 0; dl_src := 0;
                 dl_dst := 0; nw_proto := 0; reserved := 0 |}
              eq_refl eq_refl)
    as (dp' & m & Hrun & _ & _ & _ & _ & Hsaved & _).
  exists dp', m. split; [exact Hrun|].
  assert (Hid : Switch_dp.pi_buffer_id m <> UINT32_MAX).
  { vm_compute in Hrun. injection Hrun as _ <-. vm_compute. discriminate. }
  split; [exact Hid|]. exact (proj2 (Hsaved Hid)).
Defined.

(** ** Dispatch of control messages *)

Lemma distinct_unique {A} (l : list (Z * A)) (i : Z) (v v' : A) :
  distinct (map fst l) = true -> In (i, v) l -> In (i, v') l -> v = v'.
Proof.
  induction l as [|[j w] l IH]; simpl; intros Hd H1 H2; [contradiction|].
  apply andb_prop in Hd as [Hj Hd]. apply negb_true_iff in Hj.
  assert (Hnot : forall u, In (j, u) l -> False).
  { intros u Hu. apply (in_map fst) in Hu. simpl in Hu.
    assert (existsb (Z.eqb j) (map fst l) = true) as E.
    { apply existsb_exists. exists j. split; [exact Hu | apply Z.eqb_refl]. }
    congruence. }
  destruct H1 as [E1|H1], H2 as [E2|H2].
  - congruence.
  - injection E1 as -> ->. exfalso. eapply Hnot, H2.
  - injection E2 as -> ->. exfalso. eapply Hnot, H1.
  - apply IH; assumption.
Qed.

Lemma array_at_In {A} (tbl : list (Z * A)) (i : Z) (v : A) :
  distinct (map fst tbl) = true -> In (i, v) tbl -> array_at tbl i = Some v.
Proof.
  intros Hd Hin. unfold array_at.
  destruct (List.find (fun e => fst e =? i) (List.rev tbl)) as [[j w]|] eqn:E.
  - apply find_some in E as [Hj Hji]. simpl in Hji. apply Z.eqb_eq in Hji.
    subst j. apply in_rev in Hj. f_equal. eapply distinct_unique; eassumption.
  - exfalso. pose proof (find_none _ _ E (i, v)) as Hn. simpl in Hn.
    rewrite Z.eqb_refl in Hn. apply in_rev in Hin.
    specialize (Hn Hin). discriminate Hn.
Qed.

Lemma array_at_absent {A} (tbl : list (Z * A)) (i : Z) :
  existsb (Z.eqb i) (map fst tbl) = false -> array_at tbl i = None.
Proof.
  intros Habs. unfold array_at.
  destruct (List.find (fun e => fst e =? i) (List.rev tbl)) as [[j w]|] eqn:E;
    [|reflexivity].
  apply find_some in E as [Hj Hji]. simpl in Hji. apply Z.eqb_eq in Hji.
  subst j. apply in_rev in Hj. apply (in_map fst) in Hj. simpl in Hj.
  assert (existsb (Z.eqb i) (map fst tbl) = true) as E.
  { apply existsb_exists. exists i. split; [exact Hj | apply Z.eqb_refl]. }
  congruence.
Qed.

Lemma array_at_lt {A} (tbl : list (Z * A)) (i : Z) (v : A) :
  In (i, v) tbl -> i < array_size tbl.
Proof.
  induction tbl as [|[j w] tbl IH]; simpl; intros Hin; [contradiction|].
  destruct Hin as [E|Hin].
  - injection E as -> _. lia.
  - specialize (IH Hin). lia.
Qed.

Section ControlProps.
Context `{openflow_h}.

Lemma kernel_dispatch (oh : ofp_header) (length min_size : Z)
  (h : Kernel_control.handler) :
  distinct (map fst Kernel_control.packets) = true ->
  In (oh_type oh, (min_size, h)) Kernel_control.packets ->
  Kernel_control.any_version_type (oh_type oh) = true ->
  oh_length oh <= length ->
  min_size <= length ->
  Kernel_control.fwd_control_input oh length = Dispatched h.
Proof.
  intros Hd Hin Hany Hlen Hmin. unfold Kernel_control.fwd_control_input.
  replace (negb (oh_version oh =? OFP_VERSION)
           && negb (oh_type oh =? OFPT_HELLO) && negb (oh_type oh =? OFPT_ERROR)
           && negb (oh_type oh =? OFPT_ECHO_REQUEST)
           && negb (oh_type oh =? OFPT_ECHO_REPLY)
           && negb (oh_type oh =? OFPT_VENDOR)) with false.
  2:{ unfold Kernel_control.any_version_type in Hany.
      destruct (oh_version oh =? OFP_VERSION), (oh_type oh =? OFPT_HELLO),
        (oh_type oh =? OFPT_ERROR), (oh_type oh =? OFPT_ECHO_REQUEST),
        (oh_type oh =? OFPT_ECHO_REPLY), (oh_type oh =? OFPT_VENDOR);
        simpl in *; congruence. }
  destruct (length <? oh_length oh) eqn:E1; [apply Z.ltb_lt in E1; lia|].
  pose proof (array_at_lt _ _ _ Hin) as Hlt. apply Z.ltb_lt in Hlt.
  rewrite Hlt, (array_at_In _ _ _ Hd Hin).
  destruct (length <? min_size) eqn:E2; [apply Z.ltb_lt in E2; lia|].
  reflexivity.
Qed.

(** C1 (as amended).  In the kernel datapath a message whose version is not
    the wire version, and whose type is none of HELLO, ERROR, ECHO_REQUEST,
    ECHO_REPLY and VENDOR, is answered with ERROR(BAD_REQUEST, BAD_VERSION)
    and -EINVAL, and no handler is called.  Messages of those five types pass
    the version test whatever version they carry: HELLO, ECHO_REQUEST and
    ECHO_REPLY messages of sufficient length go to their handlers; ERROR and
    VENDOR messages, for which the dispatch table has no handler, are answered
    with ERROR(BAD_REQUEST, BAD_TYPE) and -EINVAL.  The user-space switch
    makes no exception: it returns -EINVAL for every message whose version is
    not the wire version, and calls no handler. *)
Theorem version_check_rule (oh : ofp_header) (length : Z) :
  (oh_version oh <> OFP_VERSION ->
   Kernel_control.any_version_type (oh_type oh) = false ->
   Kernel_control.fwd_control_input oh length
   = Rejected (- EINVAL) [(OFPET_BAD_REQUEST, OFPBRC_BAD_VERSION)])
  /\ (distinct (map fst Kernel_control.packets) = true ->
      oh_length oh <= length ->
      sizeof_ofp_header <= length ->
      (oh_type oh = OFPT_HELLO ->
       Kernel_control.fwd_control_input oh length
       = Dispatched Kernel_control.recv_hello)
      /\ (oh_type oh = OFPT_ECHO_REQUEST ->
          Kernel_control.fwd_control_input oh length
          = Dispatched Kernel_control.recv_echo_request)
      /\ (oh_type oh = OFPT_ECHO_REPLY ->
          Kernel_control.fwd_control_input oh length
          = Dispatched Kernel_control.recv_echo_reply))
  /\ (oh_type oh = OFPT_ERROR \/ oh_type oh = OFPT_VENDOR ->
      existsb (Z.eqb (oh_type oh)) (map fst Kernel_control.packets) = false ->
      oh_length oh <= length ->
      Kernel_control.fwd_control_input oh length
      = Rejected (- EINVAL) [(OFPET_BAD_REQUEST, OFPBRC_BAD_TYPE)])
  /\ (oh_version oh <> OFP_VERSION ->
      Switch_control.fwd_control_input oh length = Rejected (- EINVAL) []).
Proof.
  repeat split.
  - intros Hv Hany. unfold Kernel_control.fwd_control_input.
    unfold Kernel_control.any_version_type in Hany.
    apply Z.eqb_neq in Hv. rewrite Hv.
    destruct (oh_type oh =? OFPT_HELLO), (oh_type oh =? OFPT_ERROR),
      (oh_type oh =? OFPT_ECHO_REQUEST), (oh_type oh =? OFPT_ECHO_REPLY),
      (oh_type oh =? OFPT_VENDOR); simpl in *; congruence.
  - intros Ht. apply (kernel_dispatch oh length sizeof_ofp_header); try assumption.
    + rewrite Ht. simpl. auto.
    + unfold Kernel_control.any_version_type. rewrite Ht, Z.eqb_refl. reflexivity.
  - intros Ht. apply (kernel_dispatch oh length sizeof_ofp_header); try assumption.
    + rewrite Ht. simpl. do 7 right. left. reflexivity.
    + unfold Kernel_control.any_version_type. rewrite Ht, Z.eqb_refl.
      repeat rewrite orb_true_r. reflexivity.
  - intros Ht. apply (kernel_dispatch oh length sizeof_ofp_header); try assumption.
    + rewrite Ht. simpl. do 8 right. left. reflexivity.
    + unfold Kernel_control.any_version_type. rewrite Ht, Z.eqb_refl.
      repeat rewrite orb_true_r. reflexivity.
  - intros Ht Habs Hlen. unfold Kernel_control.fwd_control_input.
    replace (negb (oh_version oh =? OFP_VERSION)
             && negb (oh_type oh =? OFPT_HELLO) && negb (oh_type oh =? OFPT_ERROR)
             && negb (oh_type oh =? OFPT_ECHO_REQUEST)
             && negb (oh_type oh =? OFPT_ECHO_REPLY)
             && negb (oh_type oh =? OFPT_VENDOR)) with false.
    2:{ destruct Ht as [-> | ->]; rewrite Z.eqb_refl; simpl;
          repeat rewrite andb_false_r; reflexivity. }
    destruct (length <? oh_length oh) eqn:E1; [apply Z.ltb_lt in E1; lia|].
    rewrite (array_at_absent _ _ Habs).
    destruct (oh_type oh <? array_size Kernel_control.packets); reflexivity.
  - intros Hv. unfold Switch_control.fwd_control_input.
    apply Z.eqb_neq in Hv. rewrite Hv. reflexivity.
Qed.

End ControlProps.

(** C1, counterexample.  An ERROR message and a VENDOR message that carry
    another version pass the version test of the kernel datapath but reach no
    handler: they are answered with BAD_TYPE.  The user-space switch rejects
    an ECHO_REQUEST and a HELLO that carry another version like any other
    message. *)
Lemma error_and_vendor_are_not_dispatched :
  @Kernel_control.fwd_control_input openflow_example
    {| oh_version := 0x01; oh_type := @OFPT_ERROR openflow_example;
       oh_length := 8; oh_xid := 0 |} 8
  = Rejected (- EINVAL) [(1, 1)]
  /\ @Kernel_control.fwd_control_input openflow_example
       {| oh_version := 0x01; oh_type := @OFPT_VENDOR openflow_example;
          oh_length := 8; oh_xid := 0 |} 8
     = Rejected (- EINVAL) [(1, 1)]
  /\ @Switch_control.fwd_control_input openflow_example
       {| oh_version := 0x01; oh_type := @OFPT_ECHO_REQUEST openflow_example;
          oh_length := 8; oh_xid := 0 |} 8
     = Rejected (- EINVAL) []
  /\ @Switch_control.fwd_control_input openflow_example
       {| oh_version := 0x01; oh_type := @OFPT_HELLO openflow_example;
          oh_length := 8; oh_xid := 0 |} 8
     = Rejected (- EINVAL) [].
Proof. vm_compute. repeat split. Qed.

Lemma version_check_rule_witness :
  @Kernel_control.fwd_control_input openflow_example
    {| oh_version := 0x01; oh_type := @OFPT_HELLO openflow_example;
       oh_length := 8; oh_xid := 0 |} 8
  = Dispatched Kernel_control.recv_hello
  /\ @Kernel_control.fwd_control_input openflow_example
       {| oh_version := 0x01; oh_type := @OFPT_FLOW_MOD openflow_example;
          oh_length := 8; oh_xid := 0 |} 8
     = Rejected (- EINVAL) [(1, 0)].
Proof.
  split.
  - apply (proj1 (proj1 (proj2 (@version_check_rule openflow_example
             {| oh_version := 0x01; oh_type := @OFPT_HELLO openflow_example;
                oh_length := 8; oh_xid := 0 |} 8))
           eq_refl ltac:(simpl; lia) ltac:(simpl; lia))).
    reflexivity.
  - apply (proj1 (@version_check_rule openflow_example
             {| oh_version := 0x01; oh_type := @OFPT_FLOW_MOD openflow_example;
                oh_length := 8; oh_xid := 0 |} 8)).
    + simpl. discriminate.
    + reflexivity.
Defined.

(** ** Flow installation *)

(** The flow that the user-space add_flow builds from a message, and what
    the function comes to once a table has accepted that flow. *)
Lemma user_space_add_flow_installs `{openflow_h} {T : Type} `{Switch_dp.sw_table T}
  (host_le : bool) (now : Z) (m : Switch_dp.sw_flow)
  (dp : Switch_dp.datapath (T := T)) (ofm : ofp_flow_mod)
  (store : Switch_dp.sw_flow -> list T) :
  Z.of_nat (length (ofm_actions ofm)) <= Switch_dp.MAX_ACTIONS ->
  let f := {| Switch_dp.key := flow_extract_match (ofm_match ofm);
              Switch_dp.group_id := ofm_group_id ofm;
              Switch_dp.max_idle := ofm_max_idle ofm;
              Switch_dp.created := now;
              Switch_dp.flow_timeout_at := now + ofm_max_idle ofm;
              Switch_dp.used := Switch_dp.used m;
              Switch_dp.packet_count := 0;
              Switch_dp.byte_count := 0;
              Switch_dp.actions := ofm_actions ofm |} in
  Switch_dp.chain_insert (Switch_dp.chain dp) f = Some store ->
  let r := Switch_dp.add_flow host_le now (Some m) dp ofm in
  let named := negb (ofm_buffer_id ofm =? UINT32_MAX) in
  let got := Switch_buffers.retrieve_buffer (Switch_dp.cache dp)
               (ofm_buffer_id ofm) in
  fst (fst r)
  = (if named then match fst got with Some _ => 0 | None => - ESRCH end else 0)
  /\ Switch_dp.chain (snd (fst r))
     = store (if named
              then match fst got with
                   | Some b => Switch_dp.flow_used now f b
                   | None => f
                   end
              else f)
  /\ Switch_dp.cache (snd (fst r)) = (if named then snd got else Switch_dp.cache dp)
  /\ (fst (fst r) = - ESRCH <-> named = true /\ fst got = None).
Proof.
  intros Hn f Hins r named got. subst r named got.
  unfold Switch_dp.add_flow.
  destruct (Switch_dp.MAX_ACTIONS <? Z.of_nat (length (ofm_actions ofm))) eqn:E;
    [apply Z.ltb_lt in E; lia|].
  fold f. rewrite Hins.
  destruct (negb (ofm_buffer_id ofm =? UINT32_MAX)).
  - destruct (Switch_buffers.retrieve_buffer (Switch_dp.cache dp) (ofm_buffer_id ofm))
      as [[b|] c].
    + destruct (Lib_flow.flow_extract host_le b (m_in_port (ofm_match ofm)))
        as [[fl b']|]; cbn;
        (split; [reflexivity|]; split; [reflexivity|]; split; [reflexivity|];
         split; [discriminate|intros [_ Hc]; discriminate]).
    + cbn. split; [reflexivity|]. split; [reflexivity|]. split; [reflexivity|].
      split; [intros _; split; reflexivity|reflexivity].
  - cbn. split; [reflexivity|]. split; [reflexivity|]. split; [reflexivity|].
    split; [discriminate|intros [Hc _]; discriminate].
Qed.

(** C2 (as amended).  In the kernel datapath, a FLOW_MOD(ADD) whose action
    list holds an OUTPUT action to the TABLE port, to the NONE port or to the
    ingress port of its own match is refused before anything is allocated:
    add_flow returns the error -ENOMEM, the chain is the one it was given, no
    action is run, and the buffer cache is changed only by discarding the
    buffer the message names, if it names one.  The user-space add_flow does
    not look at the ports of the actions: whenever the message has at most
    MAX_ACTIONS actions, memory is available and a table of the chain accepts
    the flow built from the message (its match, group, idle time and actions,
    the counters zero), the chain afterwards is the one in which that table
    holds this flow, updated by flow_used when the message names a buffer
    that is in the cache; the return value is -ESRCH exactly when the message
    names a buffer that the cache no longer holds, and 0 otherwise. *)
Theorem add_flow_rejects_loops `{openflow_h}
  (sk_buff : Type) (skb_bytes : sk_buff -> bytes)
  (skb_clone make_writable : sk_buff -> option sk_buff)
  (execute_setter :
     sk_buff -> Z -> sw_flow_key -> ofp_action -> option sk_buff * sw_flow_key)
  (sw_chain : Type)
  (chain_insert : sw_chain -> Kernel_dp.sw_flow -> option (Kernel_dp.sw_flow -> sw_chain))
  (flow_used : Kernel_dp.sw_flow -> sk_buff -> Kernel_dp.sw_flow)
  (jiffies : Z) (mem : option Kernel_dp.sw_flow) (ch : sw_chain)
  (c : Kernel_buffers.buffer_cache sk_buff) (ofm : ofp_flow_mod) (a : ofp_action) :
  In a (ofm_actions ofm) ->
  a_type a = OFPAT_OUTPUT ->
  output_port a = OFPP_TABLE \/ output_port a = OFPP_NONE
  \/ output_port a = m_in_port (ofm_match ofm) ->
  (Kernel_dp.add_flow sk_buff skb_bytes skb_clone make_writable execute_setter
     sw_chain chain_insert flow_used jiffies mem ch c ofm
   = (- ENOMEM, ch,
      if negb (ofm_buffer_id ofm =? u32 (-1))
      then Kernel_buffers.discard_skb sk_buff c (ofm_buffer_id ofm) else c,
      [])
   /\ - ENOMEM <> 0)
  /\ (forall (T : Type) (tbl : Switch_dp.sw_table T) host_le now m
             (dp : Switch_dp.datapath (T := T)) store,
      Z.of_nat (length (ofm_actions ofm)) <= Switch_dp.MAX_ACTIONS ->
      let f := {| Switch_dp.key := flow_extract_match (ofm_match ofm);
                  Switch_dp.group_id := ofm_group_id ofm;
                  Switch_dp.max_idle := ofm_max_idle ofm;
                  Switch_dp.created := now;
                  Switch_dp.flow_timeout_at := now + ofm_max_idle ofm;
                  Switch_dp.used := Switch_dp.used m;
                  Switch_dp.packet_count := 0;
                  Switch_dp.byte_count := 0;
                  Switch_dp.actions := ofm_actions ofm |} in
      Switch_dp.chain_insert (Switch_dp.chain dp) f = Some store ->
      let r := Switch_dp.add_flow host_le now (Some m) dp ofm in
      let named := negb (ofm_buffer_id ofm =? UINT32_MAX) in
      let got := Switch_buffers.retrieve_buffer (Switch_dp.cache dp)
                   (ofm_buffer_id ofm) in
      fst (fst r)
      = (if named then match fst got with Some _ => 0 | None => - ESRCH end
         else 0)
      /\ Switch_dp.chain (snd (fst r))
         = store (if named
                  then match fst got with
                       | Some b => Switch_dp.flow_used now f b
                       | None => f
                       end
                  else f)
      /\ Switch_dp.cache (snd (fst r))
         = (if named then snd got else Switch_dp.cache dp)
      /\ (fst (fst r) = - ESRCH <-> named = true /\ fst got = None)).
Proof.
  intros Hin Ht Hp. split.
  - split; [|discriminate].
    unfold Kernel_dp.add_flow.
    assert (E : existsb (Kernel_dp.loops_back ofm) (ofm_actions ofm) = true).
    { apply existsb_exists. exists a. split; [exact Hin|].
      unfold Kernel_dp.loops_back. rewrite Ht, Z.eqb_refl. simpl.
      destruct Hp as [-> | [-> | ->]]; rewrite Z.eqb_refl;
        repeat rewrite orb_true_r; reflexivity. }
    rewrite E. reflexivity.
  - intros T tbl host_le now m dp store Hn f Hins.
    exact (user_space_add_flow_installs host_le now m dp ofm store Hn Hins).
Qed.

(** C2, counterexample.  The user-space add_flow installs each of the three
    rules: it returns 0 and the linear table of the chain holds one flow. *)
Lemma user_space_add_flow_installs_loops :
  map (fun acts => (fst (example_add_flow acts),
                    map (@length _) (snd (example_add_flow acts))))
      example_loop_actions
  = [ (0, [1%nat]); (0, [1%nat]); (0, [1%nat]) ].
Proof. vm_compute. reflexivity. Qed.

Lemma add_flow_rejects_loops_witness :
  @Kernel_dp.add_flow openflow_example bytes (fun s => s)
    (fun s => Some s) (fun s => Some s) (fun s _ k _ => (Some s, k))
    (list Kernel_dp.sw_flow) (fun ch f => Some (fun f' => ch ++ [f']))
    (fun f _ => f) 0 (Some example_kernel_flow) []
    (Kernel_buffers.initial_cache bytes)
    (example_flow_mod [@output_action openflow_example 0xfff9 0])
  = (- ENOMEM, [], Kernel_buffers.initial_cache bytes, []).
Proof.
  exact (proj1 (proj1 (@add_flow_rejects_loops openflow_example bytes (fun s => s)
    (fun s => Some s) (fun s => Some s) (fun s _ k _ => (Some s, k))
    (list Kernel_dp.sw_flow) (fun ch f => Some (fun f' => ch ++ [f']))
    (fun f _ => f) 0 (Some example_kernel_flow) []
    (Kernel_buffers.initial_cache bytes)
    (example_flow_mod [@output_action openflow_example 0xfff9 0])
    (@output_action openflow_example 0xfff9 0)
    (or_introl eq_refl) eq_refl (or_introl eq_refl)))).
Defined.

(** ** Flow expiry *)

Section SweepProps.
Context `{openflow_h}.
Variables (BITS_PER_LONG HZ : Z) (flow_del : Kernel_dp.sw_flow -> bool).
Variables (hello_flags jiffies : Z).

Local Abbreviation sweep :=
  (Kernel_dp.table_hash_timeout BITS_PER_LONG HZ flow_del hello_flags jiffies).
Local Abbreviation swept :=
  (Kernel_dp.reaped BITS_PER_LONG HZ flow_del jiffies).

Lemma sweep_cons (b : option Kernel_dp.sw_flow) (rest : list (option Kernel_dp.sw_flow)) :
  sweep (b :: rest)
  = (snd (fst (Kernel_dp.timeout_bucket BITS_PER_LONG HZ flow_del hello_flags jiffies b))
     + fst (fst (sweep rest)),
     fst (fst (Kernel_dp.timeout_bucket BITS_PER_LONG HZ flow_del hello_flags jiffies b))
     :: snd (fst (sweep rest)),
     match snd (Kernel_dp.timeout_bucket BITS_PER_LONG HZ flow_del hello_flags jiffies b) with
     | Some f => f :: snd (sweep rest)
     | None => snd (sweep rest)
     end).
Proof.
  cbn [Kernel_dp.table_hash_timeout].
  destruct (Kernel_dp.timeout_bucket _ _ _ _ _ b) as [[b' n] sent].
  destruct (sweep rest) as [[count rest'] sents]. reflexivity.
Qed.

Lemma sweep_silent (buckets : list (option Kernel_dp.sw_flow)) :
  tst hello_flags OFP_CHELLO_SEND_FLOW_EXP = false -> snd (sweep buckets) = [].
Proof.
  intros Hflag. induction buckets as [|b rest IH]; [reflexivity|].
  rewrite sweep_cons. cbn [snd]. rewrite IH.
  unfold Kernel_dp.timeout_bucket. rewrite Hflag.
  destruct b as [f|]; [|reflexivity].
  destruct (negb (Kernel_dp.flow_timeout BITS_PER_LONG HZ jiffies f =? 0));
    [|reflexivity].
  destruct (Kernel_dp.do_delete flow_del f). reflexivity.
Qed.

Lemma sweep_notifies (buckets : list (option Kernel_dp.sw_flow)) (f : Kernel_dp.sw_flow) :
  tst hello_flags OFP_CHELLO_SEND_FLOW_EXP = true ->
  In f (swept buckets) -> In f (snd (sweep buckets)).
Proof.
  intros Hflag. induction buckets as [|b rest IH]; [intros []|].
  rewrite sweep_cons. cbn [snd Kernel_dp.reaped].
  unfold Kernel_dp.timeout_bucket. rewrite Hflag.
  destruct b as [g|]; [|exact IH].
  destruct (negb (Kernel_dp.flow_timeout BITS_PER_LONG HZ jiffies g =? 0)).
  - destruct (Kernel_dp.do_delete flow_del g) as [b' n]. cbn [snd andb].
    destruct (flow_del g).
    + intros [->|Hin]; [left; reflexivity | right; apply IH, Hin].
    + intros Hin. right. apply IH, Hin.
  - cbn [snd andb]. exact IH.
Qed.

Lemma sweep_count (buckets : list (option Kernel_dp.sw_flow)) :
  fst (fst (sweep buckets)) = Z.of_nat (length (swept buckets)).
Proof.
  induction buckets as [|b rest IH]; [reflexivity|].
  rewrite sweep_cons. cbn [fst Kernel_dp.reaped]. rewrite IH.
  unfold Kernel_dp.timeout_bucket, Kernel_dp.do_delete.
  destruct b as [g|]; [|reflexivity].
  destruct (negb (Kernel_dp.flow_timeout BITS_PER_LONG HZ jiffies g =? 0));
    [|reflexivity].
  destruct (flow_del g); cbn [fst snd andb length]; lia.
Qed.

(** C3 (as amended).  In the sweep of the kernel datapath's hash table, every
    flow that the sweep takes out of its bucket is handed to
    dp_send_flow_expired if and only if the SEND_FLOW_EXP flag of the datapath
    is set; with the flag clear the sweep sends nothing at all.  The count
    that the sweep returns is the number of flows it took out.  The timeout
    pass of the user-space dp_run does not consult the configuration flags:
    it sends one FLOW_EXPIRED for every flow that chain_timeout took out. *)
Theorem flow_expired_follows_flag (buckets : list (option Kernel_dp.sw_flow)) :
  (forall f,
      In f (Kernel_dp.reaped BITS_PER_LONG HZ flow_del jiffies buckets) ->
      (In f (snd (Kernel_dp.table_hash_timeout BITS_PER_LONG HZ flow_del
                    hello_flags jiffies buckets))
       <-> tst hello_flags OFP_CHELLO_SEND_FLOW_EXP = true))
  /\ (tst hello_flags OFP_CHELLO_SEND_FLOW_EXP = false ->
      snd (Kernel_dp.table_hash_timeout BITS_PER_LONG HZ flow_del
             hello_flags jiffies buckets) = [])
  /\ fst (fst (Kernel_dp.table_hash_timeout BITS_PER_LONG HZ flow_del
                 hello_flags jiffies buckets))
     = Z.of_nat (length (Kernel_dp.reaped BITS_PER_LONG HZ flow_del jiffies buckets))
  /\ (forall (T : Type) (tbl : Switch_dp.sw_table T) now
             (dp : Switch_dp.datapath (T := T)),
      now <> Switch_dp.last_timeout dp ->
      snd (Switch_dp.dp_run_timeout now dp)
      = map (Switch_dp.send_flow_expired dp)
            (fst (Switch_dp.chain_timeout (Switch_dp.chain dp) now))).
Proof.
  split; [|split; [apply sweep_silent | split; [apply sweep_count|]]].
  - intros f Hf. split.
    + intros Hin. destruct (tst hello_flags OFP_CHELLO_SEND_FLOW_EXP) eqn:E;
        [reflexivity|].
      rewrite (sweep_silent buckets E) in Hin. destruct Hin.
    + intros Hflag. apply sweep_notifies; assumption.
  - intros T tbl now dp Hnow. unfold Switch_dp.dp_run_timeout.
    apply Z.eqb_neq in Hnow. rewrite Hnow. cbn [negb].
    destruct (Switch_dp.chain_timeout (Switch_dp.chain dp) now). reflexivity.
Qed.

End SweepProps.

(** C3, counterexample.  With every configuration flag clear, the timeout
    pass of the user-space dp_run takes the expired flow out of the chain and
    sends a FLOW_EXPIRED for it all the same. *)
Lemma user_space_sends_flow_expired_unasked :
  Switch_dp.config_flags example_dp_idle = 0
  /\ exists dp' m,
       @Switch_dp.dp_run_timeout _ (@Switch_tables.linear_table openflow_example)
         100 example_dp_idle = (dp', [m])
       /\ Switch_dp.chain dp' = [[]]
       /\ Switch_dp.ofe_match m = Switch_dp.key example_idle_flow.
Proof. split; [reflexivity|]. eexists _, _. vm_compute. repeat split. Qed.

Lemma flow_expired_follows_flag_witness :
  In example_kernel_flow
    (snd (@Kernel_dp.table_hash_timeout openflow_example 64 100 (fun _ => true)
            1 1000 [None; Some example_kernel_flow]))
  <-> tst 1 (@OFP_CHELLO_SEND_FLOW_EXP openflow_example) = true.
Proof.
  apply (proj1 (@flow_expired_follows_flag openflow_example 64 100
                  (fun _ => true) 1 1000 [None; Some example_kernel_flow])).
  vm_compute. left. reflexivity.
Defined.

(** ** Header extraction *)




(** * The rest of the flow, table and datapath code *)

(** ** Wildcards and address masks *)

Lemma tst_0_l (m : Z) : tst 0 m = false.
Proof. unfold tst. rewrite Z.land_0_l. reflexivity. Qed.

Lemma tst_lor (x y m : Z) : tst (Z.lor x y) m = tst x m || tst y m.
Proof.
  unfold tst. rewrite Z.land_lor_distr_l.
  destruct (Z.land x m =? 0) eqn:Ex; destruct (Z.land y m =? 0) eqn:Ey; cbn;
    rewrite ?negb_true_iff, ?negb_false_iff;
    rewrite ?Z.eqb_eq, ?Z.eqb_neq in *; rewrite Z.lor_eq_0_iff; tauto.
Qed.

Lemma tst_land_l (x y m : Z) : tst x m = false -> tst (Z.land x y) m = false.
Proof.
  unfold tst. rewrite !negb_false_iff, !Z.eqb_eq. intros Hx.
  rewrite <- Z.land_assoc, (Z.land_comm y m), Z.land_assoc, Hx.
  apply Z.land_0_l.
Qed.

Lemma tst_mask_land (x a b : Z) : tst x b = false -> tst x (Z.land a b) = false.
Proof.
  unfold tst. rewrite !negb_false_iff, !Z.eqb_eq. intros Hx.
  rewrite (Z.land_comm a b), Z.land_assoc, Hx. apply Z.land_0_l.
Qed.

Lemma u16_land_ones (x : Z) : u16 x = Z.land x (Z.ones 16).
Proof. unfold u16. rewrite Z.land_ones by lia. reflexivity. Qed.

Lemma tst_u16_lor (x y m : Z) :
  tst (u16 (Z.lor x y)) m = tst (u16 x) m || tst (u16 y) m.
Proof.
  rewrite !u16_land_ones, Z.land_lor_distr_l. apply tst_lor.
Qed.

Lemma land_lxor_distr (x y m : Z) :
  Z.land (Z.lxor x y) m = Z.lxor (Z.land x m) (Z.land y m).
Proof.
  apply Z.bits_inj'; intros n Hn.
  rewrite !Z.land_spec, !Z.lxor_spec, !Z.land_spec.
  destruct (Z.testbit x n), (Z.testbit y n), (Z.testbit m n); reflexivity.
Qed.

Lemma tst_lxor_full (x y : Z) :
  0 <= x < 2^32 -> 0 <= y < 2^32 ->
  (negb (tst (Z.lxor x y) 0xffffffff) = true <-> x = y).
Proof.
  intros Hx Hy. unfold tst. rewrite negb_involutive, Z.eqb_eq.
  change 0xffffffff with (Z.ones 32).
  rewrite land_lxor_distr, !Z.land_ones by lia.
  rewrite !Z.mod_small by lia. apply Z.lxor_eq_0_iff.
Qed.

Section KeyProps.
Context `{openflow_h}.

(** X1.  A packet or rule key that matches a rule by the one-sided test
    (wildcards and masks of the rule only) also matches it by the two-sided
    test, in the kernel datapath and in the user-space switch. *)
Theorem one_sided_match_is_two_sided (a b : sw_flow_key) :
  (Kernel_flow.flow_matches_1wild a b = true ->
   Kernel_flow.flow_matches_2wild a b = true)
  /\ (Switch_flow.flow_matches_1wild a b = true ->
      Switch_flow.flow_matches_2wild a b = true).
Proof.
  split.
  - unfold Kernel_flow.flow_matches_1wild, Kernel_flow.flow_matches_2wild,
      Kernel_flow.flow_fields_match.
    rewrite !andb_true_iff, !tst_lor, !negb_true_iff.
    intros (((((((((H1 & H2) & H3) & H4) & H5) & H6) & H7) & H8) & H9) & H10).
    repeat split;
      try (apply tst_mask_land; assumption);
      rewrite <- orb_assoc; match goal with Hx : _ |- _ => rewrite Hx end;
      apply orb_true_r.
  - unfold Switch_flow.flow_matches_1wild, Switch_flow.flow_matches_2wild,
      Switch_flow.flow_fields_match. cbv zeta.
    rewrite !andb_true_iff, !tst_u16_lor, !negb_true_iff.
    intros (((((((((H1 & H2) & H3) & H4) & H5) & H6) & H7) & H8) & H9) & H10).
    repeat split;
      try (apply tst_mask_land; assumption);
      rewrite <- orb_assoc; match goal with Hx : _ |- _ => rewrite Hx end;
      apply orb_true_r.
Qed.

End KeyProps.

Lemma not32_small (x : Z) : 0 <= x < 2^32 -> not32 x = 2^32 - 1 - x.
Proof.
  intros Hx. unfold not32, u32. rewrite Z.mod_small by lia.
  assert (Hland : Z.land x (Z.lxor x 0xffffffff) = 0).
  { apply Z.bits_inj'; intros n Hn.
    rewrite Z.land_spec, Z.lxor_spec, Z.bits_0.
    destruct (Z.lt_ge_cases n 32) as [Hlt|Hge].
    - change 0xffffffff with (Z.ones 32). rewrite Z.ones_spec_low by lia.
      destruct (Z.testbit x n); reflexivity.
    - rewrite <- (Z.mod_small x (2^32)) by lia.
      rewrite Z.mod_pow2_bits_high by lia. reflexivity. }
  pose proof (Z.add_nocarry_lxor _ _ Hland) as Hadd.
  rewrite <- Z.lxor_assoc in Hadd.
  rewrite Z.lxor_nilpotent, Z.lxor_0_l in Hadd. lia.
Qed.

Lemma lxor_bound (a b n : Z) :
  0 <= n -> 0 <= a < 2^n -> 0 <= b < 2^n -> 0 <= Z.lxor a b < 2^n.
Proof.
  intros Hn Ha Hb.
  assert (E : Z.lxor a b = Z.lxor a b mod 2^n).
  { rewrite <- Z.land_ones, land_lxor_distr, !Z.land_ones by lia.
    rewrite !Z.mod_small by lia. reflexivity. }
  rewrite E. apply Z.mod_pos_bound. lia.
Qed.

Lemma prefix_mask_bits (k i : Z) :
  0 <= k <= 32 -> 0 <= i ->
  Z.testbit (2^32 - 2^k) i = (k <=? i) && (i <? 32).
Proof.
  intros Hk Hi.
  replace (2^32 - 2^k) with (Z.shiftl (Z.ones (32 - k)) k).
  - rewrite Z.shiftl_spec by lia.
    destruct (k <=? i) eqn:E1; [apply Z.leb_le in E1 | apply Z.leb_gt in E1].
    + destruct (i <? 32) eqn:E2; [apply Z.ltb_lt in E2 | apply Z.ltb_ge in E2].
      * apply Z.ones_spec_low. lia.
      * apply Z.ones_spec_high. lia.
    + apply Z.testbit_neg_r. lia.
  - rewrite Z.shiftl_mul_pow2, Z.ones_equiv by lia. unfold Z.pred.
    rewrite Z.mul_add_distr_r, <- Z.pow_add_r by lia.
    replace (32 - k + k) with 32 by lia. lia.
Qed.

Lemma tst_prefix_mask (x k : Z) :
  0 <= x < 2^32 -> 0 <= k <= 32 ->
  (tst x (2^32 - 2^k) = false <-> Z.shiftr x k = 0).
Proof.
  intros Hx Hk. unfold tst. rewrite negb_false_iff, Z.eqb_eq.
  assert (Hhigh : forall j, 32 <= j -> Z.testbit x j = false).
  { intros j Hj. rewrite <- (Z.mod_small x (2^32)) by lia.
    apply Z.mod_pow2_bits_high. lia. }
  split; intros Hz; apply Z.bits_inj'; intros i Hi; rewrite Z.bits_0.
  - rewrite Z.shiftr_spec by lia.
    destruct (Z.lt_ge_cases (i + k) 32) as [Hlt|Hge]; [|apply Hhigh; lia].
    assert (Hb : Z.testbit (Z.land x (2^32 - 2^k)) (i + k) = false)
      by (rewrite Hz; apply Z.bits_0).
    rewrite Z.land_spec, prefix_mask_bits in Hb by lia.
    replace (k <=? i + k) with true in Hb by (symmetry; apply Z.leb_le; lia).
    replace (i + k <? 32) with true in Hb by (symmetry; apply Z.ltb_lt; lia).
    rewrite andb_true_r in Hb. exact Hb.
  - rewrite Z.land_spec, prefix_mask_bits by lia.
    destruct (k <=? i) eqn:E; [apply Z.leb_le in E | rewrite andb_false_r; reflexivity].
    assert (Hb : Z.testbit (Z.shiftr x k) (i - k) = false)
      by (rewrite Hz; apply Z.bits_0).
    rewrite Z.shiftr_spec in Hb by lia.
    replace (i - k + k) with i in Hb by lia. rewrite Hb. reflexivity.
Qed.

Section MaskProps.
Context `{openflow_h}.

(** X2.  A rule key without wildcard bits and with full address masks
    matches a key by the one-sided test exactly when the ten fields of the
    two keys are equal (32-bit addresses), in both implementations. *)
Theorem exact_rule_matches_equal_fields (a b : sw_flow_key) :
  wildcards b = 0 -> nw_src_mask b = 0xffffffff -> nw_dst_mask b = 0xffffffff ->
  0 <= nw_src (key_flow a) < 2^32 -> 0 <= nw_src (key_flow b) < 2^32 ->
  0 <= nw_dst (key_flow a) < 2^32 -> 0 <= nw_dst (key_flow b) < 2^32 ->
  (Kernel_flow.flow_matches_1wild a b = true
   <-> same_fields (key_flow a) (key_flow b))
  /\ (Switch_flow.flow_matches_1wild a b = true
      <-> same_fields (key_flow a) (key_flow b)).
Proof.
  intros Hw Hs Hd Ha1 Hb1 Ha2 Hb2.
  unfold Kernel_flow.flow_matches_1wild, Switch_flow.flow_matches_1wild,
    Kernel_flow.flow_fields_match, Switch_flow.flow_fields_match, same_fields.
  cbv zeta. rewrite Hw, Hs, Hd. change (u16 0) with 0.
  rewrite !tst_0_l. cbn [orb].
  rewrite !andb_true_iff, !Z.eqb_eq, !tst_lxor_full by assumption.
  tauto.
Qed.

(** X3.  make_nw_mask turns a count of wildcarded address bits into a
    prefix mask: with [k] the count reduced to OFPFW_NW_SRC_BITS bits, two
    32-bit addresses pass the mask test of flow_fields_match exactly when
    they agree above their [k] low bits (always, when [k] is 32 or more). *)
Theorem make_nw_mask_compares_prefixes (n a b : Z) :
  0 <= OFPFW_NW_SRC_BITS -> 0 <= n -> 0 <= a < 2^32 -> 0 <= b < 2^32 ->
  (tst (Z.lxor a b) (make_nw_mask n) = false
   <-> a / 2 ^ (n mod 2 ^ OFPFW_NW_SRC_BITS)
       = b / 2 ^ (n mod 2 ^ OFPFW_NW_SRC_BITS)).
Proof.
  intros HB Hn Ha Hb. unfold make_nw_mask. cbv zeta.
  rewrite Z.shiftl_1_l.
  replace (2 ^ OFPFW_NW_SRC_BITS - 1) with (Z.ones OFPFW_NW_SRC_BITS)
    by (rewrite Z.ones_equiv; lia).
  rewrite Z.land_ones by lia.
  set (k := n mod 2 ^ OFPFW_NW_SRC_BITS).
  assert (Hk : 0 <= k) by (apply Z.mod_pos_bound; lia).
  pose proof (lxor_bound a b 32 ltac:(lia) Ha Hb) as Hx.
  destruct (k <? 32) eqn:E; [apply Z.ltb_lt in E | apply Z.ltb_ge in E].
  - rewrite Z.shiftl_1_l.
    assert (H2k : 0 < 2^k <= 2^31)
      by (split; [apply Z.pow_pos_nonneg; lia | apply Z.pow_le_mono_r; lia]).
    rewrite not32_small by lia.
    replace (2^32 - 1 - (2^k - 1)) with (2^32 - 2^k) by lia.
    rewrite tst_prefix_mask by lia.
    rewrite Z.shiftr_lxor, Z.lxor_eq_0_iff, !Z.shiftr_div_pow2 by lia.
    reflexivity.
  - assert (H2k : 2^32 <= 2^k) by (apply Z.pow_le_mono_r; lia).
    rewrite !Z.div_small by lia. unfold tst. rewrite Z.land_0_r. cbn. tauto.
Qed.

End MaskProps.

Section RoundTrip.
Context `{openflow_h}.

Lemma land_land_same (x m : Z) : Z.land (Z.land x m) m = Z.land x m.
Proof. rewrite <- Z.land_assoc, Z.land_diag. reflexivity. Qed.

(** X4.  flow_fill_match followed by flow_extract_match gives back every
    key that flow_extract_match produces: the wildcard word that
    flow_extract_match settles on is a fixed point of its own adjustment.
    (The NW and TP wildcard bits lie within OFPFW_ALL and the TP bits are
    not the DL_TYPE bit.) *)
Theorem flow_extract_match_round_trip (m : ofp_match) :
  Z.land OFPFW_NW OFPFW_ALL = OFPFW_NW ->
  Z.land OFPFW_TP OFPFW_ALL = OFPFW_TP ->
  Z.land OFPFW_TP OFPFW_DL_TYPE = 0 ->
  flow_extract_match (flow_fill_match (flow_extract_match m))
  = flow_extract_match m.
Proof.
  intros Hnw Htp Hdis.
  set (W := Z.land (m_wildcards m) OFPFW_ALL).
  assert (HW : Z.land W OFPFW_ALL = W) by apply land_land_same.
  assert (Htpdl : tst OFPFW_TP OFPFW_DL_TYPE = false)
    by (unfold tst; rewrite Hdis; reflexivity).
  remember (flow_extract_match m) as k eqn:Hk.
  unfold flow_extract_match in Hk. cbv zeta in Hk. fold W in Hk.
  destruct (tst W OFPFW_DL_TYPE) eqn:Edl;
    [|destruct (m_dl_type m =? ETH_P_IP) eqn:Eip;
      [destruct (tst W OFPFW_NW_PROTO) eqn:Epr;
       [|destruct ((m_nw_proto m =? IPPROTO_TCP) || (m_nw_proto m =? IPPROTO_UDP))
           eqn:Etu]|]];
    rewrite Hk; clear Hk k;
    unfold flow_extract_match, flow_fill_match; cbv zeta;
    cbn [m_wildcards m_in_port m_dl_src m_dl_dst m_dl_vlan m_dl_type m_nw_src
         m_nw_dst m_nw_proto m_tp_src m_tp_dst wildcards key_flow set_nw
         set_nw_proto set_tp
         in_port dl_vlan dl_type dl_src dl_dst nw_src nw_dst nw_proto tp_src tp_dst].
  - rewrite !Z.land_lor_distr_l, HW, Hnw, Htp.
    rewrite !tst_lor, Edl. cbn [orb].
    replace (Z.lor (Z.lor W (Z.lor OFPFW_NW OFPFW_TP)) (Z.lor OFPFW_NW OFPFW_TP))
      with (Z.lor W (Z.lor OFPFW_NW OFPFW_TP))
      by (rewrite <- Z.lor_assoc, Z.lor_diag; reflexivity).
    reflexivity.
  - rewrite !Z.land_lor_distr_l, HW, Htp.
    rewrite !tst_lor, Edl, Htpdl, Eip, Epr. cbn [orb].
    rewrite <- Z.lor_assoc, Z.lor_diag. reflexivity.
  - rewrite HW, Edl, Eip, Epr, Etu. reflexivity.
  - replace (Z.land (Z.land W (not32 OFPFW_TP)) OFPFW_ALL)
      with (Z.land W (not32 OFPFW_TP))
      by (rewrite <- Z.land_assoc, (Z.land_comm (not32 OFPFW_TP)),
            Z.land_assoc, HW; reflexivity).
    rewrite !(tst_land_l W) by assumption.
    rewrite Eip, Etu, land_land_same. reflexivity.
  - replace (Z.land (Z.land W (not32 (Z.lor OFPFW_NW OFPFW_TP))) OFPFW_ALL)
      with (Z.land W (not32 (Z.lor OFPFW_NW OFPFW_TP)))
      by (rewrite <- Z.land_assoc, (Z.land_comm (not32 _)),
            Z.land_assoc, HW; reflexivity).
    rewrite !(tst_land_l W) by assumption.
    rewrite Eip, land_land_same. reflexivity.
Qed.

End RoundTrip.

(** ** The sweep of the kernel hash table and flow_timeout *)

Section SweepTruth.
Context `{openflow_h}.
Variables (BITS_PER_LONG HZ : Z) (flow_del : Kernel_dp.sw_flow -> bool).
Variables (hello_flags jiffies : Z).

(** X5.  table_hash_timeout uses the result of flow_timeout as a truth
    value, and flow_timeout answers with a reason code, -1 standing for "not
    timed out".  So a flow with neither an idle nor a hard timeout is taken
    out of its bucket by every sweep (when flow_del succeeds), whereas, the
    reason OFPER_IDLE_TIMEOUT being numbered 0, a flow whose idle timeout has
    passed stays in its bucket, is not counted and is not reported. *)
Theorem sweep_tests_reason_code_as_truth (f : Kernel_dp.sw_flow) :
  (Kernel_dp.idle_timeout f = OFP_FLOW_PERMANENT ->
   Kernel_dp.hard_timeout f = OFP_FLOW_PERMANENT ->
   flow_del f = true ->
   Kernel_dp.flow_timeout BITS_PER_LONG HZ jiffies f = -1
   /\ Kernel_dp.table_hash_timeout BITS_PER_LONG HZ flow_del hello_flags jiffies
        [Some f]
      = (1, [None],
         if tst hello_flags OFP_CHELLO_SEND_FLOW_EXP then [f] else []))
  /\ (OFPER_IDLE_TIMEOUT = 0 ->
      Kernel_dp.idle_timeout f <> OFP_FLOW_PERMANENT ->
      Kernel_dp.time_after BITS_PER_LONG jiffies
        (Kernel_dp.used f + Kernel_dp.idle_timeout f * HZ) = true ->
      Kernel_dp.flow_timeout BITS_PER_LONG HZ jiffies f = OFPER_IDLE_TIMEOUT
      /\ Kernel_dp.table_hash_timeout BITS_PER_LONG HZ flow_del hello_flags
           jiffies [Some f]
         = (0, [Some f], [])).
Proof.
  split.
  - intros Hidle Hhard Hdel.
    assert (Hto : Kernel_dp.flow_timeout BITS_PER_LONG HZ jiffies f = -1).
    { unfold Kernel_dp.flow_timeout. rewrite Hidle, Hhard, Z.eqb_refl.
      reflexivity. }
    split; [exact Hto|].
    cbn [Kernel_dp.table_hash_timeout]. unfold Kernel_dp.timeout_bucket.
    rewrite Hto. cbn [Z.eqb negb]. unfold Kernel_dp.do_delete. rewrite Hdel.
    destruct (tst hello_flags OFP_CHELLO_SEND_FLOW_EXP); reflexivity.
  - intros Hzero Hidle Hafter.
    assert (Hto : Kernel_dp.flow_timeout BITS_PER_LONG HZ jiffies f
                  = OFPER_IDLE_TIMEOUT).
    { unfold Kernel_dp.flow_timeout. apply Z.eqb_neq in Hidle.
      rewrite Hidle, Hafter. reflexivity. }
    split; [exact Hto|].
    cbn [Kernel_dp.table_hash_timeout]. unfold Kernel_dp.timeout_bucket.
    rewrite Hto, Hzero. reflexivity.
Qed.

End SweepTruth.

(** ** The hash tables of the kernel datapath *)

Lemma land_le_r (a b : Z) : 0 <= b -> Z.land a b <= b.
Proof.
  intros Hb.
  assert (Hd : Z.ldiff (Z.land a b) b = 0).
  { apply Z.bits_inj'; intros n Hn.
    rewrite Z.ldiff_spec, Z.land_spec, Z.bits_0.
    destruct (Z.testbit a n), (Z.testbit b n); reflexivity. }
  pose proof (Z.sub_nocarry_ldiff _ _ Hd) as Hs.
  assert (0 <= Z.ldiff b (Z.land a b)) by (apply Z.ldiff_nonneg; lia).
  lia.
Qed.

Lemma flow_eqb_eq (a b : flow) : Kernel_table_hash.flow_eqb a b = true <-> a = b.
Proof.
  unfold Kernel_table_hash.flow_eqb. rewrite !andb_true_iff, !Z.eqb_eq.
  destruct a, b; cbn. split.
  - intros ((((((((((-> & ->) & ->) & ->) & ->) & ->) & ->) & ->) & ->) & ->) & ->).
    reflexivity.
  - intros E. injection E as -> -> -> -> -> -> -> -> -> -> ->. repeat split.
Qed.

Lemma key_eqb_eq (a b : sw_flow_key) :
  Kernel_table_hash.key_eqb a b = true <-> a = b.
Proof.
  unfold Kernel_table_hash.key_eqb.
  rewrite !andb_true_iff, !Z.eqb_eq, flow_eqb_eq.
  destruct a, b; cbn. split.
  - intros (((-> & ->) & ->) & ->). reflexivity.
  - intros E. injection E as -> -> -> ->. repeat split.
Qed.

Lemma key_eqb_refl (a : sw_flow_key) : Kernel_table_hash.key_eqb a a = true.
Proof. apply key_eqb_eq. reflexivity. Qed.

Section HashProps.
Context `{openflow_h}.
Variable crc32_calculate : Z -> sw_flow_key -> Z.
Variable flow_del : Kernel_dp.sw_flow -> bool.

Local Abbreviation find_bucket := (Kernel_table_hash.find_bucket crc32_calculate).
Local Abbreviation lookup := (Kernel_table_hash.table_hash_lookup crc32_calculate).
Local Abbreviation insert := (Kernel_table_hash.table_hash_insert crc32_calculate flow_del).
Local Abbreviation lookup2 := (Kernel_table_hash.table_hash2_lookup crc32_calculate).
Local Abbreviation insert2 := (Kernel_table_hash.table_hash2_insert crc32_calculate flow_del).

Lemma find_bucket_range (th : Kernel_table_hash.sw_table_hash) (k : sw_flow_key) :
  table_hash_wf th ->
  (Z.to_nat (find_bucket th k) < length (Kernel_table_hash.buckets th))%nat.
Proof.
  intros [Hm Hlen]. unfold Kernel_table_hash.find_bucket.
  set (c := u32 (crc32_calculate (Kernel_table_hash.crc32 th) k)).
  assert (0 <= Z.land c (Kernel_table_hash.bucket_mask th))
    by (apply Z.land_nonneg; right; lia).
  pose proof (land_le_r c (Kernel_table_hash.bucket_mask th) ltac:(lia)).
  lia.
Qed.

Lemma bucket_at_insert (th : Kernel_table_hash.sw_table_hash) (n i j : Z)
  (b : option Kernel_dp.sw_flow) :
  0 <= i -> 0 <= j ->
  (Z.to_nat i < length (Kernel_table_hash.buckets th))%nat ->
  Kernel_table_hash.bucket_at
    (Kernel_table_hash.with_buckets th n
       (<[Z.to_nat i := b]> (Kernel_table_hash.buckets th))) j
  = if i =? j then b else Kernel_table_hash.bucket_at th j.
Proof.
  intros Hi Hj Hlt. unfold Kernel_table_hash.bucket_at, Kernel_table_hash.with_buckets.
  cbn [Kernel_table_hash.buckets].
  destruct (i =? j) eqn:E.
  - apply Z.eqb_eq in E. subst j. rewrite list_lookup_insert_eq by exact Hlt.
    reflexivity.
  - apply Z.eqb_neq in E. rewrite list_lookup_insert_ne by lia. reflexivity.
Qed.

Lemma find_bucket_nonneg (th : Kernel_table_hash.sw_table_hash) (k : sw_flow_key) :
  table_hash_wf th -> 0 <= find_bucket th k.
Proof.
  intros [Hm _]. unfold Kernel_table_hash.find_bucket.
  apply Z.land_nonneg. right. lia.
Qed.

Lemma table_hash_insert_cases (th th' : Kernel_table_hash.sw_table_hash)
  (flow : Kernel_dp.sw_flow) (r : Z) :
  table_hash_wf th ->
  insert th flow = (r, th') ->
  (r = 1 /\ wildcards (Kernel_dp.key flow) = 0
   /\ forall k, lookup th' k
                = if Kernel_table_hash.key_eqb (Kernel_dp.key flow) k
                  then Some flow else lookup th k)
  \/ (r = 0 /\ th' = th
      /\ (wildcards (Kernel_dp.key flow) <> 0
          \/ exists old,
               Kernel_table_hash.bucket_at th (find_bucket th (Kernel_dp.key flow))
               = Some old
               /\ (Kernel_dp.key old <> Kernel_dp.key flow \/ flow_del old = false))).
Proof.
  intros Hwf. unfold Kernel_table_hash.table_hash_insert.
  pose proof (find_bucket_range th (Kernel_dp.key flow) Hwf) as Hrange.
  pose proof (find_bucket_nonneg th (Kernel_dp.key flow) Hwf) as Hnn.
  destruct (wildcards (Kernel_dp.key flow) =? 0) eqn:Ew; cbn [negb];
    [apply Z.eqb_eq in Ew | apply Z.eqb_neq in Ew].
  2:{ intros [= <- <-]. right. repeat split. left. exact Ew. }
  cbv zeta.
  assert (Hlook : forall n old,
             Kernel_table_hash.bucket_at th (find_bucket th (Kernel_dp.key flow)) = old ->
             (old = None \/ exists o, old = Some o /\ Kernel_dp.key o = Kernel_dp.key flow) ->
             forall k,
               lookup (Kernel_table_hash.with_buckets th n
                         (<[Z.to_nat (find_bucket th (Kernel_dp.key flow)) := Some flow]>
                            (Kernel_table_hash.buckets th))) k
               = if Kernel_table_hash.key_eqb (Kernel_dp.key flow) k
                 then Some flow else lookup th k).
  { intros n old Hold Hcase k. unfold Kernel_table_hash.table_hash_lookup.
    assert (Hfb : forall t m bs,
               Kernel_table_hash.find_bucket crc32_calculate
                 (Kernel_table_hash.with_buckets t m bs) k
               = find_bucket t k) by reflexivity.
    rewrite Hfb.
    rewrite bucket_at_insert
      by (try assumption; apply find_bucket_nonneg; exact Hwf).
    destruct (Kernel_table_hash.key_eqb (Kernel_dp.key flow) k) eqn:Ek.
    - apply key_eqb_eq in Ek. subst k. rewrite Z.eqb_refl, key_eqb_refl.
      reflexivity.
    - destruct (find_bucket th (Kernel_dp.key flow) =? find_bucket th k) eqn:Eb;
        [|reflexivity].
      apply Z.eqb_eq in Eb. cbv beta iota. rewrite Ek, <- Eb, Hold.
      destruct Hcase as [-> | (o & -> & Ho)]; [reflexivity|].
      rewrite Ho, Ek. reflexivity. }
  destruct (Kernel_table_hash.bucket_at th (find_bucket th (Kernel_dp.key flow)))
    as [old|] eqn:Eold.
  - destruct (Kernel_table_hash.key_eqb (Kernel_dp.key old) (Kernel_dp.key flow))
      eqn:Ek; cbn [andb].
    + destruct (flow_del old) eqn:Ed.
      * intros [= <- <-]. left. repeat split; [exact Ew|].
        apply (Hlook _ (Some old) eq_refl). right. exists old. split; [reflexivity|].
        apply key_eqb_eq. exact Ek.
      * intros [= <- <-]. right. repeat split. right. exists old.
        split; [reflexivity | right; exact Ed].
    + intros [= <- <-]. right. repeat split. right. exists old.
      split; [reflexivity|]. left. intros E. rewrite E, key_eqb_refl in Ek.
      discriminate.
  - intros [= <- <-]. left. repeat split; [exact Ew|].
    apply (Hlook _ None eq_refl). left. reflexivity.
Qed.

(** X6.  table_hash_insert and table_hash_lookup: after an insertion that
    returned 1, a lookup finds the inserted flow under its own key, and
    under every other key what it found before.  An insertion is refused
    (the table is returned as it was) for a flow whose key has wildcard bits,
    and for a flow whose bucket holds a flow with another key: collisions are
    not resolved. *)
Theorem table_hash_insert_then_lookup (th th' : Kernel_table_hash.sw_table_hash)
  (flow : Kernel_dp.sw_flow) (r : Z) :
  table_hash_wf th ->
  insert th flow = (r, th') ->
  (r = 1 /\ wildcards (Kernel_dp.key flow) = 0
   /\ forall k, lookup th' k
                = if Kernel_table_hash.key_eqb (Kernel_dp.key flow) k
                  then Some flow else lookup th k)
  \/ (r = 0 /\ th' = th
      /\ (wildcards (Kernel_dp.key flow) <> 0
          \/ exists old,
               Kernel_table_hash.bucket_at th (find_bucket th (Kernel_dp.key flow))
               = Some old
               /\ (Kernel_dp.key old <> Kernel_dp.key flow \/ flow_del old = false))).
Proof. apply table_hash_insert_cases. Qed.

Lemma table_hash_lookup_key (th : Kernel_table_hash.sw_table_hash)
  (k : sw_flow_key) (g : Kernel_dp.sw_flow) :
  lookup th k = Some g -> Kernel_dp.key g = k.
Proof.
  unfold Kernel_table_hash.table_hash_lookup.
  destruct (Kernel_table_hash.bucket_at th (find_bucket th k)) as [f|];
    [|discriminate].
  destruct (Kernel_table_hash.key_eqb (Kernel_dp.key f) k) eqn:E; [|discriminate].
  intros [= <-]. apply key_eqb_eq. exact E.
Qed.

(** X7.  The double-hashing table: when table_hash2_insert returns 1, a
    lookup with the key of the inserted flow finds a flow with that key,
    whichever of the two subtables took the flow. *)
Theorem table_hash2_insert_then_lookup (t2 t2' : Kernel_table_hash.sw_table_hash2)
  (flow : Kernel_dp.sw_flow) :
  table_hash_wf (Kernel_table_hash.subtable0 t2) ->
  table_hash_wf (Kernel_table_hash.subtable1 t2) ->
  insert2 t2 flow = (1, t2') ->
  exists g, lookup2 t2' (Kernel_dp.key flow) = Some g
            /\ Kernel_dp.key g = Kernel_dp.key flow.
Proof.
  intros Hwf0 Hwf1. unfold Kernel_table_hash.table_hash2_insert.
  destruct (insert (Kernel_table_hash.subtable0 t2) flow) as [r0 t0] eqn:E0.
  destruct (table_hash_insert_cases _ _ _ _ Hwf0 E0)
    as [(-> & _ & Hl0) | (-> & -> & _)]; cbn [Z.eqb negb].
  - intros [= <-]. exists flow. split; [|reflexivity].
    unfold Kernel_table_hash.table_hash2_lookup.
    cbn [Kernel_table_hash.subtable0]. rewrite Hl0, key_eqb_refl. reflexivity.
  - destruct (insert (Kernel_table_hash.subtable1 t2) flow) as [r1 t1] eqn:E1.
    intros [= -> <-].
    destruct (table_hash_insert_cases _ _ _ _ Hwf1 E1)
      as [(_ & _ & Hl1) | (Hr & _)]; [|discriminate].
    unfold Kernel_table_hash.table_hash2_lookup.
    cbn [Kernel_table_hash.subtable0 Kernel_table_hash.subtable1].
    destruct (lookup (Kernel_table_hash.subtable0 t2) (Kernel_dp.key flow))
      as [g|] eqn:Eg.
    + exists g. split; [reflexivity|]. exact (table_hash_lookup_key _ _ _ Eg).
    + exists flow. rewrite Hl1, key_eqb_refl. split; reflexivity.
Qed.

End HashProps.

Lemma s32_small (x : Z) : - 2^31 <= x < 2^31 -> Kernel_table_hash.s32 x = x.
Proof.
  intros Hx. unfold Kernel_table_hash.s32. rewrite Z.mod_small by lia. lia.
Qed.

Lemma bucket_flows_cons (b : option Kernel_dp.sw_flow)
  (bs : list (option Kernel_dp.sw_flow)) :
  bucket_flows (b :: bs)
  = match b with Some f => f :: bucket_flows bs | None => bucket_flows bs end.
Proof. destruct b; reflexivity. Qed.

Lemma bucket_flows_le (bs : list (option Kernel_dp.sw_flow)) :
  (length (bucket_flows bs) <= length bs)%nat.
Proof.
  induction bs as [|b bs IH]; [reflexivity|].
  rewrite bucket_flows_cons. destruct b; cbn [length]; lia.
Qed.

Lemma bucket_flows_insert (bs : list (option Kernel_dp.sw_flow)) (i : nat)
  (b : option Kernel_dp.sw_flow) :
  (i < length bs)%nat ->
  Z.of_nat (length (bucket_flows (<[i := b]> bs)))
  = Z.of_nat (length (bucket_flows bs))
    - (match default None (bs !! i) with Some _ => 1 | None => 0 end)
    + (match b with Some _ => 1 | None => 0 end).
Proof.
  revert i. induction bs as [|x bs IH]; intros i Hi; [cbn in Hi; lia|].
  destruct i as [|i].
  - change (<[0%nat := b]> (x :: bs)) with (b :: bs).
    change ((x :: bs) !! 0%nat) with (Some x).
    cbn [from_option id]. rewrite !bucket_flows_cons.
    destruct x, b; cbn [length]; lia.
  - cbn [length] in Hi.
    change (<[S i := b]> (x :: bs)) with (x :: <[i := b]> bs).
    change ((x :: bs) !! S i) with (bs !! i).
    rewrite !bucket_flows_cons.
    specialize (IH i ltac:(lia)).
    destruct x; cbn [length]; lia.
Qed.

Section HashCount.
Context `{openflow_h}.
Variable crc32_calculate : Z -> sw_flow_key -> Z.
Variable flow_del : Kernel_dp.sw_flow -> bool.
Variables (BITS_PER_LONG HZ : Z).

Lemma delete_loop_count (k : sw_flow_key) (strict : bool)
  (bs : list (option Kernel_dp.sw_flow)) (c : Z) :
  0 <= c -> c + Z.of_nat (length bs) < 2^32 ->
  length (snd (Kernel_table_hash.delete_loop flow_del k strict bs c)) = length bs
  /\ fst (Kernel_table_hash.delete_loop flow_del k strict bs c)
     = c + Z.of_nat (length (bucket_flows bs))
       - Z.of_nat (length (bucket_flows
                             (snd (Kernel_table_hash.delete_loop flow_del k strict bs c)))).
Proof.
  revert c. induction bs as [|b bs IH]; intros c Hc Hlt.
  - cbn. split; [reflexivity | lia].
  - cbn [Kernel_table_hash.delete_loop].
    set (step := match b with
                 | Some flow =>
                     if Kernel_flow.flow_del_matches (Kernel_dp.key flow) k strict
                     then let '(b', n) := Kernel_dp.do_delete flow_del flow in
                          (b', u32 (c + n))
                     else (b, c)
                 | None => (b, c)
                 end).
    assert (Hstep : 0 <= snd step <= c + 1
                    /\ snd step
                       = c + (match b with Some _ => 1 | None => 0 end)
                         - (match fst step with Some _ => 1 | None => 0 end)).
    { subst step. destruct b as [f|]; [|cbn; lia].
      destruct (Kernel_flow.flow_del_matches (Kernel_dp.key f) k strict);
        [|cbn; lia].
      unfold Kernel_dp.do_delete. cbn [length] in Hlt.
      destruct (flow_del f); cbn [fst snd]; unfold u32;
        rewrite Z.mod_small by lia; lia. }
    destruct step as [b' c1]. cbn [fst snd] in Hstep.
    cbn [length] in Hlt.
    specialize (IH c1 ltac:(lia) ltac:(lia)).
    destruct (Kernel_table_hash.delete_loop flow_del k strict bs c1) as [c2 bs'].
    cbn [fst snd] in *. destruct IH as [IHl IHc].
    split; [cbn [length]; lia|].
    rewrite !bucket_flows_cons.
    destruct b, b'; cbn [length]; lia.
Qed.

Lemma sweep_buckets_count (hello_flags jiffies : Z)
  (bs : list (option Kernel_dp.sw_flow)) :
  length (snd (fst (Kernel_dp.table_hash_timeout BITS_PER_LONG HZ flow_del
                      hello_flags jiffies bs))) = length bs
  /\ fst (fst (Kernel_dp.table_hash_timeout BITS_PER_LONG HZ flow_del
                 hello_flags jiffies bs))
     = Z.of_nat (length (bucket_flows bs))
       - Z.of_nat (length (bucket_flows
                             (snd (fst (Kernel_dp.table_hash_timeout BITS_PER_LONG
                                          HZ flow_del hello_flags jiffies bs))))).
Proof.
  induction bs as [|b bs IH]; [cbn; split; [reflexivity | lia]|].
  cbn [Kernel_dp.table_hash_timeout].
  destruct (Kernel_dp.table_hash_timeout BITS_PER_LONG HZ flow_del hello_flags
              jiffies bs) as [[count rest'] sents].
  cbn [fst snd] in IH. destruct IH as [IHl IHc].
  unfold Kernel_dp.timeout_bucket, Kernel_dp.do_delete.
  destruct b as [f|]; cbn [fst snd length].
  - destruct (negb (Kernel_dp.flow_timeout BITS_PER_LONG HZ jiffies f =? 0)).
    + destruct (flow_del f); cbn [fst snd length]; rewrite !bucket_flows_cons;
        cbn [length]; split; lia.
    + cbn [fst snd length]. rewrite !bucket_flows_cons. cbn [length]. split; lia.
  - rewrite !bucket_flows_cons. split; lia.
Qed.

Lemma sub_flows_counts (th : Kernel_table_hash.sw_table_hash) (count : Z)
  (bs : list (option Kernel_dp.sw_flow)) :
  table_hash_wf th -> counts_flows th ->
  length bs = length (Kernel_table_hash.buckets th) ->
  count = Z.of_nat (length (bucket_flows (Kernel_table_hash.buckets th)))
          - Z.of_nat (length (bucket_flows bs)) ->
  table_hash_wf (Kernel_table_hash.sub_flows th count bs)
  /\ counts_flows (Kernel_table_hash.sub_flows th count bs).
Proof.
  intros [Hm Hlen] Hc Hl Hcount.
  unfold table_hash_wf, counts_flows, Kernel_table_hash.sub_flows,
    Kernel_table_hash.with_buckets in *.
  cbn [Kernel_table_hash.bucket_mask Kernel_table_hash.buckets
       Kernel_table_hash.n_flows].
  pose proof (bucket_flows_le bs).
  pose proof (bucket_flows_le (Kernel_table_hash.buckets th)).
  split; [split; [exact Hm | lia]|].
  destruct (count =? 0) eqn:E; cbn [negb];
    [apply Z.eqb_eq in E; lia|].
  rewrite s32_small by lia. lia.
Qed.

(** X8.  The counter [n_flows] of a hash table, which table_hash_stats
    reports, stays the number of flows in the buckets through
    table_hash_insert, table_hash_delete and table_hash_timeout, and the
    count that deletion and sweep return is the number of flows they took
    out (for a table of fewer than 2^31 buckets). *)
Theorem n_flows_counts_the_flows (th : Kernel_table_hash.sw_table_hash) :
  table_hash_wf th -> counts_flows th ->
  (forall flow,
      table_hash_wf
        (snd (Kernel_table_hash.table_hash_insert crc32_calculate flow_del th flow))
      /\ counts_flows
           (snd (Kernel_table_hash.table_hash_insert crc32_calculate flow_del th flow)))
  /\ (forall k strict,
         table_hash_wf
           (snd (Kernel_table_hash.table_hash_delete crc32_calculate flow_del
                   th k strict))
         /\ counts_flows
              (snd (Kernel_table_hash.table_hash_delete crc32_calculate flow_del
                      th k strict))
         /\ fst (Kernel_table_hash.table_hash_delete crc32_calculate flow_del
                   th k strict)
            = Kernel_table_hash.n_flows th
              - Kernel_table_hash.n_flows
                  (snd (Kernel_table_hash.table_hash_delete crc32_calculate
                          flow_del th k strict)))
  /\ (forall hello_flags jiffies,
         table_hash_wf
           (snd (fst (Kernel_table_hash.table_hash_timeout flow_del BITS_PER_LONG
                        HZ hello_flags jiffies th)))
         /\ counts_flows
              (snd (fst (Kernel_table_hash.table_hash_timeout flow_del
                           BITS_PER_LONG HZ hello_flags jiffies th)))
         /\ fst (fst (Kernel_table_hash.table_hash_timeout flow_del BITS_PER_LONG
                        HZ hello_flags jiffies th))
            = Kernel_table_hash.n_flows th
              - Kernel_table_hash.n_flows
                  (snd (fst (Kernel_table_hash.table_hash_timeout flow_del
                               BITS_PER_LONG HZ hello_flags jiffies th)))).
Proof.
  intros Hwf Hc. pose proof Hwf as [Hm Hlen]. pose proof Hc as Hc'.
  unfold counts_flows in Hc'.
  pose proof (bucket_flows_le (Kernel_table_hash.buckets th)) as Hle.
  split; [|split].
  - intros flow. unfold Kernel_table_hash.table_hash_insert.
    destruct (negb (wildcards (Kernel_dp.key flow) =? 0)); [split; assumption|].
    cbv zeta.
    pose proof (find_bucket_range crc32_calculate th (Kernel_dp.key flow) Hwf)
      as Hrange.
    set (i := Kernel_table_hash.find_bucket crc32_calculate th (Kernel_dp.key flow))
      in *.
    pose proof (bucket_flows_insert (Kernel_table_hash.buckets th) (Z.to_nat i)
                  (Some flow) Hrange) as Hins.
    unfold Kernel_table_hash.bucket_at.
    destruct (default None (Kernel_table_hash.buckets th !! Z.to_nat i))
      as [old|] eqn:Eold.
    + destruct (Kernel_table_hash.key_eqb (Kernel_dp.key old) (Kernel_dp.key flow)
                && flow_del old); [|split; assumption].
      cbn [snd]. unfold table_hash_wf, counts_flows, Kernel_table_hash.with_buckets.
      cbn [Kernel_table_hash.bucket_mask Kernel_table_hash.buckets
           Kernel_table_hash.n_flows].
      rewrite length_insert. split; [split; assumption | lia].
    + cbn [snd]. unfold table_hash_wf, counts_flows, Kernel_table_hash.with_buckets.
      cbn [Kernel_table_hash.bucket_mask Kernel_table_hash.buckets
           Kernel_table_hash.n_flows].
      rewrite length_insert. split; [split; assumption|].
      pose proof (bucket_flows_le
                    (<[Z.to_nat i := Some flow]> (Kernel_table_hash.buckets th))) as Hle'.
      rewrite length_insert in Hle'.
      rewrite s32_small by lia. lia.
  - intros k strict. unfold Kernel_table_hash.table_hash_delete.
    set (r := if wildcards k =? 0 then _ else _).
    assert (Hr : length (snd r) = length (Kernel_table_hash.buckets th)
                 /\ fst r = Z.of_nat (length (bucket_flows (Kernel_table_hash.buckets th)))
                            - Z.of_nat (length (bucket_flows (snd r)))).
    { subst r. destruct (wildcards k =? 0).
      - cbv zeta.
        pose proof (find_bucket_range crc32_calculate th k Hwf) as Hrange.
        set (i := Kernel_table_hash.find_bucket crc32_calculate th k) in *.
        unfold Kernel_table_hash.bucket_at.
        destruct (default None (Kernel_table_hash.buckets th !! Z.to_nat i))
          as [f|] eqn:Ef; [|cbn [fst snd]; split; [reflexivity | lia]].
        destruct (Kernel_table_hash.key_eqb (Kernel_dp.key f) k);
          [|cbn [fst snd]; split; [reflexivity | lia]].
        unfold Kernel_dp.do_delete.
        destruct (flow_del f); cbn [fst snd]; rewrite length_insert;
          (split; [reflexivity|]).
        + pose proof (bucket_flows_insert (Kernel_table_hash.buckets th)
                        (Z.to_nat i) None Hrange) as Hins.
          rewrite Ef in Hins. lia.
        + pose proof (bucket_flows_insert (Kernel_table_hash.buckets th)
                        (Z.to_nat i) (Some f) Hrange) as Hins.
          rewrite Ef in Hins. lia.
      - pose proof (delete_loop_count k strict (Kernel_table_hash.buckets th) 0
                      ltac:(lia) ltac:(lia)) as [Hl Hcnt].
        split; [exact Hl | lia]. }
    destruct r as [count bs]. cbn [fst snd] in *. destruct Hr as [Hl Hcnt].
    destruct (sub_flows_counts th count bs Hwf Hc Hl Hcnt) as [Hwf' Hc2].
    split; [exact Hwf' | split; [exact Hc2|]].
    rewrite Hc2, Hc'. unfold Kernel_table_hash.sub_flows, Kernel_table_hash.with_buckets.
    cbn [Kernel_table_hash.buckets]. lia.
  - intros hello_flags jiffies. unfold Kernel_table_hash.table_hash_timeout.
    pose proof (sweep_buckets_count hello_flags jiffies
                  (Kernel_table_hash.buckets th)) as [Hl Hcnt].
    destruct (Kernel_dp.table_hash_timeout BITS_PER_LONG HZ flow_del hello_flags
                jiffies (Kernel_table_hash.buckets th)) as [[count bs] sent].
    cbn [fst snd] in *.
    destruct (sub_flows_counts th count bs Hwf Hc Hl Hcnt) as [Hwf' Hc2].
    split; [exact Hwf' | split; [exact Hc2|]].
    rewrite Hc2, Hc'. unfold Kernel_table_hash.sub_flows, Kernel_table_hash.with_buckets.
    cbn [Kernel_table_hash.buckets]. lia.
Qed.

End HashCount.

Section HashDelete.
Context `{openflow_h}.
Variable crc32_calculate : Z -> sw_flow_key -> Z.
Variable flow_del : Kernel_dp.sw_flow -> bool.

(** No flow is being deleted concurrently: every flow_del is the first on
    its flow. *)
Hypothesis flow_del_succeeds : forall f, flow_del f = true.

Lemma delete_loop_no_match (k : sw_flow_key) (strict : bool)
  (bs : list (option Kernel_dp.sw_flow)) (c : Z) (f : Kernel_dp.sw_flow) :
  In f (bucket_flows (snd (Kernel_table_hash.delete_loop flow_del k strict bs c))) ->
  Kernel_flow.flow_del_matches (Kernel_dp.key f) k strict = false.
Proof.
  revert c. induction bs as [|b bs IH]; intros c; [intros []|].
  cbn [Kernel_table_hash.delete_loop].
  destruct b as [g|].
  - destruct (Kernel_flow.flow_del_matches (Kernel_dp.key g) k strict) eqn:Em.
    + unfold Kernel_dp.do_delete. rewrite flow_del_succeeds.
      specialize (IH (u32 (c + 1))).
      destruct (Kernel_table_hash.delete_loop flow_del k strict bs (u32 (c + 1))).
      cbn [snd] in *. rewrite bucket_flows_cons. exact IH.
    + specialize (IH c).
      destruct (Kernel_table_hash.delete_loop flow_del k strict bs c).
      cbn [snd] in *. rewrite bucket_flows_cons.
      intros [<- | Hin]; [exact Em | exact (IH Hin)].
  - specialize (IH c).
    destruct (Kernel_table_hash.delete_loop flow_del k strict bs c).
    cbn [snd] in *. rewrite bucket_flows_cons. exact IH.
Qed.

(** X9.  What table_hash_delete leaves behind, when no flow is being deleted
    concurrently: after a deletion by an exact key a lookup of that key finds
    nothing; after a deletion by a key with wildcards no flow left in the
    table matches the key by flow_del_matches. *)
Theorem table_hash_delete_leaves_no_match (th : Kernel_table_hash.sw_table_hash)
  (k : sw_flow_key) (strict : bool) :
  table_hash_wf th ->
  (wildcards k = 0 ->
   Kernel_table_hash.table_hash_lookup crc32_calculate
     (snd (Kernel_table_hash.table_hash_delete crc32_calculate flow_del th k strict))
     k = None)
  /\ (wildcards k <> 0 ->
      forall f,
        In f (bucket_flows
                (Kernel_table_hash.buckets
                   (snd (Kernel_table_hash.table_hash_delete crc32_calculate
                           flow_del th k strict)))) ->
        Kernel_flow.flow_del_matches (Kernel_dp.key f) k strict = false).
Proof.
  intros Hwf. unfold Kernel_table_hash.table_hash_delete. split.
  - intros Hw. rewrite Hw, Z.eqb_refl. cbv zeta.
    pose proof (find_bucket_range crc32_calculate th k Hwf) as Hrange.
    unfold Kernel_table_hash.table_hash_lookup, Kernel_table_hash.bucket_at.
    destruct (default None
                (Kernel_table_hash.buckets th
                   !! Z.to_nat (Kernel_table_hash.find_bucket crc32_calculate th k)))
      as [g|] eqn:Eg.
    + destruct (Kernel_table_hash.key_eqb (Kernel_dp.key g) k) eqn:Ek.
      * unfold Kernel_dp.do_delete. rewrite flow_del_succeeds.
        cbn [snd Kernel_table_hash.sub_flows Kernel_table_hash.with_buckets
             Kernel_table_hash.buckets].
        change (Kernel_table_hash.find_bucket crc32_calculate
                  (Kernel_table_hash.sub_flows th 1 _) k)
          with (Kernel_table_hash.find_bucket crc32_calculate th k).
        unfold Kernel_table_hash.sub_flows, Kernel_table_hash.with_buckets.
        cbn [Kernel_table_hash.buckets].
        rewrite list_lookup_insert_eq by exact Hrange. reflexivity.
      * cbn [snd].
        change (Kernel_table_hash.find_bucket crc32_calculate
                  (Kernel_table_hash.sub_flows th 0 _) k)
          with (Kernel_table_hash.find_bucket crc32_calculate th k).
        unfold Kernel_table_hash.sub_flows, Kernel_table_hash.with_buckets.
        cbn [Kernel_table_hash.buckets]. rewrite Eg, Ek. reflexivity.
    + cbn [snd].
      change (Kernel_table_hash.find_bucket crc32_calculate
                (Kernel_table_hash.sub_flows th 0 _) k)
        with (Kernel_table_hash.find_bucket crc32_calculate th k).
      unfold Kernel_table_hash.sub_flows, Kernel_table_hash.with_buckets.
      cbn [Kernel_table_hash.buckets]. rewrite Eg. reflexivity.
  - intros Hw f. apply Z.eqb_neq in Hw. rewrite Hw.
    pose proof (delete_loop_no_match k strict (Kernel_table_hash.buckets th) 0 f)
      as Hloop.
    destruct (Kernel_table_hash.delete_loop flow_del k strict
                (Kernel_table_hash.buckets th) 0) as [count bs].
    cbn [snd Kernel_table_hash.sub_flows Kernel_table_hash.with_buckets
         Kernel_table_hash.buckets] in *.
    exact Hloop.
Qed.

End HashDelete.

Section HashIterate.
Context `{openflow_h}.

Lemma next_flow_loop_spec (th : Kernel_table_hash.sw_table_hash) (fuel : nat) (i : Z) :
  table_hash_wf th ->
  0 <= i <= Kernel_table_hash.bucket_mask th + 1 ->
  (Z.to_nat (Kernel_table_hash.bucket_mask th + 1 - i) < fuel)%nat ->
  match bucket_flows (drop (Z.to_nat i) (Kernel_table_hash.buckets th)) with
  | [] => fst (Kernel_table_hash.next_flow_loop fuel th i) = None
  | f :: fs =>
      fst (Kernel_table_hash.next_flow_loop fuel th i) = Some f
      /\ i <= snd (Kernel_table_hash.next_flow_loop fuel th i)
           <= Kernel_table_hash.bucket_mask th
      /\ bucket_flows
           (drop (Z.to_nat (snd (Kernel_table_hash.next_flow_loop fuel th i) + 1))
                 (Kernel_table_hash.buckets th)) = fs
  end.
Proof.
  intros [Hm Hlen]. revert i.
  induction fuel as [|fuel IH]; intros i Hi Hfuel; [lia|].
  cbn [Kernel_table_hash.next_flow_loop].
  destruct (i <=? Kernel_table_hash.bucket_mask th) eqn:E;
    [apply Z.leb_le in E | apply Z.leb_gt in E].
  - unfold Kernel_table_hash.bucket_at.
    destruct (Kernel_table_hash.buckets th !! Z.to_nat i) as [b|] eqn:Eb.
    2:{ apply lookup_ge_None in Eb. lia. }
    rewrite (drop_S _ _ _ Eb), bucket_flows_cons. cbn [from_option id].
    replace (S (Z.to_nat i)) with (Z.to_nat (i + 1)) by lia.
    destruct b as [f|].
    + cbn [fst snd]. repeat split; [lia | exact E].
    + unfold u32. rewrite Z.mod_small by lia.
      specialize (IH (i + 1) ltac:(lia) ltac:(lia)).
      destruct (bucket_flows (drop (Z.to_nat (i + 1)) (Kernel_table_hash.buckets th)));
        [exact IH|].
      destruct IH as (Hf & Hj & Hr). repeat split; [exact Hf | lia | lia | exact Hr].
  - rewrite drop_ge by lia. reflexivity.
Qed.

Lemma iterator_flows_spec (th : Kernel_table_hash.sw_table_hash) (fuel : nat) (i : Z) :
  table_hash_wf th ->
  0 <= i <= Kernel_table_hash.bucket_mask th + 1 ->
  (length (bucket_flows (drop (Z.to_nat i) (Kernel_table_hash.buckets th))) < fuel)%nat ->
  iterator_flows fuel th (Kernel_table_hash.next_flow th i)
  = bucket_flows (drop (Z.to_nat i) (Kernel_table_hash.buckets th)).
Proof.
  intros Hwf. pose proof Hwf as [Hm Hlen]. revert i.
  induction fuel as [|fuel IH]; intros i Hi Hfuel; [lia|].
  cbn [iterator_flows]. unfold Kernel_table_hash.next_flow at 1.
  pose proof (next_flow_loop_spec th
                (Z.to_nat (Kernel_table_hash.bucket_mask th + 2 - i)) i Hwf Hi
                ltac:(lia)) as Hspec.
  destruct (bucket_flows (drop (Z.to_nat i) (Kernel_table_hash.buckets th)))
    as [|f fs] eqn:Efl.
  - rewrite Hspec. reflexivity.
  - destruct Hspec as (Hfst & Hj & Hrest). rewrite Hfst. f_equal.
    unfold Kernel_table_hash.table_hash_next.
    change (Kernel_table_hash.next_flow th i)
      with (Kernel_table_hash.next_flow_loop
              (Z.to_nat (Kernel_table_hash.bucket_mask th + 2 - i)) th i).
    rewrite Hfst.
    set (j := snd (Kernel_table_hash.next_flow_loop
                     (Z.to_nat (Kernel_table_hash.bucket_mask th + 2 - i)) th i)) in *.
    unfold u32. rewrite Z.mod_small by lia.
    rewrite <- Hrest. apply IH; [lia|].
    rewrite Hrest. cbn [length] in Hfuel. lia.
Qed.

(** X10.  The iterator of a hash table: table_hash_iterator fails (returns
    0) only when its allocation does, and the loop that a user runs with
    table_hash_next until the iterator's flow is null visits the flows of
    the table once each, in the order of their buckets, and then ends. *)
Theorem table_hash_iterator_visits_each_flow (th : Kernel_table_hash.sw_table_hash) :
  table_hash_wf th ->
  Kernel_table_hash.table_hash_iterator false th = None
  /\ exists it,
       Kernel_table_hash.table_hash_iterator true th = Some it
       /\ forall fuel,
            (length (bucket_flows (Kernel_table_hash.buckets th)) < fuel)%nat ->
            iterator_flows fuel th it = bucket_flows (Kernel_table_hash.buckets th).
Proof.
  intros Hwf. split; [reflexivity|].
  exists (Kernel_table_hash.next_flow th 0). split; [reflexivity|].
  intros fuel Hfuel. pose proof Hwf as [Hm Hlen].
  apply (iterator_flows_spec th fuel 0 Hwf); [lia | exact Hfuel].
Qed.

End HashIterate.

(** *** The flow-key and hash-table properties on concrete inputs *)

Lemma one_sided_match_is_two_sided_witness :
  @Kernel_flow.flow_matches_2wild openflow_example example_packet_key
    (@flow_extract_match openflow_example example_subnet_match) = true
  /\ @Switch_flow.flow_matches_2wild openflow_example example_packet_key
       (@flow_extract_match openflow_example example_subnet_match) = true.
Proof.
  split.
  - apply (proj1 (@one_sided_match_is_two_sided openflow_example _ _)).
    vm_compute. reflexivity.
  - apply (proj2 (@one_sided_match_is_two_sided openflow_example _ _)).
    vm_compute. reflexivity.
Defined.

Lemma exact_rule_matches_equal_fields_witness :
  @Kernel_flow.flow_matches_1wild openflow_example example_packet_key
    (@flow_extract_match openflow_example example_exact_match) = true
  <-> same_fields (key_flow example_packet_key)
        (key_flow (@flow_extract_match openflow_example example_exact_match)).
Proof.
  apply (proj1 (@exact_rule_matches_equal_fields openflow_example
                  example_packet_key
                  (@flow_extract_match openflow_example example_exact_match)
                  eq_refl eq_refl eq_refl
                  ltac:(vm_compute; split; [discriminate | reflexivity])
                  ltac:(vm_compute; split; [discriminate | reflexivity])
                  ltac:(vm_compute; split; [discriminate | reflexivity])
                  ltac:(vm_compute; split; [discriminate | reflexivity]))).
Defined.

Lemma make_nw_mask_compares_prefixes_witness :
  tst (Z.lxor 0x0a000002 0x0a000063) (@make_nw_mask openflow_example 8) = false
  <-> 0x0a000002 / 2 ^ (8 mod 2 ^ @OFPFW_NW_SRC_BITS openflow_example)
      = 0x0a000063 / 2 ^ (8 mod 2 ^ @OFPFW_NW_SRC_BITS openflow_example).
Proof.
  apply (@make_nw_mask_compares_prefixes openflow_example 8 0x0a000002 0x0a000063).
  - vm_compute. discriminate.
  - lia.
  - lia.
  - lia.
Defined.

Lemma flow_extract_match_round_trip_witness :
  @flow_extract_match openflow_example
    (flow_fill_match (@flow_extract_match openflow_example example_subnet_match))
  = @flow_extract_match openflow_example example_subnet_match.
Proof.
  apply (@flow_extract_match_round_trip openflow_example example_subnet_match);
    reflexivity.
Defined.

Lemma sweep_tests_reason_code_as_truth_witness :
  @Kernel_dp.table_hash_timeout openflow_example 64 100 (fun _ => true) 1 1000
    [Some example_permanent_flow]
  = (1, [None], [example_permanent_flow])
  /\ @Kernel_dp.table_hash_timeout openflow_example 64 100 (fun _ => true) 1 1000
       [Some example_idle_kernel_flow]
     = (0, [Some example_idle_kernel_flow], []).
Proof.
  split.
  - apply (proj1 (@sweep_tests_reason_code_as_truth openflow_example 64 100
                    (fun _ => true) 1 1000 example_permanent_flow));
      reflexivity.
  - apply (proj2 (@sweep_tests_reason_code_as_truth openflow_example 64 100
                    (fun _ => true) 1 1000 example_idle_kernel_flow)).
    + reflexivity.
    + vm_compute. discriminate.
    + reflexivity.
Defined.

Lemma example_hash_table_wf : table_hash_wf example_hash_table.
Proof. split; [split; vm_compute; [discriminate | reflexivity] | reflexivity]. Defined.

Lemma example_hash_subtable1_wf :
  table_hash_wf (Kernel_table_hash.subtable1 example_hash2_table).
Proof. split; [split; vm_compute; [discriminate | reflexivity] | reflexivity]. Defined.

Lemma table_hash_insert_then_lookup_witness :
  (1 = 1 /\ wildcards (Kernel_dp.key (example_port_flow 2)) = 0
   /\ forall k,
        Kernel_table_hash.table_hash_lookup example_crc
          (snd (Kernel_table_hash.table_hash_insert example_crc (fun _ => true)
                  example_hash_table (example_port_flow 2))) k
        = if Kernel_table_hash.key_eqb (Kernel_dp.key (example_port_flow 2)) k
          then Some (example_port_flow 2)
          else Kernel_table_hash.table_hash_lookup example_crc example_hash_table k)
  \/ (1 = 0
      /\ snd (Kernel_table_hash.table_hash_insert example_crc (fun _ => true)
                example_hash_table (example_port_flow 2)) = example_hash_table
      /\ (wildcards (Kernel_dp.key (example_port_flow 2)) <> 0
          \/ exists old,
               Kernel_table_hash.bucket_at example_hash_table
                 (Kernel_table_hash.find_bucket example_crc example_hash_table
                    (Kernel_dp.key (example_port_flow 2))) = Some old
               /\ (Kernel_dp.key old <> Kernel_dp.key (example_port_flow 2)
                   \/ (fun _ : Kernel_dp.sw_flow => true) old = false))).
Proof.
  apply (table_hash_insert_then_lookup example_crc (fun _ => true)
           example_hash_table _ (example_port_flow 2) 1 example_hash_table_wf).
  reflexivity.
Defined.

Lemma table_hash2_insert_then_lookup_witness :
  exists g,
    Kernel_table_hash.table_hash2_lookup example_crc
      (snd (Kernel_table_hash.table_hash2_insert example_crc (fun _ => true)
              example_hash2_table (example_port_flow 5)))
      (Kernel_dp.key (example_port_flow 5)) = Some g
    /\ Kernel_dp.key g = Kernel_dp.key (example_port_flow 5).
Proof.
  apply (table_hash2_insert_then_lookup example_crc (fun _ => true)
           example_hash2_table _ (example_port_flow 5)
           example_hash_table_wf example_hash_subtable1_wf).
  reflexivity.
Defined.

Lemma n_flows_counts_the_flows_witness :
  counts_flows
    (snd (Kernel_table_hash.table_hash_insert example_crc (fun _ => true)
            example_hash_table (example_port_flow 2)))
  /\ fst (@Kernel_table_hash.table_hash_delete openflow_example example_crc
            (fun _ => true) example_hash_table (Kernel_dp.key (example_port_flow 1))
            false)
     = Kernel_table_hash.n_flows example_hash_table
       - Kernel_table_hash.n_flows
           (snd (@Kernel_table_hash.table_hash_delete openflow_example example_crc
                   (fun _ => true) example_hash_table
                   (Kernel_dp.key (example_port_flow 1)) false)).
Proof.
  pose proof (@n_flows_counts_the_flows openflow_example example_crc (fun _ => true)
                64 100 example_hash_table example_hash_table_wf eq_refl)
    as (Hins & Hdel & _).
  split.
  - exact (proj2 (Hins (example_port_flow 2))).
  - exact (proj2 (proj2 (Hdel (Kernel_dp.key (example_port_flow 1)) false))).
Defined.

Lemma table_hash_delete_leaves_no_match_witness :
  Kernel_table_hash.table_hash_lookup example_crc
    (snd (@Kernel_table_hash.table_hash_delete openflow_example example_crc
            (fun _ => true) example_hash_table
            (Kernel_dp.key (example_port_flow 1)) false))
    (Kernel_dp.key (example_port_flow 1)) = None.
Proof.
  apply (proj1 (@table_hash_delete_leaves_no_match openflow_example example_crc
                  (fun _ => true) (fun _ => eq_refl) example_hash_table
                  (Kernel_dp.key (example_port_flow 1)) false
                  example_hash_table_wf)).
  reflexivity.
Defined.

Lemma table_hash_iterator_visits_each_flow_witness :
  Kernel_table_hash.table_hash_iterator false example_hash_table = None
  /\ exists it,
       Kernel_table_hash.table_hash_iterator true example_hash_table = Some it
       /\ forall fuel,
            (length (bucket_flows (Kernel_table_hash.buckets example_hash_table))
             < fuel)%nat ->
            iterator_flows fuel example_hash_table it
            = bucket_flows (Kernel_table_hash.buckets example_hash_table).
Proof.
  exact (table_hash_iterator_visits_each_flow example_hash_table
           example_hash_table_wf).
Defined.

(** ** More on the packet buffer cache *)

Lemma slot_index_range (id : Z) : 0 <= Z.land id PKT_BUFFER_MASK < N_PKT_BUFFERS.
Proof.
  change PKT_BUFFER_MASK with (Z.ones 8). change N_PKT_BUFFERS with (2^8).
  rewrite Z.land_ones by lia. apply Z.mod_pos_bound. lia.
Qed.

Lemma list_insert_default {A} (l : list A) (i : nat) (d : A) :
  <[i := default d (l !! i)]> l = l.
Proof.
  destruct (l !! i) as [x|] eqn:E.
  - apply list_insert_id. exact E.
  - apply list_insert_ge. apply lookup_ge_None. exact E.
Qed.

(** X11.  save_buffer (user space) and fwd_save_skb (kernel) return the
    all-ones id exactly when they refuse the packet, that is when the slot
    next in turn holds a packet that has not yet expired; a refusal leaves
    every slot as it was (only the round-robin index has advanced). *)
Theorem save_returns_all_ones_iff_refused :
  (forall (now : Z) (c : Switch_buffers.buffer_cache) (b : buffer),
      let p := Switch_buffers.slot c
                 (Z.land (u32 (Switch_buffers.buffer_idx c + 1)) PKT_BUFFER_MASK) in
      (fst (Switch_buffers.save_buffer now c b) = UINT32_MAX
       <-> Switch_buffers.pb_buffer p <> None /\ now < Switch_buffers.timeout p)
      /\ (fst (Switch_buffers.save_buffer now c b) = UINT32_MAX ->
          Switch_buffers.buffers (snd (Switch_buffers.save_buffer now c b))
          = Switch_buffers.buffers c))
  /\ (forall (S : Type) (BITS_PER_LONG HZ jiffies : Z)
             (c : Kernel_buffers.buffer_cache S) (s : S),
         let p := Kernel_buffers.slot S c
                    (Z.land (u32 (Kernel_buffers.buffer_idx S c + 1)) PKT_BUFFER_MASK) in
         let r := Kernel_buffers.fwd_save_skb S BITS_PER_LONG HZ jiffies c s in
         (fst (fst r) = UINT32_MAX
          <-> Kernel_buffers.skb S p <> None
              /\ Kernel_buffers.time_before BITS_PER_LONG jiffies
                   (Kernel_buffers.exp_jiffies S p) = true)
         /\ (fst (fst r) = UINT32_MAX ->
             Kernel_buffers.buffers S (snd (fst r)) = Kernel_buffers.buffers S c
             /\ snd r = None)).
Proof.
  split.
  - intros now c b p. unfold Switch_buffers.save_buffer. cbv zeta. fold p.
    pose proof (buffer_id_fields (u32 (Switch_buffers.buffer_idx c + 1))
                  (Switch_buffers.cookie p + 1)) as Hid.
    cbv zeta in Hid. destruct Hid as (_ & _ & _ & Hne).
    destruct (Switch_buffers.pb_buffer p) as [old|] eqn:Eold.
    + destruct (now <? Switch_buffers.timeout p) eqn:Et;
        [apply Z.ltb_lt in Et | apply Z.ltb_ge in Et]; cbn [fst snd].
      * split; [split; [intros _; split; [discriminate | exact Et] | reflexivity]|].
        intros _. unfold Switch_buffers.set_slot. cbn [Switch_buffers.buffers].
        unfold p, Switch_buffers.slot. apply list_insert_default.
      * split; [split|]; [intros E; contradiction | intros [_ Hlt]; lia
                         | intros E; contradiction].
    + cbn [fst snd].
      split; [split|]; [intros E; contradiction | intros [Hn _]; contradiction
                       | intros E; contradiction].
  - intros S BITS_PER_LONG HZ jiffies c s p r. subst r.
    unfold Kernel_buffers.fwd_save_skb. cbv zeta. fold p.
    pose proof (buffer_id_fields (u32 (Kernel_buffers.buffer_idx S c + 1))
                  (Kernel_buffers.cookie S p + 1)) as Hid.
    cbv zeta in Hid. destruct Hid as (_ & _ & _ & Hne).
    destruct (Kernel_buffers.skb S p) as [old|] eqn:Eold.
    + destruct (Kernel_buffers.time_before BITS_PER_LONG jiffies
                  (Kernel_buffers.exp_jiffies S p)) eqn:Et; cbn [fst snd].
      * split; [split; [intros _; split; [discriminate | reflexivity] | reflexivity]|].
        intros _. split; [|reflexivity].
        unfold Kernel_buffers.set_slot. cbn [Kernel_buffers.buffers].
        unfold p, Kernel_buffers.slot. apply list_insert_default.
      * split; [split|]; [intros E; contradiction | intros [_ Hlt]; discriminate
                         | intros E; contradiction].
    + cbn [fst snd].
      split; [split|]; [intros E; contradiction | intros [Hn _]; contradiction
                       | intros E; contradiction].
Qed.

Lemma next_cookie_differs (ck : Z) :
  0 <= ck < 2^24 - 1 ->
  (if Z.shiftl 1 PKT_COOKIE_BITS - 1 <=? u32 (ck + 1) then 0 else u32 (ck + 1)) <> ck.
Proof.
  intros Hck. change (Z.shiftl 1 PKT_COOKIE_BITS - 1) with (2^24 - 1).
  unfold u32. rewrite Z.mod_small by lia.
  destruct (2^24 - 1 <=? ck + 1) eqn:E; [apply Z.leb_le in E | apply Z.leb_gt in E]; lia.
Qed.

Lemma cookie_range (ck0 : Z) :
  0 <= (if Z.shiftl 1 PKT_COOKIE_BITS - 1 <=? u32 ck0 then 0 else u32 ck0) < 2^24 - 1.
Proof.
  change (Z.shiftl 1 PKT_COOKIE_BITS - 1) with (2^24 - 1).
  pose proof (Z.mod_pos_bound ck0 (2^32) ltac:(lia)) as Hb. unfold u32.
  destruct (2^24 - 1 <=? ck0 mod 2^32) eqn:E; [lia | apply Z.leb_gt in E; lia].
Qed.

(** X12.  A buffer id goes stale when its slot is reused.  Let a save
    return the id [id], and let a later save, made while the slot still
    carries the cookie that the first save gave it, store a packet in the same
    slot under the id [id']: then [id'] is not [id], and a retrieve with the
    old [id] finds a cookie mismatch, returns nothing and leaves the cache,
    the newer packet included, as it is. *)
Theorem reused_slot_gets_new_id (now now' : Z)
  (c c1 c2 c3 : Switch_buffers.buffer_cache) (b b' : buffer) (id id' : Z) :
  length (Switch_buffers.buffers c) = Z.to_nat N_PKT_BUFFERS ->
  length (Switch_buffers.buffers c2) = Z.to_nat N_PKT_BUFFERS ->
  Switch_buffers.save_buffer now c b = (id, c1) -> id <> UINT32_MAX ->
  Switch_buffers.cookie (Switch_buffers.slot c2 (Z.land id PKT_BUFFER_MASK))
  = Switch_buffers.cookie (Switch_buffers.slot c1 (Z.land id PKT_BUFFER_MASK)) ->
  Switch_buffers.save_buffer now' c2 b' = (id', c3) -> id' <> UINT32_MAX ->
  Z.land id' PKT_BUFFER_MASK = Z.land id PKT_BUFFER_MASK ->
  id' <> id
  /\ Switch_buffers.retrieve_buffer c3 id = (None, c3)
  /\ Switch_buffers.pb_buffer
       (Switch_buffers.slot c3 (Z.land id PKT_BUFFER_MASK)) = Some b'.
Proof.
  intros Hlen Hlen2 Hsave Hid Hck Hsave' Hid' Hslot.
  assert (Hsaved : forall now c b id c1,
             length (Switch_buffers.buffers c) = Z.to_nat N_PKT_BUFFERS ->
             Switch_buffers.save_buffer now c b = (id, c1) -> id <> UINT32_MAX ->
             let i := Z.land (u32 (Switch_buffers.buffer_idx c + 1)) PKT_BUFFER_MASK in
             let ck := if Z.shiftl 1 PKT_COOKIE_BITS - 1
                          <=? u32 (Switch_buffers.cookie (Switch_buffers.slot c i) + 1)
                       then 0
                       else u32 (Switch_buffers.cookie (Switch_buffers.slot c i) + 1) in
             Z.land id PKT_BUFFER_MASK = i
             /\ Z.shiftr id PKT_BUFFER_BITS = ck
             /\ Switch_buffers.slot c1 i
                = {| Switch_buffers.pb_buffer := Some b; Switch_buffers.cookie := ck;
                     Switch_buffers.timeout := now + OVERWRITE_SECS |}).
  { clear. intros now c b id c1 Hlen Hsave Hid i ck.
    unfold Switch_buffers.save_buffer in Hsave. cbv zeta in Hsave. fold i in Hsave.
    pose proof (buffer_id_fields (u32 (Switch_buffers.buffer_idx c + 1))
                  (Switch_buffers.cookie (Switch_buffers.slot c i) + 1)) as Hf.
    cbv zeta in Hf. fold i in Hf. fold ck in Hf. fold ck in Hsave.
    destruct Hf as (Hlow & Hhigh & Hrange & _).
    destruct (match Switch_buffers.pb_buffer (Switch_buffers.slot c i) with
              | Some _ => now <? Switch_buffers.timeout (Switch_buffers.slot c i)
              | None => false
              end).
    - injection Hsave as <- <-. exfalso. apply Hid. reflexivity.
    - injection Hsave as <- <-.
      split; [exact Hlow | split; [exact Hhigh|]].
      apply switch_slot_set_slot. rewrite Hlen. lia. }
  destruct (Hsaved _ _ _ _ _ Hlen Hsave Hid) as (Hi & Hk & Hs).
  destruct (Hsaved _ _ _ _ _ Hlen2 Hsave' Hid') as (Hi' & Hk' & Hs').
  cbv zeta in *.
  set (i := Z.land (u32 (Switch_buffers.buffer_idx c + 1)) PKT_BUFFER_MASK) in *.
  set (i' := Z.land (u32 (Switch_buffers.buffer_idx c2 + 1)) PKT_BUFFER_MASK) in *.
  assert (Eii : i' = i) by congruence.
  rewrite Hi in Hck. rewrite Hs in Hck. cbn [Switch_buffers.cookie] in Hck.
  rewrite Eii in Hs', Hk'. rewrite Hck in Hs', Hk'.
  rewrite <- Hk in Hs', Hk'.
  assert (Hne : Z.shiftr id' PKT_BUFFER_BITS <> Z.shiftr id PKT_BUFFER_BITS).
  { rewrite Hk'. apply next_cookie_differs. rewrite Hk. apply cookie_range. }
  split; [intros E; apply Hne; rewrite E; reflexivity|].
  unfold Switch_buffers.retrieve_buffer. cbv zeta. rewrite Hi, Hs'.
  cbn [Switch_buffers.cookie Switch_buffers.pb_buffer].
  rewrite <- Hk'.
  destruct (Z.shiftr id' PKT_BUFFER_BITS =? Z.shiftr id PKT_BUFFER_BITS) eqn:E;
    [apply Z.eqb_eq in E; contradiction|].
  split; reflexivity.
Qed.

Lemma switch_slot_after_set (c : Switch_buffers.buffer_cache) (i j idx : Z)
  (p : Switch_buffers.packet_buffer) :
  0 <= i -> 0 <= j ->
  Switch_buffers.slot (Switch_buffers.set_slot c i p idx) j
  = if (i =? j) && (i <? Z.of_nat (length (Switch_buffers.buffers c)))
    then p else Switch_buffers.slot c j.
Proof.
  intros Hi Hj. unfold Switch_buffers.slot, Switch_buffers.set_slot.
  cbn [Switch_buffers.buffers].
  destruct (i =? j) eqn:E; [apply Z.eqb_eq in E; subst j | apply Z.eqb_neq in E];
    cbn [andb].
  - destruct (i <? Z.of_nat (length (Switch_buffers.buffers c))) eqn:El;
      [apply Z.ltb_lt in El | apply Z.ltb_ge in El].
    + rewrite list_lookup_insert_eq by lia. reflexivity.
    + rewrite list_insert_ge by lia. reflexivity.
  - rewrite list_lookup_insert_ne by lia. reflexivity.
Qed.

Lemma kernel_slot_after_set (S : Type) (c : Kernel_buffers.buffer_cache S)
  (i j idx : Z) (p : Kernel_buffers.packet_buffer S) :
  0 <= i -> 0 <= j ->
  Kernel_buffers.slot S (Kernel_buffers.set_slot S c i p idx) j
  = if (i =? j) && (i <? Z.of_nat (length (Kernel_buffers.buffers S c)))
    then p else Kernel_buffers.slot S c j.
Proof.
  intros Hi Hj. unfold Kernel_buffers.slot, Kernel_buffers.set_slot.
  cbn [Kernel_buffers.buffers].
  destruct (i =? j) eqn:E; [apply Z.eqb_eq in E; subst j | apply Z.eqb_neq in E];
    cbn [andb].
  - destruct (i <? Z.of_nat (length (Kernel_buffers.buffers S c))) eqn:El;
      [apply Z.ltb_lt in El | apply Z.ltb_ge in El].
    + rewrite list_lookup_insert_eq by lia. reflexivity.
    + rewrite list_insert_ge by lia. reflexivity.
  - rewrite list_lookup_insert_ne by lia. reflexivity.
Qed.

Lemma switch_empty_slot_out_of_range (c : Switch_buffers.buffer_cache) (i : Z) :
  Z.of_nat (length (Switch_buffers.buffers c)) <= i ->
  Switch_buffers.slot c i = Switch_buffers.empty_slot.
Proof.
  intros Hi. unfold Switch_buffers.slot.
  rewrite (proj2 (lookup_ge_None _ _)) by lia. reflexivity.
Qed.

Lemma kernel_empty_slot_out_of_range (S : Type) (c : Kernel_buffers.buffer_cache S)
  (i : Z) :
  Z.of_nat (length (Kernel_buffers.buffers S c)) <= i ->
  Kernel_buffers.slot S c i = Kernel_buffers.empty_slot S.
Proof.
  intros Hi. unfold Kernel_buffers.slot.
  rewrite (proj2 (lookup_ge_None _ _)) by lia. reflexivity.
Qed.

(** X13.  discard_buffer (user space) and discard_skb (kernel): after a
    discard with an id, a retrieve with that id returns nothing, while a
    retrieve with an id of another slot returns what it would have returned
    without the discard. *)
Theorem discarded_buffer_is_gone :
  (forall (c : Switch_buffers.buffer_cache) (id id' : Z),
      fst (Switch_buffers.retrieve_buffer (Switch_buffers.discard_buffer c id) id)
      = None
      /\ (Z.land id' PKT_BUFFER_MASK <> Z.land id PKT_BUFFER_MASK ->
          fst (Switch_buffers.retrieve_buffer
                 (Switch_buffers.discard_buffer c id) id')
          = fst (Switch_buffers.retrieve_buffer c id')))
  /\ (forall (S : Type) (c : Kernel_buffers.buffer_cache S) (id id' : Z),
         fst (Kernel_buffers.retrieve_skb S (Kernel_buffers.discard_skb S c id) id)
         = None
         /\ (Z.land id' PKT_BUFFER_MASK <> Z.land id PKT_BUFFER_MASK ->
             fst (Kernel_buffers.retrieve_skb S
                    (Kernel_buffers.discard_skb S c id) id')
             = fst (Kernel_buffers.retrieve_skb S c id'))).
Proof.
  split.
  - intros c id id'.
    pose proof (slot_index_range id) as Hi. pose proof (slot_index_range id') as Hi'.
    unfold Switch_buffers.retrieve_buffer, Switch_buffers.discard_buffer. cbv zeta.
    set (i := Z.land id PKT_BUFFER_MASK) in *.
    set (i' := Z.land id' PKT_BUFFER_MASK) in *.
    destruct (Switch_buffers.cookie (Switch_buffers.slot c i)
              =? Z.shiftr id PKT_BUFFER_BITS) eqn:Ec.
    + split.
      * rewrite switch_slot_after_set by lia. rewrite Z.eqb_refl. cbn [andb].
        destruct (i <? Z.of_nat (length (Switch_buffers.buffers c))) eqn:El.
        -- cbn [Switch_buffers.cookie Switch_buffers.pb_buffer].
           match goal with |- context [if ?t then _ else _] => destruct t end; reflexivity.
        -- apply Z.ltb_ge in El.
           rewrite (switch_empty_slot_out_of_range c i El).
           cbn [Switch_buffers.empty_slot Switch_buffers.cookie
                Switch_buffers.pb_buffer].
           match goal with |- context [if ?t then _ else _] => destruct t end; reflexivity.
      * intros Hne. rewrite switch_slot_after_set by lia.
        replace (i =? i') with false by (symmetry; apply Z.eqb_neq; lia).
        cbn [andb]. match goal with |- context [if ?t then _ else _] => destruct t end; reflexivity.
    + rewrite Ec. split; [reflexivity | intros _; reflexivity].
  - intros S c id id'.
    pose proof (slot_index_range id) as Hi. pose proof (slot_index_range id') as Hi'.
    unfold Kernel_buffers.retrieve_skb, Kernel_buffers.discard_skb. cbv zeta.
    set (i := Z.land id PKT_BUFFER_MASK) in *.
    set (i' := Z.land id' PKT_BUFFER_MASK) in *.
    destruct (Kernel_buffers.cookie S (Kernel_buffers.slot S c i)
              =? Z.shiftr id PKT_BUFFER_BITS) eqn:Ec.
    + split.
      * rewrite kernel_slot_after_set by lia. rewrite Z.eqb_refl. cbn [andb].
        destruct (i <? Z.of_nat (length (Kernel_buffers.buffers S c))) eqn:El.
        -- cbn [Kernel_buffers.cookie Kernel_buffers.skb].
           match goal with |- context [if ?t then _ else _] => destruct t end; reflexivity.
        -- apply Z.ltb_ge in El.
           rewrite (kernel_empty_slot_out_of_range S c i El).
           cbn [Kernel_buffers.empty_slot Kernel_buffers.cookie Kernel_buffers.skb].
           match goal with |- context [if ?t then _ else _] => destruct t end; reflexivity.
      * intros Hne. rewrite kernel_slot_after_set by lia.
        replace (i =? i') with false by (symmetry; apply Z.eqb_neq; lia).
        cbn [andb]. match goal with |- context [if ?t then _ else _] => destruct t end; reflexivity.
    + rewrite Ec. split; [reflexivity | intros _; reflexivity].
Qed.

Section DiscardAll.
Variable S : Type.

Local Abbreviation cleared p :=
  ({| Kernel_buffers.skb := None; Kernel_buffers.cookie := Kernel_buffers.cookie S p;
      Kernel_buffers.exp_jiffies := Kernel_buffers.exp_jiffies S p |}).

Lemma kernel_slot_cleared (c : Kernel_buffers.buffer_cache S) (i j idx : Z) :
  0 <= i -> 0 <= j ->
  Kernel_buffers.slot S
    (Kernel_buffers.set_slot S c i (cleared (Kernel_buffers.slot S c i)) idx) j
  = if i =? j then cleared (Kernel_buffers.slot S c j) else Kernel_buffers.slot S c j.
Proof.
  intros Hi Hj. rewrite kernel_slot_after_set by assumption.
  destruct (i =? j) eqn:E; [apply Z.eqb_eq in E; subst j | reflexivity].
  cbn [andb].
  destruct (i <? Z.of_nat (length (Kernel_buffers.buffers S c))) eqn:El;
    [reflexivity|].
  apply Z.ltb_ge in El. rewrite (kernel_empty_slot_out_of_range S c i El).
  reflexivity.
Qed.

Lemma discard_slots_spec (n : nat) (i : Z) (c : Kernel_buffers.buffer_cache S) :
  0 <= i ->
  (forall j, 0 <= j ->
     Kernel_buffers.slot S (fst (Kernel_buffers.discard_slots S n i c)) j
     = if (i <=? j) && (j <? i + Z.of_nat n)
       then cleared (Kernel_buffers.slot S c j) else Kernel_buffers.slot S c j)
  /\ snd (Kernel_buffers.discard_slots S n i c)
     = map (fun k => Kernel_buffers.skb S (Kernel_buffers.slot S c (i + Z.of_nat k)))
           (seq 0 n).
Proof.
  revert i c. induction n as [|n IH]; intros i c Hi.
  - cbn [Kernel_buffers.discard_slots fst snd seq map]. split; [|reflexivity].
    intros j Hj.
    destruct (i <=? j) eqn:E; [apply Z.leb_le in E|]; cbn [andb];
      [|reflexivity].
    replace (j <? i + Z.of_nat 0) with false by (symmetry; apply Z.ltb_ge; lia).
    reflexivity.
  - cbn [Kernel_buffers.discard_slots]. cbv zeta.
    set (c' := Kernel_buffers.set_slot S c i (cleared (Kernel_buffers.slot S c i))
                 (Kernel_buffers.buffer_idx S c)).
    destruct (IH (i + 1) c' ltac:(lia)) as [IHs IHf].
    destruct (Kernel_buffers.discard_slots S n (i + 1) c') as [c'' freed].
    cbn [fst snd] in *. split.
    + intros j Hj. rewrite IHs by exact Hj. unfold c'.
      rewrite kernel_slot_cleared by lia.
      destruct (i =? j) eqn:E; [apply Z.eqb_eq in E; subst j | apply Z.eqb_neq in E].
      * replace (i + 1 <=? i) with false by (symmetry; apply Z.leb_gt; lia).
        replace (i <=? i) with true by (symmetry; apply Z.leb_le; lia).
        replace (i <? i + Z.of_nat (Datatypes.S n)) with true
          by (symmetry; apply Z.ltb_lt; lia).
        reflexivity.
      * destruct (i + 1 <=? j) eqn:E1; [apply Z.leb_le in E1 | apply Z.leb_gt in E1].
        -- replace (i <=? j) with true by (symmetry; apply Z.leb_le; lia).
           replace (j <? i + Z.of_nat (Datatypes.S n)) with (j <? i + 1 + Z.of_nat n)
             by (f_equal; lia).
           reflexivity.
        -- replace (i <=? j) with false by (symmetry; apply Z.leb_gt; lia).
           reflexivity.
    + rewrite IHf. cbn [seq map]. f_equal.
      * f_equal. f_equal. lia.
      * rewrite <- seq_shift, map_map. apply map_ext_in. intros k _.
        unfold c'. rewrite kernel_slot_cleared by lia.
        replace (i =? i + 1 + Z.of_nat k) with false
          by (symmetry; apply Z.eqb_neq; lia).
        f_equal. f_equal. lia.
Qed.

Lemma map_slots_of_list (c : Kernel_buffers.buffer_cache S) :
  map (fun k => Kernel_buffers.skb S (Kernel_buffers.slot S c (0 + Z.of_nat k)))
      (seq 0 (length (Kernel_buffers.buffers S c)))
  = map (Kernel_buffers.skb S) (Kernel_buffers.buffers S c).
Proof.
  apply list_eq. intros k. rewrite !list_lookup_fmap.
  destruct (Kernel_buffers.buffers S c !! k) as [p|] eqn:Ep.
  - rewrite (lookup_seq_lt _ _ _ (lookup_lt_Some _ _ _ Ep)). cbn [fmap option_fmap option_map].
    unfold Kernel_buffers.slot. cbn [Nat.add].
    replace (Z.to_nat (0 + Z.of_nat k)) with k by lia. rewrite Ep. reflexivity.
  - rewrite lookup_seq_ge by (apply lookup_ge_None; exact Ep). reflexivity.
Qed.

(** X14.  fwd_discard_all empties the cache: on a cache of N_PKT_BUFFERS
    slots, the packets handed to kfree_skb are those of the slots, in slot
    order; afterwards no id retrieves a packet, and every slot keeps its
    cookie. *)
Theorem fwd_discard_all_empties_the_cache (c : Kernel_buffers.buffer_cache S) :
  length (Kernel_buffers.buffers S c) = Z.to_nat N_PKT_BUFFERS ->
  snd (Kernel_buffers.fwd_discard_all S c)
  = map (Kernel_buffers.skb S) (Kernel_buffers.buffers S c)
  /\ (forall id,
        fst (Kernel_buffers.retrieve_skb S
               (fst (Kernel_buffers.fwd_discard_all S c)) id) = None)
  /\ (forall j, 0 <= j ->
        Kernel_buffers.cookie S
          (Kernel_buffers.slot S (fst (Kernel_buffers.fwd_discard_all S c)) j)
        = Kernel_buffers.cookie S (Kernel_buffers.slot S c j)).
Proof.
  intros Hlen. unfold Kernel_buffers.fwd_discard_all.
  destruct (discard_slots_spec (Z.to_nat N_PKT_BUFFERS) 0 c ltac:(lia)) as [Hs Hf].
  split; [|split].
  - rewrite Hf, <- Hlen. apply map_slots_of_list.
  - intros id. pose proof (slot_index_range id) as Hi.
    unfold Kernel_buffers.retrieve_skb. cbv zeta.
    rewrite Hs by lia.
    replace (0 <=? Z.land id PKT_BUFFER_MASK) with true
      by (symmetry; apply Z.leb_le; lia).
    replace (Z.land id PKT_BUFFER_MASK <? 0 + Z.of_nat (Z.to_nat N_PKT_BUFFERS))
      with true by (symmetry; apply Z.ltb_lt; lia).
    cbn [andb Kernel_buffers.skb Kernel_buffers.cookie].
    match goal with |- context [if ?t then _ else _] => destruct t end; reflexivity.
  - intros j Hj. rewrite Hs by exact Hj.
    match goal with |- context [if ?t then _ else _] => destruct t end; reflexivity.
Qed.

End DiscardAll.

(** ** The buffer cache between a save and a retrieve *)

(** An id is made of the slot index and the cookie alone. *)
Lemma buffer_id_split (id id' : Z) :
  Z.land id' PKT_BUFFER_MASK = Z.land id PKT_BUFFER_MASK ->
  Z.shiftr id' PKT_BUFFER_BITS = Z.shiftr id PKT_BUFFER_BITS ->
  id' = id.
Proof.
  change PKT_BUFFER_MASK with (Z.ones 8). change PKT_BUFFER_BITS with 8.
  rewrite !Z.land_ones, !Z.shiftr_div_pow2 by lia. intros Hlow Hhigh.
  rewrite (Z.div_mod id (2^8)), (Z.div_mod id' (2^8)) by lia. congruence.
Qed.

Lemma cache_steps_preserve {C : Type} (step : C -> C -> Prop) (P : C -> Prop) :
  (forall c c', step c c' -> P c -> P c') ->
  forall c c', cache_steps step c c' -> P c -> P c'.
Proof.
  intros Hstep c c' Hsteps. induction Hsteps as [c|c c' c'' H1 _ IH]; intros Hc.
  - exact Hc.
  - apply IH. exact (Hstep _ _ H1 Hc).
Qed.

Section SwitchCache.

Local Abbreviation cleared p :=
  ({| Switch_buffers.pb_buffer := None;
      Switch_buffers.cookie := Switch_buffers.cookie p;
      Switch_buffers.timeout := Switch_buffers.timeout p |}).

(** What a successful save leaves in the slot that its id names. *)
Lemma switch_save_stores (now : Z) (c c1 : Switch_buffers.buffer_cache)
  (b : buffer) (id : Z) :
  length (Switch_buffers.buffers c) = Z.to_nat N_PKT_BUFFERS ->
  Switch_buffers.save_buffer now c b = (id, c1) -> id <> UINT32_MAX ->
  Switch_buffers.slot c1 (Z.land id PKT_BUFFER_MASK)
  = {| Switch_buffers.pb_buffer := Some b;
       Switch_buffers.cookie := Z.shiftr id PKT_BUFFER_BITS;
       Switch_buffers.timeout := now + OVERWRITE_SECS |}
  /\ length (Switch_buffers.buffers c1) = Z.to_nat N_PKT_BUFFERS.
Proof.
  intros Hlen Hsave Hid.
  unfold Switch_buffers.save_buffer in Hsave. cbv zeta in Hsave.
  set (i := Z.land (u32 (Switch_buffers.buffer_idx c + 1)) PKT_BUFFER_MASK) in *.
  pose proof (buffer_id_fields (u32 (Switch_buffers.buffer_idx c + 1))
                (Switch_buffers.cookie (Switch_buffers.slot c i) + 1)) as Hf.
  cbv zeta in Hf. fold i in Hf. destruct Hf as (Hlow & Hhigh & Hrange & _).
  destruct (match Switch_buffers.pb_buffer (Switch_buffers.slot c i) with
            | Some _ => now <? Switch_buffers.timeout (Switch_buffers.slot c i)
            | None => false
            end).
  - injection Hsave as <- <-. exfalso. apply Hid. reflexivity.
  - injection Hsave as <- <-. rewrite Hlow, Hhigh. split.
    + apply switch_slot_set_slot. rewrite Hlen. lia.
    + unfold Switch_buffers.set_slot. cbn [Switch_buffers.buffers].
      rewrite length_insert. exact Hlen.
Qed.

(** A save that is refused, or that goes to another slot, leaves a slot as
    it is. *)
Lemma switch_save_elsewhere (now : Z) (c : Switch_buffers.buffer_cache)
  (b : buffer) (j : Z) :
  0 <= j ->
  fst (Switch_buffers.save_buffer now c b) = UINT32_MAX
  \/ Z.land (fst (Switch_buffers.save_buffer now c b)) PKT_BUFFER_MASK <> j ->
  Switch_buffers.slot (snd (Switch_buffers.save_buffer now c b)) j
  = Switch_buffers.slot c j.
Proof.
  intros Hj. unfold Switch_buffers.save_buffer. cbv zeta.
  set (i := Z.land (u32 (Switch_buffers.buffer_idx c + 1)) PKT_BUFFER_MASK) in *.
  pose proof (buffer_id_fields (u32 (Switch_buffers.buffer_idx c + 1))
                (Switch_buffers.cookie (Switch_buffers.slot c i) + 1)) as Hf.
  cbv zeta in Hf. fold i in Hf. destruct Hf as (Hlow & _ & Hrange & Hne).
  destruct (match Switch_buffers.pb_buffer (Switch_buffers.slot c i) with
            | Some _ => now <? Switch_buffers.timeout (Switch_buffers.slot c i)
            | None => false
            end); cbn [fst snd]; intros Hother.
  - rewrite switch_slot_after_set by lia.
    destruct (i =? j) eqn:E; [apply Z.eqb_eq in E; subst j|reflexivity].
    destruct (i <? _); reflexivity.
  - destruct Hother as [Hmax|Hslot]; [contradiction|].
    rewrite Hlow in Hslot. rewrite switch_slot_after_set by lia.
    replace (i =? j) with false by (symmetry; apply Z.eqb_neq; exact Hslot).
    reflexivity.
Qed.

Lemma switch_save_length (now : Z) (c : Switch_buffers.buffer_cache) (b : buffer) :
  length (Switch_buffers.buffers (snd (Switch_buffers.save_buffer now c b)))
  = length (Switch_buffers.buffers c).
Proof.
  unfold Switch_buffers.save_buffer. cbv zeta.
  match goal with |- context [if ?t then _ else _] => destruct t end;
    cbn [snd Switch_buffers.set_slot Switch_buffers.buffers];
    apply length_insert.
Qed.

(** A retrieve empties the slot that its id names when the cookie agrees,
    and changes nothing else. *)
Lemma switch_retrieve_slot (c : Switch_buffers.buffer_cache) (id' j : Z) :
  0 <= j ->
  Switch_buffers.slot (snd (Switch_buffers.retrieve_buffer c id')) j
  = if (Z.land id' PKT_BUFFER_MASK =? j)
       && (Switch_buffers.cookie (Switch_buffers.slot c j)
           =? Z.shiftr id' PKT_BUFFER_BITS)
    then cleared (Switch_buffers.slot c j)
    else Switch_buffers.slot c j.
Proof.
  intros Hj. pose proof (slot_index_range id') as Hi.
  unfold Switch_buffers.retrieve_buffer. cbv zeta.
  set (i := Z.land id' PKT_BUFFER_MASK) in *.
  destruct (i =? j) eqn:E; [apply Z.eqb_eq in E; subst j | apply Z.eqb_neq in E];
    cbn [andb].
  - destruct (Switch_buffers.cookie (Switch_buffers.slot c i)
              =? Z.shiftr id' PKT_BUFFER_BITS); cbn [snd]; [|reflexivity].
    rewrite switch_slot_after_set by lia. rewrite Z.eqb_refl. cbn [andb].
    destruct (i <? Z.of_nat (length (Switch_buffers.buffers c))) eqn:El;
      [reflexivity|].
    apply Z.ltb_ge in El. rewrite (switch_empty_slot_out_of_range c i El).
    reflexivity.
  - destruct (Switch_buffers.cookie (Switch_buffers.slot c i)
              =? Z.shiftr id' PKT_BUFFER_BITS); cbn [snd]; [|reflexivity].
    rewrite switch_slot_after_set by lia.
    replace (i =? j) with false by (symmetry; apply Z.eqb_neq; exact E).
    reflexivity.
Qed.

Lemma switch_retrieve_length (c : Switch_buffers.buffer_cache) (id' : Z) :
  length (Switch_buffers.buffers (snd (Switch_buffers.retrieve_buffer c id')))
  = length (Switch_buffers.buffers c).
Proof.
  unfold Switch_buffers.retrieve_buffer. cbv zeta.
  match goal with |- context [if ?t then _ else _] => destruct t end;
    cbn [snd Switch_buffers.set_slot Switch_buffers.buffers];
    [apply length_insert | reflexivity].
Qed.

Lemma switch_discard_is_retrieve (c : Switch_buffers.buffer_cache) (id' : Z) :
  Switch_buffers.discard_buffer c id'
  = snd (Switch_buffers.retrieve_buffer c id').
Proof.
  unfold Switch_buffers.discard_buffer, Switch_buffers.retrieve_buffer. cbv zeta.
  match goal with |- context [if ?t then _ else _] => destruct t end; reflexivity.
Qed.

(** A retrieve with another id leaves the packet where it is. *)
Lemma switch_retrieve_keeps_packet (id id' : Z) (c : Switch_buffers.buffer_cache) :
  id' <> id ->
  Switch_buffers.cookie (Switch_buffers.slot c (Z.land id PKT_BUFFER_MASK))
  = Z.shiftr id PKT_BUFFER_BITS ->
  Switch_buffers.slot (snd (Switch_buffers.retrieve_buffer c id'))
    (Z.land id PKT_BUFFER_MASK)
  = Switch_buffers.slot c (Z.land id PKT_BUFFER_MASK).
Proof.
  intros Hne Hck. pose proof (slot_index_range id) as Hi.
  rewrite switch_retrieve_slot by lia. rewrite Hck.
  destruct (Z.land id' PKT_BUFFER_MASK =? Z.land id PKT_BUFFER_MASK) eqn:E1;
    [|reflexivity].
  destruct (Z.shiftr id PKT_BUFFER_BITS =? Z.shiftr id' PKT_BUFFER_BITS) eqn:E2;
    [|reflexivity].
  apply Z.eqb_eq in E1, E2. exfalso. apply Hne.
  apply buffer_id_split; congruence.
Qed.

(** Until the packet is taken, a step leaves its slot as it is. *)
Lemma switch_step_keeps_packet (id : Z) (p : Switch_buffers.packet_buffer)
  (c c' : Switch_buffers.buffer_cache) :
  Switch_buffers.cookie p = Z.shiftr id PKT_BUFFER_BITS ->
  switch_cache_step id false c c' ->
  Switch_buffers.slot c (Z.land id PKT_BUFFER_MASK) = p
  /\ length (Switch_buffers.buffers c) = Z.to_nat N_PKT_BUFFERS ->
  Switch_buffers.slot c' (Z.land id PKT_BUFFER_MASK) = p
  /\ length (Switch_buffers.buffers c') = Z.to_nat N_PKT_BUFFERS.
Proof.
  intros Hck Hstep. pose proof (slot_index_range id) as Hi.
  destruct Hstep as [now c b Hother | c id' [Ht|Hne] | c id' [Ht|Hne]];
    try discriminate; intros [Hslot Hlen].
  - rewrite switch_save_elsewhere, switch_save_length by (lia || exact Hother).
    split; assumption.
  - rewrite switch_retrieve_keeps_packet, switch_retrieve_length
      by (congruence || exact Hne).
    split; assumption.
  - rewrite switch_discard_is_retrieve.
    rewrite switch_retrieve_keeps_packet, switch_retrieve_length
      by (congruence || exact Hne).
    split; assumption.
Qed.

(** Once the slot is empty, a step leaves it empty. *)
Lemma switch_step_keeps_empty (id : Z) (c c' : Switch_buffers.buffer_cache) :
  switch_cache_step id true c c' ->
  Switch_buffers.pb_buffer (Switch_buffers.slot c (Z.land id PKT_BUFFER_MASK))
  = None ->
  Switch_buffers.pb_buffer (Switch_buffers.slot c' (Z.land id PKT_BUFFER_MASK))
  = None.
Proof.
  intros Hstep. pose proof (slot_index_range id) as Hi.
  destruct Hstep as [now c b Hother | c id' _ | c id' _]; intros Hempty.
  - rewrite switch_save_elsewhere by (lia || exact Hother). exact Hempty.
  - rewrite switch_retrieve_slot by lia.
    match goal with |- context [if ?t then _ else _] => destruct t end;
      [reflexivity | exact Hempty].
  - rewrite switch_discard_is_retrieve, switch_retrieve_slot by lia.
    match goal with |- context [if ?t then _ else _] => destruct t end;
      [reflexivity | exact Hempty].
Qed.

(** A retrieve with the id of an empty slot returns nothing. *)
Lemma switch_retrieve_empty (c : Switch_buffers.buffer_cache) (id : Z) :
  Switch_buffers.pb_buffer (Switch_buffers.slot c (Z.land id PKT_BUFFER_MASK))
  = None ->
  fst (Switch_buffers.retrieve_buffer c id) = None.
Proof.
  intros Hempty. unfold Switch_buffers.retrieve_buffer. cbv zeta.
  match goal with |- context [if ?t then _ else _] => destruct t end;
    [exact Hempty | reflexivity].
Qed.

(** The user-space half of the rule of the buffer cache. *)
Lemma switch_saved_buffer_is_retrieved_once (now : Z)
  (c c1 c1' : Switch_buffers.buffer_cache) (b : buffer) (id : Z) :
  length (Switch_buffers.buffers c) = Z.to_nat N_PKT_BUFFERS ->
  Switch_buffers.save_buffer now c b = (id, c1) ->
  id <> UINT32_MAX ->
  cache_steps (switch_cache_step id false) c1 c1' ->
  exists c2,
    Switch_buffers.retrieve_buffer c1' id = (Some b, c2)
    /\ Switch_buffers.pb_buffer
         (Switch_buffers.slot c2 (Z.land id PKT_BUFFER_MASK)) = None
    /\ fst (Switch_buffers.retrieve_buffer c2 id) = None
    /\ (forall c3,
          Switch_buffers.pb_buffer
            (Switch_buffers.slot c3 (Z.land id PKT_BUFFER_MASK)) = None ->
          fst (Switch_buffers.retrieve_buffer c3 id) = None)
    /\ (forall c3,
          cache_steps (switch_cache_step id true) c2 c3 ->
          fst (Switch_buffers.retrieve_buffer c3 id) = None).
Proof.
  intros Hlen Hsave Hid Hsteps. pose proof (slot_index_range id) as Hi.
  destruct (switch_save_stores now c c1 b id Hlen Hsave Hid) as [Hslot1 Hlen1].
  match type of Hslot1 with _ = ?r => set (p := r) in * end.
  destruct (cache_steps_preserve _ _
              (fun x y => switch_step_keeps_packet id p x y eq_refl) _ _ Hsteps
              (conj Hslot1 Hlen1)) as [Hslot Hlen'].
  subst p.
  unfold Switch_buffers.retrieve_buffer at 1. cbv zeta. rewrite Hslot.
  cbn [Switch_buffers.cookie Switch_buffers.pb_buffer]. rewrite Z.eqb_refl.
  eexists. split; [reflexivity|].
  match goal with
  | |- Switch_buffers.pb_buffer (Switch_buffers.slot ?c2 _) = None /\ _ =>
      assert (Hempty : Switch_buffers.pb_buffer
                         (Switch_buffers.slot c2 (Z.land id PKT_BUFFER_MASK)) = None)
  end.
  { rewrite switch_slot_set_slot; [reflexivity|]. rewrite Hlen'. lia. }
  split; [exact Hempty|].
  split; [apply switch_retrieve_empty; exact Hempty|].
  split; [intros c3; apply switch_retrieve_empty|].
  intros c3 Hafter. apply switch_retrieve_empty.
  exact (cache_steps_preserve _ _ (switch_step_keeps_empty id) _ _ Hafter Hempty).
Qed.

End SwitchCache.

Section KernelCache.
Variable S : Type.
Variables BITS_PER_LONG HZ : Z.

Local Abbreviation kcleared p :=
  ({| Kernel_buffers.skb := None;
      Kernel_buffers.cookie := Kernel_buffers.cookie S p;
      Kernel_buffers.exp_jiffies := Kernel_buffers.exp_jiffies S p |}).
Local Abbreviation fwd_save_skb :=
  (Kernel_buffers.fwd_save_skb S BITS_PER_LONG HZ).
Local Abbreviation kstep := (kernel_cache_step S BITS_PER_LONG HZ).

Lemma kernel_save_stores (jiffies : Z) (c c1 : Kernel_buffers.buffer_cache S)
  (s : S) (id : Z) (old : option S) :
  length (Kernel_buffers.buffers S c) = Z.to_nat N_PKT_BUFFERS ->
  fwd_save_skb jiffies c s = (id, c1, old) -> id <> UINT32_MAX ->
  Kernel_buffers.slot S c1 (Z.land id PKT_BUFFER_MASK)
  = {| Kernel_buffers.skb := Some s;
       Kernel_buffers.cookie := Z.shiftr id PKT_BUFFER_BITS;
       Kernel_buffers.exp_jiffies :=
         Kernel_buffers.ulong BITS_PER_LONG
           (jiffies + Kernel_buffers.OVERWRITE_JIFFIES HZ) |}
  /\ length (Kernel_buffers.buffers S c1) = Z.to_nat N_PKT_BUFFERS.
Proof.
  intros Hlen Hsave Hid.
  unfold Kernel_buffers.fwd_save_skb in Hsave. cbv zeta in Hsave.
  set (i := Z.land (u32 (Kernel_buffers.buffer_idx S c + 1)) PKT_BUFFER_MASK) in *.
  pose proof (buffer_id_fields (u32 (Kernel_buffers.buffer_idx S c + 1))
                (Kernel_buffers.cookie S (Kernel_buffers.slot S c i) + 1)) as Hf.
  cbv zeta in Hf. fold i in Hf. destruct Hf as (Hlow & Hhigh & Hrange & _).
  destruct (match Kernel_buffers.skb S (Kernel_buffers.slot S c i) with
            | Some _ => Kernel_buffers.time_before BITS_PER_LONG jiffies
                          (Kernel_buffers.exp_jiffies S (Kernel_buffers.slot S c i))
            | None => false
            end).
  - injection Hsave as <- <- _. exfalso. apply Hid. reflexivity.
  - injection Hsave as <- <- _. rewrite Hlow, Hhigh. split.
    + apply kernel_slot_set_slot. rewrite Hlen. lia.
    + unfold Kernel_buffers.set_slot. cbn [Kernel_buffers.buffers].
      rewrite length_insert. exact Hlen.
Qed.

Lemma kernel_save_elsewhere (jiffies : Z) (c : Kernel_buffers.buffer_cache S)
  (s : S) (j : Z) :
  0 <= j ->
  fst (fst (fwd_save_skb jiffies c s)) = UINT32_MAX
  \/ Z.land (fst (fst (fwd_save_skb jiffies c s))) PKT_BUFFER_MASK <> j ->
  Kernel_buffers.slot S (snd (fst (fwd_save_skb jiffies c s))) j
  = Kernel_buffers.slot S c j.
Proof.
  intros Hj. unfold Kernel_buffers.fwd_save_skb. cbv zeta.
  set (i := Z.land (u32 (Kernel_buffers.buffer_idx S c + 1)) PKT_BUFFER_MASK) in *.
  pose proof (buffer_id_fields (u32 (Kernel_buffers.buffer_idx S c + 1))
                (Kernel_buffers.cookie S (Kernel_buffers.slot S c i) + 1)) as Hf.
  cbv zeta in Hf. fold i in Hf. destruct Hf as (Hlow & _ & Hrange & Hne).
  destruct (match Kernel_buffers.skb S (Kernel_buffers.slot S c i) with
            | Some _ => Kernel_buffers.time_before BITS_PER_LONG jiffies
                          (Kernel_buffers.exp_jiffies S (Kernel_buffers.slot S c i))
            | None => false
            end); cbn [fst snd]; intros Hother.
  - rewrite kernel_slot_after_set by lia.
    destruct (i =? j) eqn:E; [apply Z.eqb_eq in E; subst j|reflexivity].
    destruct (i <? _); reflexivity.
  - destruct Hother as [Hmax|Hslot]; [contradiction|].
    rewrite Hlow in Hslot. rewrite kernel_slot_after_set by lia.
    replace (i =? j) with false by (symmetry; apply Z.eqb_neq; exact Hslot).
    reflexivity.
Qed.

Lemma kernel_save_length (jiffies : Z) (c : Kernel_buffers.buffer_cache S) (s : S) :
  length (Kernel_buffers.buffers S (snd (fst (fwd_save_skb jiffies c s))))
  = length (Kernel_buffers.buffers S c).
Proof.
  unfold Kernel_buffers.fwd_save_skb. cbv zeta.
  match goal with |- context [if ?t then _ else _] => destruct t end;
    cbn [fst snd Kernel_buffers.set_slot Kernel_buffers.buffers];
    apply length_insert.
Qed.

Lemma kernel_retrieve_slot (c : Kernel_buffers.buffer_cache S) (id' j : Z) :
  0 <= j ->
  Kernel_buffers.slot S (snd (Kernel_buffers.retrieve_skb S c id')) j
  = if (Z.land id' PKT_BUFFER_MASK =? j)
       && (Kernel_buffers.cookie S (Kernel_buffers.slot S c j)
           =? Z.shiftr id' PKT_BUFFER_BITS)
    then kcleared (Kernel_buffers.slot S c j)
    else Kernel_buffers.slot S c j.
Proof.
  intros Hj. pose proof (slot_index_range id') as Hi.
  unfold Kernel_buffers.retrieve_skb. cbv zeta.
  set (i := Z.land id' PKT_BUFFER_MASK) in *.
  destruct (i =? j) eqn:E; [apply Z.eqb_eq in E; subst j | apply Z.eqb_neq in E];
    cbn [andb].
  - destruct (Kernel_buffers.cookie S (Kernel_buffers.slot S c i)
              =? Z.shiftr id' PKT_BUFFER_BITS); cbn [snd]; [|reflexivity].
    rewrite kernel_slot_after_set by lia. rewrite Z.eqb_refl. cbn [andb].
    destruct (i <? Z.of_nat (length (Kernel_buffers.buffers S c))) eqn:El;
      [reflexivity|].
    apply Z.ltb_ge in El. rewrite (kernel_empty_slot_out_of_range S c i El).
    reflexivity.
  - destruct (Kernel_buffers.cookie S (Kernel_buffers.slot S c i)
              =? Z.shiftr id' PKT_BUFFER_BITS); cbn [snd]; [|reflexivity].
    rewrite kernel_slot_after_set by lia.
    replace (i =? j) with false by (symmetry; apply Z.eqb_neq; exact E).
    reflexivity.
Qed.

Lemma kernel_retrieve_length (c : Kernel_buffers.buffer_cache S) (id' : Z) :
  length (Kernel_buffers.buffers S (snd (Kernel_buffers.retrieve_skb S c id')))
  = length (Kernel_buffers.buffers S c).
Proof.
  unfold Kernel_buffers.retrieve_skb. cbv zeta.
  match goal with |- context [if ?t then _ else _] => destruct t end;
    cbn [snd Kernel_buffers.set_slot Kernel_buffers.buffers];
    [apply length_insert | reflexivity].
Qed.

Lemma kernel_discard_is_retrieve (c : Kernel_buffers.buffer_cache S) (id' : Z) :
  Kernel_buffers.discard_skb S c id'
  = snd (Kernel_buffers.retrieve_skb S c id').
Proof.
  unfold Kernel_buffers.discard_skb, Kernel_buffers.retrieve_skb. cbv zeta.
  match goal with |- context [if ?t then _ else _] => destruct t end; reflexivity.
Qed.

Lemma kernel_retrieve_keeps_packet (id id' : Z) (c : Kernel_buffers.buffer_cache S) :
  id' <> id ->
  Kernel_buffers.cookie S (Kernel_buffers.slot S c (Z.land id PKT_BUFFER_MASK))
  = Z.shiftr id PKT_BUFFER_BITS ->
  Kernel_buffers.slot S (snd (Kernel_buffers.retrieve_skb S c id'))
    (Z.land id PKT_BUFFER_MASK)
  = Kernel_buffers.slot S c (Z.land id PKT_BUFFER_MASK).
Proof.
  intros Hne Hck. pose proof (slot_index_range id) as Hi.
  rewrite kernel_retrieve_slot by lia. rewrite Hck.
  destruct (Z.land id' PKT_BUFFER_MASK =? Z.land id PKT_BUFFER_MASK) eqn:E1;
    [|reflexivity].
  destruct (Z.shiftr id PKT_BUFFER_BITS =? Z.shiftr id' PKT_BUFFER_BITS) eqn:E2;
    [|reflexivity].
  apply Z.eqb_eq in E1, E2. exfalso. apply Hne.
  apply buffer_id_split; congruence.
Qed.

Lemma kernel_step_keeps_packet (id : Z) (p : Kernel_buffers.packet_buffer S)
  (c c' : Kernel_buffers.buffer_cache S) :
  Kernel_buffers.cookie S p = Z.shiftr id PKT_BUFFER_BITS ->
  kstep id false c c' ->
  Kernel_buffers.slot S c (Z.land id PKT_BUFFER_MASK) = p
  /\ length (Kernel_buffers.buffers S c) = Z.to_nat N_PKT_BUFFERS ->
  Kernel_buffers.slot S c' (Z.land id PKT_BUFFER_MASK) = p
  /\ length (Kernel_buffers.buffers S c') = Z.to_nat N_PKT_BUFFERS.
Proof.
  intros Hck Hstep. pose proof (slot_index_range id) as Hi.
  destruct Hstep as [jiffies c s r Hother | c id' [Ht|Hne] | c id' [Ht|Hne] | c Ht];
    try discriminate; intros [Hslot Hlen].
  - subst r. rewrite kernel_save_elsewhere, kernel_save_length
      by (lia || exact Hother).
    split; assumption.
  - rewrite kernel_retrieve_keeps_packet, kernel_retrieve_length
      by (congruence || exact Hne).
    split; assumption.
  - rewrite kernel_discard_is_retrieve.
    rewrite kernel_retrieve_keeps_packet, kernel_retrieve_length
      by (congruence || exact Hne).
    split; assumption.
Qed.

Lemma kernel_step_keeps_empty (id : Z) (c c' : Kernel_buffers.buffer_cache S) :
  kstep id true c c' ->
  Kernel_buffers.skb S (Kernel_buffers.slot S c (Z.land id PKT_BUFFER_MASK))
  = None ->
  Kernel_buffers.skb S (Kernel_buffers.slot S c' (Z.land id PKT_BUFFER_MASK))
  = None.
Proof.
  intros Hstep. pose proof (slot_index_range id) as Hi.
  destruct Hstep as [jiffies c s r Hother | c id' _ | c id' _ | c _]; intros Hempty.
  - subst r. rewrite kernel_save_elsewhere by (lia || exact Hother). exact Hempty.
  - rewrite kernel_retrieve_slot by lia.
    match goal with |- context [if ?t then _ else _] => destruct t end;
      [reflexivity | exact Hempty].
  - rewrite kernel_discard_is_retrieve, kernel_retrieve_slot by lia.
    match goal with |- context [if ?t then _ else _] => destruct t end;
      [reflexivity | exact Hempty].
  - unfold Kernel_buffers.fwd_discard_all.
    rewrite (proj1 (discard_slots_spec S (Z.to_nat N_PKT_BUFFERS) 0 c ltac:(lia)))
      by lia.
    match goal with |- context [if ?t then _ else _] => destruct t end;
      [reflexivity | exact Hempty].
Qed.

Lemma kernel_retrieve_empty (c : Kernel_buffers.buffer_cache S) (id : Z) :
  Kernel_buffers.skb S (Kernel_buffers.slot S c (Z.land id PKT_BUFFER_MASK))
  = None ->
  fst (Kernel_buffers.retrieve_skb S c id) = None.
Proof.
  intros Hempty. unfold Kernel_buffers.retrieve_skb. cbv zeta.
  match goal with |- context [if ?t then _ else _] => destruct t end;
    [exact Hempty | reflexivity].
Qed.

(** The kernel half of the rule of the buffer cache. *)
Lemma kernel_saved_buffer_is_retrieved_once (jiffies : Z)
  (c c1 c1' : Kernel_buffers.buffer_cache S) (s : S) (id : Z) (old : option S) :
  length (Kernel_buffers.buffers S c) = Z.to_nat N_PKT_BUFFERS ->
  fwd_save_skb jiffies c s = (id, c1, old) ->
  id <> UINT32_MAX ->
  cache_steps (kstep id false) c1 c1' ->
  exists c2,
    Kernel_buffers.retrieve_skb S c1' id = (Some s, c2)
    /\ Kernel_buffers.skb S
         (Kernel_buffers.slot S c2 (Z.land id PKT_BUFFER_MASK)) = None
    /\ fst (Kernel_buffers.retrieve_skb S c2 id) = None
    /\ (forall c3,
          Kernel_buffers.skb S
            (Kernel_buffers.slot S c3 (Z.land id PKT_BUFFER_MASK)) = None ->
          fst (Kernel_buffers.retrieve_skb S c3 id) = None)
    /\ (forall c3,
          cache_steps (kstep id true) c2 c3 ->
          fst (Kernel_buffers.retrieve_skb S c3 id) = None).
Proof.
  intros Hlen Hsave Hid Hsteps. pose proof (slot_index_range id) as Hi.
  destruct (kernel_save_stores jiffies c c1 s id old Hlen Hsave Hid)
    as [Hslot1 Hlen1].
  match type of Hslot1 with _ = ?r => set (p := r) in * end.
  destruct (cache_steps_preserve _ _
              (fun x y => kernel_step_keeps_packet id p x y eq_refl) _ _ Hsteps
              (conj Hslot1 Hlen1)) as [Hslot Hlen'].
  subst p.
  unfold Kernel_buffers.retrieve_skb at 1. cbv zeta. rewrite Hslot.
  cbn [Kernel_buffers.cookie Kernel_buffers.skb]. rewrite Z.eqb_refl.
  eexists. split; [reflexivity|].
  match goal with
  | |- Kernel_buffers.skb S (Kernel_buffers.slot S ?c2 _) = None /\ _ =>
      assert (Hempty : Kernel_buffers.skb S
                         (Kernel_buffers.slot S c2 (Z.land id PKT_BUFFER_MASK)) = None)
  end.
  { rewrite kernel_slot_set_slot; [reflexivity|]. rewrite Hlen'. lia. }
  split; [exact Hempty|].
  split; [apply kernel_retrieve_empty; exact Hempty|].
  split; [intros c3; apply kernel_retrieve_empty|].
  intros c3 Hafter. apply kernel_retrieve_empty.
  exact (cache_steps_preserve _ _ (kernel_step_keeps_empty id) _ _ Hafter Hempty).
Qed.

End KernelCache.

(** C6 (as amended).  In the user-space switch and in the kernel datapath
    alike: when a save on a cache of [N_PKT_BUFFERS] slots returns an id
    other than 0xffffffff, then, whatever saves into other slots, refused
    saves, and retrieves and discards with other ids come in between, the
    first retrieve with that id returns the saved packet and leaves the slot
    empty.  From then on every retrieve with the same id returns nothing:
    at once, after any operations among which no save stores into that
    slot, and in any cache in which the slot is empty. *)
Theorem saved_buffer_is_retrieved_once :
  (forall (now : Z) (c c1 c1' : Switch_buffers.buffer_cache) (b : buffer) (id : Z),
      length (Switch_buffers.buffers c) = Z.to_nat N_PKT_BUFFERS ->
      Switch_buffers.save_buffer now c b = (id, c1) ->
      id <> UINT32_MAX ->
      cache_steps (switch_cache_step id false) c1 c1' ->
      exists c2,
        Switch_buffers.retrieve_buffer c1' id = (Some b, c2)
        /\ Switch_buffers.pb_buffer
             (Switch_buffers.slot c2 (Z.land id PKT_BUFFER_MASK)) = None
        /\ fst (Switch_buffers.retrieve_buffer c2 id) = None
        /\ (forall c3,
              Switch_buffers.pb_buffer
                (Switch_buffers.slot c3 (Z.land id PKT_BUFFER_MASK)) = None ->
              fst (Switch_buffers.retrieve_buffer c3 id) = None)
        /\ (forall c3,
              cache_steps (switch_cache_step id true) c2 c3 ->
              fst (Switch_buffers.retrieve_buffer c3 id) = None))
  /\ (forall (S : Type) (BITS_PER_LONG HZ jiffies : Z)
             (c c1 c1' : Kernel_buffers.buffer_cache S) (s : S) (id : Z)
             (old : option S),
      length (Kernel_buffers.buffers S c) = Z.to_nat N_PKT_BUFFERS ->
      Kernel_buffers.fwd_save_skb S BITS_PER_LONG HZ jiffies c s = (id, c1, old) ->
      id <> UINT32_MAX ->
      cache_steps (kernel_cache_step S BITS_PER_LONG HZ id false) c1 c1' ->
      exists c2,
        Kernel_buffers.retrieve_skb S c1' id = (Some s, c2)
        /\ Kernel_buffers.skb S
             (Kernel_buffers.slot S c2 (Z.land id PKT_BUFFER_MASK)) = None
        /\ fst (Kernel_buffers.retrieve_skb S c2 id) = None
        /\ (forall c3,
              Kernel_buffers.skb S
                (Kernel_buffers.slot S c3 (Z.land id PKT_BUFFER_MASK)) = None ->
              fst (Kernel_buffers.retrieve_skb S c3 id) = None)
        /\ (forall c3,
              cache_steps (kernel_cache_step S BITS_PER_LONG HZ id true) c2 c3 ->
              fst (Kernel_buffers.retrieve_skb S c3 id) = None)).
Proof.
  split.
  - exact switch_saved_buffer_is_retrieved_once.
  - exact kernel_saved_buffer_is_retrieved_once.
Qed.

(** C6, counterexample.  A packet is saved at time 100 under the id 257
    (slot 1, cookie 1).  After 256 further saves a hundred seconds later,
    the slot holds the last of those packets, and the first retrieve with
    the id 257 finds a cookie mismatch: it returns nothing and leaves the
    cache as it is. *)
Lemma first_retrieve_after_slot_reuse :
  fst example_saved = 257
  /\ fst example_saved <> UINT32_MAX
  /\ Switch_buffers.retrieve_buffer example_reused_cache (fst example_saved)
     = (None, example_reused_cache)
  /\ Switch_buffers.pb_buffer
       (Switch_buffers.slot example_reused_cache
          (Z.land (fst example_saved) PKT_BUFFER_MASK))
     = Some (received example_long_frame).
Proof.
  split; [vm_compute; reflexivity|].
  split; [vm_compute; discriminate|].
  split; vm_compute; reflexivity.
Qed.

Lemma saved_buffer_is_retrieved_once_witness :
  (exists c2,
      Switch_buffers.retrieve_buffer example_cache_before_retrieve
        (fst example_saved)
      = (Some (received example_frame), c2)
      /\ fst (Switch_buffers.retrieve_buffer c2 (fst example_saved)) = None)
  /\ (exists c2,
        Kernel_buffers.retrieve_skb bytes example_kernel_cache_before_retrieve
          (fst (fst example_kernel_saved))
        = (Some example_frame, c2)
        /\ fst (Kernel_buffers.retrieve_skb bytes c2
                  (fst (fst example_kernel_saved))) = None).
Proof.
  destruct saved_buffer_is_retrieved_once as [Hu Hk]. split.
  - destruct (Hu 100 Switch_buffers.initial_cache (snd example_saved)
                example_cache_before_retrieve (received example_frame)
                (fst example_saved))
      as (c2 & Hfirst & _ & Hsecond & _).
    + reflexivity.
    + reflexivity.
    + vm_compute. discriminate.
    + eapply Steps_cons.
      { apply (Sw_save (fst example_saved) false 100 (snd example_saved)
                 (received example_long_frame)).
        right. vm_compute. discriminate. }
      eapply Steps_cons.
      { apply (Sw_retrieve (fst example_saved) false _ 258).
        right. vm_compute. discriminate. }
      eapply Steps_cons.
      { apply (Sw_discard (fst example_saved) false _ 5).
        right. vm_compute. discriminate. }
      apply Steps_nil.
    + exists c2. split; assumption.
  - destruct (Hk bytes 64 100 1000 (Kernel_buffers.initial_cache bytes)
                (snd (fst example_kernel_saved))
                example_kernel_cache_before_retrieve example_frame
                (fst (fst example_kernel_saved)) (snd example_kernel_saved))
      as (c2 & Hfirst & _ & Hsecond & _).
    + reflexivity.
    + reflexivity.
    + vm_compute. discriminate.
    + eapply Steps_cons.
      { apply (Kc_save bytes 64 100 (fst (fst example_kernel_saved)) false 1000
                 (snd (fst example_kernel_saved)) example_long_frame).
        right. vm_compute. discriminate. }
      eapply Steps_cons.
      { apply (Kc_retrieve bytes 64 100 (fst (fst example_kernel_saved)) false
                 _ 258).
        right. vm_compute. discriminate. }
      apply Steps_nil.
    + exists c2. split; assumption.
Defined.

(** *** The buffer cache on concrete inputs *)

Lemma save_returns_all_ones_iff_refused_witness :
  Switch_buffers.buffers
    (snd (Switch_buffers.save_buffer 100 example_full_cache (received example_frame)))
  = Switch_buffers.buffers example_full_cache.
Proof.
  apply (proj2 (proj1 save_returns_all_ones_iff_refused 100 example_full_cache
                  (received example_frame))).
  vm_compute. reflexivity.
Defined.

Lemma reused_slot_gets_new_id_witness :
  fst (Switch_buffers.save_buffer 200 example_cache_rewound (received example_long_frame))
  <> fst (Switch_buffers.save_buffer 100 Switch_buffers.initial_cache
            (received example_frame))
  /\ Switch_buffers.retrieve_buffer
       (snd (Switch_buffers.save_buffer 200 example_cache_rewound
               (received example_long_frame)))
       (fst (Switch_buffers.save_buffer 100 Switch_buffers.initial_cache
               (received example_frame)))
     = (None,
        snd (Switch_buffers.save_buffer 200 example_cache_rewound
               (received example_long_frame)))
  /\ Switch_buffers.pb_buffer
       (Switch_buffers.slot
          (snd (Switch_buffers.save_buffer 200 example_cache_rewound
                  (received example_long_frame)))
          (Z.land (fst (Switch_buffers.save_buffer 100 Switch_buffers.initial_cache
                          (received example_frame))) PKT_BUFFER_MASK))
     = Some (received example_long_frame).
Proof.
  apply (reused_slot_gets_new_id 100 200 Switch_buffers.initial_cache
           example_cache_one example_cache_rewound _
           (received example_frame) (received example_long_frame)).
  - reflexivity.
  - reflexivity.
  - reflexivity.
  - vm_compute. discriminate.
  - reflexivity.
  - reflexivity.
  - vm_compute. discriminate.
  - reflexivity.
Defined.

Lemma discarded_buffer_is_gone_witness :
  fst (Switch_buffers.retrieve_buffer
         (Switch_buffers.discard_buffer example_cache_one 2) 0x101)
  = fst (Switch_buffers.retrieve_buffer example_cache_one 0x101).
Proof.
  apply (proj2 (proj1 discarded_buffer_is_gone example_cache_one 2 0x101)).
  vm_compute. discriminate.
Defined.

Lemma fwd_discard_all_empties_the_cache_witness :
  snd (Kernel_buffers.fwd_discard_all bytes example_kernel_cache)
  = map (Kernel_buffers.skb bytes) (Kernel_buffers.buffers bytes example_kernel_cache)
  /\ (forall id,
        fst (Kernel_buffers.retrieve_skb bytes
               (fst (Kernel_buffers.fwd_discard_all bytes example_kernel_cache)) id)
        = None)
  /\ (forall j, 0 <= j ->
        Kernel_buffers.cookie bytes
          (Kernel_buffers.slot bytes
             (fst (Kernel_buffers.fwd_discard_all bytes example_kernel_cache)) j)
        = Kernel_buffers.cookie bytes
            (Kernel_buffers.slot bytes example_kernel_cache j)).
Proof.
  apply (fwd_discard_all_empties_the_cache bytes example_kernel_cache).
  reflexivity.
Defined.

(** ** Dispatch of control messages, once more *)

Lemma array_at_Some_In {A} (tbl : list (Z * A)) (i : Z) (v : A) :
  array_at tbl i = Some v -> In (i, v) tbl.
Proof.
  unfold array_at.
  destruct (List.find (fun e => fst e =? i) (List.rev tbl)) as [[j w]|] eqn:E;
    [|discriminate].
  intros [= <-]. apply find_some in E as [Hj Hji]. cbn [fst] in Hji.
  apply Z.eqb_eq in Hji. subst j. apply in_rev in Hj. exact Hj.
Qed.

Section DispatchSafety.
Context `{openflow_h}.

(** X15.  Neither fwd_control_input calls a handler on a message that is
    too short for it: whenever a handler is called, it is the handler that
    the table [packets] lists for the type of the message, the length
    received is at least the minimum size listed with it and at least the
    length that the header claims; and the version is the wire version,
    except, in the kernel datapath, for the types exempt from the version
    test. *)
Theorem dispatched_message_is_long_enough (oh : ofp_header) (length : Z) :
  (forall h,
      Switch_control.fwd_control_input oh length = Dispatched h ->
      oh_version oh = OFP_VERSION /\ oh_length oh <= length
      /\ exists min_size,
           In (oh_type oh, (min_size, h)) Switch_control.packets
           /\ min_size <= length)
  /\ (forall h,
         Kernel_control.fwd_control_input oh length = Dispatched h ->
         (oh_version oh = OFP_VERSION
          \/ Kernel_control.any_version_type (oh_type oh) = true)
         /\ oh_length oh <= length
         /\ exists min_size,
              In (oh_type oh, (min_size, h)) Kernel_control.packets
              /\ min_size <= length).
Proof.
  split; intros h.
  - unfold Switch_control.fwd_control_input.
    destruct (oh_version oh =? OFP_VERSION) eqn:Ev; cbn [negb orb]; [|discriminate].
    destruct (array_size Switch_control.packets <=? oh_type oh); cbn [orb];
      [discriminate|].
    destruct (length <? oh_length oh) eqn:El; [discriminate|].
    destruct (array_at Switch_control.packets (oh_type oh)) as [[min_size h']|] eqn:Ea;
      [|discriminate].
    destruct (length <? min_size) eqn:Em; [discriminate|].
    intros [= <-]. apply Z.eqb_eq in Ev. apply Z.ltb_ge in El, Em.
    split; [exact Ev | split; [exact El|]].
    exists min_size. split; [apply array_at_Some_In; exact Ea | exact Em].
  - unfold Kernel_control.fwd_control_input, Kernel_control.any_version_type.
    destruct (oh_version oh =? OFP_VERSION) eqn:Ev; cbn [negb andb].
    + destruct (length <? oh_length oh) eqn:El; [discriminate|].
      destruct (if oh_type oh <? array_size Kernel_control.packets
                then array_at Kernel_control.packets (oh_type oh) else None)
        as [[min_size h']|] eqn:Ea; [|discriminate].
      destruct (length <? min_size) eqn:Em; [discriminate|].
      intros [= <-]. apply Z.eqb_eq in Ev. apply Z.ltb_ge in El, Em.
      split; [left; exact Ev | split; [exact El|]].
      exists min_size. split; [|exact Em].
      destruct (oh_type oh <? array_size Kernel_control.packets); [|discriminate].
      apply array_at_Some_In; exact Ea.
    + destruct (oh_type oh =? OFPT_HELLO) eqn:E1;
        destruct (oh_type oh =? OFPT_ERROR) eqn:E2;
        destruct (oh_type oh =? OFPT_ECHO_REQUEST) eqn:E3;
        destruct (oh_type oh =? OFPT_ECHO_REPLY) eqn:E4;
        destruct (oh_type oh =? OFPT_VENDOR) eqn:E5; cbn [negb andb orb];
        try discriminate;
        (destruct (length <? oh_length oh) eqn:El; [discriminate|];
         destruct (if oh_type oh <? array_size Kernel_control.packets
                   then array_at Kernel_control.packets (oh_type oh) else None)
           as [[min_size h']|] eqn:Ea; [|discriminate];
         destruct (length <? min_size) eqn:Em; [discriminate|];
         intros [= <-]; apply Z.ltb_ge in El, Em;
         split; [right; reflexivity | split; [exact El|]];
         exists min_size; split; [|exact Em];
         destruct (oh_type oh <? array_size Kernel_control.packets); [|discriminate];
         apply array_at_Some_In; exact Ea).
Qed.

End DispatchSafety.

Lemma dispatched_message_is_long_enough_witness :
  oh_version {| oh_version := 0x83; oh_type := 14; oh_length := 72; oh_xid := 7 |}
  = @OFP_VERSION openflow_example
  /\ 72 <= 72
  /\ exists min_size,
       In (14, (min_size, Switch_control.recv_flow))
          (@Switch_control.packets openflow_example)
       /\ min_size <= 72.
Proof.
  apply (proj1 (@dispatched_message_is_long_enough openflow_example
                  {| oh_version := 0x83; oh_type := 14; oh_length := 72; oh_xid := 7 |}
                  72) Switch_control.recv_flow).
  reflexivity.
Defined.

(** ** Flooding and output to the controller in the user-space datapath *)

Section FloodProps.
Variable netdev : Type.
Variable ports : list (Switch_ports.sw_port netdev).
Variables (b : buffer) (in_port : Z).

Lemma flood_loop_pending (port_list : list Z) (prev_port : Z) :
  Forall (fun p => 0 <= p) port_list -> prev_port <> -1 ->
  Switch_ports.flood_loop netdev ports port_list b in_port prev_port
  = map (Switch_ports.Fl_output b true in_port)
        (removelast (prev_port :: flood_targets ports port_list in_port))
    ++ [Switch_ports.Fl_output b false in_port
          (last (prev_port :: flood_targets ports port_list in_port) 0)].
Proof.
  intros Hall. revert prev_port.
  induction Hall as [|p rest Hp Hall IH]; intros prev_port Hprev.
  - cbn. replace (prev_port =? -1) with false
      by (symmetry; apply Z.eqb_neq; exact Hprev).
    reflexivity.
  - cbn [Switch_ports.flood_loop]. unfold flood_targets. cbn [List.filter].
    fold (flood_targets ports rest in_port).
    destruct ((p =? in_port)
              || tst (Switch_ports.sp_flags netdev (Switch_ports.port_at netdev ports p))
                     Switch_ports.BRIDGE_PORT_NO_FLOOD); cbn [negb].
    + apply IH. exact Hprev.
    + replace (prev_port =? -1) with false
        by (symmetry; apply Z.eqb_neq; exact Hprev).
      cbn [negb]. rewrite (IH p ltac:(lia)). reflexivity.
Qed.

(** X16.  flood sends the packet once to every port of the port list other
    than the ingress port and the ports flagged BRIDGE_PORT_NO_FLOOD, in the
    order of the list: a clone to each of them but the last, which gets the
    original; when there is no such port the packet is deleted.  (Port
    numbers are indices into the port array, hence not negative.) *)
Theorem flood_reaches_each_other_port (port_list : list Z) :
  Forall (fun p => 0 <= p) port_list ->
  Switch_ports.flood netdev ports port_list b in_port
  = match flood_targets ports port_list in_port with
    | [] => [Switch_ports.Fl_delete b]
    | targets =>
        map (Switch_ports.Fl_output b true in_port) (removelast targets)
        ++ [Switch_ports.Fl_output b false in_port (last targets 0)]
    end.
Proof.
  unfold Switch_ports.flood. intros Hall.
  induction Hall as [|p rest Hp Hall IH]; [reflexivity|].
  cbn [Switch_ports.flood_loop]. unfold flood_targets. cbn [List.filter].
  fold (flood_targets ports rest in_port).
  destruct ((p =? in_port)
            || tst (Switch_ports.sp_flags netdev (Switch_ports.port_at netdev ports p))
                   Switch_ports.BRIDGE_PORT_NO_FLOOD); cbn [negb].
  - exact IH.
  - cbn [Z.eqb negb app]. apply flood_loop_pending; [exact Hall | lia].
Qed.

End FloodProps.

Section ControllerPort.
Context `{openflow_h} `{openflow_h_ext}.
Variable netdev : Type.
Variable netdev_send : netdev -> buffer -> Z.

(** X17.  A packet that dp_output_port sends to OFPP_CONTROLLER goes to
    dp_output_control with a [max_len] of 0, which that function applies as
    a limit: the PACKET_IN message, of reason ACTION, announces the whole
    length of the packet, and carries none of its bytes when the packet
    could be saved in the buffer cache, all of them when it could not. *)
Theorem controller_port_sends_no_payload (now : Z)
  (ports : list (Switch_ports.sw_port netdev)) (port_list : list Z)
  (c : Switch_buffers.buffer_cache) (b : buffer) (in_port : Z) :
  OFPP_CONTROLLER <> OFPP_FLOOD ->
  exists c' m,
    Switch_ports.dp_output_port netdev netdev_send now ports port_list c b in_port
      OFPP_CONTROLLER
    = Switch_ports.Po_controller netdev c' m
    /\ (c', Switch_dp.pi_buffer_id m)
       = (snd (Switch_buffers.save_buffer now c b),
          fst (Switch_buffers.save_buffer now c b))
    /\ Switch_dp.pi_reason m = u8 OFPR_ACTION
    /\ Switch_dp.pi_in_port m = u16 in_port
    /\ Switch_dp.pi_total_len m = u16 (buf_len (data b))
    /\ Switch_dp.pi_data m
       = if Switch_dp.pi_buffer_id m =? UINT32_MAX then data b else [].
Proof.
  intros Hne. unfold Switch_ports.dp_output_port.
  replace (OFPP_CONTROLLER =? OFPP_FLOOD) with false
    by (symmetry; apply Z.eqb_neq; exact Hne).
  rewrite Z.eqb_refl. unfold Switch_dp.dp_output_control.
  destruct (Switch_buffers.save_buffer now c b) as [buffer_id c'].
  eexists _, _. split; [reflexivity|].
  cbn [Switch_dp.pi_buffer_id Switch_dp.pi_reason Switch_dp.pi_in_port
       Switch_dp.pi_total_len Switch_dp.pi_data fst snd].
  repeat split.
  destruct (buffer_id =? UINT32_MAX); cbn [negb andb]; [reflexivity|].
  destruct (0 <? buf_len (data b)) eqn:E; [reflexivity|].
  apply Z.ltb_ge in E. unfold buf_len in E.
  destruct (data b); [reflexivity | cbn [length] in E; lia].
Qed.

End ControllerPort.

(** *** Flooding and the controller port on concrete inputs *)

Lemma flood_reaches_each_other_port_witness :
  Switch_ports.flood unit example_ports [0; 1; 2; 3] (received example_frame) 1
  = [ Switch_ports.Fl_output (received example_frame) true 1 0;
      Switch_ports.Fl_output (received example_frame) false 1 3 ].
Proof.
  apply (flood_reaches_each_other_port unit example_ports (received example_frame) 1
           [0; 1; 2; 3]).
  repeat constructor; lia.
Defined.

Lemma controller_port_sends_no_payload_witness :
  exists c' m,
    @Switch_ports.dp_output_port openflow_example openflow_ext_example unit
      (fun _ _ => 0) 100 example_ports [0; 1; 2; 3] Switch_buffers.initial_cache
      (received example_long_frame) 1 (@OFPP_CONTROLLER openflow_example)
    = Switch_ports.Po_controller unit c' m
    /\ (c', Switch_dp.pi_buffer_id m)
       = (snd (Switch_buffers.save_buffer 100 Switch_buffers.initial_cache
                 (received example_long_frame)),
          fst (Switch_buffers.save_buffer 100 Switch_buffers.initial_cache
                 (received example_long_frame)))
    /\ Switch_dp.pi_reason m = u8 (@OFPR_ACTION openflow_example)
    /\ Switch_dp.pi_in_port m = u16 1
    /\ Switch_dp.pi_total_len m = u16 (buf_len (data (received example_long_frame)))
    /\ Switch_dp.pi_data m
       = if Switch_dp.pi_buffer_id m =? UINT32_MAX
         then data (received example_long_frame) else [].
Proof.
  apply (@controller_port_sends_no_payload openflow_example openflow_ext_example unit
           (fun _ _ => 0) 100 example_ports [0; 1; 2; 3] Switch_buffers.initial_cache
           (received example_long_frame) 1).
  vm_compute. discriminate.
Defined.

(** ** Packet input and flow modification in the kernel datapath *)

Lemma tst_lor_mask (x a b : Z) : tst x (Z.lor a b) = tst x a || tst x b.
Proof.
  unfold tst. rewrite Z.land_lor_distr_r.
  destruct (Z.land x a =? 0) eqn:Ea; destruct (Z.land x b =? 0) eqn:Eb; cbn;
    rewrite ?negb_true_iff, ?negb_false_iff;
    rewrite ?Z.eqb_eq, ?Z.eqb_neq in *; rewrite Z.lor_eq_0_iff; tauto.
Qed.

Section KernelInput.
Context `{openflow_h} `{openflow_h_ext}.
Variable sk_buff : Type.
Variable skb_bytes : sk_buff -> bytes.
Variable skb_clone : sk_buff -> option sk_buff.
Variable make_writable : sk_buff -> option sk_buff.
Variable execute_setter :
  sk_buff -> Z -> sw_flow_key -> ofp_action -> option sk_buff * sw_flow_key.
Variables (BITS_PER_LONG HZ : Z).
Variable sw_chain : Type.
Variable chain_lookup :
  sw_chain -> sw_flow_key -> option (Kernel_dp.sw_flow * (Kernel_dp.sw_flow -> sw_chain)).
Variable chain_modify :
  sw_chain -> sw_flow_key -> Z -> bool -> list ofp_action -> Z * sw_chain.
Variable flow_used : Kernel_dp.sw_flow -> sk_buff -> Kernel_dp.sw_flow.

Local Abbreviation run_flow :=
  (Kernel_forward.run_flow_through_tables sk_buff skb_bytes skb_clone make_writable
     execute_setter sw_chain chain_lookup flow_used).
Local Abbreviation port_input :=
  (Kernel_forward.fwd_port_input sk_buff skb_bytes skb_clone make_writable
     execute_setter BITS_PER_LONG HZ sw_chain chain_lookup flow_used).

Lemma kernel_flow_extract_retval (bs : bytes) (in_port : Z) :
  fst (Kernel_extract.flow_extract bs in_port)
  = if (dl_type (fst (Kernel_extract.extract_l2 bs in_port)) =? ETH_P_IP)
       && tst (get16 bs (snd (Kernel_extract.extract_l2 bs in_port) + 6))
              (Z.lor IP_MF IP_OFFSET)
    then 1 else 0.
Proof.
  unfold Kernel_extract.flow_extract.
  destruct (Kernel_extract.extract_l2 bs in_port) as [fl nh_ofs]. cbn [fst snd].
  cbv zeta.
  destruct (dl_type fl =? ETH_P_IP); cbn [andb]; [|reflexivity].
  destruct (tst (get16 bs (nh_ofs + 6)) (Z.lor IP_MF IP_OFFSET)); cbn [negb];
    [reflexivity|].
  cbn [nw_proto set_nw_proto].
  destruct (byte_at bs (nh_ofs + 9) =? IPPROTO_TCP);
    [destruct (Kernel_extract.tcphdr_ok bs _); reflexivity|].
  destruct (byte_at bs (nh_ofs + 9) =? IPPROTO_UDP);
    [destruct (Kernel_extract.udphdr_ok bs _); reflexivity|].
  reflexivity.
Qed.

(** X18.  With the fragment handling of the datapath set to OFPC_FRAG_DROP,
    an IPv4 frame with a non-zero fragment offset or the more-fragments bit
    set is freed by run_flow_through_tables before any lookup: the chain is
    not consulted or changed, no action runs, and fwd_port_input sends
    nothing to the controller and leaves the buffer cache alone. *)
Theorem fragment_is_dropped_before_lookup (jiffies dp_flags miss_send_len : Z)
  (chain : sw_chain) (c : Kernel_buffers.buffer_cache sk_buff) (skb : sk_buff)
  (p : option Kernel_forward.net_bridge_port) :
  let in_port := match p with
                 | Some p => Kernel_forward.port_no p
                 | None => OFPP_NONE
                 end in
  let l2 := Kernel_extract.extract_l2 (skb_bytes skb) in_port in
  dl_type (fst l2) = ETH_P_IP ->
  tst (get16 (skb_bytes skb) (snd l2 + 6)) (Z.lor IP_MF IP_OFFSET) = true ->
  Z.land dp_flags OFPC_FRAG_MASK = OFPC_FRAG_DROP ->
  run_flow dp_flags chain skb p
  = (0, chain, [Kernel_actions.Kev_kfree sk_buff skb])
  /\ port_input jiffies dp_flags miss_send_len chain c skb p
     = (chain, c, [Kernel_actions.Kev_kfree sk_buff skb], None).
Proof.
  intros in_port l2 Hip Hfrag Hdrop.
  assert (Hrun : run_flow dp_flags chain skb p
                 = (0, chain, [Kernel_actions.Kev_kfree sk_buff skb])).
  { unfold Kernel_forward.run_flow_through_tables. fold in_port.
    pose proof (kernel_flow_extract_retval (skb_bytes skb) in_port) as Hret.
    fold l2 in Hret. rewrite Hip, Hfrag, Z.eqb_refl in Hret. cbn [andb] in Hret.
    destruct (Kernel_extract.flow_extract (skb_bytes skb) in_port) as [frag key].
    cbn [fst] in Hret. subst frag. rewrite Hdrop, Z.eqb_refl. reflexivity. }
  split; [exact Hrun|].
  unfold Kernel_forward.fwd_port_input. rewrite Hrun. reflexivity.
Qed.

(** X19.  The port filter of run_flow_through_tables.  The first of its two
    tests of the port configuration is implied by the second: a frame is
    refused exactly when the port has OFPPC_NO_RECV set and the frame is not
    addressed to the STP group address, or has OFPPC_NO_RECV_STP set and the
    frame is.  A refused frame that is not dropped as a fragment is freed
    without a lookup, and the function returns 0, so that fwd_port_input
    sends nothing to the controller. *)
Theorem port_filter_drops_refused_frames (jiffies dp_flags miss_send_len : Z)
  (chain : sw_chain) (c : Kernel_buffers.buffer_cache sk_buff) (skb : sk_buff)
  (port : Kernel_forward.net_bridge_port) :
  let key := snd (Kernel_extract.flow_extract (skb_bytes skb)
                    (Kernel_forward.port_no port)) in
  Kernel_forward.port_refuses (Some port) key
  = tst (Kernel_forward.config port)
        (if dl_dst (key_flow key) =? Kernel_forward.stp_eth_addr
         then OFPPC_NO_RECV_STP else OFPPC_NO_RECV)
  /\ (Kernel_forward.port_refuses (Some port) key = true ->
      run_flow dp_flags chain skb (Some port)
      = (0, chain, [Kernel_actions.Kev_kfree sk_buff skb])
      /\ port_input jiffies dp_flags miss_send_len chain c skb (Some port)
         = (chain, c, [Kernel_actions.Kev_kfree sk_buff skb], None)).
Proof.
  intros key. split.
  - unfold Kernel_forward.port_refuses. rewrite tst_lor_mask.
    destruct (dl_dst (key_flow key) =? Kernel_forward.stp_eth_addr); cbn [negb];
      destruct (tst (Kernel_forward.config port) OFPPC_NO_RECV);
      destruct (tst (Kernel_forward.config port) OFPPC_NO_RECV_STP); reflexivity.
  - intros Href.
    assert (Hrun : run_flow dp_flags chain skb (Some port)
                   = (0, chain, [Kernel_actions.Kev_kfree sk_buff skb])).
    { unfold Kernel_forward.run_flow_through_tables. subst key.
      destruct (Kernel_extract.flow_extract (skb_bytes skb)
                  (Kernel_forward.port_no port)) as [frag k].
      cbn [snd] in Href. rewrite Href.
      destruct (negb (frag =? 0) && (Z.land dp_flags OFPC_FRAG_MASK =? OFPC_FRAG_DROP));
        reflexivity. }
    split; [exact Hrun|].
    unfold Kernel_forward.fwd_port_input. rewrite Hrun. reflexivity.
Qed.

End KernelInput.

Section KernelModFlow.
Context `{openflow_h} `{openflow_h_ext}.
Variable sk_buff : Type.
Variable skb_bytes : sk_buff -> bytes.
Variable skb_clone : sk_buff -> option sk_buff.
Variable make_writable : sk_buff -> option sk_buff.
Variable execute_setter :
  sk_buff -> Z -> sw_flow_key -> ofp_action -> option sk_buff * sw_flow_key.
Variable sw_chain : Type.
Variable chain_modify :
  sw_chain -> sw_flow_key -> Z -> bool -> list ofp_action -> Z * sw_chain.

(** X20.  mod_flow never reports success.  Its return value starts as
    -ENOMEM and is only ever changed to -ESRCH, so that a FLOW_MOD(MODIFY)
    returns -ENOMEM also when the chain was modified and the buffered packet,
    if one was named, was found and sent through the new actions.  When the
    action list would loop (see add_flow) the chain is left alone and the
    buffer named by the message is discarded. *)
Theorem mod_flow_never_returns_zero (chain : sw_chain)
  (c : Kernel_buffers.buffer_cache sk_buff) (ofm : ofp_flow_mod) :
  let r := Kernel_forward.mod_flow sk_buff skb_bytes skb_clone make_writable
             execute_setter sw_chain chain_modify chain c ofm in
  let retval := fst (fst (fst r)) in
  let chain' := snd (fst (fst r)) in
  retval <> 0
  /\ (retval = - ESRCH
      <-> existsb (Kernel_dp.loops_back ofm) (ofm_actions ofm) = false
          /\ ofm_buffer_id ofm <> u32 (-1)
          /\ fst (Kernel_buffers.retrieve_skb sk_buff c (ofm_buffer_id ofm)) = None)
  /\ (retval <> - ESRCH -> retval = - ENOMEM)
  /\ (existsb (Kernel_dp.loops_back ofm) (ofm_actions ofm) = true ->
      chain' = chain
      /\ snd (fst r)
         = if negb (ofm_buffer_id ofm =? u32 (-1))
           then Kernel_buffers.discard_skb sk_buff c (ofm_buffer_id ofm) else c)
  /\ (existsb (Kernel_dp.loops_back ofm) (ofm_actions ofm) = false ->
      chain'
      = snd (chain_modify chain (flow_extract_match (ofm_match ofm))
               (if negb (wildcards (flow_extract_match (ofm_match ofm)) =? 0)
                then ofm_priority ofm else u16 (-1))
               (ofm_command ofm =? OFPFC_MODIFY_STRICT) (ofm_actions ofm))).
Proof.
  intros r retval chain'. subst retval chain' r.
  unfold Kernel_forward.mod_flow. cbv zeta.
  destruct (existsb (Kernel_dp.loops_back ofm) (ofm_actions ofm)) eqn:Eloop.
  - cbn [fst snd]. unfold ENOMEM, ESRCH.
    intuition (try lia; try discriminate; try congruence).
  - destruct (chain_modify chain (flow_extract_match (ofm_match ofm)) _ _ _)
      as [n chain1] eqn:Emod.
    destruct (ofm_buffer_id ofm =? u32 (-1)) eqn:Eid; cbn [negb];
      [apply Z.eqb_eq in Eid | apply Z.eqb_neq in Eid].
    + cbn [fst snd]. unfold ENOMEM, ESRCH.
      intuition (try lia; try discriminate; try congruence).
    + destruct (Kernel_buffers.retrieve_skb sk_buff c (ofm_buffer_id ofm))
        as [[skb|] c'] eqn:Er.
      * destruct (Kernel_extract.flow_extract (skb_bytes skb)
                    (m_in_port (ofm_match ofm))) as [frag skb_key].
        cbn [fst snd]. unfold ENOMEM, ESRCH.
        intuition (try lia; try discriminate; try congruence).
      * cbn [fst snd]. unfold ENOMEM, ESRCH.
        intuition (try lia; try discriminate; try congruence).
Qed.

End KernelModFlow.

Section KernelSetConfig.
Context `{openflow_h_ext}.

Lemma land_lnot_same (m : Z) : Z.land (Z.lnot m) m = 0.
Proof.
  apply Z.bits_inj'. intros n Hn.
  rewrite Z.land_spec, Z.lnot_spec, Z.bits_0 by exact Hn.
  destruct (Z.testbit m n); reflexivity.
Qed.

Lemma land_lor_lnot (x e m : Z) :
  Z.land (Z.land x (Z.lor e m)) (Z.lnot m) = Z.land (Z.land x e) (Z.lnot m).
Proof.
  apply Z.bits_inj'. intros n Hn.
  rewrite !Z.land_spec, Z.lor_spec, Z.lnot_spec by exact Hn.
  destruct (Z.testbit x n), (Z.testbit e n), (Z.testbit m n); reflexivity.
Qed.

(** X21.  recv_set_config keeps of the flags of the message only
    SEND_FLOW_EXP and the fragment-handling field, and stores no
    fragment-handling mode other than NORMAL and DROP: the mode stored is
    NORMAL when the field of the message is NORMAL, and DROP for every other
    value of the field, DROP itself included.  Outside the field the flags
    stored are those of the message under the SEND_FLOW_EXP mask, whatever
    the field was; miss_send_len is stored as received.  (The DROP value lies
    within the field.) *)
Theorem set_config_normalises_fragment_mode (osc_flags osc_miss_send_len : Z) :
  Z.land OFPC_FRAG_DROP OFPC_FRAG_MASK = OFPC_FRAG_DROP ->
  let flags := fst (Kernel_forward.recv_set_config osc_flags osc_miss_send_len) in
  Z.land flags OFPC_FRAG_MASK
  = (if Z.land osc_flags OFPC_FRAG_MASK =? OFPC_FRAG_NORMAL
     then OFPC_FRAG_NORMAL else OFPC_FRAG_DROP)
  /\ Z.land flags (Z.lnot OFPC_FRAG_MASK)
     = Z.land (Z.land osc_flags OFPC_SEND_FLOW_EXP) (Z.lnot OFPC_FRAG_MASK)
  /\ (Z.land osc_flags OFPC_FRAG_MASK = OFPC_FRAG_NORMAL
      \/ Z.land osc_flags OFPC_FRAG_MASK = OFPC_FRAG_DROP ->
      flags = Z.land osc_flags (Z.lor OFPC_SEND_FLOW_EXP OFPC_FRAG_MASK))
  /\ (Z.land osc_flags OFPC_FRAG_MASK <> OFPC_FRAG_NORMAL ->
      Z.land osc_flags OFPC_FRAG_MASK <> OFPC_FRAG_DROP ->
      flags
      = Z.lor (Z.land (Z.land osc_flags (Z.lor OFPC_SEND_FLOW_EXP OFPC_FRAG_MASK))
                      (Z.lnot OFPC_FRAG_MASK))
              OFPC_FRAG_DROP)
  /\ snd (Kernel_forward.recv_set_config osc_flags osc_miss_send_len)
     = osc_miss_send_len.
Proof.
  intros Hdrop flags. subst flags. unfold Kernel_forward.recv_set_config. cbv zeta.
  set (f := Z.land osc_flags (Z.lor OFPC_SEND_FLOW_EXP OFPC_FRAG_MASK)).
  assert (Hf : Z.land f OFPC_FRAG_MASK = Z.land osc_flags OFPC_FRAG_MASK).
  { unfold f. rewrite <- Z.land_assoc. f_equal.
    rewrite Z.land_lor_distr_l, Z.land_diag.
    apply Z.bits_inj'. intros n Hn.
    rewrite Z.lor_spec, Z.land_spec.
    destruct (Z.testbit OFPC_SEND_FLOW_EXP n), (Z.testbit OFPC_FRAG_MASK n);
      reflexivity. }
  assert (Hout : Z.land f (Z.lnot OFPC_FRAG_MASK)
                 = Z.land (Z.land osc_flags OFPC_SEND_FLOW_EXP)
                     (Z.lnot OFPC_FRAG_MASK))
    by (unfold f; apply land_lor_lnot).
  cbn [fst snd]. rewrite Hf.
  destruct (Z.land osc_flags OFPC_FRAG_MASK =? OFPC_FRAG_NORMAL) eqn:En;
    [apply Z.eqb_eq in En | apply Z.eqb_neq in En]; cbn [negb andb].
  - rewrite Hf.
    split; [exact En|]. split; [exact Hout|].
    split; [intros _; reflexivity|]. split; [intros Hc; contradiction|reflexivity].
  - destruct (Z.land osc_flags OFPC_FRAG_MASK =? OFPC_FRAG_DROP) eqn:Ed;
      [apply Z.eqb_eq in Ed | apply Z.eqb_neq in Ed]; cbn [negb].
    + rewrite Hf.
      split; [exact Ed|]. split; [exact Hout|].
      split; [intros _; reflexivity|].
      split; [intros _ Hc; contradiction|reflexivity].
    + split; [|split; [|split; [|split; [|reflexivity]]]].
      * rewrite Z.land_lor_distr_l, Hdrop.
        rewrite <- Z.land_assoc, land_lnot_same.
        rewrite Z.land_0_r. apply Z.lor_0_l.
      * rewrite Z.land_lor_distr_l, <- Z.land_assoc, Z.land_diag.
        rewrite Hout.
        replace (Z.land OFPC_FRAG_DROP (Z.lnot OFPC_FRAG_MASK)) with 0.
        -- apply Z.lor_0_r.
        -- rewrite <- Hdrop, <- Z.land_assoc, (Z.land_comm OFPC_FRAG_MASK).
           rewrite land_lnot_same. symmetry. apply Z.land_0_r.
      * intros [E|E]; contradiction.
      * intros _ _. reflexivity.
Qed.

End KernelSetConfig.

(** *** The kernel input path on concrete inputs: frames are byte lists,
        the chain finds nothing and modifies nothing, and the calls into the
        kernel succeed *)

Lemma fragment_is_dropped_before_lookup_witness :
  @Kernel_forward.run_flow_through_tables openflow_example openflow_ext_example
    bytes (fun s => s) (fun s => Some s) (fun s => Some s)
    (fun s _ k _ => (Some s, k)) unit (fun _ _ => None) (fun f _ => f)
    2 tt example_fragment_frame
    (Some {| Kernel_forward.port_no := 1; Kernel_forward.config := 0 |})
  = (0, tt, [Kernel_actions.Kev_kfree bytes example_fragment_frame])
  /\ @Kernel_forward.fwd_port_input openflow_example openflow_ext_example
       bytes (fun s => s) (fun s => Some s) (fun s => Some s)
       (fun s _ k _ => (Some s, k)) 64 100 unit (fun _ _ => None) (fun f _ => f)
       1000 2 128 tt (Kernel_buffers.initial_cache bytes) example_fragment_frame
       (Some {| Kernel_forward.port_no := 1; Kernel_forward.config := 0 |})
     = (tt, Kernel_buffers.initial_cache bytes,
        [Kernel_actions.Kev_kfree bytes example_fragment_frame], None).
Proof.
  apply (@fragment_is_dropped_before_lookup openflow_example openflow_ext_example
           bytes (fun s => s) (fun s => Some s) (fun s => Some s)
           (fun s _ k _ => (Some s, k)) 64 100 unit (fun _ _ => None) (fun f _ => f)
           1000 2 128 tt (Kernel_buffers.initial_cache bytes) example_fragment_frame
           (Some {| Kernel_forward.port_no := 1; Kernel_forward.config := 0 |}));
    reflexivity.
Defined.

Lemma port_filter_drops_refused_frames_witness :
  @Kernel_forward.run_flow_through_tables openflow_example openflow_ext_example
    bytes (fun s => s) (fun s => Some s) (fun s => Some s)
    (fun s _ k _ => (Some s, k)) unit (fun _ _ => None) (fun f _ => f)
    0 tt example_udp_frame
    (Some {| Kernel_forward.port_no := 1; Kernel_forward.config := 4 |})
  = (0, tt, [Kernel_actions.Kev_kfree bytes example_udp_frame])
  /\ @Kernel_forward.fwd_port_input openflow_example openflow_ext_example
       bytes (fun s => s) (fun s => Some s) (fun s => Some s)
       (fun s _ k _ => (Some s, k)) 64 100 unit (fun _ _ => None) (fun f _ => f)
       1000 0 128 tt (Kernel_buffers.initial_cache bytes) example_udp_frame
       (Some {| Kernel_forward.port_no := 1; Kernel_forward.config := 4 |})
     = (tt, Kernel_buffers.initial_cache bytes,
        [Kernel_actions.Kev_kfree bytes example_udp_frame], None).
Proof.
  apply (proj2 (@port_filter_drops_refused_frames openflow_example
                  openflow_ext_example
                  bytes (fun s => s) (fun s => Some s) (fun s => Some s)
                  (fun s _ k _ => (Some s, k)) 64 100 unit (fun _ _ => None)
                  (fun f _ => f)
                  1000 0 128 tt (Kernel_buffers.initial_cache bytes) example_udp_frame
                  {| Kernel_forward.port_no := 1; Kernel_forward.config := 4 |})).
  reflexivity.
Defined.

Lemma mod_flow_never_returns_zero_witness :
  fst (fst (fst (@Kernel_forward.mod_flow openflow_example openflow_ext_example
                   bytes (fun s => s) (fun s => Some s) (fun s => Some s)
                   (fun s _ k _ => (Some s, k)) unit (fun ch _ _ _ _ => (1, ch))
                   tt (Kernel_buffers.initial_cache bytes) example_modify)))
  = - ENOMEM.
Proof.
  apply (proj1 (proj2 (proj2 (@mod_flow_never_returns_zero openflow_example
                                openflow_ext_example
                                bytes (fun s => s) (fun s => Some s) (fun s => Some s)
                                (fun s _ k _ => (Some s, k)) unit
                                (fun ch _ _ _ _ => (1, ch))
                                tt (Kernel_buffers.initial_cache bytes)
                                example_modify)))).
  vm_compute. discriminate.
Defined.

Lemma set_config_normalises_fragment_mode_witness :
  Z.land (fst (@Kernel_forward.recv_set_config openflow_ext_example 0xfffd 128))
    (@OFPC_FRAG_MASK openflow_ext_example)
  = @OFPC_FRAG_DROP openflow_ext_example
  /\ Z.land (fst (@Kernel_forward.recv_set_config openflow_ext_example 0xfffd 128))
       (Z.lnot (@OFPC_FRAG_MASK openflow_ext_example))
     = @OFPC_SEND_FLOW_EXP openflow_ext_example.
Proof.
  pose proof (@set_config_normalises_fragment_mode openflow_ext_example
                0xfffd 128 eq_refl) as Hx.
  cbv zeta in Hx. destruct Hx as (Hmode & Hout & _).
  split; [exact Hmode|exact Hout].
Defined.

(** ** The chained checksum update of a 32-bit field *)

(** recalc_csum16 takes its arguments as 16-bit words: of a wider value it
    uses the low 16 bits. *)
Lemma recalc_csum16_low (hc x y : Z) :
  recalc_csum16 hc x y = recalc_csum16 hc (x mod 2^16) (y mod 2^16).
Proof.
  unfold recalc_csum16, not16, u16. cbv zeta.
  rewrite !Z.mod_mod by lia. reflexivity.
Qed.

Lemma nth_insert_ne (ws : list Z) (i j : nat) (v : Z) :
  i <> j -> nth j (<[i := v]> ws) 0 = nth j ws 0.
Proof.
  intros Hij. rewrite !nth_lookup, list_lookup_insert_ne by exact Hij. reflexivity.
Qed.

(** X22.  The incremental update against recomputation, for a list of 16-bit
    words (the checksummed data, the checksum field taken as zero) that is
    not all zero after the change.  recalc_csum16, for one word rewritten,
    yields the recomputed checksum exactly when [~HC + ~m + m'] is not
    0x1ffff.  recalc_csum32, for a 32-bit field whose low half is word [i]
    and whose high half is word [j], yields the checksum recomputed over the
    list with both words rewritten, provided that neither of its two chained
    16-bit steps meets the sum 0x1ffff. *)
Theorem chained_update_agrees_off_the_slip :
  (forall (ws : list Z) (i : nat) (m' : Z),
     Forall is_word ws -> (i < length ws)%nat -> is_word m' ->
     0 < word_sum (<[i := m']> ws) ->
     (recalc_csum16 (recompute_csum ws) (nth i ws 0) m'
      = recompute_csum (<[i := m']> ws)
      <-> not16 (recompute_csum ws) + not16 (nth i ws 0) + m' <> 0x1ffff))
  /\ (forall (ws : list Z) (i j : nat) (new : Z),
        Forall is_word ws -> (i < length ws)%nat -> (j < length ws)%nat ->
        i <> j -> 0 <= new < 2^32 ->
        let old := nth j ws 0 * 2^16 + nth i ws 0 in
        let ws1 := <[i := new mod 2^16]> ws in
        let ws2 := <[j := new / 2^16]> ws1 in
        0 < word_sum ws1 -> 0 < word_sum ws2 ->
        not16 (recompute_csum ws) + not16 (nth i ws 0) + new mod 2^16 <> 0x1ffff ->
        not16 (recompute_csum ws1) + not16 (nth j ws 0) + new / 2^16 <> 0x1ffff ->
        recalc_csum32 (recompute_csum ws) old new = recompute_csum ws2).
Proof.
  split.
  - intros ws i m' Hws Hi Hm Hpos. apply recalc_csum16_agrees_iff; assumption.
  - intros ws i j new Hws Hi Hj Hij Hnew old ws1 ws2 Hp1 Hp2 Hs1 Hs2.
    pose proof (Forall_is_word_nth ws i Hws) as Hwi.
    pose proof (Forall_is_word_nth ws j Hws) as Hwj.
    unfold is_word in Hwi, Hwj.
    assert (Hlo : is_word (new mod 2^16)).
    { unfold is_word. pose proof (Z.mod_pos_bound new (2^16) ltac:(lia)). lia. }
    assert (Hhi : is_word (new / 2^16)).
    { unfold is_word. split.
      - apply Z.div_pos; lia.
      - assert (new / 2^16 < 2^16); [|lia].
        apply Z.div_lt_upper_bound; lia. }
    unfold recalc_csum32.
    rewrite !Z.shiftr_div_pow2 by lia.
    rewrite (recalc_csum16_low _ old new).
    assert (Holo : old mod 2^16 = nth i ws 0).
    { unfold old. rewrite Z.add_comm, Z.mod_add by lia.
      apply Z.mod_small. lia. }
    assert (Hohi : old / 2^16 = nth j ws 0).
    { unfold old. rewrite Z.add_comm, Z.div_add by lia.
      rewrite Z.div_small by lia. lia. }
    rewrite Holo, Hohi.
    rewrite (proj2 (recalc_csum16_agrees_iff ws i (new mod 2^16) Hws Hi Hlo Hp1) Hs1).
    fold ws1.
    rewrite <- (nth_insert_ne ws i j (new mod 2^16) Hij). fold ws1.
    apply (proj2 (recalc_csum16_agrees_iff ws1 j (new / 2^16)
                    (Forall_is_word_insert ws i _ Hws Hlo)
                    ltac:(unfold ws1; rewrite length_insert; exact Hj) Hhi Hp2)).
    unfold ws1 at 2. rewrite nth_insert_ne by exact Hij. exact Hs2.
Qed.

Lemma chained_update_agrees_off_the_slip_witness :
  recalc_csum32 (recompute_csum [0x0a00; 0x0001; 0x1234]) 0x0a000001 0x0a000002
  = recompute_csum [0x0a00; 0x0002; 0x1234].
Proof.
  apply (proj2 chained_update_agrees_off_the_slip [0x0a00; 0x0001; 0x1234]
           1%nat 0%nat 0x0a000002).
  - repeat constructor; unfold is_word; lia.
  - simpl; lia.
  - simpl; lia.
  - discriminate.
  - lia.
  - vm_compute; reflexivity.
  - vm_compute; reflexivity.
  - vm_compute; discriminate.
  - vm_compute; discriminate.
Defined.

(** ** Rewrite actions of the user-space datapath: lengths and cursors *)

Lemma length_put8 (bs : bytes) (off v : Z) : length (put8 bs off v) = length bs.
Proof. unfold put8. destruct (off <? 0); [reflexivity|apply length_insert]. Qed.

Lemma length_put16 (bs : bytes) (off v : Z) : length (put16 bs off v) = length bs.
Proof. unfold put16. rewrite !length_put8. reflexivity. Qed.

Lemma length_put32 (bs : bytes) (off v : Z) : length (put32 bs off v) = length bs.
Proof. unfold put32. rewrite !length_put16. reflexivity. Qed.

Lemma length_put48 (bs : bytes) (off v : Z) : length (put48 bs off v) = length bs.
Proof. unfold put48. rewrite length_put32, length_put16. reflexivity. Qed.

Lemma length_write_bytes (src : bytes) :
  forall (bs : bytes) (off : Z), length (write_bytes bs off src) = length bs.
Proof.
  induction src as [|x r IH]; intros bs off; simpl; [reflexivity|].
  rewrite IH, length_put8. reflexivity.
Qed.

Lemma shift_cursor_0 (c : option Z) : shift_cursor c 0 = c.
Proof. destruct c as [o|]; simpl; [f_equal; lia|reflexivity]. Qed.

(** A frame whose EtherType field at a non-negative offset reads 0x8100 has
    at least 13 bytes. *)
Lemma tagged_frame_length (d : bytes) (o : Z) :
  0 <= o -> get16 d (o + 12) = ETH_P_8021Q -> (13 <= length d)%nat.
Proof.
  intros Ho Hg. unfold get16, byte_at in Hg.
  destruct (o + 12 <? 0) eqn:E1; [apply Z.ltb_lt in E1; lia|].
  destruct (o + 12 + 1 <? 0) eqn:E2; [apply Z.ltb_lt in E2; lia|].
  destruct (Nat.lt_ge_cases 12 (length d)) as [Hlt|Hge]; [lia|].
  rewrite !nth_overflow in Hg by lia. discriminate.
Qed.

Section SetterLength.
Context `{openflow_h}.
Variable host_le : bool.

Ltac same_shape :=
  cbn [data l2 l3 l4 with_data];
  rewrite ?length_put48, ?length_put32, ?length_put16, ?length_put8;
  repeat split; try reflexivity; assumption.

Lemma modify_nh_shape (b b' : buffer) (eth_proto nw_proto : Z) (a : ofp_action) :
  Switch_actions.modify_nh host_le b eth_proto nw_proto a = Some b' ->
  length (data b') = length (data b) /\ l2 b' = l2 b /\ l3 b' = l3 b /\ l4 b' = l4 b.
Proof.
  unfold Switch_actions.modify_nh.
  destruct (eth_proto =? ETH_P_IP); [|intros [= <-]; repeat split; reflexivity].
  destruct (l3 b) as [nh|] eqn:El3; [|discriminate].
  destruct (nw_proto =? IPPROTO_TCP).
  { destruct (l4 b) as [th|] eqn:El4; [|discriminate]. intros [= <-]. same_shape. }
  destruct (nw_proto =? IPPROTO_UDP).
  { destruct (l4 b) as [th|] eqn:El4; [|discriminate].
    destruct (negb _); intros [= <-]; same_shape. }
  intros [= <-]. same_shape.
Qed.

Lemma modify_th_shape (b b' : buffer) (eth_proto nw_proto : Z) (a : ofp_action) :
  Switch_actions.modify_th host_le b eth_proto nw_proto a = Some b' ->
  length (data b') = length (data b) /\ l2 b' = l2 b /\ l3 b' = l3 b /\ l4 b' = l4 b.
Proof.
  unfold Switch_actions.modify_th.
  destruct (eth_proto =? ETH_P_IP); [|intros [= <-]; repeat split; reflexivity].
  destruct (nw_proto =? IPPROTO_TCP).
  { destruct (l4 b) as [th|] eqn:El4; [|discriminate]. intros [= <-]. same_shape. }
  destruct (nw_proto =? IPPROTO_UDP).
  { destruct (l4 b) as [th|] eqn:El4; [|discriminate]. intros [= <-]. same_shape. }
  intros [= <-]. repeat split; reflexivity.
Qed.

(** X23.  A rewrite action that execute_actions of the user-space datapath
    carries out changes the length of the packet only if it is SET_DL_VLAN.
    The actions SET_DL_SRC, SET_DL_DST, SET_NW_SRC, SET_NW_DST, SET_TP_SRC
    and SET_TP_DST leave the number of bytes and the three layer cursors as
    they were.  SET_DL_VLAN, on a packet whose l2 cursor is set, grows the
    packet by the four bytes of a tag when the action's VLAN id is not
    OFP_VLAN_NONE and the key says the frame is untagged, shortens it by four
    when the id is OFP_VLAN_NONE and the frame's EtherType is 0x8100, and
    keeps its length otherwise; the cursors l3 and l4, as offsets from the
    first byte in use, move by the same amount and l2 stays. *)
Theorem rewrite_keeps_length_except_vlan (b b' : buffer) (key : sw_flow_key)
  (eth_proto : Z) (a : ofp_action) :
  Switch_actions.apply_setter host_le b key eth_proto a = Some b' ->
  (a_type a <> OFPAT_SET_DL_VLAN ->
   length (data b') = length (data b)
   /\ l2 b' = l2 b /\ l3 b' = l3 b /\ l4 b' = l4 b)
  /\ (a_type a = OFPAT_SET_DL_VLAN ->
      forall o, l2 b = Some o -> 0 <= o ->
      let push := negb (raw16 host_le (vlan_id a) =? OFP_VLAN_NONE)
                  && (dl_vlan (key_flow key) =? OFP_VLAN_NONE) in
      let strip := (raw16 host_le (vlan_id a) =? OFP_VLAN_NONE)
                   && (get16 (data b) (o + 12) =? ETH_P_8021Q) in
      let delta := if push then 4 else if strip then -4 else 0 in
      Z.of_nat (length (data b')) = Z.of_nat (length (data b)) + delta
      /\ l2 b' = l2 b
      /\ l3 b' = shift_cursor (l3 b) delta
      /\ l4 b' = shift_cursor (l4 b) delta).
Proof.
  intros Hs. unfold Switch_actions.apply_setter in Hs. split.
  - intros Hne. apply Z.eqb_neq in Hne. rewrite Hne in Hs.
    destruct (a_type a =? OFPAT_SET_DL_SRC).
    { destruct (l2 b) as [eh|] eqn:El2; [|discriminate].
      injection Hs as <-. cbn [data l2 l3 l4 with_data].
      rewrite length_put48. repeat split; exact El2 || reflexivity. }
    destruct (a_type a =? OFPAT_SET_DL_DST).
    { destruct (l2 b) as [eh|] eqn:El2; [|discriminate].
      injection Hs as <-. cbn [data l2 l3 l4 with_data].
      rewrite length_put48. repeat split; exact El2 || reflexivity. }
    destruct (_ || _); [exact (modify_nh_shape _ _ _ _ _ Hs)|].
    destruct (_ || _); [exact (modify_th_shape _ _ _ _ _ Hs)|].
    discriminate.
  - intros Hv o Hl2 Ho. apply Z.eqb_eq in Hv. rewrite Hv in Hs.
    unfold Switch_actions.modify_vlan in Hs. rewrite Hl2 in Hs. cbv zeta in Hs.
    cbv zeta.
    destruct (raw16 host_le (vlan_id a) =? OFP_VLAN_NONE) eqn:Enew;
      cbn [negb andb] in *.
    + destruct (get16 (data b) (o + 12) =? ETH_P_8021Q) eqn:Etag.
      * apply Z.eqb_eq in Etag. pose proof (tagged_frame_length _ _ Ho Etag) as Hlen.
        injection Hs as <-. cbn [data l2 l3 l4].
        rewrite ?length_write_bytes, ?length_put8, length_skipn.
        repeat split; try reflexivity; try (symmetry; exact Hl2). lia.
      * injection Hs as <-. rewrite !shift_cursor_0.
        repeat split; try reflexivity. lia.
    + destruct (dl_vlan (key_flow key) =? OFP_VLAN_NONE) eqn:Ekey; cbn [negb] in *.
      * injection Hs as <-. cbn [data l2 l3 l4].
        rewrite ?length_write_bytes, ?length_put8; cbn [length repeat app].
        repeat split; try reflexivity; try (symmetry; exact Hl2). lia.
      * injection Hs as <-. cbn [data l2 l3 l4 with_data].
        rewrite length_put16, !shift_cursor_0.
        repeat split; try reflexivity. lia.
Qed.

End SetterLength.

(** ** Pushing and stripping a VLAN tag *)

Lemma u8_byte (x : Z) : is_byte x -> u8 x = x.
Proof. unfold is_byte, u8. intros Hx. apply Z.mod_small. lia. Qed.

Lemma u8_u8 (x : Z) : u8 (u8 x) = u8 x.
Proof. unfold u8. apply Z.mod_mod. lia. Qed.

(** The bytes of a 16-bit and of a 48-bit field read off the wire, taken
    apart again. *)
Lemma be16_bytes (b0 b1 : Z) :
  is_byte b0 -> is_byte b1 ->
  u8 ((b0 * 2^8 + b1) ≫ 8) = b0 /\ u8 (b0 * 2^8 + b1) = b1.
Proof.
  unfold is_byte, u8. intros H0 H1.
  rewrite Z.shiftr_div_pow2 by lia.
  change (2^8) with 256. split.
  - rewrite Z.div_add_l by lia. rewrite (Z.div_small b1) by lia.
    rewrite Z.add_0_r. apply Z.mod_small. lia.
  - rewrite Z.add_comm, Z.mod_add by lia. apply Z.mod_small. lia.
Qed.

Lemma be48_bytes (b0 b1 b2 b3 b4 b5 : Z) :
  is_byte b0 -> is_byte b1 -> is_byte b2 -> is_byte b3 -> is_byte b4 -> is_byte b5 ->
  let v := (b0 * 2^8 + b1) * 2^32 + ((b2 * 2^8 + b3) * 2^16 + (b4 * 2^8 + b5)) in
  u8 ((v ≫ 32) ≫ 8) = b0 /\ u8 (v ≫ 32) = b1
  /\ u8 ((v ≫ 16) ≫ 8) = b2 /\ u8 (v ≫ 16) = b3
  /\ u8 (v ≫ 8) = b4 /\ u8 v = b5.
Proof.
  intros H0 H1 H2 H3 H4 H5 v. unfold is_byte in *. unfold u8.
  rewrite !Z.shiftr_div_pow2 by lia. unfold v.
  change (2^8) with 256. change (2^16) with 65536. change (2^32) with 4294967296.
  repeat split; Z.div_mod_to_equations; lia.
Qed.

(** The 18 bytes that modify_vlan builds for a tag push, written over the
    frame grown by four bytes at its head; and the 14 bytes it builds for a
    strip, written over the frame shortened by four. *)
Lemma vlan_push_bytes (a0 a1 a2 a3 a4 a5 a6 a7 a8 a9 a10 a11 a12 a13 T C : Z)
  (d : bytes) :
  Forall is_byte [a0; a1; a2; a3; a4; a5; a6; a7; a8; a9; a10; a11; a12; a13] ->
  let L := a0 :: a1 :: a2 :: a3 :: a4 :: a5 :: a6 :: a7 :: a8 :: a9 :: a10
           :: a11 :: a12 :: a13 :: d in
  write_bytes (repeat 0 4 ++ L) 0
    (put16 (put16 (put16 (put48 (put48 (repeat 0 18) 0 (get48 L 0))
                                6 (get48 L (0 + 6)))
                         12 T)
                  14 C)
           16 (get16 L (0 + 12)))
  = a0 :: a1 :: a2 :: a3 :: a4 :: a5 :: a6 :: a7 :: a8 :: a9 :: a10 :: a11
    :: u8 (T ≫ 8) :: u8 T :: u8 (C ≫ 8) :: u8 C :: a12 :: a13 :: d.
Proof.
  intros Hb L.
  repeat match goal with
         | Hf : Forall _ (_ :: _) |- _ =>
             pose proof (Forall_inv Hf); apply Forall_inv_tail in Hf
         end.
  assert (FA : let v := get48 L 0 in
               u8 ((v ≫ 32) ≫ 8) = a0 /\ u8 (v ≫ 32) = a1
               /\ u8 ((v ≫ 16) ≫ 8) = a2 /\ u8 (v ≫ 16) = a3
               /\ u8 (v ≫ 8) = a4 /\ u8 v = a5)
    by (exact (be48_bytes a0 a1 a2 a3 a4 a5 ltac:(assumption) ltac:(assumption)
                 ltac:(assumption) ltac:(assumption) ltac:(assumption)
                 ltac:(assumption))).
  assert (FB : let v := get48 L (0 + 6) in
               u8 ((v ≫ 32) ≫ 8) = a6 /\ u8 (v ≫ 32) = a7
               /\ u8 ((v ≫ 16) ≫ 8) = a8 /\ u8 (v ≫ 16) = a9
               /\ u8 (v ≫ 8) = a10 /\ u8 v = a11)
    by (exact (be48_bytes a6 a7 a8 a9 a10 a11 ltac:(assumption) ltac:(assumption)
                 ltac:(assumption) ltac:(assumption) ltac:(assumption)
                 ltac:(assumption))).
  assert (FE : let v := get16 L (0 + 12) in u8 (v ≫ 8) = a12 /\ u8 v = a13)
    by (exact (be16_bytes a12 a13 ltac:(assumption) ltac:(assumption))).
  cbv zeta in FA, FB, FE.
  destruct FA as (FA0 & FA1 & FA2 & FA3 & FA4 & FA5).
  destruct FB as (FB0 & FB1 & FB2 & FB3 & FB4 & FB5).
  destruct FE as (FE0 & FE1).
  remember (get48 L 0) as A eqn:HA.
  remember (get48 L (0 + 6)) as B eqn:HB.
  remember (get16 L (0 + 12)) as E eqn:HE.
  clear HA HB HE. unfold L.
  cbv -[Z.shiftr u8].
  rewrite !u8_u8.
  rewrite FA0, FA1, FA2, FA3, FA4, FA5, FB0, FB1, FB2, FB3, FB4, FB5, FE0, FE1.
  reflexivity.
Qed.

Lemma vlan_strip_bytes (a0 a1 a2 a3 a4 a5 a6 a7 a8 a9 a10 a11 a12 a13 t0 t1 c0 c1 : Z)
  (d : bytes) :
  Forall is_byte [a0; a1; a2; a3; a4; a5; a6; a7; a8; a9; a10; a11; a12; a13] ->
  let L := a0 :: a1 :: a2 :: a3 :: a4 :: a5 :: a6 :: a7 :: a8 :: a9 :: a10
           :: a11 :: t0 :: t1 :: c0 :: c1 :: a12 :: a13 :: d in
  write_bytes (skipn 4 L) 0
    (put16 (put48 (put48 (repeat 0 14) 0 (get48 L 0)) 6 (get48 L (0 + 6)))
           12 (get16 L (0 + 16)))
  = a0 :: a1 :: a2 :: a3 :: a4 :: a5 :: a6 :: a7 :: a8 :: a9 :: a10 :: a11
    :: a12 :: a13 :: d.
Proof.
  intros Hb L.
  repeat match goal with
         | Hf : Forall _ (_ :: _) |- _ =>
             pose proof (Forall_inv Hf); apply Forall_inv_tail in Hf
         end.
  assert (FA : let v := get48 L 0 in
               u8 ((v ≫ 32) ≫ 8) = a0 /\ u8 (v ≫ 32) = a1
               /\ u8 ((v ≫ 16) ≫ 8) = a2 /\ u8 (v ≫ 16) = a3
               /\ u8 (v ≫ 8) = a4 /\ u8 v = a5)
    by (exact (be48_bytes a0 a1 a2 a3 a4 a5 ltac:(assumption) ltac:(assumption)
                 ltac:(assumption) ltac:(assumption) ltac:(assumption)
                 ltac:(assumption))).
  assert (FB : let v := get48 L (0 + 6) in
               u8 ((v ≫ 32) ≫ 8) = a6 /\ u8 (v ≫ 32) = a7
               /\ u8 ((v ≫ 16) ≫ 8) = a8 /\ u8 (v ≫ 16) = a9
               /\ u8 (v ≫ 8) = a10 /\ u8 v = a11)
    by (exact (be48_bytes a6 a7 a8 a9 a10 a11 ltac:(assumption) ltac:(assumption)
                 ltac:(assumption) ltac:(assumption) ltac:(assumption)
                 ltac:(assumption))).
  assert (FE : let v := get16 L (0 + 16) in u8 (v ≫ 8) = a12 /\ u8 v = a13)
    by (exact (be16_bytes a12 a13 ltac:(assumption) ltac:(assumption))).
  cbv zeta in FA, FB, FE.
  destruct FA as (FA0 & FA1 & FA2 & FA3 & FA4 & FA5).
  destruct FB as (FB0 & FB1 & FB2 & FB3 & FB4 & FB5).
  destruct FE as (FE0 & FE1).
  remember (get48 L 0) as A eqn:HA.
  remember (get48 L (0 + 6)) as B eqn:HB.
  remember (get16 L (0 + 16)) as E eqn:HE.
  clear HA HB HE. unfold L.
  cbv -[Z.shiftr u8].
  rewrite !u8_u8.
  rewrite FA0, FA1, FA2, FA3, FA4, FA5, FB0, FB1, FB2, FB3, FB4, FB5, FE0, FE1.
  reflexivity.
Qed.

Lemma shift_cursor_back (c : option Z) (n : Z) :
  shift_cursor (shift_cursor c n) (- n) = c.
Proof. destruct c as [o|]; simpl; [f_equal; lia|reflexivity]. Qed.

Section VlanRoundTrip.
Context `{openflow_h}.
Variable host_le : bool.

(** X24.  modify_vlan, push then strip.  On a frame of at least 14 bytes
    whose l2 cursor is at its first byte and which the key says is untagged,
    SET_DL_VLAN with an id other than OFP_VLAN_NONE yields a frame that reads
    0x8100 at offset 12 and the original EtherType at offset 16, followed by
    the original bytes from offset 14 on; SET_DL_VLAN with OFP_VLAN_NONE
    applied to that frame gives back the original packet, bytes and cursors. *)
Theorem vlan_push_then_strip_restores_frame (b : buffer) (key key' : sw_flow_key)
  (a_push a_strip : ofp_action) :
  l2 b = Some 0 -> (14 <= length (data b))%nat -> Forall is_byte (data b) ->
  raw16 host_le (vlan_id a_push) <> OFP_VLAN_NONE ->
  dl_vlan (key_flow key) = OFP_VLAN_NONE ->
  raw16 host_le (vlan_id a_strip) = OFP_VLAN_NONE ->
  exists b1,
    Switch_actions.modify_vlan host_le b key a_push = Some b1
    /\ get16 (data b1) 12 = ETH_P_8021Q
    /\ get16 (data b1) 16 = get16 (data b) 12
    /\ drop 18 (data b1) = drop 14 (data b)
    /\ Switch_actions.modify_vlan host_le b1 key' a_strip = Some b.
Proof.
  intros Hl2 Hlen Hbytes Hpush Hkey Hstrip.
  destruct b as [d c2 c3 c4]. cbn [data l2] in *. subst c2.
  do 14 (destruct d as [|? d]; [simpl in Hlen; lia|]).
  clear Hlen.
  match type of Hbytes with
  | Forall _ (?a0 :: ?a1 :: ?a2 :: ?a3 :: ?a4 :: ?a5 :: ?a6 :: ?a7 :: ?a8 :: ?a9
              :: ?a10 :: ?a11 :: ?a12 :: ?a13 :: _) =>
      assert (Hhead : Forall is_byte [a0; a1; a2; a3; a4; a5; a6; a7; a8; a9;
                                      a10; a11; a12; a13])
  end.
  { repeat match goal with
           | Hf : Forall _ (_ :: _) |- _ =>
               pose proof (Forall_inv Hf); apply Forall_inv_tail in Hf
           end.
    repeat (apply List.Forall_cons; [assumption|]). apply List.Forall_nil. }
  clear Hbytes.
  apply Z.eqb_neq in Hpush. apply Z.eqb_eq in Hkey. apply Z.eqb_eq in Hstrip.
  unfold Switch_actions.modify_vlan at 1. cbn [l2 data l3 l4].
  rewrite Hpush, Hkey. cbn [negb].
  eexists. split; [reflexivity|].
  cbn [data].
  rewrite (vlan_push_bytes _ _ _ _ _ _ _ _ _ _ _ _ _ _ ETH_P_8021Q
             (raw16 host_le (raw16 host_le (vlan_id a_push))) d Hhead).
  split; [reflexivity|]. split; [reflexivity|]. split; [reflexivity|].
  unfold Switch_actions.modify_vlan. cbn [l2 data l3 l4].
  rewrite Hstrip. cbn [negb].
  replace (get16 _ (0 + 12) =? ETH_P_8021Q) with true by reflexivity.
  rewrite !shift_cursor_back.
  f_equal. f_equal.
  apply (vlan_strip_bytes _ _ _ _ _ _ _ _ _ _ _ _ _ _ _ _ _ _ d Hhead).
Qed.
End VlanRoundTrip.

(** ** The two header parsers side by side *)

Section ParsersAgree.
Context `{openflow_h}.
Variable host_le : bool.

Ltac lib_l3_agrees Hip Eip :=
  let Hnh := fresh "Hnh" in
  let Hfrag := fresh "Hfrag" in
  let Htcp := fresh "Htcp" in
  let Hudp := fresh "Hudp" in
  let Etcp := fresh "Etcp" in
  let Eudp := fresh "Eudp" in
  destruct (Hip ltac:(apply Z.eqb_eq; exact Eip)) as (Hnh & Hfrag & Htcp & Hudp);
  rewrite Hfrag; cbn [negb];
  match goal with
  | |- context [20 <=? ?x] =>
      replace (20 <=? x) with true by (symmetry; apply Z.leb_le; lia)
  end;
  rewrite ?Z.add_0_r;
  cbn [negb fst snd dl_type set_dl_type set_dl_vlan set_dl_addrs set_nw
       set_nw_proto nw_proto];
  match goal with
  | |- context [?p =? IPPROTO_TCP] => destruct (p =? IPPROTO_TCP) eqn:Etcp
  end;
  [ apply Z.eqb_eq in Etcp; specialize (Htcp Etcp); rewrite Htcp; cbn [orb];
    unfold Kernel_extract.tcphdr_ok, TCP_HEADER_LEN in Htcp;
    match type of Htcp with
    | (if ?c then _ else _) = true =>
        destruct c eqn:Efit; [apply Z.leb_le in Efit|discriminate]
    end;
    match goal with
    | |- context [?x + 8 <=? ?y] =>
        replace (x + 8 <=? y) with true by (symmetry; apply Z.leb_le; lia)
    end
  | match goal with
    | |- context [?p =? IPPROTO_UDP] => destruct (p =? IPPROTO_UDP) eqn:Eudp
    end;
    [ apply Z.eqb_eq in Eudp; specialize (Hudp Eudp); rewrite Hudp; cbn [orb];
      unfold Kernel_extract.udphdr_ok, UDP_HEADER_LEN in Hudp;
      apply Z.leb_le in Hudp;
      match goal with
      | |- context [?x + 8 <=? ?y] =>
          replace (x + 8 <=? y) with true by (symmetry; apply Z.leb_le; lia)
      end
    | cbn [orb] ] ];
  (eexists; split; [reflexivity|]; repeat split; reflexivity).

(** X25.  The header parser of the user-space library and that of the kernel
    datapath produce the same flow for an Ethernet II frame (with or without
    an 802.1Q tag) that holds its link-layer headers, is not ARP and, if it
    is IPv4, holds the 20 bytes of the IP header, is not a fragment and, for
    TCP or UDP, has a transport header that the kernel's tcphdr_ok or
    udphdr_ok accepts.  The kernel parser returns 0 for it, and the library
    parser leaves l2 at the first byte and l3 at the offset of the network
    header that the kernel parser computes. *)
Theorem parsers_agree_on_well_formed_frames (packet : buffer) (in_port : Z) :
  let bs := data packet in
  let l2k := fst (Kernel_extract.extract_l2 bs in_port) in
  let nh_ofs := snd (Kernel_extract.extract_l2 bs in_port) in
  let th_ofs := nh_ofs + Z.land (byte_at bs nh_ofs) 15 * 4 in
  OFP_DL_TYPE_ETH2_CUTOFF <= get16 bs 12 ->
  nh_ofs <= buf_len bs ->
  dl_type l2k <> ETH_TYPE_ARP ->
  (dl_type l2k = ETH_P_IP ->
     nh_ofs + IP_HEADER_LEN <= buf_len bs
     /\ tst (get16 bs (nh_ofs + 6)) (Z.lor IP_MF IP_OFFSET) = false
     /\ (byte_at bs (nh_ofs + 9) = IPPROTO_TCP ->
         Kernel_extract.tcphdr_ok bs th_ofs = true)
     /\ (byte_at bs (nh_ofs + 9) = IPPROTO_UDP ->
         Kernel_extract.udphdr_ok bs th_ofs = true)) ->
  exists pk,
    Lib_flow.flow_extract host_le packet in_port
    = Some (key_flow (snd (Kernel_extract.flow_extract bs in_port)), pk)
    /\ fst (Kernel_extract.flow_extract bs in_port) = 0
    /\ data pk = bs /\ l2 pk = Some 0 /\ l3 pk = Some nh_ofs.
Proof.
  intros bs l2k nh_ofs th_ofs Hcut Hlen Harp Hip.
  apply Z.leb_le in Hcut.
  unfold Lib_flow.flow_extract, Kernel_extract.flow_extract, Lib_flow.extract_l3.
  fold bs.
  subst l2k nh_ofs th_ofs.
  unfold Kernel_extract.extract_l2 in *.
  rewrite Hcut in *. cbn [dl_type set_dl_type] in *.
  unfold buffer_at.
  unfold ETH_HEADER_LEN, VLAN_HEADER_LEN, IP_HEADER_LEN, UDP_HEADER_LEN,
    TCP_HEADER_LEN in *.
  rewrite ?Z.add_0_l, ?Z.add_0_r, ?Z.sub_0_r in *.
  destruct (get16 bs 12 =? ETH_P_8021Q) eqn:Etag;
    cbn [negb fst snd dl_type set_dl_type set_dl_vlan set_dl_addrs] in *.
  - replace (14 <=? buf_len bs) with true by (symmetry; apply Z.leb_le; lia).
    rewrite ?Z.add_0_l. rewrite Hcut.
    cbn [negb fst snd dl_type set_dl_type set_dl_vlan set_dl_addrs].
    rewrite Etag. cbn [negb].
    replace (4 <=? buf_len bs - 14) with true by (symmetry; apply Z.leb_le; lia).
    rewrite ?Z.add_0_l, ?Z.add_0_r.
    cbn [negb fst snd dl_type set_dl_type set_dl_vlan set_dl_addrs set_nw
         set_nw_proto nw_proto].
    apply Z.eqb_neq in Harp. rewrite Harp.
    destruct (get16 bs (14 + 2) =? ETH_P_IP) eqn:Eip.
    + lib_l3_agrees Hip Eip.
    + eexists; split; [reflexivity|]; repeat split; reflexivity.
  - replace (14 <=? buf_len bs) with true by (symmetry; apply Z.leb_le; lia).
    rewrite ?Z.add_0_l. rewrite Hcut.
    cbn [negb fst snd dl_type set_dl_type set_dl_vlan set_dl_addrs].
    rewrite Etag. cbn [negb].
    rewrite ?Z.add_0_l, ?Z.add_0_r.
    cbn [negb fst snd dl_type set_dl_type set_dl_vlan set_dl_addrs set_nw
         set_nw_proto nw_proto].
    apply Z.eqb_neq in Harp. rewrite Harp.
    destruct (get16 bs 12 =? ETH_P_IP) eqn:Eip.
    + lib_l3_agrees Hip Eip.
    + eexists; split; [reflexivity|]; repeat split; reflexivity.
Qed.
End ParsersAgree.

(** ** The parser of the user-space library: faults and cursors *)

Section LibExtract.
Context `{openflow_h}.
Variable host_le : bool.

(** The l4 cursor that the network-layer part of the parser sets. *)
Lemma lib_extract_l3_cursor (bs : bytes) (b : Z) (fl : flow) (x : Z) :
  snd (Lib_flow.extract_l3 bs b fl) = Some x ->
  dl_type fl = ETH_P_IP /\ x = b + IP_HEADER_LEN /\ x <= buf_len bs
  /\ dl_type (fst (Lib_flow.extract_l3 bs b fl)) = ETH_P_IP.
Proof.
  unfold Lib_flow.extract_l3, buffer_at.
  destruct (dl_type fl =? ETH_P_IP) eqn:Eip.
  - apply Z.eqb_eq in Eip.
    destruct (0 + IP_HEADER_LEN <=? buf_len bs - b) eqn:Efit; [|discriminate].
    apply Z.leb_le in Efit.
    destruct (_ || _).
    + destruct (_ <=? _); cbn [fst snd]; intros [= <-];
        cbn [dl_type set_tp set_nw set_nw_proto]; repeat split; try assumption; lia.
    + cbn [fst snd]; intros [= <-];
        cbn [dl_type set_tp set_nw set_nw_proto]; repeat split; try assumption; lia.
  - destruct (dl_type fl =? ETH_TYPE_ARP).
    + destruct (_ <=? _); [destruct (_ && _)|]; discriminate.
    + discriminate.
Qed.

Ltac lib_cursors El3 :=
  let fl := fresh "fl" in
  let pk := fresh "pk" in
  let x := fresh "x" in
  let Hd := fresh "Hd" in
  let Hx := fresh "Hx" in
  let Hd' := fresh "Hd'" in
  intros fl pk [= <- <-]; cbn [data l2 l3 l4];
  split; [reflexivity|split; [reflexivity|]];
  intros x ->;
  pose proof (lib_extract_l3_cursor _ _ _ x
                ltac:(rewrite El3; reflexivity)) as (Hd & -> & Hx & Hd');
  rewrite El3 in Hd'; cbn [fst] in Hd'; unfold IP_HEADER_LEN in *;
  split; [assumption|split; [f_equal; lia|lia]].

(** X26.  flow_extract of the user-space library dereferences the null
    pointer that buffer_at returns exactly for a frame of at least 14 bytes
    whose EtherType (that of the Ethernet header for an Ethernet II frame,
    that of the SNAP header for an 802.2 frame with one) is 0x8100 and which
    holds fewer than four bytes after those headers.  On every other frame it
    returns, leaves the data as they are and l2 at the first byte, and sets l4
    only for an IPv4 frame: then l4 is 20 bytes after l3, whatever the header
    length field of the IP header says, and lies within the packet. *)
Theorem lib_flow_extract_faults_on_cut_vlan_tag (packet : buffer) (in_port : Z) :
  let bs := data packet in
  (Lib_flow.flow_extract host_le packet in_port = None
   <-> 14 <= buf_len bs
       /\ ((OFP_DL_TYPE_ETH2_CUTOFF <= get16 bs 12
            /\ get16 bs 12 = ETH_P_8021Q /\ buf_len bs < 18)
           \/ (get16 bs 12 < OFP_DL_TYPE_ETH2_CUTOFF
               /\ is_snap bs 14 = true /\ get16 bs 20 = ETH_P_8021Q
               /\ 22 <= buf_len bs < 26)))
  /\ (forall fl pk,
        Lib_flow.flow_extract host_le packet in_port = Some (fl, pk) ->
        data pk = bs /\ l2 pk = Some 0
        /\ forall x, l4 pk = Some x ->
             dl_type fl = ETH_P_IP /\ l3 pk = Some (x - 20) /\ x <= buf_len bs).
Proof.
  intros bs.
  unfold Lib_flow.flow_extract. fold bs. unfold buffer_at.
  unfold ETH_HEADER_LEN, VLAN_HEADER_LEN, LLC_SNAP_HEADER_LEN, LLC_HEADER_LEN.
  rewrite ?Z.add_0_l, ?Z.add_0_r, ?Z.sub_0_r.
  destruct (14 <=? buf_len bs) eqn:E14.
  2:{ apply Z.leb_gt in E14. split.
      - split; [discriminate|]. intros [Hl _]. lia.
      - intros fl pk [= <- <-]. cbn [data l2 l4].
        split; [reflexivity|split; [reflexivity|discriminate]]. }
  apply Z.leb_le in E14. rewrite ?Z.add_0_l.
  destruct (OFP_DL_TYPE_ETH2_CUTOFF <=? get16 bs 12) eqn:Ecut.
  - apply Z.leb_le in Ecut. cbn [dl_type set_dl_type].
    destruct (get16 bs 12 =? ETH_P_8021Q) eqn:Etag; cbn [negb].
    + apply Z.eqb_eq in Etag.
      destruct (4 <=? buf_len bs - 14) eqn:Evh.
      * apply Z.leb_le in Evh.
        destruct (Lib_flow.extract_l3 _ _ _) as [fl1 c4] eqn:El3. split.
        -- split; [discriminate|]. intros [_ [(_ & _ & Hc)|(Hc & _)]]; lia.
        -- lib_cursors El3.
      * apply Z.leb_gt in Evh. split.
        -- split; [intros _|reflexivity]. split; [lia|]. left. repeat split; lia.
        -- discriminate.
    + apply Z.eqb_neq in Etag.
      destruct (Lib_flow.extract_l3 _ _ _) as [fl1 c4] eqn:El3. split.
      * split; [discriminate|]. intros [_ [(_ & Hc & _)|(Hc & _)]]; [contradiction|lia].
      * lib_cursors El3.
  - apply Z.leb_gt in Ecut.
    destruct (8 <=? buf_len bs - 14) eqn:Ellc.
    2:{ apply Z.leb_gt in Ellc. split.
        - split; [discriminate|]. intros [_ [(Hc & _)|(_ & _ & _ & Hc)]]; lia.
        - intros fl pk [= <- <-]. cbn [data l2 l4].
          split; [reflexivity|split; [reflexivity|discriminate]]. }
    apply Z.leb_le in Ellc.
    destruct (is_snap bs 14) eqn:Esnap; cbn [dl_type set_dl_type].
    + change (14 + 6) with 20.
      destruct (get16 bs 20 =? ETH_P_8021Q) eqn:Etag; cbn [negb].
      * apply Z.eqb_eq in Etag.
        destruct (4 <=? buf_len bs - (14 + 8)) eqn:Evh.
        -- apply Z.leb_le in Evh.
           destruct (Lib_flow.extract_l3 _ _ _) as [fl1 c4] eqn:El3. split.
           ++ split; [discriminate|].
              intros [_ [(Hc & _)|(_ & _ & _ & Hc)]]; lia.
           ++ lib_cursors El3.
        -- apply Z.leb_gt in Evh. split.
           ++ split; [intros _|reflexivity]. split; [lia|]. right.
              repeat split; try assumption; lia.
           ++ discriminate.
      * apply Z.eqb_neq in Etag.
        destruct (Lib_flow.extract_l3 _ _ _) as [fl1 c4] eqn:El3. split.
        -- split; [discriminate|].
           intros [_ [(Hc & _)|(_ & _ & Hc & _)]]; [lia|contradiction].
        -- lib_cursors El3.
    + destruct (raw16 host_le OFP_DL_TYPE_NOT_ETH_TYPE =? ETH_P_8021Q); cbn [negb].
      * replace (4 <=? buf_len bs - (14 + 3)) with true
          by (symmetry; apply Z.leb_le; lia).
        destruct (Lib_flow.extract_l3 _ _ _) as [fl1 c4] eqn:El3. split.
        -- split; [discriminate|].
           intros [_ [(Hc & _)|(_ & Hc & _)]]; [lia|congruence].
        -- lib_cursors El3.
      * destruct (Lib_flow.extract_l3 _ _ _) as [fl1 c4] eqn:El3. split.
        -- split; [discriminate|].
           intros [_ [(Hc & _)|(_ & Hc & _)]]; [lia|congruence].
        -- lib_cursors El3.
Qed.
End LibExtract.

(** ** The byte buffer of the user-space library *)

Lemma in_use_splice (mem p : bytes) (d s n : nat) :
  (d + s + n <= length mem)%nat -> (n <= length p)%nat ->
  take (s + n) (drop d (take (d + s) mem ++ take n p ++ drop (d + s + n) mem))
  = take s (drop d mem) ++ take n p.
Proof.
  intros Hm Hp.
  rewrite drop_app_le by (rewrite length_take_le; lia).
  rewrite <- take_drop_commute.
  rewrite take_app_add'
    by (rewrite length_take_le; [reflexivity|rewrite length_drop; lia]).
  f_equal. apply take_app_length'. rewrite length_take_le; lia.
Qed.

(** memcpy to the tail of the data in use, within the region: the region
    keeps its size, and the bytes in use grow by the bytes copied. *)
Lemma memcpy_at_tail (mem p : bytes) (d s n : Z) :
  0 <= d -> 0 <= s -> 0 <= n <= buf_len p -> d + s + n <= buf_len mem ->
  exists mem',
    Lib_buffer.memcpy mem (d + s) p n = Some mem'
    /\ buf_len mem' = buf_len mem
    /\ take (Z.to_nat (s + n)) (drop (Z.to_nat d) mem')
       = take (Z.to_nat s) (drop (Z.to_nat d) mem) ++ take (Z.to_nat n) p.
Proof.
  intros Hd Hs Hn Hfit. unfold buf_len in *. unfold Lib_buffer.memcpy, buf_len.
  replace ((0 <=? d + s) && (0 <=? n) && (d + s + n <=? Z.of_nat (length mem))
           && (n <=? Z.of_nat (length p))) with true.
  2:{ symmetry. rewrite !andb_true_iff, !Z.leb_le. lia. }
  eexists. split; [reflexivity|].
  rewrite !Z2Nat.inj_add by lia.
  split.
  - rewrite !length_app, !length_take, length_drop. lia.
  - apply in_use_splice; lia.
Qed.

Section BufferProps.
Variable SIZE_BITS : Z.
Variable xmalloc : Z -> bytes.
Hypothesis xmalloc_length : forall n, 0 <= n -> buf_len (xmalloc n) = n.

(** X27.  buffer_put on a buffer whose data in use lie within its allocated
    region, the sizes not wrapping around in [size_t]: the copy stays within
    the region, the bytes in use afterwards are the bytes in use before
    followed by the [n] bytes put, the headroom is unchanged, and the buffer
    is reallocated, growing by max (n, 64) bytes, exactly when its tailroom
    is less than [n]. *)
Theorem buffer_put_appends (b : Lib_buffer.buffer) (p : bytes) (n : Z) :
  buffer_wf SIZE_BITS b -> 0 <= n <= buf_len p ->
  Lib_buffer.allocated b + Z.max n 64 < 2^SIZE_BITS ->
  exists b',
    Lib_buffer.buffer_put SIZE_BITS xmalloc b p n = Some b'
    /\ buffer_wf SIZE_BITS b'
    /\ in_use b' = in_use b ++ take (Z.to_nat n) p
    /\ Lib_buffer.data b' = Lib_buffer.data b
    /\ Lib_buffer.allocated b'
       = if Lib_buffer.allocated b - (Lib_buffer.data b + Lib_buffer.size b) <? n
         then Lib_buffer.allocated b + Z.max n 64
         else Lib_buffer.allocated b.
Proof.
  intros (Hd & Hs & Hfit & Hlen & Hmax) Hn Hgrow.
  unfold Lib_buffer.buffer_put, Lib_buffer.buffer_put_uninit,
    Lib_buffer.buffer_reserve_tailroom, Lib_buffer.buffer_tailroom,
    Lib_buffer.buffer_end, Lib_buffer.buffer_tail, Lib_buffer.buffer_headroom,
    Lib_buffer.size_t.
  rewrite (Z.mod_small (Lib_buffer.allocated b - _)) by lia.
  destruct (Lib_buffer.allocated b - (Lib_buffer.data b + Lib_buffer.size b) <? n)
    eqn:Eroom.
  - apply Z.ltb_lt in Eroom. cbv zeta.
    rewrite (Z.mod_small (Lib_buffer.allocated b + Z.max n 64)) by lia.
    rewrite (Z.mod_small (Lib_buffer.data b)) by lia.
    unfold Lib_buffer.memcpy at 1.
    rewrite xmalloc_length by lia. rewrite Hlen.
    replace ((0 <=? 0) && (0 <=? Lib_buffer.allocated b)
             && (0 + Lib_buffer.allocated b
                 <=? Lib_buffer.allocated b + Z.max n 64)
             && (Lib_buffer.allocated b <=? Lib_buffer.allocated b)) with true.
    2:{ symmetry. rewrite !andb_true_iff, !Z.leb_le. lia. }
    cbn [Lib_buffer.base Lib_buffer.allocated Lib_buffer.data Lib_buffer.size].
    rewrite (Z.mod_small (Lib_buffer.size b + n)) by lia.
    change (Z.to_nat 0) with 0%nat. rewrite take_0, app_nil_l, Z.add_0_l.
    rewrite (take_ge (Lib_buffer.base b)) by (unfold buf_len in Hlen; lia).
    set (mem := Lib_buffer.base b
                ++ drop (Z.to_nat (Lib_buffer.allocated b))
                     (xmalloc (Lib_buffer.allocated b + Z.max n 64))).
    assert (Hmem : buf_len mem = Lib_buffer.allocated b + Z.max n 64).
    { pose proof (xmalloc_length (Lib_buffer.allocated b + Z.max n 64) ltac:(lia))
        as Hx.
      unfold mem, buf_len in *. rewrite length_app, length_drop. lia. }
    destruct (memcpy_at_tail mem p (Lib_buffer.data b) (Lib_buffer.size b) n)
      as (mem' & Hcp & Hlen' & Huse); try lia.
    rewrite Hcp. eexists. split; [reflexivity|].
    unfold buffer_wf, in_use.
    cbn [Lib_buffer.base Lib_buffer.allocated Lib_buffer.data Lib_buffer.size].
    repeat split; try lia.
    rewrite Huse. f_equal. unfold mem.
    rewrite drop_app_le by (unfold buf_len in Hlen; lia).
    apply take_app_le. rewrite length_drop. unfold buf_len in Hlen. lia.
  - apply Z.ltb_ge in Eroom.
    cbn [Lib_buffer.base Lib_buffer.allocated Lib_buffer.data Lib_buffer.size].
    rewrite (Z.mod_small (Lib_buffer.size b + n)) by lia.
    destruct (memcpy_at_tail (Lib_buffer.base b) p (Lib_buffer.data b)
                (Lib_buffer.size b) n)
      as (mem' & Hcp & Hlen' & Huse); try lia.
    rewrite Hcp. eexists. split; [reflexivity|].
    unfold buffer_wf, in_use.
    cbn [Lib_buffer.base Lib_buffer.allocated Lib_buffer.data Lib_buffer.size].
    repeat split; try lia. exact Huse.
Qed.

Lemma in_use_length (b : Lib_buffer.buffer) :
  buffer_wf SIZE_BITS b -> buf_len (in_use b) = Lib_buffer.size b.
Proof.
  intros (Hd & Hs & Hfit & Hlen & Hmax). unfold in_use, buf_len in *.
  rewrite length_take, length_drop. lia.
Qed.

(** X28.  buffer_pull and buffer_at, on a buffer whose data in use lie
    within its allocated region, the arguments being values of [size_t].
    Pulling more bytes than the buffer holds
    fails the assertion.  Pulling [n] bytes that it holds drops the first [n]
    of the bytes in use.  Provided that n + offset + m does not wrap around
    in [size_t], a following buffer_at (offset, m) returns what
    buffer_at (n + offset, m) returns before the pull: the null pointer
    exactly when offset + m exceeds what is left, and otherwise the pointer
    that the reduced buffer_at of the parser model computes on the bytes in
    use.  When offset + m does wrap around, to no more than what is left,
    buffer_at returns the (wrapped) pointer b->data + offset although the
    buffer does not hold offset + m bytes. *)
Theorem buffer_pull_then_at (b : Lib_buffer.buffer) (n offset m : Z) :
  buffer_wf SIZE_BITS b -> 0 <= n ->
  0 <= offset < 2^SIZE_BITS -> 0 <= m < 2^SIZE_BITS ->
  (Lib_buffer.size b < n -> Lib_buffer.buffer_pull b n = None)
  /\ (n <= Lib_buffer.size b ->
      exists b',
        Lib_buffer.buffer_pull b n = Some b'
        /\ buffer_wf SIZE_BITS b'
        /\ in_use b' = drop (Z.to_nat n) (in_use b)
        /\ (n + offset + m < 2^SIZE_BITS ->
            Lib_buffer.buffer_at SIZE_BITS b' offset m
            = Lib_buffer.buffer_at SIZE_BITS b (n + offset) m
            /\ Lib_buffer.buffer_at SIZE_BITS b' offset m
               = option_map (Z.add (Lib_buffer.data b))
                   (buffer_at (in_use b) n offset m)
            /\ (Lib_buffer.buffer_at SIZE_BITS b' offset m = None
                <-> Lib_buffer.size b - n < offset + m))
        /\ (2^SIZE_BITS <= offset + m ->
            offset + m - 2^SIZE_BITS <= Lib_buffer.size b - n ->
            Lib_buffer.buffer_at SIZE_BITS b' offset m
            = Some ((Lib_buffer.data b + n + offset) mod 2^SIZE_BITS))).
Proof.
  intros Hwf Hn Ho Hm.
  pose proof (in_use_length b Hwf) as Hul.
  destruct Hwf as (Hd & Hs & Hfit & Hlen & Hmax).
  unfold Lib_buffer.buffer_pull. split.
  - intros Hlt. apply Z.leb_gt in Hlt. rewrite Hlt. reflexivity.
  - intros Hle. pose proof Hle as Hle'. apply Z.leb_le in Hle'. rewrite Hle'.
    eexists. split; [reflexivity|].
    unfold buffer_wf, Lib_buffer.buffer_at, Lib_buffer.size_t, buffer_at.
    rewrite Hul. unfold in_use.
    cbn [Lib_buffer.base Lib_buffer.allocated Lib_buffer.data Lib_buffer.size].
    split; [lia|]. split; [|split].
    + replace (Z.to_nat (Lib_buffer.size b))
        with (Z.to_nat n + Z.to_nat (Lib_buffer.size b - n))%nat by lia.
      rewrite <- take_drop_commute, drop_drop.
      rewrite Z2Nat.inj_add by lia. reflexivity.
    + intros Hsum.
      rewrite (Z.mod_small (offset + m)), (Z.mod_small (n + offset + m)) by lia.
      destruct (offset + m <=? Lib_buffer.size b - n) eqn:E1;
        destruct (n + offset + m <=? Lib_buffer.size b) eqn:E2;
        rewrite ?Z.leb_le, ?Z.leb_gt in *; try lia.
      * rewrite (Z.mod_small (Lib_buffer.data b + n + offset)),
          (Z.mod_small (Lib_buffer.data b + (n + offset))) by lia.
        cbn [option_map].
        split; [f_equal; lia|]. split; [f_equal; lia|].
        split; [discriminate|lia].
      * cbn [option_map]. split; [reflexivity|]. split; [reflexivity|].
        split; [intros _; lia|reflexivity].
    + intros Hwrap Hfits.
      replace ((offset + m) mod 2 ^ SIZE_BITS) with (offset + m - 2 ^ SIZE_BITS).
      2:{ apply Z.mod_unique with (q := 1); lia. }
      replace (offset + m - 2 ^ SIZE_BITS <=? Lib_buffer.size b - n) with true
        by (symmetry; apply Z.leb_le; lia).
      reflexivity.
Qed.

End BufferProps.

(** ** The field that a rewrite action writes *)

Lemma buf_len_put8 (bs : bytes) (off v : Z) : buf_len (put8 bs off v) = buf_len bs.
Proof. unfold buf_len. rewrite length_put8. reflexivity. Qed.

Lemma byte_at_put8_eq (bs : bytes) (off v : Z) :
  0 <= off < buf_len bs -> byte_at (put8 bs off v) off = u8 v.
Proof.
  intros Ho. unfold byte_at, put8, buf_len in *.
  destruct (off <? 0) eqn:E; [apply Z.ltb_lt in E; lia|].
  rewrite nth_lookup. unfold bytes in *.
  rewrite (list_lookup_insert_eq bs) by lia. reflexivity.
Qed.

Lemma byte_at_put8_ne (bs : bytes) (off v i : Z) :
  i <> off -> byte_at (put8 bs off v) i = byte_at bs i.
Proof.
  intros Hne. unfold byte_at, put8.
  destruct (i <? 0) eqn:Ei; [reflexivity|]. apply Z.ltb_ge in Ei.
  destruct (off <? 0) eqn:Eo; [reflexivity|]. apply Z.ltb_ge in Eo.
  rewrite !nth_lookup. unfold bytes in *.
  rewrite (list_lookup_insert_ne bs) by lia. reflexivity.
Qed.

Lemma be16_compose (v : Z) :
  0 <= v < 2^16 -> u8 (v ≫ 8) * 2^8 + u8 v = v.
Proof.
  intros Hv. unfold u8. rewrite Z.shiftr_div_pow2 by lia.
  change (2^8) with 256. change (2^16) with 65536 in Hv.
  Z.div_mod_to_equations; lia.
Qed.

Lemma be32_compose (v : Z) :
  0 <= v < 2^32 ->
  (u8 ((v ≫ 16) ≫ 8) * 2^8 + u8 (v ≫ 16)) * 2^16 + (u8 (v ≫ 8) * 2^8 + u8 v) = v.
Proof.
  intros Hv. unfold u8. rewrite !Z.shiftr_div_pow2 by lia.
  change (2^8) with 256. change (2^16) with 65536.
  change (2^32) with 4294967296 in Hv.
  Z.div_mod_to_equations; lia.
Qed.

Lemma bswap16_small (t : Z) : 0 < t < 256 -> bswap16 t = t * 256.
Proof.
  intros Ht. unfold bswap16. change (2^8) with 256.
  rewrite (Z.mod_small t), (Z.div_small t) by lia. rewrite Z.mod_0_l by lia. lia.
Qed.

Ltac bytes_after_puts :=
  unfold get32, get16, put32, put16;
  repeat first
    [ rewrite byte_at_put8_eq by (rewrite ?buf_len_put8; lia)
    | rewrite byte_at_put8_ne by lia ].

Section RewriteField.
Context `{openflow_h}.
Variable host_le : bool.

(** modify_nh and modify_th compare the action type as it lies in the
    message, in network byte order, with the enumerator: for an enumerator
    below 256 the test for the source variant succeeds on a big-endian host
    only. *)
Lemma raw_type_test (t src dst : Z) :
  0 < src < 256 -> 0 < dst < 256 -> src <> dst ->
  (t = dst -> (raw16 host_le t =? src) = false)
  /\ (t = src -> (raw16 host_le t =? src) = negb host_le).
Proof.
  intros Hs Hd Hne.
  split; intros ->; destruct host_le; cbn [raw16 negb];
    rewrite ?bswap16_small by lia;
    first [apply Z.eqb_neq; lia | apply Z.eqb_eq; reflexivity].
Qed.

Ltac name_checksums :=
  repeat match goal with
         | |- context [put16 _ _ ?v] =>
             lazymatch v with
             | tp _ => fail
             | _ => tryif is_var v then fail
                    else (let x := fresh "c" in generalize v; intro x)
             end
         end.

(** X29.  The field that SET_NW_SRC, SET_NW_DST, SET_TP_SRC and SET_TP_DST
    write in the user-space datapath, on an IPv4 packet with cursors l3 and
    l4 = l3 + 20 as flow_extract sets them, the enumerators being distinct
    and below 256.  modify_nh and modify_th choose the field by comparing the
    action type in network byte order with the enumerator of the source
    variant.  SET_NW_DST and SET_TP_DST put the action's value into the
    destination field and leave the source field as it was.  SET_NW_SRC and
    SET_TP_SRC put it into the source field on a big-endian host; on a
    little-endian host they put it into the destination field and leave the
    source field as it was. *)
Theorem rewrite_field_is_chosen_by_raw_type (b : buffer) (nh proto : Z)
  (a : ofp_action) :
  l3 b = Some nh -> l4 b = Some (nh + 20) ->
  0 <= nh -> nh + 24 <= buf_len (data b) ->
  (0 < OFPAT_SET_NW_SRC < 256 -> 0 < OFPAT_SET_NW_DST < 256 ->
   OFPAT_SET_NW_SRC <> OFPAT_SET_NW_DST -> 0 <= nw_addr a < 2^32 ->
   exists b',
     Switch_actions.modify_nh host_le b ETH_P_IP proto a = Some b'
     /\ (a_type a = OFPAT_SET_NW_DST ->
         get32 (data b') (nh + 16) = nw_addr a
         /\ get32 (data b') (nh + 12) = get32 (data b) (nh + 12))
     /\ (a_type a = OFPAT_SET_NW_SRC ->
         if host_le
         then get32 (data b') (nh + 16) = nw_addr a
              /\ get32 (data b') (nh + 12) = get32 (data b) (nh + 12)
         else get32 (data b') (nh + 12) = nw_addr a
              /\ get32 (data b') (nh + 16) = get32 (data b) (nh + 16)))
  /\ (proto = IPPROTO_TCP \/ proto = IPPROTO_UDP ->
      0 < OFPAT_SET_TP_SRC < 256 -> 0 < OFPAT_SET_TP_DST < 256 ->
      OFPAT_SET_TP_SRC <> OFPAT_SET_TP_DST -> 0 <= tp a < 2^16 ->
      exists b',
        Switch_actions.modify_th host_le b ETH_P_IP proto a = Some b'
        /\ (a_type a = OFPAT_SET_TP_DST ->
            get16 (data b') (nh + 20 + 2) = tp a
            /\ get16 (data b') (nh + 20) = get16 (data b) (nh + 20))
        /\ (a_type a = OFPAT_SET_TP_SRC ->
            if host_le
            then get16 (data b') (nh + 20 + 2) = tp a
                 /\ get16 (data b') (nh + 20) = get16 (data b) (nh + 20)
            else get16 (data b') (nh + 20) = tp a
                 /\ get16 (data b') (nh + 20 + 2) = get16 (data b) (nh + 20 + 2))).
Proof.
  intros Hl3 Hl4 Hnh Hlen. split.
  - intros Hsrc Hdst Hne Hnew.
    destruct (raw_type_test (a_type a) _ _ Hsrc Hdst Hne) as [Hfd Hfs].
    unfold Switch_actions.modify_nh.
    rewrite Z.eqb_refl, Hl3, Hl4. cbv zeta.
    destruct (proto =? IPPROTO_TCP);
      [|destruct (proto =? IPPROTO_UDP); [destruct (negb (_ =? 0))|]];
      (eexists; split; [reflexivity|]); cbn [data with_data];
      name_checksums;
      (split;
       [ intros Ht; rewrite (Hfd Ht)
       | intros Ht; rewrite (Hfs Ht); destruct host_le; cbn [negb] ]);
      (split;
       [ bytes_after_puts; apply be32_compose; exact Hnew
       | bytes_after_puts; reflexivity ]).
  - intros Hproto Hsrc Hdst Hne Hnew.
    destruct (raw_type_test (a_type a) _ _ Hsrc Hdst Hne) as [Hfd Hfs].
    unfold Switch_actions.modify_th.
    rewrite Z.eqb_refl, Hl4. cbv zeta.
    destruct Hproto as [-> | ->];
      [ rewrite Z.eqb_refl
      | replace (IPPROTO_UDP =? IPPROTO_TCP) with false by reflexivity;
        rewrite Z.eqb_refl ];
      (eexists; split; [reflexivity|]); cbn [data with_data];
      name_checksums;
      (split;
       [ intros Ht; rewrite (Hfd Ht)
       | intros Ht; rewrite (Hfs Ht); destruct host_le; cbn [negb] ]);
      (split;
       [ bytes_after_puts; apply be16_compose; exact Hnew
       | bytes_after_puts; reflexivity ]).
Qed.
End RewriteField.

(** ** The chain of tables of the user-space switch *)

Section ChainProps.
Import Switch_dp.
Context {T : Type} `{sw_table T}.

(** The loop of chain_lookup and chain_insert, and the folds of chain_delete
    and chain_timeout, in closed form. *)
Lemma chain_loops_in_order (chain : list T) (k : sw_flow_key)
  (f : sw_flow) (strict : bool) (now : Z) :
  match chain_lookup_tables chain k with
  | Some (g, store) =>
      exists i t st,
        chain !! i = Some t /\ tbl_lookup t k = Some (g, st)
        /\ (forall j t', (j < i)%nat -> chain !! j = Some t' ->
                         tbl_lookup t' k = None)
        /\ forall g', store g' = <[i := st g']> chain
  | None => forall t, In t chain -> tbl_lookup t k = None
  end
  /\ match chain_insert chain f with
     | Some store =>
         exists i t st,
           chain !! i = Some t /\ tbl_insert t f = Some st
           /\ (forall j t', (j < i)%nat -> chain !! j = Some t' ->
                            tbl_insert t' f = None)
           /\ forall f', store f' = <[i := st f']> chain
     | None => forall t, In t chain -> tbl_insert t f = None
     end
  /\ fst (chain_delete chain k strict)
     = fold_right Z.add 0 (map (fun t => fst (tbl_delete t k strict)) chain)
  /\ snd (chain_delete chain k strict)
     = map (fun t => snd (tbl_delete t k strict)) chain
  /\ chain_timeout chain now
     = (concat (map (fun t => fst (tbl_timeout t now)) chain),
        map (fun t => snd (tbl_timeout t now)) chain).
Proof.
  induction chain as [|t rest IH].
  - cbn. repeat split; intros ? [].
  - destruct IH as (IHl & IHi & IHd1 & IHd2 & IHt).
    cbn [chain_lookup_tables chain_insert chain_delete chain_timeout map
         fold_right concat].
    split; [|split].
    + destruct (tbl_lookup t k) as [[g st]|] eqn:El.
      * exists 0%nat, t, st. repeat split; try assumption; try reflexivity.
        intros j t' Hj. lia.
      * destruct (chain_lookup_tables rest k) as [[g store]|].
        -- destruct IHl as (i & t1 & st & Hi & Hl & Hbefore & Hstore).
           exists (S i), t1, st. repeat split; try assumption.
           ++ intros [|j] t' Hj Hjt; cbn in Hjt.
              ** injection Hjt as <-. exact El.
              ** apply (Hbefore j); [lia|exact Hjt].
           ++ intros g'. cbn. f_equal. apply Hstore.
        -- intros t' [<-|Hin]; [exact El|apply IHl; exact Hin].
    + destruct (tbl_insert t f) as [st|] eqn:Ei.
      * exists 0%nat, t, st. repeat split; try assumption; try reflexivity.
        intros j t' Hj. lia.
      * destruct (chain_insert rest f) as [store|].
        -- destruct IHi as (i & t1 & st & Hi & Hl & Hbefore & Hstore).
           exists (S i), t1, st. repeat split; try assumption.
           ++ intros [|j] t' Hj Hjt; cbn in Hjt.
              ** injection Hjt as <-. exact Ei.
              ** apply (Hbefore j); [lia|exact Hjt].
           ++ intros f'. cbn. f_equal. apply Hstore.
        -- intros t' [<-|Hin]; [exact Ei|apply IHi; exact Hin].
    + destruct (tbl_delete t k strict) as [n t'].
      destruct (chain_delete rest k strict) as [m rest'].
      cbn [fst snd] in *. subst.
      split; [reflexivity|split; [reflexivity|]].
      rewrite IHt. destruct (tbl_timeout t now) as [d t1]. reflexivity.
Qed.

(** X30.  The chain of the user-space switch, for any tables.  chain_lookup
    fails its opening assertion exactly for a key with wildcard bits set.
    For a key without, it returns the flow found by the first table, in the
    order of the chain, whose lookup succeeds, and the null pointer when none
    does.  chain_insert stores the flow in the first table that accepts it
    and fails when none does.  In both cases the tables before that one were
    asked and refused, and no other table is changed.  chain_delete applies
    the deletion to every table and returns the sum of their counts;
    chain_timeout sweeps every table and collects the expired flows in the
    order of the tables. *)
Theorem chain_visits_tables_in_order (chain : list T) (k : sw_flow_key)
  (f : sw_flow) (strict : bool) (now : Z) :
  (chain_lookup chain k = None <-> wildcards k <> 0)
  /\ (wildcards k = 0 ->
      exists r,
        chain_lookup chain k = Some r
        /\ match r with
           | Some (g, store) =>
               exists i t st,
                 chain !! i = Some t /\ tbl_lookup t k = Some (g, st)
                 /\ (forall j t', (j < i)%nat -> chain !! j = Some t' ->
                                  tbl_lookup t' k = None)
                 /\ forall g', store g' = <[i := st g']> chain
           | None => forall t, In t chain -> tbl_lookup t k = None
           end)
  /\ match chain_insert chain f with
     | Some store =>
         exists i t st,
           chain !! i = Some t /\ tbl_insert t f = Some st
           /\ (forall j t', (j < i)%nat -> chain !! j = Some t' ->
                            tbl_insert t' f = None)
           /\ forall f', store f' = <[i := st f']> chain
     | None => forall t, In t chain -> tbl_insert t f = None
     end
  /\ fst (chain_delete chain k strict)
     = fold_right Z.add 0 (map (fun t => fst (tbl_delete t k strict)) chain)
  /\ snd (chain_delete chain k strict)
     = map (fun t => snd (tbl_delete t k strict)) chain
  /\ chain_timeout chain now
     = (concat (map (fun t => fst (tbl_timeout t now)) chain),
        map (fun t => snd (tbl_timeout t now)) chain).
Proof.
  destruct (chain_loops_in_order chain k f strict now)
    as (Hl & Hi & Hd1 & Hd2 & Ht).
  unfold chain_lookup.
  split; [|split; [|repeat split; assumption]].
  - destruct (wildcards k =? 0) eqn:E;
      [apply Z.eqb_eq in E | apply Z.eqb_neq in E]; cbn [negb].
    + split; [discriminate|intros Hc; contradiction].
    + split; [intros _; exact E|reflexivity].
  - intros ->. cbn [Z.eqb negb]. eexists. split; [reflexivity|exact Hl].
Qed.
End ChainProps.

(** The chain of one empty linear table has no flow for the all-zero key. *)
Lemma chain_visits_tables_in_order_witness :
  @Switch_dp.chain_lookup (list Switch_dp.sw_flow)
    (@Switch_tables.linear_table openflow_example) [[]] zero_key
  = Some None.
Proof.
  destruct (proj1 (proj2 (@chain_visits_tables_in_order
                            (list Switch_dp.sw_flow)
                            (@Switch_tables.linear_table openflow_example)
                            [[]] zero_key example_blank_flow false 0))
              eq_refl)
    as (r & Hr & Hshape).
  rewrite Hr. destruct r as [[g store]|]; [|reflexivity].
  destruct Hshape as ([|i] & t & st & Ht & Hlook & _).
  - injection Ht as <-. discriminate Hlook.
  - discriminate Ht.
Defined.

(** *** The rewrite, parser and buffer properties on concrete inputs *)

Lemma rewrite_keeps_length_except_vlan_witness :
  Z.of_nat (length (data example_tagged_buffer))
  = Z.of_nat (length example_ip_frame_be) + 4.
Proof.
  pose proof (proj2 (@rewrite_keeps_length_except_vlan openflow_example false
                       (frame_buffer example_ip_frame_be) example_tagged_buffer
                       example_untagged_key ETH_P_IP
                       (@set_dl_vlan_action openflow_example 5) eq_refl)
                eq_refl 0 eq_refl ltac:(lia)) as Hx.
  cbv zeta in Hx. exact (proj1 Hx).
Defined.

Lemma example_ip_frame_be_bytes : Forall is_byte example_ip_frame_be.
Proof.
  unfold example_ip_frame_be.
  repeat (apply List.Forall_cons; [unfold is_byte; lia|]). apply List.Forall_nil.
Qed.

Lemma vlan_push_then_strip_restores_frame_witness :
  exists b1,
    @Switch_actions.modify_vlan openflow_example false
      (frame_buffer example_ip_frame_be) example_untagged_key
      (@set_dl_vlan_action openflow_example 5) = Some b1
    /\ @Switch_actions.modify_vlan openflow_example false b1 example_untagged_key
         (@set_dl_vlan_action openflow_example 0xffff)
       = Some (frame_buffer example_ip_frame_be).
Proof.
  destruct (@vlan_push_then_strip_restores_frame openflow_example false
              (frame_buffer example_ip_frame_be) example_untagged_key
              example_untagged_key
              (@set_dl_vlan_action openflow_example 5)
              (@set_dl_vlan_action openflow_example 0xffff)
              eq_refl ltac:(simpl; lia) example_ip_frame_be_bytes
              ltac:(vm_compute; discriminate) eq_refl eq_refl)
    as (b1 & Hpush & _ & _ & _ & Hstrip).
  exists b1. split; assumption.
Defined.

Lemma parsers_agree_on_well_formed_frames_witness :
  exists pk,
    @Lib_flow.flow_extract openflow_example false (received example_udp_frame) 1
    = Some (key_flow (snd (@Kernel_extract.flow_extract openflow_example
                             example_udp_frame 1)), pk)
    /\ fst (@Kernel_extract.flow_extract openflow_example example_udp_frame 1) = 0
    /\ data pk = example_udp_frame /\ l2 pk = Some 0 /\ l3 pk = Some 14.
Proof.
  pose proof (@parsers_agree_on_well_formed_frames openflow_example false
                (received example_udp_frame) 1) as Hx.
  cbv zeta in Hx. apply Hx.
  - vm_compute. discriminate.
  - vm_compute. discriminate.
  - vm_compute. discriminate.
  - intros _. split; [vm_compute; discriminate|]. split; [reflexivity|].
    split; [intros Hc; vm_compute in Hc; discriminate|intros _; reflexivity].
Defined.

Lemma lib_flow_extract_faults_on_cut_vlan_tag_witness :
  @Lib_flow.flow_extract openflow_example false (received example_cut_vlan_frame) 1
  = None.
Proof.
  pose proof (@lib_flow_extract_faults_on_cut_vlan_tag openflow_example false
                (received example_cut_vlan_frame) 1) as Hx.
  cbv zeta in Hx. apply (proj2 (proj1 Hx)).
  split; [vm_compute; discriminate|]. left.
  split; [vm_compute; discriminate|]. split; reflexivity.
Defined.

Lemma example_xmalloc_length (n : Z) : 0 <= n -> buf_len (example_xmalloc n) = n.
Proof.
  intros Hn. unfold buf_len, example_xmalloc. rewrite repeat_length. lia.
Qed.

Lemma buffer_put_appends_witness :
  exists b',
    Lib_buffer.buffer_put 32 example_xmalloc example_lib_buffer [7; 8; 9] 3 = Some b'
    /\ in_use b' = [1; 2; 3; 4; 5; 6; 7; 8; 9]
    /\ Lib_buffer.allocated b' = 72.
Proof.
  destruct (buffer_put_appends 32 example_xmalloc example_xmalloc_length
              example_lib_buffer [7; 8; 9] 3)
    as (b' & Hput & _ & Huse & _ & Halloc).
  - unfold buffer_wf. repeat split; vm_compute; first [reflexivity|discriminate].
  - split; vm_compute; discriminate.
  - vm_compute. reflexivity.
  - exists b'. split; [exact Hput|]. split; [exact Huse|exact Halloc].
Defined.

Lemma buffer_pull_then_at_witness :
  exists b',
    Lib_buffer.buffer_pull example_lib_buffer 2 = Some b'
    /\ in_use b' = [3; 4; 5; 6]
    /\ Lib_buffer.buffer_at 32 b' 1 2 = Some 3
    /\ Lib_buffer.buffer_at 32 b' 1 4 = None.
Proof.
  destruct (proj2 (buffer_pull_then_at 32 example_lib_buffer 2 1 2
                     ltac:(unfold buffer_wf; repeat split; vm_compute;
                           first [reflexivity|discriminate])
                     ltac:(lia)
                     ltac:(split; vm_compute; [discriminate|reflexivity])
                     ltac:(split; vm_compute; [discriminate|reflexivity]))
              ltac:(vm_compute; discriminate))
    as (b' & Hpull & _ & Huse & Hat & _).
  destruct (proj2 (buffer_pull_then_at 32 example_lib_buffer 2 1 4
                     ltac:(unfold buffer_wf; repeat split; vm_compute;
                           first [reflexivity|discriminate])
                     ltac:(lia)
                     ltac:(split; vm_compute; [discriminate|reflexivity])
                     ltac:(split; vm_compute; [discriminate|reflexivity]))
              ltac:(vm_compute; discriminate))
    as (b2 & Hpull2 & _ & _ & Hat2 & _).
  assert (b2 = b') by congruence. subst b2.
  exists b'. split; [exact Hpull|]. split; [exact Huse|].
  split.
  - exact (proj1 (Hat ltac:(vm_compute; reflexivity))).
  - apply (proj2 (proj2 (Hat2 ltac:(vm_compute; reflexivity)))).
    vm_compute. reflexivity.
Defined.

Lemma rewrite_field_is_chosen_by_raw_type_witness :
  exists b',
    @Switch_actions.modify_nh openflow_example true (frame_buffer example_udp_frame)
      ETH_P_IP IPPROTO_UDP
      (set_nw_action (@OFPAT_SET_NW_SRC openflow_example) 0x0a000063) = Some b'
    /\ get32 (data b') 30 = 0x0a000063
    /\ get32 (data b') 26 = get32 example_udp_frame 26.
Proof.
  destruct (proj1 (@rewrite_field_is_chosen_by_raw_type openflow_example true
                     (frame_buffer example_udp_frame) 14 IPPROTO_UDP
                     (set_nw_action (@OFPAT_SET_NW_SRC openflow_example) 0x0a000063)
                     eq_refl eq_refl ltac:(lia) ltac:(vm_compute; discriminate))
              ltac:(split; vm_compute; reflexivity)
              ltac:(split; vm_compute; reflexivity)
              ltac:(vm_compute; discriminate)
              ltac:(split; vm_compute; [discriminate|reflexivity]))
    as (b' & Hnh & _ & Hsrc).
  exists b'. split; [exact Hnh|]. exact (Hsrc eq_refl).
Defined.
